(** * furni-store: the recommendation composer, the rating aggregator and the
      order, checkout and review handlers of the Express + Prisma server.

    The handlers of [recommendationController.ts], [orderController.ts],
    [checkoutController.ts], [furnitureController.ts] and
    [reviewController.ts] are embedded as Rocq functions over a relational
    store given as lists of rows.

    - Integers (ids, quantities, ratings, timestamps) are [Z].  The columns
      are INTEGER: a statement that carries a number of the request outside
      the 32-bit range fails ([int4], [outOfRange]).
    - A [number] that may be [NaN] after [parseInt] is a [jsnum].
    - The handlers compute with prices and amounts as IEEE binary64 values
      ([float]): [Number(furniture.price)], [total += unitPrice * quantity].
      The columns are DECIMAL(10,2) since the latest migration.  A price or
      unit price of a row is given by the binary64 value [Number] reads from
      it; a stored total is given by the number that was submitted for it
      ([Decimal2]), which the column keeps to two decimals.
    - Read-only handlers are functions of the store; handlers that write run
      their Prisma statements in a small state-and-error monad in which a
      statement may fail to execute, so that what a failure leaves behind can
      be stated. *)

From Stdlib Require Import ZArith List String Ascii Bool Lia Permutation Sorted.
From Stdlib Require Import DecimalZ.
From Stdlib Require Import Floats.PrimFloat.
From Stdlib Require Import Uint63 DecimalString.
Import ListNotations.
Open Scope string_scope.
Open Scope list_scope.
Open Scope Z_scope.

Set Implicit Arguments.

(* ================================================================== *)
(** ** JavaScript numbers and [parseInt] *)

(** The result of [parseInt]: an integer or [NaN]. *)
Inductive jsnum : Type :=
| NaN
| Num (z : Z).

(** [a < b] on numbers: every comparison with [NaN] is false. *)
Definition js_lt (a b : jsnum) : bool :=
  match a, b with
  | Num x, Num y => x <? y
  | _, _ => false
  end.

Definition js_gt (a b : jsnum) : bool := js_lt b a.

Definition js_sub (a b : jsnum) : jsnum :=
  match a, b with
  | Num x, Num y => Num (x - y)
  | _, _ => NaN
  end.

(** Truthiness of a number: [0] and [NaN] are falsy. *)
Definition js_truthy (a : jsnum) : bool :=
  match a with
  | Num z => negb (z =? 0)
  | NaN => false
  end.

(** An integer as a binary64 value ([unitPrice * item.quantity],
    [sum / item.reviews.length]). *)
Definition num_of_Z (z : Z) : float :=
  if z <? 0 then PrimFloat.opp (PrimFloat.of_uint63 (Uint63.of_Z (- z)))
  else PrimFloat.of_uint63 (Uint63.of_Z z).

(** White space skipped by [parseInt] (the ASCII part of StrWhiteSpaceChar). *)
Definition is_ws (c : ascii) : bool :=
  let n := nat_of_ascii c in
  (((9 <=? n) && (n <=? 13)) || (n =? 32))%nat.

Fixpoint trim_left (s : string) : string :=
  match s with
  | String c s' => if is_ws c then trim_left s' else s
  | EmptyString => EmptyString
  end.

(** Value of a digit character in radix up to 36. *)
Definition digit_val (c : ascii) : option Z :=
  let n := Z.of_nat (nat_of_ascii c) in
  if (48 <=? n) && (n <=? 57) then Some (n - 48)
  else if (97 <=? n) && (n <=? 122) then Some (n - 87)
  else if (65 <=? n) && (n <=? 90) then Some (n - 55)
  else None.

(** The longest prefix of digits of the radix; [None] when it is empty. *)
Fixpoint parse_digits (radix : Z) (s : string) (acc : option Z) : option Z :=
  match s with
  | String c s' =>
      match digit_val c with
      | Some d =>
          if d <? radix
          then parse_digits radix s'
                 (Some (match acc with Some a => a * radix + d | None => d end))
          else acc
      | None => acc
      end
  | EmptyString => acc
  end.

(** [parseInt(s)] without a radix argument: leading white space, a sign, an
    optional [0x] prefix, then the longest run of digits; [NaN] when there is
    none.  The value is the integer the digits denote: JavaScript gives the
    nearest binary64 number, which is that integer up to 2^53 in absolute
    value ([safe_integer]) and a rounded one beyond. *)
Definition parseInt (s : string) : jsnum :=
  let s1 := trim_left s in
  let '(sign, s2) :=
    match s1 with
    | String "-"%char r => (-1, r)
    | String "+"%char r => (1, r)
    | _ => (1, s1)
    end in
  let '(radix, s3) :=
    match s2 with
    | String "0"%char (String "x"%char r) => (16, r)
    | String "0"%char (String "X"%char r) => (16, r)
    | _ => (10, s2)
    end in
  match parse_digits radix s3 None with
  | Some v => Num (sign * v)
  | None => NaN
  end.

(** The integers that binary64 holds exactly, one by one
    ([Number.MAX_SAFE_INTEGER] is 2^53 - 1). *)
Definition safe_integer (z : Z) : bool :=
  (- 9007199254740992 <=? z) && (z <=? 9007199254740992).

(** Whether a number fits an INTEGER column. *)
Definition int4 (z : Z) : bool := (-2147483648 <=? z) && (z <=? 2147483647).

(** Whether a number is a 64-bit signed integer. *)
Definition int8 (z : Z) : bool :=
  (-9223372036854775808 <=? z) && (z <=? 9223372036854775807).

(* ================================================================== *)
(** ** Errors and results *)

(** What a handler passes to [next(err)]. *)
Inductive error : Type :=
| ApiError (statusCode : Z) (message : string)
| ZodError
| PlainError (message : string)          (* [throw new Error(...)] *)
| PrismaKnownError (code : string)       (* PrismaClientKnownRequestError *)
| PrismaValidationError                  (* PrismaClientValidationError *)
| PrismaUnavailable.                     (* the statement could not be executed *)

Inductive result (A : Type) : Type :=
| Ok (a : A)
| Err (e : error).
Arguments Ok {A} a.
Arguments Err {A} e.

(** [errorHandler]: the HTTP status of an error. *)
Definition http_status (e : error) : Z :=
  match e with
  | ApiError c _ => c
  | ZodError => 400
  | PrismaKnownError code =>
      if String.eqb code "P2002" then 409
      else if String.eqb code "P2025" then 404
      else if String.eqb code "P2003" then 400
      else 500
  | PrismaValidationError => 400
  | PlainError _ => 500
  | PrismaUnavailable => 500
  end.

Definition rbind {A B} (r : result A) (f : A -> result B) : result B :=
  match r with
  | Ok a => f a
  | Err e => Err e
  end.

Declare Scope result_scope.
Delimit Scope result_scope with result.
Notation "'let?' x ':=' r 'in' k" := (rbind r (fun x => k))
  (at level 10, x pattern, r at level 100, k at level 200) : result_scope.
Open Scope result_scope.

(** [if (cond) throw e]. *)
Definition throw_if (cond : bool) (e : error) : result unit :=
  if cond then Err e else Ok tt.

(** The error of a statement that carries a number outside the range of its
    column ("value out of range for the type"): a request error with no case
    of its own in [errorHandler], which answers 500. *)
Definition outOfRange : error := PrismaKnownError "P2020".

(** The [catch] clause of the recommendation handlers: a [ZodError] becomes
    [ApiError(400, "Invalid request parameters")]. *)
Definition catch_zod {A} (r : result A) : result A :=
  match r with
  | Err ZodError => Err (ApiError 400 "Invalid request parameters")
  | _ => r
  end.


(* ================================================================== *)
(** ** The relational store

    One list of rows per table of the Prisma schema, in storage order.  Of
    each row the columns the modelled handlers read or write are kept (names,
    descriptions, SKUs, dimensions, images and password hashes play no part
    in them). *)

Inductive OrderStatus : Type := PENDING | COMPLETED | CANCELLED.

Definition OrderStatus_eqb (a b : OrderStatus) : bool :=
  match a, b with
  | PENDING, PENDING | COMPLETED, COMPLETED | CANCELLED, CANCELLED => true
  | _, _ => false
  end.

Module User.
Record t : Type := mk { id : Z; email : string }.
End User.

Module Category.
Record t : Type := mk { id : Z; name : string }.
End Category.

Module Furniture.
Record t : Type := mk { id : Z; price : float; categoryId : Z; createdAt : Z }.
End Furniture.

Module Review.
Record t : Type :=
  mk { id : Z; rating : Z; comment : option string;
         userId : Z; furnitureId : Z; createdAt : Z }.
End Review.

Module Cart.
Record t : Type := mk { id : Z; userId : Z }.
End Cart.

Module CartItem.
Record t : Type := mk { id : Z; cartId : Z; furnitureId : Z; quantity : Z }.
End CartItem.

(** A total as the DECIMAL(10,2) column [totalAmount] holds it:
    [decimal_of x] is what the column keeps of the submitted binary64 number
    [x], that is, [x] rounded to two decimals (a total of 0.1 * 3 is submitted
    as 0.30000000000000004 and stored as 0.30).  No handler reads a total
    back; the responses carry it as it is stored. *)
Record Decimal2 : Type := decimal_of { submitted : float }.

Coercion decimal_of : float >-> Decimal2.

Module Order.
Record t : Type :=
  mk { id : Z; userId : option Z; totalAmount : Decimal2; status : OrderStatus }.
End Order.

Module OrderItem.
Record t : Type :=
  mk { id : Z; orderId : Z; furnitureId : Z; quantity : Z; unitPrice : float }.
End OrderItem.

Record DB : Type := mkDB {
  users : list User.t;
  categories : list Category.t;
  furnitures : list Furniture.t;
  reviews : list Review.t;
  carts : list Cart.t;
  cartItems : list CartItem.t;
  orders : list Order.t;
  orderItems : list OrderItem.t
}.

(** Membership of an id in an id list ([includes], [in], [notIn]). *)
Definition mem (x : Z) (l : list Z) : bool := existsb (Z.eqb x) l.

(** A SERIAL key for a new row: an id no row of the table has; the model
    takes the successor of the largest one. *)
Definition fresh_id (ids : list Z) : Z := 1 + fold_right Z.max 0 ids.

(** *** Primitive queries *)

Definition findUser (d : DB) (uid : Z) : option User.t :=
  find (fun u => User.id u =? uid) (users d).

Definition findCategory (d : DB) (cid : Z) : option Category.t :=
  find (fun c => Category.id c =? cid) (categories d).

Definition findFurniture (d : DB) (fid : Z) : option Furniture.t :=
  find (fun f => Furniture.id f =? fid) (furnitures d).

Definition findOrder (d : DB) (oid : Z) : option Order.t :=
  find (fun o => Order.id o =? oid) (orders d).

Definition findCartOfUser (d : DB) (uid : Z) : option Cart.t :=
  find (fun c => Cart.userId c =? uid) (carts d).

(** [where: { order: { userId, status: 'COMPLETED' } }] on an order item. *)
Definition in_completed_order_of (d : DB) (uid : Z) (oi : OrderItem.t) : bool :=
  existsb (fun o =>
             (Order.id o =? OrderItem.orderId oi)
             && match Order.userId o with Some u => u =? uid | None => false end
             && OrderStatus_eqb (Order.status o) COMPLETED)
          (orders d).

(** An order item with [include: { furniture: { select: { categoryId } } }]. *)
Record PurchasedItem : Type := mkPurchased {
  p_item : OrderItem.t;
  p_categoryId : Z
}.

(** [prisma.orderItem.findMany] of the user's items in COMPLETED orders,
    joined with the furniture row each one references. *)
Definition completedOrderItems (d : DB) (uid : Z) : list PurchasedItem :=
  flat_map (fun oi =>
              match findFurniture d (OrderItem.furnitureId oi) with
              | Some f => [mkPurchased oi (Furniture.categoryId f)]
              | None => []
              end)
           (filter (in_completed_order_of d uid) (orderItems d)).

(** Ratings of the reviews of a furniture item
    ([include: { reviews: { select: { rating } } }]). *)
Definition ratingsOf (d : DB) (fid : Z) : list Z :=
  map Review.rating (filter (fun r => Review.furnitureId r =? fid) (reviews d)).

(** [_count: { orderItems }]. *)
Definition orderItemCount (d : DB) (fid : Z) : Z :=
  Z.of_nat (List.length (filter (fun oi => OrderItem.furnitureId oi =? fid) (orderItems d))).

(** A furniture row as [findMany] returns it with its included relations. *)
Record FurnitureRow : Type := mkRow {
  row : Furniture.t;
  row_reviews : list Z;
  row_orderItems : Z
}.

Definition include_relations (d : DB) (f : Furniture.t) : FurnitureRow :=
  mkRow f (ratingsOf d (Furniture.id f)) (orderItemCount d (Furniture.id f)).

(** *** Ordering and [take] *)

(** Insertion sort: [before a b] says that [a] may precede [b].  Furniture
    rows that compare equal under an [orderBy] keep their storage order here,
    where the database leaves their order open; the statements about
    furniture listings hold of every such order.  The order listings, whose
    pages are separate queries, take the order of equal rows as a parameter
    ([tieOrder]). *)
Fixpoint insert_by {A} (before : A -> A -> bool) (x : A) (l : list A) : list A :=
  match l with
  | [] => [x]
  | y :: t => if before x y then x :: y :: t else y :: insert_by before x t
  end.

Definition sort_by {A} (before : A -> A -> bool) (l : list A) : list A :=
  fold_right (insert_by before) [] l.

(** [orderBy: [{ reviews: { _count: 'desc' } }, { createdAt: 'desc' }]]. *)
Definition by_reviews_then_recent (a b : FurnitureRow) : bool :=
  let ca := Z.of_nat (List.length (row_reviews a)) in
  let cb := Z.of_nat (List.length (row_reviews b)) in
  (cb <? ca)
  || ((ca =? cb) && (Furniture.createdAt (row b) <=? Furniture.createdAt (row a))).

(** [orderBy: [{ orderItems: { _count: 'desc' } }, { reviews: { _count: 'desc' } },
    { createdAt: 'desc' }]]. *)
Definition by_orders_then_reviews_then_recent (a b : FurnitureRow) : bool :=
  (row_orderItems b <? row_orderItems a)
  || ((row_orderItems a =? row_orderItems b) && by_reviews_then_recent a b).

(** The last [n] elements, in order. *)
Definition lastn {A} (n : nat) (l : list A) : list A :=
  skipn (List.length l - n)%nat l.

(** [take: n]: the first [n] rows, the last [-n] for a negative [n]; the
    client's argument validation rejects [NaN]. *)
Definition prisma_take {A} (n : jsnum) (l : list A) : result (list A) :=
  match n with
  | NaN => Err PrismaValidationError
  | Num z => Ok (if 0 <=? z then firstn (Z.to_nat z) l else lastn (Z.to_nat (- z)) l)
  end.

(** [prisma.furniture.findMany({ where, include, orderBy, take })]. *)
Definition findManyFurniture (d : DB) (where_ : Furniture.t -> bool)
    (orderBy : FurnitureRow -> FurnitureRow -> bool) (take : jsnum)
  : result (list FurnitureRow) :=
  prisma_take take
    (sort_by orderBy (map (include_relations d) (filter where_ (furnitures d)))).

(** [Array.prototype.slice(0, end)]. *)
Definition slice0 {A} (l : list A) (e : jsnum) : list A :=
  match e with
  | NaN => []
  | Num z =>
      if 0 <=? z then firstn (Z.to_nat z) l
      else firstn (List.length l - Z.to_nat (- z))%nat l
  end.

(* ================================================================== *)
(** ** Rating aggregator *)

(** A furniture item as a response serialises it: the row's own columns,
    [averageRating] ([None] is [null]), [reviewCount], the per-review
    collection ([None] is [undefined], which JSON drops) and, in the
    popularity listing, [orderCount]. *)
Record FurnitureOut : Type := mkOut {
  out_item : Furniture.t;
  averageRating : option float;
  reviewCount : Z;
  out_reviews : option (list Z);
  orderCount : option Z
}.

Definition out_id (x : FurnitureOut) : Z := Furniture.id (out_item x).

(** [reviews.reduce((sum, review) => sum + review.rating, 0)]. *)
Definition sum_ratings (ratings : list Z) : Z := fold_left Z.add ratings 0.

(** [reviews.length > 0 ? sum / reviews.length : null]. *)
Definition average (ratings : list Z) : option float :=
  if (0 <? List.length ratings)%nat
  then Some (PrimFloat.div (num_of_Z (sum_ratings ratings))
                           (num_of_Z (Z.of_nat (List.length ratings))))
  else None.

(** The mapping applied by the list and recommendation endpoints:
    [{ ...item, averageRating, reviewCount, reviews: undefined }]. *)
Definition withRatings (item : FurnitureRow) : FurnitureOut :=
  mkOut (row item) (average (row_reviews item))
        (Z.of_nat (List.length (row_reviews item))) None None.

(** The mapping of [getPopularRecommendationsHelper], which also gives
    [orderCount] and drops [_count]. *)
Definition withRatingsPopular (item : FurnitureRow) : FurnitureOut :=
  mkOut (row item) (average (row_reviews item))
        (Z.of_nat (List.length (row_reviews item))) None
        (Some (row_orderItems item)).

(** The mapping of [getFurniture] (detail view):
    [{ ...item, averageRating, reviewCount }], the reviews stay. *)
Definition withRatingDetail (item : FurnitureRow) : FurnitureOut :=
  mkOut (row item) (average (row_reviews item))
        (Z.of_nat (List.length (row_reviews item)))
        (Some (row_reviews item)) None.

(* ================================================================== *)
(** ** Request parsing *)

(** A value of [req.query]: absent, a string, or what [qs] makes of a
    repeated or bracketed key (an array or an object). *)
Inductive qparam : Type :=
| QAbsent
| QStr (s : string)
| QMulti.

(** [z.string().optional()]. *)
Definition zod_optional_string (q : qparam) : result (option string) :=
  match q with
  | QAbsent => Ok None
  | QStr s => Ok (Some s)
  | QMulti => Err ZodError
  end.

(** Truthiness of a string: only the empty string is falsy. *)
Definition str_truthy (s : string) : bool := negb (String.eqb s "").

(** [recommendationQuerySchema]:
    [limit: val ? parseInt(val) : 10], [excludeId: val ? parseInt(val) : undefined]. *)
Definition recommendationQuerySchema (limitQ excludeQ : qparam)
  : result (jsnum * option jsnum) :=
  let? l := zod_optional_string limitQ in
  let? e := zod_optional_string excludeQ in
  Ok (match l with
      | Some val => if str_truthy val then parseInt val else Num 10
      | None => Num 10
      end,
      match e with
      | Some val => if str_truthy val then Some (parseInt val) else None
      | None => None
      end).

(** [userIdSchema], [categoryIdSchema], [furnitureIdSchema], [orderIdSchema]:
    the transform throws a plain [Error] on [NaN]. *)
Definition idSchema (param : string) : result Z :=
  match parseInt param with
  | Num z => Ok z
  | NaN => Err (PlainError "Invalid ID")
  end.

(** [if (limit < 1 || limit > 50) throw new ApiError(400, ...)]. *)
Definition validate_limit (limit : jsnum) : result unit :=
  throw_if (js_lt limit (Num 1) || js_gt limit (Num 50))
           (ApiError 400 "Limit must be between 1 and 50").

(** [excludeId ? [...ids, excludeId] : ids]; an [excludeId] that is
    [undefined], [NaN] or [0] is falsy. *)
Definition with_exclude (ids : list Z) (excludeId : option jsnum) : list Z :=
  match excludeId with
  | Some (Num e) => if js_truthy (Num e) then ids ++ [e] else ids
  | _ => ids
  end.

(** A statement that carries numbers of the request in its [where]: when it
    has passed the client's validation, the database refuses it if one of
    them does not fit its INTEGER column. *)
Definition carrying {A} (nums : list Z) (r : result A) : result A :=
  let? a := r in
  if forallb int4 nums then Ok a else Err outOfRange.

(** Whether the [excludeId] of the request, where it is put into
    [id: { notIn }] or [id: { not }], fits the column. *)
Definition exclude_fits (excludeId : option jsnum) : bool :=
  forallb int4 (with_exclude [] excludeId).

(* ================================================================== *)
(** ** Recommendation composer *)

(** [[...new Set(ids)]]: first occurrences, in order. *)
Fixpoint uniq_from (seen : list Z) (l : list Z) : list Z :=
  match l with
  | [] => []
  | x :: t => if mem x seen then uniq_from seen t else x :: uniq_from (x :: seen) t
  end.

Definition uniq (l : list Z) : list Z := uniq_from [] l.

Definition purchasedIds (userOrders : list PurchasedItem) : list Z :=
  map (fun order => OrderItem.furnitureId (p_item order)) userOrders.

Definition getCollaborativeRecommendations (d : DB) (userId : Z) (limit : jsnum)
    (excludeId : option jsnum) : result (list FurnitureOut) :=
  let userOrders := completedOrderItems d userId in
  if (List.length userOrders =? 0)%nat then Ok []
  else
    let categoryIds := uniq (map p_categoryId userOrders) in
    let purchasedFurnitureIds := purchasedIds userOrders in
    let excludeIds := with_exclude purchasedFurnitureIds excludeId in
    let? result :=
      carrying (with_exclude [] excludeId)
        (findManyFurniture d
           (fun f => mem (Furniture.categoryId f) categoryIds
                     && negb (mem (Furniture.id f) excludeIds))
           by_reviews_then_recent limit) in
    Ok (map withRatings result).

(** [categoryCount.set(categoryId, (categoryCount.get(categoryId) || 0) + 1)]
    on a [Map], which keeps its keys in insertion order. *)
Fixpoint count_set (k : Z) (m : list (Z * Z)) : list (Z * Z) :=
  match m with
  | [] => [(k, 1)]
  | (k', c) :: t => if k' =? k then (k', c + 1) :: t else (k', c) :: count_set k t
  end.

Definition categoryCount (userOrders : list PurchasedItem) : list (Z * Z) :=
  fold_left (fun m order => count_set (p_categoryId order) m) userOrders [].

(** [Array.from(categoryCount.entries()).sort((a, b) => b[1] - a[1]).map(e => e[0])]. *)
Definition preferredCategories (userOrders : list PurchasedItem) : list Z :=
  map fst (sort_by (fun a b => snd b <=? snd a) (categoryCount userOrders)).

Definition getCategoryBasedRecommendations (d : DB) (userOrders : list PurchasedItem)
    (limit : jsnum) (excludeId : option jsnum) (excludeIds : list Z)
  : result (list FurnitureOut) :=
  let preferred := preferredCategories userOrders in
  if (List.length preferred =? 0)%nat then Ok []
  else
    let notIn := with_exclude excludeIds excludeId in
    let? recommendations :=
      carrying (with_exclude [] excludeId)
        (findManyFurniture d
           (fun f => mem (Furniture.categoryId f) preferred
                     && negb (mem (Furniture.id f) notIn))
           by_reviews_then_recent limit) in
    Ok (map withRatings recommendations).

Definition getPopularRecommendationsHelper (d : DB) (limit : jsnum)
    (excludeId : option jsnum) (excludeIds : list Z) : result (list FurnitureOut) :=
  let excludeList := with_exclude excludeIds excludeId in
  let? result :=
    carrying (with_exclude [] excludeId)
      (findManyFurniture d
         (fun f => negb (mem (Furniture.id f) excludeList))
         by_orders_then_reviews_then_recent limit) in
  Ok (map withRatingsPopular result).

(** The payload of a recommendation response. *)
Record Recommendations : Type := mkRecs {
  recommendations : list FurnitureOut;
  algorithm : string
}.

Definition len {A} (l : list A) : jsnum := Num (Z.of_nat (List.length l)).

Definition is_none {A} (o : option A) : bool :=
  match o with None => true | Some _ => false end.

(** The collaborative tier and, when it falls short, the category-based one. *)
Definition historyTiers (d : DB) (userId : Z) (userOrders : list PurchasedItem)
    (limit : jsnum) (excludeId : option jsnum) : result (list FurnitureOut) :=
  if (0 <? List.length userOrders)%nat then
    let? recommendations := getCollaborativeRecommendations d userId limit excludeId in
    if js_lt (len recommendations) limit then
      let? categoryRecommendations :=
        getCategoryBasedRecommendations d userOrders
          (js_sub limit (len recommendations)) excludeId
          (map out_id recommendations) in
      Ok (recommendations ++ categoryRecommendations)
    else Ok recommendations
  else Ok [].

(** The popularity tier, when the list is still short. *)
Definition popularTier (d : DB) (recommendations : list FurnitureOut)
    (limit : jsnum) (excludeId : option jsnum) : result (list FurnitureOut) :=
  if js_lt (len recommendations) limit then
    let? popularRecommendations :=
      getPopularRecommendationsHelper d (js_sub limit (len recommendations))
        excludeId (map out_id recommendations) in
    Ok (recommendations ++ popularRecommendations)
  else Ok recommendations.

(** GET /api/recommendations/user/:userId *)
Definition getUserRecommendations (d : DB) (userIdParam : string)
    (limitQ excludeQ : qparam) : result Recommendations :=
  catch_zod
    (let? userId := idSchema userIdParam in
     let? q := recommendationQuerySchema limitQ excludeQ in
     let '(limit, excludeId) := q in
     let? _ := validate_limit limit in
     let? _ := throw_if (is_none (findUser d userId)) (ApiError 404 "User not found") in
     let userOrders := completedOrderItems d userId in
     let? recommendations := historyTiers d userId userOrders limit excludeId in
     let? recommendations := popularTier d recommendations limit excludeId in
     Ok (mkRecs (slice0 recommendations limit)
                (if (0 <? List.length userOrders)%nat then "hybrid" else "popular"))).

(** GET /api/recommendations/popular *)
Definition getPopularItems (d : DB) (limitQ excludeQ : qparam) : result Recommendations :=
  catch_zod
    (let? q := recommendationQuerySchema limitQ excludeQ in
     let '(limit, excludeId) := q in
     let? _ := validate_limit limit in
     let? recommendations := getPopularRecommendationsHelper d limit excludeId [] in
     Ok (mkRecs recommendations "popular")).

(** GET /api/recommendations/category/:categoryId *)
Definition getCategoryRecommendations (d : DB) (categoryIdParam : string)
    (limitQ excludeQ : qparam) : result Recommendations :=
  catch_zod
    (let? categoryId := idSchema categoryIdParam in
     let? q := recommendationQuerySchema limitQ excludeQ in
     let '(limit, excludeId) := q in
     let? _ := validate_limit limit in
     let? _ := throw_if (is_none (findCategory d categoryId))
                        (ApiError 404 "Category not found") in
     let? recommendations :=
       carrying (with_exclude [] excludeId)
         (findManyFurniture d
            (fun f => (Furniture.categoryId f =? categoryId)
                      && negb (mem (Furniture.id f) (with_exclude [] excludeId)))
            by_reviews_then_recent limit) in
     Ok (mkRecs (map withRatings recommendations) "category-based")).

(** The price band of the similar-items query:
    [priceRange = price * 0.3], [price - priceRange], [price + priceRange]. *)
Definition priceBand (price : float) : float * float :=
  let priceRange := PrimFloat.mul price 0x1.3333333333333p-2%float in
  (PrimFloat.sub price priceRange, PrimFloat.add price priceRange).

(** The price filter of the similar-items query,
    [price: { gte: minPrice, lte: maxPrice }], is evaluated by the database:
    it compares the DECIMAL(10,2) price of a row with the two bounds as the
    client transmits them.  That comparison is not part of the server's
    code; the handler is given it as [priceBetween minPrice maxPrice row]. *)
Definition PriceFilter : Type := float -> float -> Furniture.t -> bool.

(** The comparison of the binary64 values, used in the examples.  The
    database's answer differs from it at the ends of the band: for a
    reference price of 1.4 the bounds are 0.98 and 1.8199999999999998, and
    the database selects an item priced 1.82. *)
Definition between_binary64 : PriceFilter :=
  fun minPrice maxPrice f =>
    PrimFloat.leb minPrice (Furniture.price f)
    && PrimFloat.leb (Furniture.price f) maxPrice.

(** GET /api/recommendations/similar/:furnitureId *)
Definition getSimilarRecommendations (priceBetween : PriceFilter) (d : DB)
    (furnitureIdParam : string) (limitQ excludeQ : qparam) : result Recommendations :=
  catch_zod
    (let furnitureId := parseInt furnitureIdParam in
     match furnitureId with
     | NaN => Err (ApiError 400 "Invalid furniture ID")
     | Num furnitureId =>
         let? q := recommendationQuerySchema limitQ excludeQ in
         let '(limit, _) := q in
         let? _ := validate_limit limit in
         match findFurniture d furnitureId with
         | None => Err (ApiError 404 "Furniture not found")
         | Some currentFurniture =>
             let '(minPrice, maxPrice) := priceBand (Furniture.price currentFurniture) in
             let? recommendations :=
               findManyFurniture d
                 (fun f => (Furniture.categoryId f =? Furniture.categoryId currentFurniture)
                           && negb (Furniture.id f =? furnitureId)
                           && priceBetween minPrice maxPrice f)
                 by_reviews_then_recent limit in
             Ok (mkRecs (map withRatings recommendations) "content-based")
         end
     end).

(** GET /api/furnitures/recommendations/:id (furniture controller): other
    items of the category, in storage order, four at most. *)
Definition getRecommendations (d : DB) (idParam : string) : result (list FurnitureOut) :=
  match idSchema idParam with
  | Err ZodError => Err (ApiError 400 "Invalid furniture ID")
  | Err e => Err e
  | Ok id =>
      match findFurniture d id with
      | None => Err (ApiError 404 "Furniture not found")
      | Some current =>
          let? recommended :=
            findManyFurniture d
              (fun f => (Furniture.categoryId f =? Furniture.categoryId current)
                        && negb (Furniture.id f =? id))
              (fun _ _ => true) (Num 4) in
          Ok (map withRatings recommended)
      end
  end.

(** The reviews of [getFurniture]'s [include], [orderBy: { createdAt: 'desc' }]. *)
Definition reviewsNewestFirst (d : DB) (fid : Z) : list Z :=
  map Review.rating
      (sort_by (fun a b => Review.createdAt b <=? Review.createdAt a)
               (filter (fun r => Review.furnitureId r =? fid) (reviews d))).

(** GET /api/furnitures/:id (the id is validated by the route's middleware). *)
Definition getFurniture (d : DB) (id : Z) : result FurnitureOut :=
  match findFurniture d id with
  | None => Err (ApiError 404 "Furniture not found")
  | Some f =>
      Ok (withRatingDetail (mkRow f (reviewsNewestFirst d id) (orderItemCount d id)))
  end.

(* ================================================================== *)
(** ** Statements against the store

    The writing handlers run a sequence of Prisma statements.  A statement
    may fail to execute (connection loss, timeout); [faults] lists, for the
    statements still to come, whether each one fails.  A failed statement
    changes nothing and raises; what earlier statements wrote stays, unless
    they ran inside [transaction]. *)

Record World : Type := mkWorld { db : DB; faults : list bool }.

Definition M (A : Type) : Type := World -> result A * World.

Definition ret {A} (a : A) : M A := fun w => (Ok a, w).

Definition bind {A B} (m : M A) (f : A -> M B) : M B :=
  fun w =>
    match m w with
    | (Ok a, w') => f a w'
    | (Err e, w') => (Err e, w')
    end.

Definition throw {A} (e : error) : M A := fun w => (Err e, w).

Definition lift {A} (r : result A) : M A := fun w => (r, w).

Declare Scope store_scope.
Delimit Scope store_scope with store.
Notation "x <- m ;; k" := (bind m (fun x => k))
  (at level 61, m at next level, right associativity) : store_scope.
Notation "m ;;; k" := (bind m (fun _ => k))
  (at level 61, right associativity) : store_scope.
Open Scope store_scope.

(** Whether the next statement fails. *)
Definition next_fault (w : World) : bool * World :=
  match faults w with
  | [] => (false, w)
  | b :: rest => (b, mkWorld (db w) rest)
  end.

(** A reading statement. *)
Definition query {A} (q : DB -> A) : M A :=
  fun w =>
    let '(failed, w') := next_fault w in
    if failed then (Err PrismaUnavailable, w') else (Ok (q (db w')), w').

(** A writing statement: it may be refused by a constraint, which leaves the
    store as it was. *)
Definition exec {A} (stmt : DB -> result (A * DB)) : M A :=
  fun w =>
    let '(failed, w') := next_fault w in
    if failed then (Err PrismaUnavailable, w')
    else match stmt (db w') with
         | Ok (a, d') => (Ok a, mkWorld d' (faults w'))
         | Err e => (Err e, w')
         end.

(** [prisma.$transaction(async tx => body)]: when the body raises, or the
    commit fails, the store is what it was before the body. *)
Definition transaction {A} (body : M A) : M A :=
  fun w =>
    match body w with
    | (Ok a, w') =>
        let '(failed, w'') := next_fault w' in
        if failed then (Err PrismaUnavailable, mkWorld (db w) (faults w''))
        else (Ok a, w'')
    | (Err e, w') => (Err e, mkWorld (db w) (faults w'))
    end.

Definition when (cond : bool) (m : M unit) : M unit :=
  if cond then m else ret tt.

(** A reading statement whose [where] carries a number of the request: it
    fails when the number does not fit its INTEGER column. *)
Definition query_by {A} (z : Z) (q : DB -> A) : M A :=
  if int4 z then query q else throw outOfRange.

(** The same with several numbers ([id: { in: furnitureIds }]). *)
Definition query_in {A} (zs : list Z) (q : DB -> A) : M A :=
  if forallb int4 zs then query q else throw outOfRange.

(** A writing statement that carries numbers of the request. *)
Definition exec_by {A} (zs : list Z) (stmt : DB -> result (A * DB)) : M A :=
  if forallb int4 zs then exec stmt else throw outOfRange.

(* ================================================================== *)
(** ** Orders and checkout *)

(** [{ furnitureId, quantity }] of a request body. *)
Module ItemInput.
Record t : Type := mk { furnitureId : Z; quantity : Z }.
End ItemInput.

(** [OrderItemData]. *)
Module OrderItemData.
Record t : Type := mk { furnitureId : Z; quantity : Z; unitPrice : float }.
End OrderItemData.

(** An order returned with [include: { items }]. *)
Record OrderOut : Type := mkOrderOut {
  order : Order.t;
  items : list OrderItem.t
}.

Definition string_of_Z (z : Z) : string := NilZero.string_of_int (Z.to_int z).

(** [prisma.furniture.findMany({ where: { id: { in: furnitureIds } } })],
    run with [query_in]: the ids come from the request body. *)
Definition findFurnitureIn (furnitureIds : list Z) (d : DB) : list Furniture.t :=
  filter (fun f => mem (Furniture.id f) furnitureIds) (furnitures d).

(** [furnitureIds.filter(id => !foundIds.includes(id))]. *)
Definition missingIds (furnitureIds : list Z) (furnitureList : list Furniture.t) : list Z :=
  let foundIds := map Furniture.id furnitureList in
  filter (fun id => negb (mem id foundIds)) furnitureIds.

Definition notFoundError (missing : list Z) : error :=
  ApiError 404
    (String.append "Furniture items not found: "
                   (String.concat ", " (map string_of_Z missing))).

(** [new Map(furnitureList.map(f => [f.id, f])).get(id)]: a later entry
    replaces an earlier one with the same key. *)
Definition furnitureMap_get (furnitureList : list Furniture.t) (id : Z) : option Furniture.t :=
  find (fun f => Furniture.id f =? id) (rev furnitureList).

(** One step of the pricing loop: [total += unitPrice * quantity] and
    [itemsData.push(...)]. *)
Definition price_item (acc : float * list OrderItemData.t) (furnitureId quantity : Z)
    (price : float) : float * list OrderItemData.t :=
  let unitPrice := price in
  (PrimFloat.add (fst acc) (PrimFloat.mul unitPrice (num_of_Z quantity)),
   snd acc ++ [OrderItemData.mk furnitureId quantity unitPrice]).

(** The loop of [placeOrder] over the direct items
    ([if (!furniture) continue]). *)
Definition priceDirectItems (furnitureList : list Furniture.t)
    (directItems : list ItemInput.t) : float * list OrderItemData.t :=
  fold_left
    (fun acc item =>
       match furnitureMap_get furnitureList (ItemInput.furnitureId item) with
       | None => acc
       | Some furniture =>
           price_item acc (ItemInput.furnitureId item) (ItemInput.quantity item)
                      (Furniture.price furniture)
       end)
    directItems (0%float, []).

(** The loop of [createOrder] ([furnitureMap.get(item.furnitureId)!]: reading
    [price] of [undefined] would raise a [TypeError]). *)
Definition priceOrderItems (furnitureList : list Furniture.t)
    (items : list ItemInput.t) : result (float * list OrderItemData.t) :=
  fold_left
    (fun acc item =>
       let? acc := acc in
       match furnitureMap_get furnitureList (ItemInput.furnitureId item) with
       | None => Err (PlainError "TypeError")
       | Some furniture =>
           Ok (price_item acc (ItemInput.furnitureId item) (ItemInput.quantity item)
                          (Furniture.price furniture))
       end)
    items (Ok (0%float, [])).

(** The cart's items with [include: { furniture: true }]. *)
Definition cartItemsWithFurniture (d : DB) (cartId : Z)
  : list (CartItem.t * Furniture.t) :=
  flat_map (fun ci =>
              match findFurniture d (CartItem.furnitureId ci) with
              | Some f => [(ci, f)]
              | None => []
              end)
           (filter (fun ci => CartItem.cartId ci =? cartId) (cartItems d)).

(** [prisma.cart.findUnique({ where: { userId }, include: { items: { include:
    { furniture: true } } } })]. *)
Definition findCartWithItems (userId : Z) (d : DB)
  : option (Cart.t * list (CartItem.t * Furniture.t)) :=
  match findCartOfUser d userId with
  | Some c => Some (c, cartItemsWithFurniture d (Cart.id c))
  | None => None
  end.

(** [cart.items.map(ci => { total += ...; return {...} })]. *)
Definition priceCartItems (cartItems : list (CartItem.t * Furniture.t))
  : float * list OrderItemData.t :=
  fold_left
    (fun acc ci =>
       price_item acc (CartItem.furnitureId (fst ci)) (CartItem.quantity (fst ci))
                  (Furniture.price (snd ci)))
    cartItems (0%float, []).

(** The rows of a nested [items: { create: itemsData }], keyed from [base]. *)
Fixpoint orderItemRows (orderId base : Z) (itemsData : list OrderItemData.t)
  : list OrderItem.t :=
  match itemsData with
  | [] => []
  | x :: t =>
      OrderItem.mk base orderId (OrderItemData.furnitureId x)
                   (OrderItemData.quantity x) (OrderItemData.unitPrice x)
      :: orderItemRows orderId (base + 1) t
  end.

(** Whether no id occurs twice. *)
Fixpoint distinct (ids : list Z) : bool :=
  match ids with
  | [] => true
  | x :: t => negb (mem x t) && distinct t
  end.

(** Whether a DECIMAL(10,2) column takes a number: rounded to two decimals
    it must stay below 10^8, so the number must be below 99999999.995 in
    absolute value (the literal is the binary64 value next to that bound,
    which already rounds to 10^8). *)
Definition decimal_10_2_fits (x : float) : bool :=
  PrimFloat.ltb (PrimFloat.abs x) 0x1.7d783fffae148p+26%float.

(** What refuses a [prisma.order.create] with nested items, if anything: a
    quantity outside the INTEGER range or a total that the column does not
    take, a foreign key without a target, or two items of the same furniture
    (the unique index on (orderId, furnitureId)). *)
Definition order_create_refusal (userId : option Z) (totalAmount : float)
    (itemsData : list OrderItemData.t) (d : DB) : option error :=
  let userOk := match userId with Some u => negb (is_none (findUser d u)) | None => true end in
  let itemsOk :=
    forallb (fun x => negb (is_none (findFurniture d (OrderItemData.furnitureId x))))
            itemsData in
  if negb (forallb (fun x => int4 (OrderItemData.quantity x)) itemsData
           && decimal_10_2_fits totalAmount)
  then Some outOfRange
  else if negb (userOk && itemsOk) then Some (PrismaKnownError "P2003")
  else if negb (distinct (map OrderItemData.furnitureId itemsData))
  then Some (PrismaKnownError "P2002")
  else None.

(** [prisma.order.create({ data: { userId, totalAmount, status, items: { create } } })]:
    one statement, which writes the order and its items or, when it is
    refused, nothing.  The column keeps the submitted total to two decimals
    ([decimal_of]); a unit price is the price read from a furniture row and
    is kept as it is. *)
Definition order_create (userId : option Z) (totalAmount : float) (status : OrderStatus)
    (itemsData : list OrderItemData.t) (d : DB) : result (OrderOut * DB) :=
  match order_create_refusal userId totalAmount itemsData d with
  | Some e => Err e
  | None =>
      let o := Order.mk (fresh_id (map Order.id (orders d))) userId
                        (decimal_of totalAmount) status in
      let rows := orderItemRows (Order.id o) (fresh_id (map OrderItem.id (orderItems d)))
                                itemsData in
      Ok (mkOrderOut o rows,
          mkDB (users d) (categories d) (furnitures d) (reviews d) (carts d)
               (cartItems d) (orders d ++ [o]) (orderItems d ++ rows))
  end.

Definition set_cartItems (d : DB) (l : list CartItem.t) : DB :=
  mkDB (users d) (categories d) (furnitures d) (reviews d) (carts d) l
       (orders d) (orderItems d).

(** [prisma.cartItem.deleteMany({ where: { cartId } })]. *)
Definition cartItem_deleteMany_cart (cartId : Z) (d : DB) : result (unit * DB) :=
  Ok (tt, set_cartItems d
            (filter (fun ci => negb (CartItem.cartId ci =? cartId)) (cartItems d))).

(** Whether a cart item lies in a cart of the user ([where: { cart: { userId } }]). *)
Definition in_cart_of (d : DB) (userId : Z) (ci : CartItem.t) : bool :=
  existsb (fun c => (Cart.id c =? CartItem.cartId ci) && (Cart.userId c =? userId))
          (carts d).

(** [tx.cartItem.deleteMany({ where: { cart: { userId } } })]. *)
Definition cartItem_deleteMany_user (userId : Z) (d : DB) : result (unit * DB) :=
  Ok (tt, set_cartItems d (filter (fun ci => negb (in_cart_of d userId ci)) (cartItems d))).

(** [req.user?.id] is truthy. *)
Definition authenticated (user : option Z) : option Z :=
  match user with
  | Some id => if id =? 0 then None else Some id
  | None => None
  end.

(** The branch of [placeOrder] that fills [total], [itemsData] and
    [shouldClearCart]: from the items of the body when it has some, from the
    user's cart otherwise. *)
Definition gatherItems (userId : Z) (directItems : option (list ItemInput.t))
  : M (float * list OrderItemData.t * bool) :=
  match directItems with
  | Some (item :: rest) =>
      let directItems := item :: rest in
      let furnitureIds := map ItemInput.furnitureId directItems in
      furnitureList <- query_in furnitureIds (findFurnitureIn furnitureIds) ;;
      if negb (List.length furnitureList =? List.length furnitureIds)%nat
      then throw (notFoundError (missingIds furnitureIds furnitureList))
      else ret (priceDirectItems furnitureList directItems, false)
  | _ =>
      cart <- query (findCartWithItems userId) ;;
      match cart with
      | Some (_, (ci :: cis)) => ret (priceCartItems (ci :: cis), true)
      | _ => throw (ApiError 400 "Cart is empty and no items provided")
      end
  end.

(** The closing block of [placeOrder]: look the cart up again and delete
    its items. *)
Definition clearCartOf (userId : Z) : M unit :=
  cart <- query (fun d => findCartOfUser d userId) ;;
  match cart with
  | Some cart => exec (cartItem_deleteMany_cart (Cart.id cart))
  | None => ret tt
  end.

(** POST /api/checkout/place.  [user] is [req.user?.id]; [directItems] is
    [req.body.items] when it is an array.  The order is created by one
    statement and the cart cleared by two more; no transaction wraps them. *)
Definition placeOrder (user : option Z) (directItems : option (list ItemInput.t))
  : M OrderOut :=
  match authenticated user with
  | None => throw (ApiError 401 "Authentication required for checkout")
  | Some userId =>
      gathered <- gatherItems userId directItems ;;
      let '((total, itemsData), shouldClearCart) := gathered in
      if (List.length itemsData =? 0)%nat then throw (ApiError 400 "No items to order")
      else
        order <- exec (order_create (Some userId) total COMPLETED itemsData) ;;
        when shouldClearCart (clearCartOf userId) ;;;
        ret order
  end.

(** The [guestInfo] of a request body: absent, accepted by the schema, or
    rejected by it (not an object, or an email the pattern refuses). *)
Inductive GuestInfoInput : Type :=
| GuestAbsent
| GuestInfo (email : string) (name : option string)
| GuestRejected.

(** [createOrderSchema.parse(req.body)]. *)
Definition createOrderSchema (items : list ItemInput.t) (guestInfo : GuestInfoInput)
  : result (list ItemInput.t * option string) :=
  if forallb (fun item => (0 <? ItemInput.furnitureId item) && (0 <? ItemInput.quantity item))
             items
     && (1 <=? List.length items)%nat
  then match guestInfo with
       | GuestAbsent => Ok (items, None)
       | GuestInfo email _ => Ok (items, Some email)
       | GuestRejected => Err ZodError
       end
  else Err ZodError.

(** POST /api/orders *)
Definition createOrder (user : option Z) (bodyItems : list ItemInput.t)
    (bodyGuestInfo : GuestInfoInput) : M OrderOut :=
  validatedData <- lift (createOrderSchema bodyItems bodyGuestInfo) ;;
  let '(items, guestInfo) := validatedData in
  let finalUserId := authenticated user in
  if is_none finalUserId && is_none guestInfo
  then throw (ApiError 400 "Either authentication or guest information must be provided")
  else
    match finalUserId with
    | Some uid =>
        u <- query (fun d => findUser d uid) ;;
        if is_none u then throw (ApiError 404 "User not found") else ret tt
    | None => ret tt
    end ;;;
    let furnitureIds := map ItemInput.furnitureId items in
    furnitureList <- query_in furnitureIds (findFurnitureIn furnitureIds) ;;
    if negb (List.length furnitureList =? List.length furnitureIds)%nat
    then throw (notFoundError (missingIds furnitureIds furnitureList))
    else
      priced <- lift (priceOrderItems furnitureList items) ;;
      let '(totalAmount, orderItemsData) := priced in
      transaction
        (newOrder <- exec (order_create finalUserId totalAmount PENDING orderItemsData) ;;
         match finalUserId with
         | Some uid => exec (cartItem_deleteMany_user uid)
         | None => ret tt
         end ;;;
         ret newOrder).

(** [z.nativeEnum(OrderStatus)]. *)
Definition updateOrderStatusSchema (status : string) : result OrderStatus :=
  if String.eqb status "PENDING" then Ok PENDING
  else if String.eqb status "COMPLETED" then Ok COMPLETED
  else if String.eqb status "CANCELLED" then Ok CANCELLED
  else Err ZodError.

(** [prisma.order.update({ where: { id }, data: { status } })]. *)
Definition order_update_status (id : Z) (status : OrderStatus) (d : DB)
  : result (Order.t * DB) :=
  match findOrder d id with
  | None => Err (PrismaKnownError "P2025")
  | Some o =>
      let o' := Order.mk (Order.id o) (Order.userId o) (Order.totalAmount o) status in
      Ok (o',
          mkDB (users d) (categories d) (furnitures d) (reviews d) (carts d)
               (cartItems d)
               (map (fun x => if Order.id x =? id then
                                Order.mk (Order.id x) (Order.userId x)
                                         (Order.totalAmount x) status
                              else x)
                    (orders d))
               (orderItems d))
  end.

(** PATCH /api/orders/:id/status *)
Definition updateOrderStatus (idParam : string) (bodyStatus : string) : M Order.t :=
  id <- lift (idSchema idParam) ;;
  status <- lift (updateOrderStatusSchema bodyStatus) ;;
  existingOrder <- query (fun d => findOrder d id) ;;
  match existingOrder with
  | None => throw (ApiError 404 "Order not found")
  | Some existingOrder =>
      if OrderStatus_eqb (Order.status existingOrder) COMPLETED
         && negb (OrderStatus_eqb status COMPLETED)
      then throw (ApiError 400 "Cannot change status of completed order")
      else if OrderStatus_eqb (Order.status existingOrder) CANCELLED
              && negb (OrderStatus_eqb status CANCELLED)
      then throw (ApiError 400 "Cannot change status of cancelled order")
      else exec (order_update_status id status)
  end.

(* ================================================================== *)
(** ** Reviews *)

(** The body of POST /api/reviews. *)
Module ReviewInput.
Record t : Type :=
  mk { furnitureId : Z; userId : Z; rating : Z; comment : option string }.
End ReviewInput.

(** [createReviewSchema.parse(req.body)]. *)
Definition createReviewSchema (body : ReviewInput.t) : result ReviewInput.t :=
  if (0 <? ReviewInput.furnitureId body)
     && (0 <? ReviewInput.userId body)
     && (1 <=? ReviewInput.rating body) && (ReviewInput.rating body <=? 5)
     && match ReviewInput.comment body with
        | Some c => (String.length c <=? 1000)%nat
        | None => true
        end
  then Ok body
  else Err ZodError.

(** [prisma.orderItem.findFirst({ where: { furnitureId, order: { userId,
    status: 'COMPLETED' } } })]. *)
Definition findPurchase (userId furnitureId : Z) (d : DB) : option OrderItem.t :=
  find (fun oi => (OrderItem.furnitureId oi =? furnitureId)
                  && in_completed_order_of d userId oi)
       (orderItems d).

(** [prisma.review.findUnique({ where: { userId_furnitureId } })]. *)
Definition findReview (userId furnitureId : Z) (d : DB) : option Review.t :=
  find (fun r => (Review.userId r =? userId) && (Review.furnitureId r =? furnitureId))
       (reviews d).

(** [prisma.review.create]: refused by the unique index on (userId,
    furnitureId) and by the foreign keys. *)
Definition review_create (body : ReviewInput.t) (now : Z) (d : DB)
  : result (Review.t * DB) :=
  if negb (is_none (findReview (ReviewInput.userId body) (ReviewInput.furnitureId body) d))
  then Err (PrismaKnownError "P2002")
  else if is_none (findUser d (ReviewInput.userId body))
          || is_none (findFurniture d (ReviewInput.furnitureId body))
  then Err (PrismaKnownError "P2003")
  else
    let r := Review.mk (fresh_id (map Review.id (reviews d)))
                       (ReviewInput.rating body) (ReviewInput.comment body)
                       (ReviewInput.userId body) (ReviewInput.furnitureId body) now in
    Ok (r,
        mkDB (users d) (categories d) (furnitures d) (reviews d ++ [r]) (carts d)
             (cartItems d) (orders d) (orderItems d)).

(** POST /api/reviews; [now] is the time of the insertion. *)
Definition createReview (body : ReviewInput.t) (now : Z) : M Review.t :=
  validatedData <- lift (createReviewSchema body) ;;
  let userId := ReviewInput.userId validatedData in
  let furnitureId := ReviewInput.furnitureId validatedData in
  user <- query (fun d => findUser d userId) ;;
  if is_none user then throw (ApiError 404 "User not found")
  else
    furniture <- query (fun d => findFurniture d furnitureId) ;;
    if is_none furniture then throw (ApiError 404 "Furniture not found")
    else
      hasPurchased <- query (findPurchase userId furnitureId) ;;
      if is_none hasPurchased
      then throw (ApiError 403 "You can only review furniture items you have purchased")
      else
        existingReview <- query (findReview userId furnitureId) ;;
        if negb (is_none existingReview)
        then throw (ApiError 400 "You have already reviewed this furniture item")
        else exec (review_create validatedData now).

(* ================================================================== *)
(** ** A sample store

    Three users, two categories, three furniture items.  User 1 has a
    COMPLETED order of items 1 and 3, a review of item 1, and a cart holding
    items 2 and 3; user 2 has a PENDING and a CANCELLED order only; user 3
    has a COMPLETED order of item 1 and a review of it. *)

Definition chair1 : Furniture.t := Furniture.mk 1 100%float 1 10.
Definition chair2 : Furniture.t := Furniture.mk 2 120.5%float 1 20.
Definition table3 : Furniture.t := Furniture.mk 3 500%float 2 30.

Definition shop : DB :=
  mkDB [User.mk 1 "ann@example.com"; User.mk 2 "bob@example.com";
        User.mk 3 "cy@example.com"]
       [Category.mk 1 "chairs"; Category.mk 2 "tables"]
       [chair1; chair2; table3]
       [Review.mk 1 4 None 1 1 5; Review.mk 2 5 None 3 1 6]
       [Cart.mk 1 1]
       [CartItem.mk 1 1 2 3; CartItem.mk 2 1 3 1]
       [Order.mk 1 (Some 1) 600%float COMPLETED;
        Order.mk 2 (Some 2) 500%float PENDING;
        Order.mk 3 (Some 2) 120.5%float CANCELLED;
        Order.mk 4 (Some 3) 100%float COMPLETED]
       [OrderItem.mk 1 1 1 1 100%float;
        OrderItem.mk 2 1 3 1 500%float;
        OrderItem.mk 3 2 3 1 500%float;
        OrderItem.mk 4 3 2 1 120.5%float;
        OrderItem.mk 5 4 1 1 100%float].

(* ================================================================== *)
(** ** Predicates used by the statements *)

(** Primary key of the furniture table. *)
Definition furniture_key (d : DB) : Prop := NoDup (map Furniture.id (furnitures d)).

(** SERIAL keys start at 1. *)
Definition furniture_ids_positive (d : DB) : Prop :=
  Forall (fun f => 0 < Furniture.id f) (furnitures d).

(** The aggregate fields of an output item are those of the item's reviews
    in the store. *)
Definition aggregated (d : DB) (x : FurnitureOut) : Prop :=
  averageRating x = average (ratingsOf d (out_id x))
  /\ reviewCount x = Z.of_nat (List.length (ratingsOf d (out_id x))).

(** A row returned by a furniture query with the given filter. *)
Definition row_of (d : DB) (where_ : Furniture.t -> bool) (r : FurnitureRow) : Prop :=
  exists f, In f (furnitures d) /\ where_ f = true /\ r = include_relations d f.

Definition row_id (r : FurnitureRow) : Z := Furniture.id (row r).

(** An output item of a list or recommendation response: aggregates from
    the store, per-review collection stripped. *)
Definition served (d : DB) (x : FurnitureOut) : Prop :=
  aggregated d x /\ out_reviews x = None.

(** The unique index of the review table on (userId, furnitureId). *)
Definition review_key (d : DB) : Prop :=
  NoDup (map (fun r => (Review.userId r, Review.furnitureId r)) (reviews d)).


(** The cart items of a user. *)
Definition cartItemsOf (d : DB) (userId : Z) : list CartItem.t :=
  filter (in_cart_of d userId) (cartItems d).



Definition data_snapshot (d : DB) (x : OrderItemData.t) : Prop :=
  exists f,
    In f (furnitures d)
    /\ Furniture.id f = OrderItemData.furnitureId x
    /\ OrderItemData.unitPrice x = Furniture.price f.

Definition data_total (start : float) (l : list OrderItemData.t) : float :=
  fold_left (fun acc x =>
               PrimFloat.add acc
                 (PrimFloat.mul (OrderItemData.unitPrice x)
                                (num_of_Z (OrderItemData.quantity x))))
            l start.

(** The invariant of the three pricing loops: the running total is the sum
    over the items pushed so far, and each pushed item carries the price of
    its furniture row. *)
Definition priced (d : DB) (acc : float * list OrderItemData.t) : Prop :=
  fst acc = data_total 0%float (snd acc) /\ Forall (data_snapshot d) (snd acc).

(** What every tier of the composer guarantees of its result [r], queried
    with [take: z] and the exclusion list [notIn]. *)
Definition tier_ok (d : DB) (notIn : list Z) (z : Z) (r : list FurnitureOut) : Prop :=
  Forall (fun x => ~ In (out_id x) notIn
                   /\ In (out_item x) (furnitures d)
                   /\ aggregated d x
                   /\ out_reviews x = None) r
  /\ (furniture_key d -> NoDup (map out_id r))
  /\ (0 <= z -> Z.of_nat (List.length r) <= z).

(* ================================================================== *)
(** ** Tactics *)

(** One step of [parse_digits] on a decimal digit. *)
Ltac eval_digit :=
  cbn [parse_digits NilEmpty.string_of_uint Pos.of_uint_acc Pos.of_uint];
  match goal with
  | |- context [digit_val ?c] =>
      let v := eval vm_compute in (digit_val c) in
      change (digit_val c) with v
  end;
  cbv iota beta;
  match goal with
  | |- context [?d <? 10] =>
      let v := eval vm_compute in (d <? 10) in
      change (d <? 10) with v
  end;
  cbv iota beta.

(* ================================================================== *)
(** ** Ranking of recommendation results *)

(** [x] may precede [y] under
    [orderBy: [{ reviews: { _count: 'desc' } }, { createdAt: 'desc' }]]. *)
Definition ranked_by_reviews (x y : FurnitureOut) : Prop :=
  reviewCount y < reviewCount x
  \/ (reviewCount x = reviewCount y
      /\ Furniture.createdAt (out_item y) <= Furniture.createdAt (out_item x)).

(** [x] may precede [y] under the ordering of the popularity listing:
    order count, then review count, then creation time, all descending. *)
Definition ranked_by_popularity (x y : FurnitureOut) : Prop :=
  exists a b,
    orderCount x = Some a /\ orderCount y = Some b
    /\ (b < a \/ (a = b /\ ranked_by_reviews x y)).

(** The furniture rows left after the exclusion of [excludeId]. *)
Definition notExcluded (d : DB) (excludeId : option jsnum) : list Furniture.t :=
  filter (fun f => negb (mem (Furniture.id f) (with_exclude [] excludeId))) (furnitures d).

(* ================================================================== *)
(** ** Order listings and order detail *)

(** [getUserOrdersSchema]: [page] is at least 1 and [limit] is clamped to
    [1, 50]; what does not parse falls back to 1 and 10; [status] must be a
    member of the enum when it is given. *)
Definition getUserOrdersSchema (pageQ limitQ statusQ : qparam)
  : result (Z * Z * option OrderStatus) :=
  let? p := zod_optional_string pageQ in
  let? l := zod_optional_string limitQ in
  let? s := match statusQ with
            | QAbsent => Ok None
            | QStr v => let? st := updateOrderStatusSchema v in Ok (Some st)
            | QMulti => Err ZodError
            end in
  let page :=
    match p with
    | Some val =>
        if str_truthy val
        then match parseInt val with Num num => Z.max 1 num | NaN => 1 end
        else 1
    | None => 1
    end in
  let limit :=
    match l with
    | Some val =>
        if str_truthy val
        then match parseInt val with Num num => Z.min (Z.max 1 num) 50 | NaN => 10 end
        else 10
    | None => 10
    end in
  Ok (page, limit, s).

(** [if (page < 1) throw ...; if (limit < 1 || limit > 50) throw ...]. *)
Definition paginationGuards (page limit : Z) : result unit :=
  let? _ := throw_if (page <? 1) (ApiError 400 "Page must be greater than 0") in
  throw_if ((limit <? 1) || (50 <? limit)) (ApiError 400 "Limit must be between 1 and 50").

(** [Math.ceil(totalCount / limit)] for a positive [limit]. *)
Definition ceil_div (a b : Z) : Z := (a + b - 1) / b.

Record Pagination : Type := mkPagination {
  pg_page : Z;
  pg_limit : Z;
  totalCount : Z;
  totalPages : Z;
  hasNext : bool;
  hasPrev : bool
}.

Record OrdersPage : Type := mkOrdersPage {
  page_orders : list OrderOut;
  pagination : Pagination
}.

(** An order with [include: { items }]. *)
Definition with_items (d : DB) (o : Order.t) : OrderOut :=
  mkOrderOut o (filter (fun oi => OrderItem.orderId oi =? Order.id o) (orderItems d)).

(** [where: { userId?, status? }] of the listings. *)
Definition order_matches (userId : option Z) (status : option OrderStatus) (o : Order.t)
  : bool :=
  match userId with
  | Some u => match Order.userId o with Some v => v =? u | None => false end
  | None => true
  end
  && match status with
     | Some s => OrderStatus_eqb (Order.status o) s
     | None => true
     end.

Section OrderListings.

(** The [createdAt] column of the order table, which the order rows of the
    store do not carry: the listings sort by it and nothing else reads it. *)
Variable orderCreatedAt : Order.t -> Z.

(** [orderBy: { createdAt: 'desc' }] leaves the order of rows with the same
    [createdAt] to the database, which may settle it differently from one
    query to the next: [tieOrder a b] says whether, in the query at hand,
    [a] is put before [b] when both were created at the same time. *)
Variable tieOrder : Order.t -> Order.t -> bool.

Definition newest_first (a b : Order.t) : bool :=
  (orderCreatedAt b <? orderCreatedAt a)
  || ((orderCreatedAt a =? orderCreatedAt b) && tieOrder a b).

(** The orders matching the filter, [orderBy: { createdAt: 'desc' }]. *)
Definition matchingOrders (d : DB) (userId : option Z) (status : option OrderStatus)
  : list Order.t :=
  sort_by newest_first (filter (order_matches userId status) (orders d)).

(** What [findMany({ where, include, orderBy, skip, take })] and
    [count({ where })] give, with the pagination summary of the response. *)
Definition ordersPage (d : DB) (userId : option Z) (page limit : Z)
    (status : option OrderStatus) : OrdersPage :=
  let skip := (page - 1) * limit in
  let all := matchingOrders d userId status in
  let orders := firstn (Z.to_nat limit) (skipn (Z.to_nat skip) all) in
  let totalCount := Z.of_nat (List.length all) in
  let totalPages := ceil_div totalCount limit in
  mkOrdersPage (map (with_items d) orders)
    (mkPagination page limit totalCount totalPages
                  (page <? totalPages) (1 <? page)).

(** The two statements of a listing.  [skip] is [(page - 1) * limit] with an
    unbounded [page]: a [skip] that is no 64-bit integer is refused ("a
    number used in the query does not fit into a 64 bit signed integer"),
    which [errorHandler] answers with 500. *)
Definition ordersQuery (d : DB) (userId : option Z) (page limit : Z)
    (status : option OrderStatus) : result OrdersPage :=
  if int8 ((page - 1) * limit) then Ok (ordersPage d userId page limit status)
  else Err (PrismaKnownError "P2033").

(** GET /api/orders/my-orders *)
Definition getMyOrders (d : DB) (user : option Z) (pageQ limitQ statusQ : qparam)
  : result OrdersPage :=
  match authenticated user with
  | None => Err (ApiError 401 "Authentication required")
  | Some userId =>
      let? q := getUserOrdersSchema pageQ limitQ statusQ in
      let '(page, limit, status) := q in
      let? _ := paginationGuards page limit in
      ordersQuery d (Some userId) page limit status
  end.

(** GET /api/orders/user/:userId; [user] is [req.user.id]. *)
Definition getUserOrders (d : DB) (user : Z) (userIdParam : string)
    (pageQ limitQ statusQ : qparam) : result OrdersPage :=
  match parseInt userIdParam with
  | NaN => Err (ApiError 400 "Invalid user ID")
  | Num userId =>
      if negb (user =? userId) then Err (ApiError 403 "Access denied")
      else
        let? q := getUserOrdersSchema pageQ limitQ statusQ in
        let '(page, limit, status) := q in
        let? _ := paginationGuards page limit in
        let? _ := throw_if (is_none (findUser d userId)) (ApiError 404 "User not found") in
        ordersQuery d (Some userId) page limit status
  end.

(** GET /api/orders *)
Definition getAllOrders (d : DB) (pageQ limitQ statusQ : qparam) : result OrdersPage :=
  let? q := getUserOrdersSchema pageQ limitQ statusQ in
  let '(page, limit, status) := q in
  let? _ := paginationGuards page limit in
  ordersQuery d None page limit status.

End OrderListings.

(** GET /api/orders/:id; [user] is the id of [req.user] when the optional
    authentication found one. *)
Definition getOrder (d : DB) (user : option Z) (idParam : string) : result OrderOut :=
  match idSchema idParam with
  | Err ZodError => Err (ApiError 400 "Invalid order ID")
  | Err e => Err e
  | Ok id =>
      match findOrder d id with
      | None => Err (ApiError 404 "Order not found")
      | Some order =>
          let foreign :=
            match user, Order.userId order with
            | Some caller, Some owner => negb (owner =? 0) && negb (owner =? caller)
            | _, _ => false
            end in
          if foreign then Err (ApiError 403 "Access denied")
          else Ok (with_items d order)
      end
  end.

(** The primary key of the order table. *)
Definition order_key (d : DB) : Prop := NoDup (map Order.id (orders d)).

(** Creation times for the orders of the sample store, of which the order
    rows carry none: orders 2 and 3, both of user 2, were created at the
    same time.  [shopTieOrder] puts the row with the smaller id first among
    such rows. *)
Definition shopCreatedAt (o : Order.t) : Z := Order.id o / 2.

Definition shopTieOrder (a b : Order.t) : bool := Order.id a <? Order.id b.

(** The orders of the pages 1 to [n] of a listing, in order, each page
    being requested on its own: [listing p] is the handler as it serves the
    request for page [p], with the order that query gives to rows created at
    the same time.  A page that is refused contributes nothing. *)
Definition pages_upto (listing : nat -> qparam -> result OrdersPage) (n : nat)
  : list OrderOut :=
  flat_map (fun p => match listing p (QStr (string_of_Z (Z.of_nat p))) with
                     | Ok pg => page_orders pg
                     | Err _ => []
                     end)
           (seq 1 n).

(* ================================================================== *)
(** ** Sequences of status requests *)

(** Requests to PATCH /api/orders/:id/status served one after the other,
    each given as the [id] of the path and the [status] of the body; the
    answers are dropped. *)
Fixpoint statusRequests (reqs : list (string * string)) (w : World) : World :=
  match reqs with
  | [] => w
  | (idParam, bodyStatus) :: rest =>
      statusRequests rest (snd (updateOrderStatus idParam bodyStatus w))
  end.

(** What a change of status may do to an order row: set the status and
    nothing else, and that only while the order is PENDING. *)
Definition status_only (o o' : Order.t) : Prop :=
  Order.id o' = Order.id o
  /\ Order.userId o' = Order.userId o
  /\ Order.totalAmount o' = Order.totalAmount o
  /\ (Order.status o <> PENDING -> Order.status o' = Order.status o).

(** Two stores that differ in their order rows only. *)
Definition same_but_orders (d d' : DB) : Prop :=
  users d' = users d /\ categories d' = categories d /\ furnitures d' = furnitures d
  /\ reviews d' = reviews d /\ carts d' = carts d /\ cartItems d' = cartItems d
  /\ orderItems d' = orderItems d.

(* ================================================================== *)
(** ** The cart

    The body fields [furnitureId], [cartItemId] and [quantity] of the cart
    requests are JSON integers or absent; a path segment is one that
    [Number] reads as an integer or as [NaN]. *)

Definition set_carts (d : DB) (l : list Cart.t) : DB :=
  mkDB (users d) (categories d) (furnitures d) (reviews d) l (cartItems d)
       (orders d) (orderItems d).

(** A cart item with [include: { furniture: true }]. *)
Record CartLine : Type := mkCartLine {
  line : CartItem.t;
  line_furniture : option Furniture.t
}.

Definition with_furniture (d : DB) (ci : CartItem.t) : CartLine :=
  mkCartLine ci (findFurniture d (CartItem.furnitureId ci)).

(** [prisma.cart.create({ data: { userId } })]: refused by the unique index
    on [userId] and by the foreign key to the user. *)
Definition cart_create (userId : Z) (d : DB) : result (Cart.t * DB) :=
  if negb (is_none (findCartOfUser d userId)) then Err (PrismaKnownError "P2002")
  else if is_none (findUser d userId) then Err (PrismaKnownError "P2003")
  else
    let c := Cart.mk (fresh_id (map Cart.id (carts d))) userId in
    Ok (c, set_carts d (carts d ++ [c])).

(** The same with [include: { items: { include: { furniture } } }]. *)
Definition cart_create_included (userId : Z) (d : DB)
  : result ((Cart.t * list (CartItem.t * Furniture.t)) * DB) :=
  let? r := cart_create userId d in
  let '(c, d') := r in
  Ok ((c, cartItemsWithFurniture d' (Cart.id c)), d').

(** [prisma.cartItem.findFirst({ where: { cartId, furnitureId } })]. *)
Definition findCartLine (cartId furnitureId : Z) (d : DB) : option CartItem.t :=
  find (fun ci => (CartItem.cartId ci =? cartId) && (CartItem.furnitureId ci =? furnitureId))
       (cartItems d).

(** [prisma.cartItem.findFirst({ where: { id, cart: { userId } } })]. *)
Definition findOwnedCartItem (id userId : Z) (d : DB) : option CartItem.t :=
  find (fun ci => (CartItem.id ci =? id) && in_cart_of d userId ci) (cartItems d).

Definition with_quantity (ci : CartItem.t) (quantity : Z) : CartItem.t :=
  CartItem.mk (CartItem.id ci) (CartItem.cartId ci) (CartItem.furnitureId ci) quantity.

(** [prisma.cartItem.update({ where: { id }, data: { quantity },
    include: { furniture: true } })]. *)
Definition cartItem_update_quantity (id quantity : Z) (d : DB)
  : result (CartLine * DB) :=
  match find (fun ci => CartItem.id ci =? id) (cartItems d) with
  | None => Err (PrismaKnownError "P2025")
  | Some ci =>
      let d' := set_cartItems d
                  (map (fun x => if CartItem.id x =? id then with_quantity x quantity else x)
                       (cartItems d)) in
      Ok (with_furniture d' (with_quantity ci quantity), d')
  end.

(** [prisma.cartItem.create({ data: { cartId, furnitureId, quantity },
    include: { furniture: true } })]: refused by the unique index on
    (cartId, furnitureId) and by the foreign keys. *)
Definition cartItem_create (cartId furnitureId quantity : Z) (d : DB)
  : result (CartLine * DB) :=
  if negb (is_none (findCartLine cartId furnitureId d))
  then Err (PrismaKnownError "P2002")
  else if is_none (find (fun c => Cart.id c =? cartId) (carts d))
          || is_none (findFurniture d furnitureId)
  then Err (PrismaKnownError "P2003")
  else
    let ci := CartItem.mk (fresh_id (map CartItem.id (cartItems d)))
                          cartId furnitureId quantity in
    let d' := set_cartItems d (cartItems d ++ [ci]) in
    Ok (with_furniture d' ci, d').

(** [prisma.cartItem.delete({ where: { id } })]. *)
Definition cartItem_delete (id : Z) (d : DB) : result (CartItem.t * DB) :=
  match find (fun ci => CartItem.id ci =? id) (cartItems d) with
  | None => Err (PrismaKnownError "P2025")
  | Some ci =>
      Ok (ci, set_cartItems d
                (filter (fun x => negb (CartItem.id x =? id)) (cartItems d)))
  end.

(** [prisma.cartItem.deleteMany({ where: { cartId } })] with its [count]. *)
Definition cartItem_deleteMany_count (cartId : Z) (d : DB) : result (Z * DB) :=
  let? r := cartItem_deleteMany_cart cartId d in
  Ok (Z.of_nat (List.length (filter (fun ci => CartItem.cartId ci =? cartId) (cartItems d))),
      snd r).

(** GET /api/cart; [user] is [req.user.id]. *)
Definition getCart (user : Z) : M (Cart.t * list (CartItem.t * Furniture.t)) :=
  let userId := user in
  if userId =? 0 then throw (ApiError 401 "Authentication required")
  else
    cart <- query (findCartWithItems userId) ;;
    match cart with
    | Some cart => ret cart
    | None => exec (cart_create_included userId)
    end.

(** POST /api/cart/add; the answer carries its status code. *)
Definition addToCart (user : Z) (bodyFurnitureId bodyQuantity : option Z)
  : M (CartLine * Z) :=
  let quantity := match bodyQuantity with Some q => q | None => 1 end in
  let userId := user in
  if userId =? 0 then throw (ApiError 401 "Authentication required")
  else
    match bodyFurnitureId with
    | None => throw (ApiError 400 "furnitureId required")
    | Some furnitureId =>
        if furnitureId =? 0 then throw (ApiError 400 "furnitureId required")
        else if quantity <? 1 then throw (ApiError 400 "Quantity must be at least 1")
        else
          furniture <- query_by furnitureId (fun d => findFurniture d furnitureId) ;;
          if is_none furniture then throw (ApiError 404 "Furniture not found")
          else
            cart <- query (fun d => findCartOfUser d userId) ;;
            cart <- match cart with
                    | Some cart => ret cart
                    | None => exec (cart_create userId)
                    end ;;
            existing <- query (findCartLine (Cart.id cart) furnitureId) ;;
            match existing with
            | Some existing =>
                updated <- exec_by [CartItem.quantity existing + quantity]
                             (cartItem_update_quantity (CartItem.id existing)
                                (CartItem.quantity existing + quantity)) ;;
                ret (updated, 200)
            | None =>
                created <- exec_by [quantity]
                             (cartItem_create (Cart.id cart) furnitureId quantity) ;;
                ret (created, 201)
            end
    end.

(** POST /api/cart/update *)
Definition updateCartItem (user : Z) (bodyCartItemId bodyQuantity : option Z)
  : M CartLine :=
  let userId := user in
  if userId =? 0 then throw (ApiError 401 "Authentication required")
  else
    match bodyCartItemId, bodyQuantity with
    | Some cartItemId, Some quantity =>
        if cartItemId =? 0 then throw (ApiError 400 "cartItemId and quantity required")
        else if quantity <? 1 then throw (ApiError 400 "Quantity must be at least 1")
        else
          cartItem <- query_by cartItemId (findOwnedCartItem cartItemId userId) ;;
          if is_none cartItem then throw (ApiError 404 "Cart item not found")
          else exec_by [quantity] (cartItem_update_quantity cartItemId quantity)
    | _, _ => throw (ApiError 400 "cartItemId and quantity required")
    end.

(** DELETE /api/cart/remove/:cartItemId; [cartItemId] is
    [Number(req.params.cartItemId)]. *)
Definition removeCartItem (user : Z) (cartItemId : jsnum) : M CartItem.t :=
  let userId := user in
  if userId =? 0 then throw (ApiError 401 "Authentication required")
  else
    match cartItemId with
    | NaN => throw (ApiError 400 "Invalid cart item ID")
    | Num cartItemId =>
        cartItem <- query_by cartItemId (findOwnedCartItem cartItemId userId) ;;
        if is_none cartItem then throw (ApiError 404 "Cart item not found")
        else exec (cartItem_delete cartItemId)
    end.

(** POST /api/cart/clear; the answer is its [deletedCount]. *)
Definition clearCart (user : Z) : M Z :=
  let userId := user in
  if userId =? 0 then throw (ApiError 401 "Authentication required")
  else
    cart <- query (fun d => findCartOfUser d userId) ;;
    match cart with
    | None => throw (ApiError 404 "Cart not found")
    | Some cart => exec (cartItem_deleteMany_count (Cart.id cart))
    end.

(** The keys of the cart tables: the primary keys, the unique index
    [Cart_userId_key] and the foreign key [CartItem_cartId_fkey]. *)
Definition cart_keys (d : DB) : Prop :=
  NoDup (map Cart.id (carts d))
  /\ NoDup (map Cart.userId (carts d))
  /\ NoDup (map CartItem.id (cartItems d))
  /\ Forall (fun ci => In (CartItem.cartId ci) (map Cart.id (carts d))) (cartItems d).

(** No cart holds two lines for the same furniture: the unique index of the
    cart items on (cartId, furnitureId). *)
Definition one_line_per_furniture (d : DB) : Prop :=
  NoDup (map (fun ci => (CartItem.cartId ci, CartItem.furnitureId ci)) (cartItems d)).

(** The lines that the carts of a user hold for a furniture item, and the
    quantity they add up to. *)
Definition linesInCart (d : DB) (userId furnitureId : Z) : list CartItem.t :=
  filter (fun ci => in_cart_of d userId ci && (CartItem.furnitureId ci =? furnitureId))
         (cartItems d).

Definition quantityInCart (d : DB) (userId furnitureId : Z) : Z :=
  fold_right Z.add 0 (map CartItem.quantity (linesInCart d userId furnitureId)).

(** Two stores that differ in their carts and cart items only. *)
Definition same_but_carts (d d' : DB) : Prop :=
  users d' = users d /\ categories d' = categories d /\ furnitures d' = furnitures d
  /\ reviews d' = reviews d /\ orders d' = orders d /\ orderItems d' = orderItems d.

(** What a cart request of [user] may do to the store. *)
Definition cart_step (user : Z) (d d' : DB) : Prop :=
  cart_keys d'
  /\ (one_line_per_furniture d -> one_line_per_furniture d')
  /\ (forall u, u <> user -> cartItemsOf d' u = cartItemsOf d u)
  /\ same_but_carts d d'.

(** A request to the cart routes. *)
Inductive CartRequest : Type :=
| GetCart
| AddToCart (furnitureId quantity : option Z)
| UpdateCartItem (cartItemId quantity : option Z)
| RemoveCartItem (cartItemId : jsnum)
| ClearCart.

(** The store after a cart request of [user]; the answer is dropped. *)
Definition serveCart (user : Z) (req : CartRequest) (w : World) : World :=
  match req with
  | GetCart => snd (getCart user w)
  | AddToCart furnitureId quantity => snd (addToCart user furnitureId quantity w)
  | UpdateCartItem cartItemId quantity => snd (updateCartItem user cartItemId quantity w)
  | RemoveCartItem cartItemId => snd (removeCartItem user cartItemId w)
  | ClearCart => snd (clearCart user w)
  end.

(** Cart requests of several users served one after the other. *)
Fixpoint cartRequests (reqs : list (Z * CartRequest)) (w : World) : World :=
  match reqs with
  | [] => w
  | (user, req) :: rest => cartRequests rest (serveCart user req w)
  end.

(** Every cart line holds at least one piece. *)
Definition cart_quantities_positive (d : DB) : Prop :=
  Forall (fun ci => 1 <= CartItem.quantity ci) (cartItems d).

(* ================================================================== *)
(** ** Review eligibility, update and deletion *)

(** The answer of GET /api/reviews/can-review/:userId/:furnitureId;
    [canReview] is [hasPurchased && !hasReviewed], which is [null] when no
    purchase was found. *)
Record CanReview : Type := mkCanReview {
  canReview : option bool;
  hasPurchased : bool;
  hasReviewed : bool
}.

Definition canUserReview (d : DB) (userIdParam furnitureIdParam : string)
  : result CanReview :=
  match parseInt userIdParam, parseInt furnitureIdParam with
  | Num userId, Num furnitureId =>
      let hasPurchased := findPurchase userId furnitureId d in
      let hasReviewed := findReview userId furnitureId d in
      Ok (mkCanReview
            (match hasPurchased with
             | Some _ => Some (is_none hasReviewed)
             | None => None
             end)
            (negb (is_none hasPurchased))
            (negb (is_none hasReviewed)))
  | _, _ => Err (ApiError 400 "Invalid user ID or furniture ID")
  end.

(** The body of PUT /api/reviews/:id. *)
Module ReviewPatch.
Record t : Type := mk { rating : option Z; comment : option string }.
End ReviewPatch.

(** [updateReviewSchema.parse(req.body)]. *)
Definition updateReviewSchema (body : ReviewPatch.t) : result ReviewPatch.t :=
  if match ReviewPatch.rating body with
     | Some r => (1 <=? r) && (r <=? 5)
     | None => true
     end
     && match ReviewPatch.comment body with
        | Some c => (String.length c <=? 1000)%nat
        | None => true
        end
  then Ok body
  else Err ZodError.

Definition findReviewById (id : Z) (d : DB) : option Review.t :=
  find (fun r => Review.id r =? id) (reviews d).

Definition set_reviews (d : DB) (l : list Review.t) : DB :=
  mkDB (users d) (categories d) (furnitures d) l (carts d) (cartItems d)
       (orders d) (orderItems d).

(** [data: validatedData]: a field that the body leaves out keeps its value. *)
Definition patched (patch : ReviewPatch.t) (r : Review.t) : Review.t :=
  Review.mk (Review.id r)
            (match ReviewPatch.rating patch with Some x => x | None => Review.rating r end)
            (match ReviewPatch.comment patch with
             | Some c => Some c
             | None => Review.comment r
             end)
            (Review.userId r) (Review.furnitureId r) (Review.createdAt r).

(** [prisma.review.update({ where: { id }, data })]. *)
Definition review_update (id : Z) (patch : ReviewPatch.t) (d : DB)
  : result (Review.t * DB) :=
  match findReviewById id d with
  | None => Err (PrismaKnownError "P2025")
  | Some r =>
      Ok (patched patch r,
          set_reviews d (map (fun x => if Review.id x =? id then patched patch x else x)
                             (reviews d)))
  end.

(** [prisma.review.delete({ where: { id } })]. *)
Definition review_delete (id : Z) (d : DB) : result (Review.t * DB) :=
  match findReviewById id d with
  | None => Err (PrismaKnownError "P2025")
  | Some r =>
      Ok (r, set_reviews d (filter (fun x => negb (Review.id x =? id)) (reviews d)))
  end.

(** PUT /api/reviews/:id *)
Definition updateReview (idParam : string) (body : ReviewPatch.t) : M Review.t :=
  id <- lift (idSchema idParam) ;;
  validatedData <- lift (updateReviewSchema body) ;;
  existingReview <- query (findReviewById id) ;;
  if is_none existingReview then throw (ApiError 404 "Review not found")
  else exec (review_update id validatedData).

(** DELETE /api/reviews/:id *)
Definition deleteReview (idParam : string) : M unit :=
  match idSchema idParam with
  | Err ZodError => throw (ApiError 400 "Invalid review ID")
  | Err e => throw e
  | Ok id =>
      existingReview <- query (findReviewById id) ;;
      if is_none existingReview then throw (ApiError 404 "Review not found")
      else exec (review_delete id) ;;; ret tt
  end.

(** A request to the writing review routes. *)
Inductive ReviewRequest : Type :=
| CreateReview (body : ReviewInput.t) (now : Z)
| UpdateReview (idParam : string) (body : ReviewPatch.t)
| DeleteReview (idParam : string).

Definition serveReview (req : ReviewRequest) (w : World) : World :=
  match req with
  | CreateReview body now => snd (createReview body now w)
  | UpdateReview idParam body => snd (updateReview idParam body w)
  | DeleteReview idParam => snd (deleteReview idParam w)
  end.

Fixpoint reviewRequests (reqs : list ReviewRequest) (w : World) : World :=
  match reqs with
  | [] => w
  | req :: rest => reviewRequests rest (serveReview req w)
  end.

(** Every stored rating is one of 1 to 5. *)
Definition ratings_in_range (d : DB) : Prop :=
  Forall (fun r => 1 <= Review.rating r <= 5) (reviews d).

(** Two stores that differ in their reviews only. *)
Definition same_but_reviews (d d' : DB) : Prop :=
  users d' = users d /\ categories d' = categories d /\ furnitures d' = furnitures d
  /\ carts d' = carts d /\ cartItems d' = cartItems d
  /\ orders d' = orders d /\ orderItems d' = orderItems d.

(* ================================================================== *)
(** ** Deleting furniture *)

(** [prisma.furniture.delete({ where: { id } })].  The foreign keys of the
    schema decide what happens to the rows that refer to the furniture row:
    an order item restricts the deletion, reviews and cart items are
    deleted with it. *)
Definition furniture_delete (id : Z) (d : DB) : result (Furniture.t * DB) :=
  match findFurniture d id with
  | None => Err (PrismaKnownError "P2025")
  | Some f =>
      if existsb (fun oi => OrderItem.furnitureId oi =? id) (orderItems d)
      then Err (PrismaKnownError "P2003")
      else
        Ok (f,
            mkDB (users d) (categories d)
                 (filter (fun x => negb (Furniture.id x =? id)) (furnitures d))
                 (filter (fun r => negb (Review.furnitureId r =? id)) (reviews d))
                 (carts d)
                 (filter (fun ci => negb (CartItem.furnitureId ci =? id)) (cartItems d))
                 (orders d) (orderItems d))
  end.

(** [prisma.furniture.findUnique({ where: { id }, include: { orderItems: true } })]. *)
Definition findFurnitureWithOrderItems (id : Z) (d : DB)
  : option (Furniture.t * list OrderItem.t) :=
  match findFurniture d id with
  | Some f => Some (f, filter (fun oi => OrderItem.furnitureId oi =? id) (orderItems d))
  | None => None
  end.

(** The [id] of [req.params] as the handlers of the furniture routes find
    it: the text of the path, or the number that the middleware of the route,
    [validateParams(idParamSchema)], has put in its place
    ([req.params = validatedData]). *)
Inductive IdParam : Type :=
| IdText (text : string)
| IdNumber (n : Z).

(** [furnitureIdSchema.parse(req.params)]: [z.string()] refuses a number. *)
Definition furnitureIdSchema (p : IdParam) : result Z :=
  match p with
  | IdText text => idSchema text
  | IdNumber _ => Err ZodError
  end.

(** DELETE /api/furnitures/:id *)
Definition deleteFurniture (idParam : IdParam) : M unit :=
  match furnitureIdSchema idParam with
  | Err ZodError => throw (ApiError 400 "Invalid furniture ID")
  | Err e => throw e
  | Ok id =>
      existingFurniture <- query (findFurnitureWithOrderItems id) ;;
      match existingFurniture with
      | None => throw (ApiError 404 "Furniture not found")
      | Some (_, orderItems) =>
          if (0 <? List.length orderItems)%nat
          then throw (ApiError 400 "Cannot delete furniture that has been ordered")
          else exec (furniture_delete id) ;;; ret tt
      end
  end.

(** Every order item refers to a furniture row. *)
Definition orderItems_fk (d : DB) : Prop :=
  Forall (fun oi => findFurniture d (OrderItem.furnitureId oi) <> None) (orderItems d).

(* ================================================================== *)
(** * Theorems *)

(** ** Parsing and error statuses *)

Example parseInt_examples :
  parseInt " 42abc" = Num 42
  /\ parseInt "abc" = NaN
  /\ parseInt "-0x1F" = Num (-31)
  /\ parseInt "0x" = NaN
  /\ parseInt "3.7" = Num 3
  /\ parseInt "" = NaN.
Proof. repeat split. Qed.

Lemma error_statuses :
  http_status (ApiError 400 "Limit must be between 1 and 50") = 400
  /\ (forall missing, http_status (notFoundError missing) = 404)
  /\ http_status ZodError = 400
  /\ http_status PrismaValidationError = 400
  /\ http_status (PlainError "Invalid ID") = 500
  /\ http_status PrismaUnavailable = 500.
Proof. repeat split. Qed.

(** ** Lists, ordering and [take] *)

Lemma insert_by_perm {A} (before : A -> A -> bool) x l :
  Permutation (insert_by before x l) (x :: l).
Proof.
  induction l as [|y t IH]; simpl.
  - apply Permutation_refl.
  - destruct (before x y).
    + apply Permutation_refl.
    + eapply perm_trans; [apply perm_skip, IH | apply perm_swap].
Qed.

Lemma sort_by_perm {A} (before : A -> A -> bool) l :
  Permutation (sort_by before l) l.
Proof.
  induction l as [|x t IH]; simpl.
  - constructor.
  - eapply perm_trans; [apply insert_by_perm | apply perm_skip, IH].
Qed.

Lemma mem_In x l : mem x l = true <-> In x l.
Proof.
  unfold mem. rewrite existsb_exists. split.
  - intros [y [Hy E]]. apply Z.eqb_eq in E. now subst.
  - intros H. exists x. split; [assumption | apply Z.eqb_refl].
Qed.

Lemma mem_false x l : mem x l = false <-> ~ In x l.
Proof.
  rewrite <- mem_In. destruct (mem x l); split; intros; congruence.
Qed.

Lemma prisma_take_split {A} (n : jsnum) (l r : list A) :
  prisma_take n l = Ok r -> exists pre post, l = pre ++ r ++ post.
Proof.
  destruct n as [|z]; simpl; [discriminate|].
  intros H. injection H as <-. destruct (0 <=? z).
  - exists [], (skipn (Z.to_nat z) l). simpl. symmetry. apply firstn_skipn.
  - unfold lastn. exists (firstn (List.length l - Z.to_nat (- z)) l), [].
    rewrite app_nil_r. symmetry. apply firstn_skipn.
Qed.

Lemma prisma_take_length {A} (z : Z) (l r : list A) :
  prisma_take (Num z) l = Ok r -> 0 <= z -> Z.of_nat (List.length r) <= z.
Proof.
  simpl. intros H Hz. injection H as <-.
  destruct (Z.leb_spec 0 z); [|lia].
  rewrite length_firstn. lia.
Qed.

Lemma slice0_split {A} (l : list A) (e : jsnum) :
  exists post, l = slice0 l e ++ post.
Proof.
  destruct e as [|z]; simpl.
  - now exists l.
  - destruct (0 <=? z); eexists; symmetry; apply firstn_skipn.
Qed.

Lemma NoDup_map_infix {A B} (f : A -> B) (pre mid post : list A) :
  NoDup (map f (pre ++ mid ++ post)) -> NoDup (map f mid).
Proof.
  rewrite !map_app. intros H.
  apply NoDup_app_remove_l in H. now apply NoDup_app_remove_r in H.
Qed.

(** ** Furniture queries *)

Lemma findMany_rows d where_ orderBy n rows :
  findManyFurniture d where_ orderBy n = Ok rows -> Forall (row_of d where_) rows.
Proof.
  unfold findManyFurniture. intros H.
  apply prisma_take_split in H as (pre & post & E).
  apply Forall_forall. intros r Hr.
  assert (Hin : In r (sort_by orderBy (map (include_relations d) (filter where_ (furnitures d))))).
  { rewrite E. apply in_or_app. right. apply in_or_app. now left. }
  eapply Permutation_in in Hin; [|apply sort_by_perm].
  apply in_map_iff in Hin as (f & <- & Hf).
  apply filter_In in Hf as [Hf Hw]. now exists f.
Qed.

Lemma findMany_NoDup d where_ orderBy n rows :
  furniture_key d ->
  findManyFurniture d where_ orderBy n = Ok rows -> NoDup (map row_id rows).
Proof.
  unfold findManyFurniture, furniture_key. intros Hk H.
  apply prisma_take_split in H as (pre & post & E).
  apply NoDup_map_infix with (pre := pre) (post := post). rewrite <- E.
  eapply Permutation_NoDup.
  - apply Permutation_map, Permutation_sym, sort_by_perm.
  - rewrite map_map. simpl.
    assert (G : forall l, NoDup (map Furniture.id l) ->
                          NoDup (map Furniture.id (filter where_ l))).
    { induction l as [|a l IH]; simpl; intros Hn; [constructor|].
      inversion Hn as [|? ? Hnotin Hrest]; subst. destruct (where_ a); simpl.
      - constructor; [|now apply IH].
        intros Hc. apply Hnotin. apply in_map_iff in Hc as (y & Ey & Hy).
        apply filter_In in Hy as [Hy _]. apply in_map_iff. now exists y.
      - now apply IH. }
    now apply G.
Qed.

Lemma findMany_length d where_ orderBy z rows :
  findManyFurniture d where_ orderBy (Num z) = Ok rows -> 0 <= z ->
  Z.of_nat (List.length rows) <= z.
Proof. unfold findManyFurniture. apply prisma_take_length. Qed.

(** ** Rating aggregator *)

Lemma fold_left_add_acc l acc :
  fold_left Z.add l acc = acc + fold_right Z.add 0 l.
Proof.
  revert acc. induction l as [|a l IH]; simpl; intros acc; [lia|].
  rewrite IH. lia.
Qed.

Lemma sum_ratings_fold_right l : sum_ratings l = fold_right Z.add 0 l.
Proof. unfold sum_ratings. rewrite fold_left_add_acc. lia. Qed.

Lemma sum_ratings_perm l l' : Permutation l l' -> sum_ratings l = sum_ratings l'.
Proof.
  rewrite !sum_ratings_fold_right.
  induction 1; simpl; lia.
Qed.

Lemma average_perm l l' : Permutation l l' -> average l = average l'.
Proof.
  intros H. unfold average.
  rewrite (Permutation_length H), (sum_ratings_perm H). reflexivity.
Qed.

Lemma average_None_iff l : average l = None <-> l = [].
Proof.
  unfold average. destruct l; simpl; split; intros; congruence.
Qed.

(** ** The tiers of the composer *)

Lemma rbind_Ok {A B} (r : result A) (f : A -> result B) b :
  rbind r f = Ok b -> exists a, r = Ok a /\ f a = Ok b.
Proof. destruct r; simpl; [eauto | discriminate]. Qed.

Lemma with_exclude_In e ids excl :
  In e (with_exclude ids excl) <-> In e ids \/ (excl = Some (Num e) /\ e <> 0).
Proof.
  destruct excl as [[|z]|]; simpl.
  - split; [auto | intros [H|[H _]]; [assumption | discriminate]].
  - destruct (Z.eqb_spec z 0) as [->|Hz]; simpl.
    + split; [auto | intros [H|[H Hn]]; [assumption|]]. injection H as <-. lia.
    + rewrite in_app_iff. simpl. split.
      * intros [H|[<-|[]]]; auto.
      * intros [H|[H _]]; [auto|]. injection H as ->. auto.
  - split; [auto | intros [H|[H _]]; [assumption | discriminate]].
Qed.

Lemma carrying_fits {A} nums (r : result A) :
  forallb int4 nums = true -> carrying nums r = r.
Proof. intros H. unfold carrying. rewrite H. now destruct r. Qed.

Lemma carrying_Ok {A} nums (r : result A) a :
  carrying nums r = Ok a -> r = Ok a /\ forallb int4 nums = true.
Proof.
  unfold carrying. destruct r as [b|e]; simpl; [|discriminate].
  destruct (forallb int4 nums); [|discriminate]. intros H. now injection H as ->.
Qed.

Lemma carrying_refused {A} nums (a : A) :
  forallb int4 nums = false -> carrying nums (Ok a) = Err outOfRange.
Proof. intros H. unfold carrying. simpl. now rewrite H. Qed.

Lemma exclude_fits_cases excl :
  exclude_fits excl = true
  <-> (forall e, excl = Some (Num e) -> e <> 0 -> int4 e = true).
Proof.
  unfold exclude_fits. destruct excl as [[|z]|]; simpl.
  - split; [intros _ e H; discriminate | reflexivity].
  - destruct (Z.eqb_spec z 0) as [->|Hz]; simpl.
    + split; [|reflexivity]. intros _ e H. injection H as <-. congruence.
    + rewrite andb_true_r. split.
      * intros H e He _. now injection He as <-.
      * intros H. now apply H.
  - split; [intros _ e H; discriminate | reflexivity].
Qed.

Lemma tier_ok_nil d notIn z : tier_ok d notIn z [].
Proof. repeat split; simpl; [constructor | constructor | lia]. Qed.

Lemma findMany_tier d where_ orderBy notIn z rows (mapper : FurnitureRow -> FurnitureOut) :
  (forall f, where_ f = true -> ~ In (Furniture.id f) notIn) ->
  (forall f, let x := mapper (include_relations d f) in
             out_item x = f /\ aggregated d x /\ out_reviews x = None) ->
  findManyFurniture d where_ orderBy (Num z) = Ok rows ->
  tier_ok d notIn z (map mapper rows).
Proof.
  intros Hw Hm H. pose proof (findMany_rows _ _ _ _ H) as Hrows.
  assert (Hid : map out_id (map mapper rows) = map row_id rows).
  { rewrite map_map. apply map_ext_in. intros r Hr.
    rewrite Forall_forall in Hrows. destruct (Hrows r Hr) as (f & _ & _ & ->).
    unfold out_id. now rewrite (proj1 (Hm f)). }
  repeat split.
  - apply Forall_forall. intros x Hx. apply in_map_iff in Hx as (r & <- & Hr).
    rewrite Forall_forall in Hrows. destruct (Hrows r Hr) as (f & Hf & Hwf & ->).
    destruct (Hm f) as (E & Ha & Hs). unfold out_id. rewrite E.
    repeat split; try assumption; try apply Ha. now apply Hw.
  - intros Hk. rewrite Hid. eapply findMany_NoDup; eassumption.
  - intros Hz. rewrite length_map. eapply findMany_length; eassumption.
Qed.

Lemma withRatings_mapper d f :
  let x := withRatings (include_relations d f) in
  out_item x = f /\ aggregated d x /\ out_reviews x = None.
Proof. repeat split. Qed.

Lemma withRatingsPopular_mapper d f :
  let x := withRatingsPopular (include_relations d f) in
  out_item x = f /\ aggregated d x /\ out_reviews x = None.
Proof. repeat split. Qed.

Lemma findMany_total d where_ orderBy z :
  exists rows, findManyFurniture d where_ orderBy (Num z) = Ok rows.
Proof. unfold findManyFurniture, prisma_take. eauto. Qed.

Lemma collaborative_spec d uid z excl :
  exclude_fits excl = true ->
  exists r,
    getCollaborativeRecommendations d uid (Num z) excl = Ok r
    /\ tier_ok d (with_exclude (purchasedIds (completedOrderItems d uid)) excl) z r.
Proof.
  intros Hfit. unfold getCollaborativeRecommendations.
  destruct (List.length (completedOrderItems d uid) =? 0)%nat.
  - exists []. split; [reflexivity | apply tier_ok_nil].
  - rewrite carrying_fits by exact Hfit.
    match goal with |- context [findManyFurniture d ?w ?o (Num z)] =>
      destruct (findMany_total d w o z) as [rows Hrows]; rewrite Hrows
    end.
    simpl. eexists. split; [reflexivity|].
    eapply findMany_tier; [| apply withRatings_mapper | exact Hrows].
    intros f Hf. apply andb_true_iff in Hf as [_ Hf].
    apply negb_true_iff in Hf. now apply mem_false.
Qed.

Lemma categoryBased_spec d userOrders z excl excludeIds :
  exclude_fits excl = true ->
  exists r,
    getCategoryBasedRecommendations d userOrders (Num z) excl excludeIds = Ok r
    /\ tier_ok d (with_exclude excludeIds excl) z r.
Proof.
  intros Hfit. unfold getCategoryBasedRecommendations.
  destruct (List.length (preferredCategories userOrders) =? 0)%nat.
  - exists []. split; [reflexivity | apply tier_ok_nil].
  - rewrite carrying_fits by exact Hfit.
    match goal with |- context [findManyFurniture d ?w ?o (Num z)] =>
      destruct (findMany_total d w o z) as [rows Hrows]; rewrite Hrows
    end.
    simpl. eexists. split; [reflexivity|].
    eapply findMany_tier; [| apply withRatings_mapper | exact Hrows].
    intros f Hf. apply andb_true_iff in Hf as [_ Hf].
    apply negb_true_iff in Hf. now apply mem_false.
Qed.

Lemma popular_spec d z excl excludeIds :
  exclude_fits excl = true ->
  exists r,
    getPopularRecommendationsHelper d (Num z) excl excludeIds = Ok r
    /\ tier_ok d (with_exclude excludeIds excl) z r.
Proof.
  intros Hfit. unfold getPopularRecommendationsHelper.
  rewrite carrying_fits by exact Hfit.
  match goal with |- context [findManyFurniture d ?w ?o (Num z)] =>
    destruct (findMany_total d w o z) as [rows Hrows]; rewrite Hrows
  end.
  simpl. eexists. split; [reflexivity|].
  eapply findMany_tier; [| apply withRatingsPopular_mapper | exact Hrows].
  intros f Hf. apply negb_true_iff in Hf. now apply mem_false.
Qed.

Lemma tier_append d excl limit (recs tier : list FurnitureOut) :
  (furniture_key d -> NoDup (map out_id recs)) ->
  Z.of_nat (List.length recs) <= limit ->
  tier_ok d (with_exclude (map out_id recs) excl) (limit - Z.of_nat (List.length recs)) tier ->
  (furniture_key d -> NoDup (map out_id (recs ++ tier)))
  /\ Z.of_nat (List.length (recs ++ tier)) <= limit.
Proof.
  intros Hnd Hlen (Hall & Hnd' & Hlen'). split.
  - intros Hk. rewrite map_app. apply NoDup_app; [auto | auto |].
    intros a Ha Hb. apply in_map_iff in Hb as (x & <- & Hx).
    rewrite Forall_forall in Hall. destruct (Hall x Hx) as (Hnot & _).
    apply Hnot. apply with_exclude_In. now left.
  - rewrite length_app. lia.
Qed.

Lemma historyTiers_spec d uid limit excl :
  exclude_fits excl = true ->
  1 <= limit ->
  let userOrders := completedOrderItems d uid in
  exists collab cat,
    historyTiers d uid userOrders (Num limit) excl = Ok (collab ++ cat)
    /\ (userOrders <> [] ->
        getCollaborativeRecommendations d uid (Num limit) excl = Ok collab)
    /\ (userOrders = [] -> collab = [])
    /\ tier_ok d (with_exclude (purchasedIds userOrders) excl) limit collab
    /\ (cat = []
        \/ (Z.of_nat (List.length collab) < limit
            /\ getCategoryBasedRecommendations d userOrders
                 (Num (limit - Z.of_nat (List.length collab))) excl
                 (map out_id collab) = Ok cat))
    /\ tier_ok d (with_exclude (map out_id collab) excl)
               (limit - Z.of_nat (List.length collab)) cat.
Proof.
  intros Hfit Hl userOrders. unfold historyTiers. fold userOrders.
  destruct userOrders as [|o os] eqn:E.
  - exists [], []. simpl. repeat split; try (constructor || discriminate || lia || auto).
    all: try now left. all: try apply tier_ok_nil. all: try congruence.
  - change (0 <? List.length (o :: os))%nat with true. cbv iota.
    destruct (@collaborative_spec d uid limit excl Hfit) as (collab & Hc & Hok).
    rewrite Hc. simpl rbind. unfold len, js_lt, js_sub.
    fold userOrders in Hok. rewrite E in Hok.
    destruct (Z.ltb_spec (Z.of_nat (List.length collab)) limit) as [Hlt|Hge].
    + destruct (@categoryBased_spec d (o :: os) (limit - Z.of_nat (List.length collab))
                  excl (map out_id collab) Hfit) as (cat & Hcat & Hcok).
      rewrite Hcat. simpl. exists collab, cat.
      repeat split; try assumption; try apply Hok; try apply Hcok.
      * intros H; discriminate.
      * right. split; assumption.
    + exists collab, []. rewrite app_nil_r.
      repeat split; try assumption; try apply Hok.
      * intros H; discriminate.
      * now left.
      * constructor.
      * intros _. constructor.
      * simpl. lia.
Qed.

Lemma popularTier_spec d recs limit excl :
  exclude_fits excl = true ->
  exists pop,
    popularTier d recs (Num limit) excl = Ok (recs ++ pop)
    /\ (pop = []
        \/ (Z.of_nat (List.length recs) < limit
            /\ getPopularRecommendationsHelper d
                 (Num (limit - Z.of_nat (List.length recs))) excl
                 (map out_id recs) = Ok pop))
    /\ tier_ok d (with_exclude (map out_id recs) excl)
               (limit - Z.of_nat (List.length recs)) pop.
Proof.
  intros Hfit. unfold popularTier, len, js_lt, js_sub.
  destruct (Z.ltb_spec (Z.of_nat (List.length recs)) limit) as [Hlt|Hge].
  - destruct (@popular_spec d (limit - Z.of_nat (List.length recs)) excl (map out_id recs)
                Hfit) as (pop & Hp & Hok).
    rewrite Hp. simpl. exists pop. repeat split; try apply Hok. right. now split.
  - exists []. rewrite app_nil_r. split; [reflexivity|]. split; [now left|].
    apply tier_ok_nil.
Qed.

Lemma validate_limit_ok limit : 1 <= limit <= 50 -> validate_limit (Num limit) = Ok tt.
Proof.
  intros H. unfold validate_limit, throw_if, js_gt, js_lt.
  destruct (Z.ltb_spec limit 1); [lia|]. destruct (Z.ltb_spec 50 limit); [lia|].
  reflexivity.
Qed.

Lemma validate_limit_rejects limit :
  limit < 1 \/ 50 < limit ->
  validate_limit (Num limit) = Err (ApiError 400 "Limit must be between 1 and 50").
Proof.
  intros H. unfold validate_limit, throw_if, js_gt, js_lt.
  destruct (Z.ltb_spec limit 1); [reflexivity|].
  destruct (Z.ltb_spec 50 limit); [reflexivity | lia].
Qed.

Lemma slice0_all {A} (l : list A) z :
  Z.of_nat (List.length l) <= z -> slice0 l (Num z) = l.
Proof.
  intros H. simpl. destruct (Z.leb_spec 0 z); [|lia].
  apply firstn_all2. lia.
Qed.

(** The user endpoint on valid input, step by step. *)
Lemma getUserRecommendations_run d userIdParam limitQ excludeQ uid limit excl :
  idSchema userIdParam = Ok uid ->
  recommendationQuerySchema limitQ excludeQ = Ok (Num limit, excl) ->
  1 <= limit <= 50 ->
  findUser d uid <> None ->
  exclude_fits excl = true ->
  let userOrders := completedOrderItems d uid in
  exists collab cat pop,
    getUserRecommendations d userIdParam limitQ excludeQ
    = Ok (mkRecs (collab ++ cat ++ pop)
                 (if (0 <? List.length userOrders)%nat then "hybrid" else "popular"))
    /\ (userOrders <> [] ->
        getCollaborativeRecommendations d uid (Num limit) excl = Ok collab)
    /\ (userOrders = [] -> collab = [] /\ cat = [])
    /\ tier_ok d (with_exclude (purchasedIds userOrders) excl) limit collab
    /\ (cat = []
        \/ (Z.of_nat (List.length collab) < limit
            /\ getCategoryBasedRecommendations d userOrders
                 (Num (limit - Z.of_nat (List.length collab))) excl
                 (map out_id collab) = Ok cat))
    /\ tier_ok d (with_exclude (map out_id collab) excl)
               (limit - Z.of_nat (List.length collab)) cat
    /\ (pop = []
        \/ (Z.of_nat (List.length (collab ++ cat)) < limit
            /\ getPopularRecommendationsHelper d
                 (Num (limit - Z.of_nat (List.length (collab ++ cat)))) excl
                 (map out_id (collab ++ cat)) = Ok pop))
    /\ tier_ok d (with_exclude (map out_id (collab ++ cat)) excl)
               (limit - Z.of_nat (List.length (collab ++ cat))) pop
    /\ (furniture_key d -> NoDup (map out_id (collab ++ cat ++ pop)))
    /\ Z.of_nat (List.length (collab ++ cat ++ pop)) <= limit.
Proof.
  intros Hid Hq Hl Hu Hfit userOrders.
  destruct (@historyTiers_spec d uid limit excl Hfit (proj1 Hl))
    as (collab & cat & Hh & Hc & Hc0 & Hcok & Hcat & Hcatok).
  fold userOrders in Hh, Hc, Hc0, Hcok, Hcat.
  destruct (@popularTier_spec d (collab ++ cat) limit excl Hfit) as (pop & Hp & Hpop & Hpok).
  assert (Hlc : Z.of_nat (List.length collab) <= limit)
    by (apply Hcok; lia).
  destruct (@tier_append d excl limit collab cat) as [Hnd1 Hlen1];
    [apply Hcok | assumption | assumption |].
  destruct (@tier_append d excl limit (collab ++ cat) pop) as [Hnd2 Hlen2];
    [assumption | assumption | assumption |].
  rewrite <- app_assoc in Hnd2, Hlen2.
  exists collab, cat, pop.
  split.
  - unfold getUserRecommendations. rewrite Hid, Hq. cbn [rbind].
    rewrite (validate_limit_ok Hl). cbn [rbind].
    destruct (findUser d uid) eqn:Eu; [|congruence]. cbn [is_none throw_if rbind].
    fold userOrders. rewrite Hh. cbn [rbind]. rewrite Hp. cbn [rbind].
    rewrite <- app_assoc. rewrite slice0_all by assumption. reflexivity.
  - repeat split; try assumption; try apply Hcok; try apply Hcatok; try apply Hpok.
    + now apply Hc0.
    + destruct Hcat as [->|[Hlt Hcat]]; [reflexivity|].
      specialize (Hc0 H) as ->.
      unfold getCategoryBasedRecommendations in Hcat. rewrite H in Hcat.
      simpl in Hcat. now injection Hcat as <-.
Qed.

(** An [excludeId] outside the INTEGER range: the first tier that queries
    the store fails, and so does the request. *)
Lemma getUserRecommendations_refused d userIdParam limitQ excludeQ uid limit excl :
  idSchema userIdParam = Ok uid ->
  recommendationQuerySchema limitQ excludeQ = Ok (Num limit, excl) ->
  1 <= limit <= 50 ->
  findUser d uid <> None ->
  exclude_fits excl = false ->
  getUserRecommendations d userIdParam limitQ excludeQ = Err outOfRange.
Proof.
  intros Hid Hq Hl Hu Hfit.
  unfold getUserRecommendations. rewrite Hid, Hq. cbn [rbind].
  rewrite (validate_limit_ok Hl). cbn [rbind].
  destruct (findUser d uid) eqn:Eu; [|congruence]. cbn [is_none throw_if rbind].
  unfold historyTiers.
  destruct (completedOrderItems d uid) as [|o os] eqn:E.
  - cbn [List.length Nat.ltb Nat.leb rbind]. unfold popularTier, len, js_lt.
    cbn [List.length Z.of_nat].
    destruct (Z.ltb_spec 0 limit) as [_|]; [|lia].
    unfold getPopularRecommendationsHelper.
    match goal with |- context [findManyFurniture d ?w ?o (js_sub (Num limit) (Num 0))] =>
      destruct (findMany_total d w o (limit - 0)) as [rows Hrows];
      change (js_sub (Num limit) (Num 0)) with (Num (limit - 0)); rewrite Hrows
    end.
    rewrite carrying_refused by exact Hfit. reflexivity.
  - change (0 <? List.length (o :: os))%nat with true. cbv iota.
    unfold getCollaborativeRecommendations. rewrite E.
    change (List.length (o :: os) =? 0)%nat with false. cbv iota.
    match goal with |- context [findManyFurniture d ?w ?o (Num limit)] =>
      destruct (findMany_total d w o limit) as [rows Hrows]; rewrite Hrows
    end.
    rewrite carrying_refused by exact Hfit. reflexivity.
Qed.

(** ** The user endpoint *)

Lemma shop_furniture_key : furniture_key shop.
Proof.
  unfold furniture_key. simpl.
  repeat constructor; simpl; intuition discriminate.
Qed.

Lemma shop_furniture_ids_positive : furniture_ids_positive shop.
Proof. unfold furniture_ids_positive. simpl. repeat constructor. Qed.

(** C2 (as amended): for a valid limit and an existing user with at least one
    purchase in a COMPLETED order, the user endpoint answers [hybrid] with the
    concatenation of the collaborative, category-based and popularity tiers;
    the list has at most [limit] items and no furniture id twice, and no item
    of the collaborative tier is one the user has purchased.  The endpoint
    answers whenever [excludeId] is absent, falsy or within the INTEGER
    range; with any other [excludeId] the first query fails and the request
    ends in 500 with nothing returned. *)
Theorem C2_hybrid_bounded_distinct
    d userIdParam limitQ excludeQ uid limit excl :
  furniture_key d ->
  idSchema userIdParam = Ok uid ->
  recommendationQuerySchema limitQ excludeQ = Ok (Num limit, excl) ->
  1 <= limit <= 50 ->
  findUser d uid <> None ->
  completedOrderItems d uid <> [] ->
  (exclude_fits excl = true ->
   exists collab cat pop,
     getUserRecommendations d userIdParam limitQ excludeQ
     = Ok (mkRecs (collab ++ cat ++ pop) "hybrid")
     /\ getCollaborativeRecommendations d uid (Num limit) excl = Ok collab
     /\ (cat = []
         \/ getCategoryBasedRecommendations d (completedOrderItems d uid)
              (Num (limit - Z.of_nat (List.length collab))) excl
              (map out_id collab) = Ok cat)
     /\ (pop = []
         \/ getPopularRecommendationsHelper d
              (Num (limit - Z.of_nat (List.length (collab ++ cat)))) excl
              (map out_id (collab ++ cat)) = Ok pop)
     /\ Z.of_nat (List.length (collab ++ cat ++ pop)) <= limit
     /\ NoDup (map out_id (collab ++ cat ++ pop))
     /\ forall x, In x collab ->
                  ~ In (out_id x) (purchasedIds (completedOrderItems d uid)))
  /\ (exclude_fits excl = false ->
      exists e,
        getUserRecommendations d userIdParam limitQ excludeQ = Err e
        /\ http_status e = 500).
Proof.
  intros Hk Hid Hq Hl Hu Hp. split.
  2:{ intros Hfit. exists outOfRange. split; [|reflexivity].
      eapply getUserRecommendations_refused; eassumption. }
  intros Hfit.
  destruct (@getUserRecommendations_run d userIdParam limitQ excludeQ uid limit excl
              Hid Hq Hl Hu Hfit)
    as (collab & cat & pop & Hrun & Hc & _ & Hcok & Hcat & _ & Hpop & _ & Hnd & Hlen).
  exists collab, cat, pop.
  assert (Hnz : (0 <? List.length (completedOrderItems d uid))%nat = true).
  { destruct (completedOrderItems d uid); [congruence | reflexivity]. }
  rewrite Hnz in Hrun.
  repeat split; auto.
  - destruct Hcat as [->|[_ H]]; auto.
  - destruct Hpop as [->|[_ H]]; auto.
  - intros x Hx Hin. destruct Hcok as (Hall & _).
    rewrite Forall_forall in Hall. destruct (Hall x Hx) as (Hnot & _).
    apply Hnot. apply with_exclude_In. now left.
Qed.

Lemma C2_hybrid_bounded_distinct_witness :
  exists collab cat pop,
    getUserRecommendations shop "1" (QStr "5") (QStr "3")
    = Ok (mkRecs (collab ++ cat ++ pop) "hybrid")
    /\ getCollaborativeRecommendations shop 1 (Num 5) (Some (Num 3)) = Ok collab
    /\ (cat = []
        \/ getCategoryBasedRecommendations shop (completedOrderItems shop 1)
             (Num (5 - Z.of_nat (List.length collab))) (Some (Num 3))
             (map out_id collab) = Ok cat)
    /\ (pop = []
        \/ getPopularRecommendationsHelper shop
             (Num (5 - Z.of_nat (List.length (collab ++ cat)))) (Some (Num 3))
             (map out_id (collab ++ cat)) = Ok pop)
    /\ Z.of_nat (List.length (collab ++ cat ++ pop)) <= 5
    /\ NoDup (map out_id (collab ++ cat ++ pop))
    /\ forall x, In x collab ->
                 ~ In (out_id x) (purchasedIds (completedOrderItems shop 1)).
Proof.
  apply (@C2_hybrid_bounded_distinct shop "1" (QStr "5") (QStr "3") 1 5 (Some (Num 3))).
  - exact shop_furniture_key.
  - reflexivity.
  - reflexivity.
  - lia.
  - discriminate.
  - discriminate.
  - reflexivity.
Defined.

(** An [excludeId] beyond the INTEGER range on the sample store: the user
    endpoint fails for a user with purchases and for one without, and the
    popularity and category endpoints fail as well. *)
Example excludeId_out_of_range :
  exists e,
    http_status e = 500
    /\ getUserRecommendations shop "1" (QStr "2") (QStr "99999999999") = Err e
    /\ getUserRecommendations shop "2" (QStr "2") (QStr "99999999999") = Err e
    /\ getPopularItems shop (QStr "2") (QStr "99999999999") = Err e
    /\ getCategoryRecommendations shop "1" (QStr "2") (QStr "99999999999") = Err e.
Proof. exists outOfRange. repeat split; vm_compute; reflexivity. Qed.

(** C2 (as stated) fails: with limit 2, user 1 of the sample store gets item 1,
    which that user has purchased, from the category-based tier; the
    popularity tier contributes nothing. *)
Lemma C2_category_tier_returns_purchased :
  exists collab cat x,
    getUserRecommendations shop "1" (QStr "2") QAbsent
    = Ok (mkRecs (collab ++ cat) "hybrid")
    /\ getCollaborativeRecommendations shop 1 (Num 2) None = Ok collab
    /\ getCategoryBasedRecommendations shop (completedOrderItems shop 1)
         (Num (2 - Z.of_nat (List.length collab))) None (map out_id collab) = Ok cat
    /\ popularTier shop (collab ++ cat) (Num 2) None = Ok (collab ++ cat)
    /\ In x cat
    /\ In (out_id x) (purchasedIds (completedOrderItems shop 1)).
Proof.
  exists [withRatings (include_relations shop chair2)],
         [withRatings (include_relations shop chair1)],
         (withRatings (include_relations shop chair1)).
  split; [vm_compute; reflexivity|].
  split; [vm_compute; reflexivity|].
  split; [vm_compute; reflexivity|].
  split; [vm_compute; reflexivity|].
  split; [left; reflexivity|].
  vm_compute. left. reflexivity.
Qed.

(** C7: for a valid limit and an existing user with no order item in a
    COMPLETED order, every answer of the user endpoint has the label
    [popular] and no returned item has the excluded id.  The endpoint answers
    whenever [excludeId] is absent, falsy or within the INTEGER range; with
    any other [excludeId] the popularity query fails and the request ends in
    500 with nothing returned. *)
Theorem C7_no_history_popular
    d userIdParam limitQ excludeQ uid limit excl :
  furniture_ids_positive d ->
  idSchema userIdParam = Ok uid ->
  recommendationQuerySchema limitQ excludeQ = Ok (Num limit, excl) ->
  1 <= limit <= 50 ->
  findUser d uid <> None ->
  completedOrderItems d uid = [] ->
  (forall resp,
     getUserRecommendations d userIdParam limitQ excludeQ = Ok resp ->
     algorithm resp = "popular"
     /\ forall e, excl = Some (Num e) ->
                  ~ In e (map out_id (recommendations resp)))
  /\ (exclude_fits excl = true ->
      exists resp, getUserRecommendations d userIdParam limitQ excludeQ = Ok resp)
  /\ (exclude_fits excl = false ->
      exists e,
        getUserRecommendations d userIdParam limitQ excludeQ = Err e
        /\ http_status e = 500).
Proof.
  intros Hpos Hid Hq Hl Hu Hp.
  destruct (exclude_fits excl) eqn:Hfit.
  2:{ pose proof (@getUserRecommendations_refused d userIdParam limitQ excludeQ uid limit
                    excl Hid Hq Hl Hu Hfit) as Hr.
      rewrite Hr. split; [intros resp H; discriminate|].
      split; [discriminate|]. intros _. exists outOfRange. now split. }
  destruct (@getUserRecommendations_run d userIdParam limitQ excludeQ uid limit excl
              Hid Hq Hl Hu Hfit)
    as (collab & cat & pop & Hrun & _ & H0 & _ & _ & _ & _ & Hpok & _).
  destruct (H0 Hp) as [-> ->]. rewrite Hp in Hrun. simpl in Hrun.
  rewrite Hrun. split; [|split; [eauto | discriminate]].
  intros resp Hresp. injection Hresp as <-. split; [reflexivity|].
  simpl. intros e He Hin. apply in_map_iff in Hin as (x & Ex & Hx).
  destruct Hpok as (Hall & _). rewrite Forall_forall in Hall.
  destruct (Hall x Hx) as (Hnot & Hstore & _).
  destruct (Z.eq_dec e 0) as [->|Hne].
  - unfold furniture_ids_positive in Hpos. rewrite Forall_forall in Hpos.
    specialize (Hpos _ Hstore). unfold out_id in Ex. lia.
  - apply Hnot. apply with_exclude_In. right. subst. split; [reflexivity | assumption].
Qed.

Lemma C7_no_history_popular_witness :
  exists resp,
    getUserRecommendations shop "2" (QStr "2") (QStr "3") = Ok resp
    /\ algorithm resp = "popular"
    /\ forall e, Some (Num 3) = Some (Num e) ->
                 ~ In e (map out_id (recommendations resp)).
Proof.
  destruct (@C7_no_history_popular shop "2" (QStr "2") (QStr "3") 2 2 (Some (Num 3)))
    as (Hall & Hok & _).
  - exact shop_furniture_ids_positive.
  - reflexivity.
  - reflexivity.
  - lia.
  - discriminate.
  - reflexivity.
  - destruct (Hok eq_refl) as [resp Hresp]. exists resp.
    split; [exact Hresp | exact (Hall resp Hresp)].
Defined.

(** ** The similar-items endpoint *)

(** What the where clause of the similar-items query gives, whatever the
    database's price comparison is: the endpoint answers [content-based],
    every returned item has the reference item's category, none is the
    reference item, and each one has passed the price filter with the bounds
    [price - price * 0.3] and [price + price * 0.3] of the reference price. *)
Lemma similar_items_selected
    priceBetween d furnitureIdParam limitQ excludeQ furnitureId limit excl reference :
  parseInt furnitureIdParam = Num furnitureId ->
  recommendationQuerySchema limitQ excludeQ = Ok (Num limit, excl) ->
  1 <= limit <= 50 ->
  findFurniture d furnitureId = Some reference ->
  exists resp,
    getSimilarRecommendations priceBetween d furnitureIdParam limitQ excludeQ = Ok resp
    /\ algorithm resp = "content-based"
    /\ forall x, In x (recommendations resp) ->
         priceBetween (fst (priceBand (Furniture.price reference)))
                      (snd (priceBand (Furniture.price reference))) (out_item x) = true
         /\ Furniture.categoryId (out_item x) = Furniture.categoryId reference
         /\ out_id x <> furnitureId.
Proof.
  intros Hid Hq Hl Href.
  unfold getSimilarRecommendations. rewrite Hid, Hq. cbn [rbind].
  rewrite (validate_limit_ok Hl). cbn [rbind]. rewrite Href.
  destruct (priceBand (Furniture.price reference)) as [minPrice maxPrice] eqn:Eb.
  match goal with |- context [findManyFurniture d ?w ?o (Num limit)] =>
    destruct (findMany_total d w o limit) as [rows Hrows]; rewrite Hrows;
    pose proof (findMany_rows _ _ _ _ Hrows) as Hall
  end.
  cbn [rbind catch_zod]. eexists. split; [reflexivity|]. split; [reflexivity|].
  cbn [recommendations fst snd]. intros x Hx.
  apply in_map_iff in Hx as (r & <- & Hr).
  rewrite Forall_forall in Hall. destruct (Hall r Hr) as (f & _ & Hw & ->).
  apply andb_true_iff in Hw as [Hw Hband].
  apply andb_true_iff in Hw as [Hcat Hne].
  apply Z.eqb_eq in Hcat. apply negb_true_iff, Z.eqb_neq in Hne.
  unfold out_id. cbn. auto.
Qed.

Example similar_to_chair1 :
  getSimilarRecommendations between_binary64 shop "1" QAbsent QAbsent
  = Ok (mkRecs [withRatings (include_relations shop chair2)] "content-based")
  /\ priceBand 100%float = (70%float, 130%float).
Proof. split; vm_compute; reflexivity. Qed.

(** The ends of the band are where the binary64 comparison and the
    database part: 1.82 is 1.3 times 1.4, but the upper bound computed for
    the binary64 value of 1.4 is 1.8199999999999998, below that of 1.82
    (the literals are the binary64 values of 1.4, 0.98, 1.8199999999999998
    and 1.82). *)
Example band_of_1_4 :
  priceBand 0x1.6666666666666p+0%float
  = (0x1.f5c28f5c28f5cp-1%float, 0x1.d1eb851eb851ep+0%float)
  /\ PrimFloat.leb 0x1.d1eb851eb851fp+0%float
                   (snd (priceBand 0x1.6666666666666p+0%float)) = false.
Proof. split; vm_compute; reflexivity. Qed.

(** ** The limit guard *)

(** An integer limit outside [1, 50] is refused by each endpoint whatever
    the store holds; an absent limit is 10. *)
Lemma limit_guard_on_integers d idParam limitQ excludeQ id limit excl :
  parseInt idParam = Num id ->
  recommendationQuerySchema limitQ excludeQ = Ok (Num limit, excl) ->
  limit < 1 \/ 50 < limit ->
  let refused {A} : result A := Err (ApiError 400 "Limit must be between 1 and 50") in
  getUserRecommendations d idParam limitQ excludeQ = refused
  /\ getPopularItems d limitQ excludeQ = refused
  /\ getCategoryRecommendations d idParam limitQ excludeQ = refused
  /\ (forall priceBetween,
        getSimilarRecommendations priceBetween d idParam limitQ excludeQ = refused).
Proof.
  intros Hid Hq Hl.
  unfold getUserRecommendations, getPopularItems, getCategoryRecommendations,
    getSimilarRecommendations, idSchema.
  rewrite Hid, Hq. cbn [rbind]. rewrite (validate_limit_rejects Hl).
  repeat split.
Qed.

Lemma limit_defaults_to_10 excludeQ :
  excludeQ <> QMulti ->
  exists excl,
    recommendationQuerySchema QAbsent excludeQ = Ok (Num 10, excl)
    /\ validate_limit (Num 10) = Ok tt.
Proof.
  destruct excludeQ; [| |congruence]; intros _; eexists; split; reflexivity.
Qed.

(** C8 (what the code does on a limit that is not a number): [parseInt]
    gives [NaN], both comparisons of the guard are false, and the handlers go
    on to query the store: a user without purchases gets an empty [popular]
    list, and a missing user, category or furniture item is reported as
    NotFound.  An empty [limit=] is taken as absent. *)
Theorem C8_unparsable_limit_passes_guard :
  recommendationQuerySchema (QStr "abc") QAbsent = Ok (NaN, None)
  /\ validate_limit NaN = Ok tt
  /\ recommendationQuerySchema (QStr "") QAbsent = Ok (Num 10, None)
  /\ getUserRecommendations shop "2" (QStr "abc") QAbsent = Ok (mkRecs [] "popular")
  /\ getUserRecommendations shop "9" (QStr "abc") QAbsent
     = Err (ApiError 404 "User not found")
  /\ getCategoryRecommendations shop "9" (QStr "abc") QAbsent
     = Err (ApiError 404 "Category not found")
  /\ (forall priceBetween,
        getSimilarRecommendations priceBetween shop "9" (QStr "abc") QAbsent
        = Err (ApiError 404 "Furniture not found")).
Proof. repeat split. Qed.

(** ** The rating aggregator in the responses *)

Lemma catch_zod_Ok {A} (r : result A) a : catch_zod r = Ok a -> r = Ok a.
Proof. destruct r as [|[]]; simpl; congruence. Qed.

Lemma Forall_slice0 {A} (P : A -> Prop) l e : Forall P l -> Forall P (slice0 l e).
Proof.
  intros H. destruct (slice0_split l e) as [post E]. rewrite E in H.
  now apply Forall_app in H.
Qed.

Lemma findMany_served d where_ orderBy n rows :
  findManyFurniture d where_ orderBy n = Ok rows ->
  Forall (served d) (map withRatings rows)
  /\ Forall (served d) (map withRatingsPopular rows).
Proof.
  intros H. apply findMany_rows in H. rewrite Forall_forall in H.
  split; apply Forall_forall; intros x Hx; apply in_map_iff in Hx as (r & <- & Hr);
    destruct (H r Hr) as (f & _ & _ & ->); repeat split.
Qed.

Lemma collaborative_served d uid n excl r :
  getCollaborativeRecommendations d uid n excl = Ok r -> Forall (served d) r.
Proof.
  unfold getCollaborativeRecommendations.
  destruct (List.length (completedOrderItems d uid) =? 0)%nat.
  - intros H. injection H as <-. constructor.
  - intros H. apply rbind_Ok in H as (rows & H & E). injection E as <-.
    apply carrying_Ok in H as [H _]. eapply findMany_served; eassumption.
Qed.

Lemma categoryBased_served d userOrders n excl excludeIds r :
  getCategoryBasedRecommendations d userOrders n excl excludeIds = Ok r ->
  Forall (served d) r.
Proof.
  unfold getCategoryBasedRecommendations.
  destruct (List.length (preferredCategories userOrders) =? 0)%nat.
  - intros H. injection H as <-. constructor.
  - intros H. apply rbind_Ok in H as (rows & H & E). injection E as <-.
    apply carrying_Ok in H as [H _]. eapply findMany_served; eassumption.
Qed.

Lemma popular_served d n excl excludeIds r :
  getPopularRecommendationsHelper d n excl excludeIds = Ok r -> Forall (served d) r.
Proof.
  unfold getPopularRecommendationsHelper.
  intros H. apply rbind_Ok in H as (rows & H & E). injection E as <-.
  apply carrying_Ok in H as [H _]. eapply findMany_served; eassumption.
Qed.

Lemma historyTiers_served d uid userOrders n excl r :
  historyTiers d uid userOrders n excl = Ok r -> Forall (served d) r.
Proof.
  unfold historyTiers. destruct (0 <? List.length userOrders)%nat.
  - intros H. apply rbind_Ok in H as (collab & Hc & H).
    apply collaborative_served in Hc.
    destruct (js_lt (len collab) n).
    + apply rbind_Ok in H as (cat & Hcat & E). injection E as <-.
      apply categoryBased_served in Hcat. apply Forall_app. now split.
    + now injection H as <-.
  - intros H. injection H as <-. constructor.
Qed.

Lemma popularTier_served d recs n excl r :
  Forall (served d) recs ->
  popularTier d recs n excl = Ok r -> Forall (served d) r.
Proof.
  unfold popularTier. intros Hrecs. destruct (js_lt (len recs) n).
  - intros H. apply rbind_Ok in H as (pop & Hp & E). injection E as <-.
    apply popular_served in Hp. apply Forall_app. now split.
  - intros H. now injection H as <-.
Qed.

Lemma getUserRecommendations_served d userIdParam limitQ excludeQ resp :
  getUserRecommendations d userIdParam limitQ excludeQ = Ok resp ->
  Forall (served d) (recommendations resp).
Proof.
  unfold getUserRecommendations. intros H. apply catch_zod_Ok in H.
  apply rbind_Ok in H as (uid & _ & H).
  apply rbind_Ok in H as ([limit excl] & _ & H).
  apply rbind_Ok in H as (_ & _ & H).
  apply rbind_Ok in H as (_ & _ & H).
  apply rbind_Ok in H as (r1 & H1 & H).
  apply rbind_Ok in H as (r2 & H2 & H).
  injection H as <-. cbn [recommendations].
  apply Forall_slice0. eapply popularTier_served; [|eassumption].
  eapply historyTiers_served; eassumption.
Qed.

Lemma getPopularItems_served d limitQ excludeQ resp :
  getPopularItems d limitQ excludeQ = Ok resp ->
  Forall (served d) (recommendations resp).
Proof.
  unfold getPopularItems. intros H. apply catch_zod_Ok in H.
  apply rbind_Ok in H as ([limit excl] & _ & H).
  apply rbind_Ok in H as (_ & _ & H).
  apply rbind_Ok in H as (r & Hr & H).
  injection H as <-. eapply popular_served; eassumption.
Qed.

Lemma getCategoryRecommendations_served d categoryIdParam limitQ excludeQ resp :
  getCategoryRecommendations d categoryIdParam limitQ excludeQ = Ok resp ->
  Forall (served d) (recommendations resp).
Proof.
  unfold getCategoryRecommendations. intros H. apply catch_zod_Ok in H.
  apply rbind_Ok in H as (cid & _ & H).
  apply rbind_Ok in H as ([limit excl] & _ & H).
  apply rbind_Ok in H as (_ & _ & H).
  apply rbind_Ok in H as (_ & _ & H).
  apply rbind_Ok in H as (rows & Hr & H).
  apply carrying_Ok in Hr as [Hr _].
  injection H as <-. eapply findMany_served; eassumption.
Qed.

Lemma getSimilarRecommendations_served priceBetween d furnitureIdParam limitQ excludeQ resp :
  getSimilarRecommendations priceBetween d furnitureIdParam limitQ excludeQ = Ok resp ->
  Forall (served d) (recommendations resp).
Proof.
  unfold getSimilarRecommendations. intros H. apply catch_zod_Ok in H.
  destruct (parseInt furnitureIdParam) as [|fid]; [discriminate|].
  apply rbind_Ok in H as ([limit excl] & _ & H).
  apply rbind_Ok in H as (_ & _ & H).
  destruct (findFurniture d fid) as [ref|]; [|discriminate].
  destruct (priceBand (Furniture.price ref)) as [minPrice maxPrice].
  apply rbind_Ok in H as (rows & Hr & H).
  injection H as <-. eapply findMany_served; eassumption.
Qed.

Lemma getRecommendations_served d idParam r :
  getRecommendations d idParam = Ok r -> Forall (served d) r.
Proof.
  unfold getRecommendations. destruct (idSchema idParam) as [id|[]]; try discriminate.
  destruct (findFurniture d id) as [current|]; [|discriminate].
  intros H. apply rbind_Ok in H as (rows & Hr & H).
  injection H as <-. eapply findMany_served; eassumption.
Qed.

Lemma findFurniture_id d id f : findFurniture d id = Some f -> Furniture.id f = id.
Proof.
  unfold findFurniture. intros H. apply find_some in H as [_ H]. now apply Z.eqb_eq.
Qed.

Lemma getFurniture_detail d id x :
  getFurniture d id = Ok x ->
  aggregated d x /\ out_reviews x = Some (reviewsNewestFirst d id).
Proof.
  unfold getFurniture. destruct (findFurniture d id) as [f|] eqn:E; [|discriminate].
  intros H. injection H as <-. apply findFurniture_id in E.
  assert (P : Permutation (reviewsNewestFirst d id) (ratingsOf d id)).
  { unfold reviewsNewestFirst, ratingsOf. apply Permutation_map, sort_by_perm. }
  unfold aggregated, withRatingDetail, out_id. cbn. rewrite E.
  rewrite (average_perm P), (Permutation_length P). auto.
Qed.

(** C6 (as amended): in the furniture list, the recommendation responses and
    the detail response, [averageRating] is the mean of the ratings of the
    item's reviews (their sum divided by their number) and is null exactly
    when the item has no review, and [reviewCount] is the number of its
    reviews; the list mapping and every recommendation response strip the
    per-review collection, while the detail response of GET /furnitures/:id
    keeps it. *)
Theorem C6_rating_aggregates (d : DB) :
  (forall ratings,
      (average ratings = None <-> ratings = [])
      /\ (ratings <> [] ->
          average ratings
          = Some (PrimFloat.div (num_of_Z (fold_left Z.add ratings 0))
                                (num_of_Z (Z.of_nat (List.length ratings))))))
  /\ (forall f, served d (withRatings (include_relations d f)))
  /\ (forall userIdParam limitQ excludeQ resp,
         getUserRecommendations d userIdParam limitQ excludeQ = Ok resp ->
         Forall (served d) (recommendations resp))
  /\ (forall limitQ excludeQ resp,
         getPopularItems d limitQ excludeQ = Ok resp ->
         Forall (served d) (recommendations resp))
  /\ (forall categoryIdParam limitQ excludeQ resp,
         getCategoryRecommendations d categoryIdParam limitQ excludeQ = Ok resp ->
         Forall (served d) (recommendations resp))
  /\ (forall priceBetween furnitureIdParam limitQ excludeQ resp,
         getSimilarRecommendations priceBetween d furnitureIdParam limitQ excludeQ = Ok resp ->
         Forall (served d) (recommendations resp))
  /\ (forall idParam r, getRecommendations d idParam = Ok r -> Forall (served d) r)
  /\ (forall id x,
         getFurniture d id = Ok x ->
         aggregated d x /\ out_reviews x = Some (reviewsNewestFirst d id)).
Proof.
  split.
  { intros ratings. split; [apply average_None_iff|].
    intros Hne. unfold average, sum_ratings. destruct ratings; [congruence | reflexivity]. }
  split; [intros f; repeat split|].
  split; [intros *; apply getUserRecommendations_served|].
  split; [intros *; apply getPopularItems_served|].
  split; [intros *; apply getCategoryRecommendations_served|].
  split; [intros *; apply getSimilarRecommendations_served|].
  split; [intros *; apply getRecommendations_served|].
  intros *; apply getFurniture_detail.
Qed.

Lemma C6_rating_aggregates_witness :
  (exists resp,
      getCategoryRecommendations shop "1" QAbsent QAbsent = Ok resp
      /\ Forall (served shop) (recommendations resp)
      /\ map averageRating (recommendations resp) = [Some 4.5%float; None])
  /\ (exists x,
         getFurniture shop 1 = Ok x
         /\ aggregated shop x
         /\ out_reviews x = Some (reviewsNewestFirst shop 1)).
Proof.
  destruct (C6_rating_aggregates shop) as (_ & _ & _ & _ & Hcat & _ & _ & Hdetail).
  split.
  - eexists. split; [reflexivity|]. split; [|reflexivity].
    apply (Hcat "1" QAbsent QAbsent). reflexivity.
  - eexists. split; [reflexivity|]. apply (Hdetail 1). reflexivity.
Defined.

(** C6 (as stated) fails: the detail response of item 1 of the sample store
    carries its reviews. *)
Lemma C6_detail_response_keeps_reviews :
  exists x,
    getFurniture shop 1 = Ok x
    /\ out_reviews x = Some [5; 4]
    /\ ~ served shop x.
Proof.
  eexists. split; [vm_compute; reflexivity|]. split; [reflexivity|].
  intros [_ H]. discriminate H.
Qed.

(** ** Statements: inversion and fault-free runs *)

Lemma bind_inv {A B} (m : M A) (f : A -> M B) w r w' :
  bind m f w = (r, w') ->
  (exists e, r = Err e /\ m w = (Err e, w'))
  \/ (exists a w1, m w = (Ok a, w1) /\ f a w1 = (r, w')).
Proof.
  unfold bind. destruct (m w) as [[a|e] w1]; intros H.
  - right. eauto.
  - left. injection H as <- <-. eauto.
Qed.

Lemma lift_inv {A} (r0 : result A) w r w' : lift r0 w = (r, w') -> r = r0 /\ w' = w.
Proof. unfold lift. intros H. injection H as <- <-. auto. Qed.

Lemma throw_inv {A} e w (r : result A) w' : throw e w = (r, w') -> r = Err e /\ w' = w.
Proof. unfold throw. intros H. injection H as <- <-. auto. Qed.

Lemma ret_inv {A} (a : A) w r w' : ret a w = (r, w') -> r = Ok a /\ w' = w.
Proof. unfold ret. intros H. injection H as <- <-. auto. Qed.

Lemma next_fault_db w : db (snd (next_fault w)) = db w.
Proof. unfold next_fault. destruct (faults w); reflexivity. Qed.

Lemma query_inv {A} (q : DB -> A) w r w' :
  query q w = (r, w') ->
  db w' = db w /\ (r = Ok (q (db w)) \/ r = Err PrismaUnavailable).
Proof.
  unfold query. pose proof (next_fault_db w) as Hd.
  destruct (next_fault w) as [[|] w1]; simpl in Hd; intros H; injection H as <- <-;
    rewrite Hd; auto.
Qed.

Lemma query_in_inv {A} zs (q : DB -> A) w r w' :
  query_in zs q w = (r, w') ->
  db w' = db w
  /\ ((r = Ok (q (db w)) /\ forallb int4 zs = true) \/ exists e, r = Err e).
Proof.
  unfold query_in. destruct (forallb int4 zs).
  - intros H. apply query_inv in H as [Hd [->| ->]]; eauto.
  - intros H. apply throw_inv in H as [-> ->]. eauto.
Qed.

Lemma exec_inv {A} (stmt : DB -> result (A * DB)) w r w' :
  exec stmt w = (r, w') ->
  (exists a, r = Ok a /\ stmt (db w) = Ok (a, db w'))
  \/ (exists e, r = Err e /\ db w' = db w).
Proof.
  unfold exec. pose proof (next_fault_db w) as Hd.
  destruct (next_fault w) as [[|] w1]; simpl in Hd.
  - intros H. injection H as <- <-. right. eauto.
  - rewrite Hd. destruct (stmt (db w)) as [[a d']|e]; intros H; injection H as <- <-.
    + left. eauto.
    + right. eauto.
Qed.

Lemma transaction_inv {A} (body : M A) w r w' :
  transaction body w = (r, w') ->
  (exists a w1, r = Ok a /\ body w = (Ok a, w1) /\ db w' = db w1)
  \/ (exists e, r = Err e /\ db w' = db w).
Proof.
  unfold transaction. destruct (body w) as [[a|e] w1].
  - pose proof (next_fault_db w1) as Hd.
    destruct (next_fault w1) as [[|] w2]; simpl in Hd; intros H; injection H as <- <-.
    + right. eauto.
    + left. eauto.
  - intros H. injection H as <- <-. right. eauto.
Qed.

Lemma query_healthy {A} (q : DB -> A) d :
  query q (mkWorld d []) = (Ok (q d), mkWorld d []).
Proof. reflexivity. Qed.

Lemma exec_healthy {A} (stmt : DB -> result (A * DB)) d :
  exec stmt (mkWorld d [])
  = match stmt d with
    | Ok (a, d') => (Ok a, mkWorld d' [])
    | Err e => (Err e, mkWorld d [])
    end.
Proof. unfold exec. simpl. destruct (stmt d) as [[a d']|e]; reflexivity. Qed.

(** ** Order status *)

Lemma findOrder_after_update d id o status :
  findOrder d id = Some o ->
  forall o' d', order_update_status id status d = Ok (o', d') ->
  findOrder d' id = Some o' /\ Order.status o' = status.
Proof.
  intros Hf o' d'. unfold order_update_status. rewrite Hf.
  intros H. injection H as <- <-. split; [|reflexivity].
  unfold findOrder in *. simpl.
  induction (orders d) as [|x l IH]; simpl in *; [discriminate|].
  destruct (Order.id x =? id) eqn:E; simpl.
  - rewrite E. now injection Hf as ->.
  - rewrite E. now apply IH.
Qed.

(** C4: on an existing order, a request to move a COMPLETED or CANCELLED
    order to another status is answered with BadRequest and leaves the store
    as it was (whatever statements fail, no run of such a request changes the
    store or succeeds); a request to move a PENDING order to COMPLETED or to
    CANCELLED succeeds and the stored status is the new one. *)
Theorem C4_status_transitions d idParam id o bodyStatus status :
  idSchema idParam = Ok id ->
  findOrder d id = Some o ->
  updateOrderStatusSchema bodyStatus = Ok status ->
  (Order.status o = COMPLETED \/ Order.status o = CANCELLED ->
   status <> Order.status o ->
   (exists message,
       updateOrderStatus idParam bodyStatus (mkWorld d [])
       = (Err (ApiError 400 message), mkWorld d []))
   /\ forall faults r w',
        updateOrderStatus idParam bodyStatus (mkWorld d faults) = (r, w') ->
        db w' = d /\ exists e, r = Err e)
  /\ (Order.status o = PENDING ->
      status = COMPLETED \/ status = CANCELLED ->
      exists o' d',
        updateOrderStatus idParam bodyStatus (mkWorld d []) = (Ok o', mkWorld d' [])
        /\ findOrder d' id = Some o'
        /\ Order.status o' = status).
Proof.
  intros Hid Hf Hs. split.
  - intros Hterminal Hne. split.
    + unfold updateOrderStatus. rewrite Hid, Hs. unfold bind, lift.
      rewrite query_healthy, Hf. unfold throw.
      destruct Hterminal as [E|E]; rewrite E in *; destruct status; try congruence;
        simpl; eauto.
    + intros faults r w' H. unfold updateOrderStatus in H. rewrite Hid, Hs in H.
      unfold bind at 1 2 in H. unfold lift in H.
      apply bind_inv in H as [(e & -> & H)|(a & w1 & H1 & H)].
      * apply query_inv in H as [Hd _]. eauto.
      * apply query_inv in H1 as [Hd [E|E]]; [|discriminate].
        injection E as ->. simpl in Hd. rewrite Hf in H.
        destruct Hterminal as [E|E]; rewrite E in *; destruct status; try congruence;
          simpl in H; apply throw_inv in H as [-> ->]; eauto.
  - intros Hpending Hnew.
    destruct (order_update_status id status d) as [[o' d']|e] eqn:Eu.
    + exists o', d'. split; [|eapply findOrder_after_update; eassumption].
      unfold updateOrderStatus. rewrite Hid, Hs. unfold bind, lift.
      rewrite query_healthy, Hf, Hpending. simpl.
      rewrite exec_healthy, Eu. reflexivity.
    + unfold order_update_status in Eu. rewrite Hf in Eu. discriminate.
Qed.

Lemma C4_status_transitions_witness :
  (exists o' d',
      updateOrderStatus "2" "COMPLETED" (mkWorld shop []) = (Ok o', mkWorld d' [])
      /\ findOrder d' 2 = Some o'
      /\ Order.status o' = COMPLETED)
  /\ (exists message,
         updateOrderStatus "1" "PENDING" (mkWorld shop [])
         = (Err (ApiError 400 message), mkWorld shop [])).
Proof.
  split.
  - destruct (@C4_status_transitions shop "2" 2 (Order.mk 2 (Some 2) 500%float PENDING)
                "COMPLETED" COMPLETED eq_refl eq_refl eq_refl) as [_ H].
    apply H; [reflexivity | left; reflexivity].
  - destruct (@C4_status_transitions shop "1" 1 (Order.mk 1 (Some 1) 600%float COMPLETED)
                "PENDING" PENDING eq_refl eq_refl eq_refl) as [H _].
    apply H; [left; reflexivity | discriminate].
Defined.

(** ** Reviews *)

Lemma createReviewSchema_Ok body v : createReviewSchema body = Ok v -> v = body.
Proof.
  unfold createReviewSchema.
  match goal with |- context [if ?c then _ else _] => destruct c end;
    intros H; [now injection H | discriminate].
Qed.

Lemma createReview_inv body now w r w' :
  createReview body now w = (r, w') ->
  let u := ReviewInput.userId body in
  let f := ReviewInput.furnitureId body in
  (exists e, r = Err e /\ db w' = db w)
  \/ (exists rev,
         r = Ok rev
         /\ createReviewSchema body = Ok body
         /\ findPurchase u f (db w) <> None
         /\ findReview u f (db w) = None
         /\ review_create body now (db w) = Ok (rev, db w')).
Proof.
  intros H u f. unfold createReview in H.
  apply bind_inv in H as [(e & -> & H)|(v & w0 & H0 & H)].
  { apply lift_inv in H as [_ ->]. left; eauto. }
  apply lift_inv in H0 as [Hv ->]. symmetry in Hv.
  pose proof (createReviewSchema_Ok _ Hv) as ->. fold u f in H.
  apply bind_inv in H as [(e & -> & H)|(user & w1 & H1 & H)].
  { apply query_inv in H as [Hd _]. left; eauto. }
  apply query_inv in H1 as [Hd1 [E|E]]; [|discriminate]. injection E as ->.
  destruct (findUser (db w) u) eqn:Eu; simpl in H.
  2: { apply throw_inv in H as [-> ->]. left. eauto. }
  apply bind_inv in H as [(e & -> & H)|(furniture & w2 & H2 & H)].
  { apply query_inv in H as [Hd _]. left. exists e. split; congruence. }
  apply query_inv in H2 as [Hd2 [E|E]]; [|discriminate]. injection E as ->.
  rewrite Hd1 in *. destruct (findFurniture (db w) f) eqn:Ef; simpl in H.
  2: { apply throw_inv in H as [-> ->]. left. eauto. }
  apply bind_inv in H as [(e & -> & H)|(purchase & w3 & H3 & H)].
  { apply query_inv in H as [Hd _]. left. exists e. split; congruence. }
  apply query_inv in H3 as [Hd3 [E|E]]; [|discriminate]. injection E as ->.
  rewrite Hd2 in *. destruct (findPurchase u f (db w)) eqn:Ep; simpl in H.
  2: { apply throw_inv in H as [-> ->]. left. eauto. }
  apply bind_inv in H as [(e & -> & H)|(existing & w4 & H4 & H)].
  { apply query_inv in H as [Hd _]. left. exists e. split; congruence. }
  apply query_inv in H4 as [Hd4 [E|E]]; [|discriminate]. injection E as ->.
  rewrite Hd3 in *. destruct (findReview u f (db w)) eqn:Er; simpl in H.
  { apply throw_inv in H as [-> ->]. left. eauto. }
  apply exec_inv in H as [(rev & -> & H)|(e & -> & H)].
  - right. exists rev. rewrite Hd4 in H. repeat split; auto. discriminate.
  - left. exists e. split; congruence.
Qed.

Lemma findReview_None_notin u f d :
  findReview u f d = None ->
  ~ In (u, f) (map (fun r => (Review.userId r, Review.furnitureId r)) (reviews d)).
Proof.
  unfold findReview. intros H Hin. apply in_map_iff in Hin as (r & E & Hr).
  apply (find_none _ _ H) in Hr. injection E as <- <-.
  now rewrite !Z.eqb_refl in Hr.
Qed.

Lemma review_create_spec body now d rev d' :
  review_create body now d = Ok (rev, d') ->
  reviews d' = reviews d ++ [rev]
  /\ Review.userId rev = ReviewInput.userId body
  /\ Review.furnitureId rev = ReviewInput.furnitureId body
  /\ Review.rating rev = ReviewInput.rating body
  /\ users d' = users d /\ furnitures d' = furnitures d
  /\ orders d' = orders d /\ orderItems d' = orderItems d.
Proof.
  unfold review_create.
  destruct (negb _); [discriminate|]. destruct (_ || _); [discriminate|].
  intros H. injection H as <- <-. repeat split.
Qed.

Lemma findReview_app u f d d' rev :
  reviews d' = reviews d ++ [rev] ->
  Review.userId rev = u -> Review.furnitureId rev = f ->
  findReview u f d' <> None.
Proof.
  intros E Hu Hf. unfold findReview. rewrite E.
  destruct (find _ (reviews d ++ [rev])) eqn:Ef; [discriminate|].
  assert (Hin : In rev (reviews d ++ [rev])) by (apply in_or_app; right; now left).
  apply (find_none _ _ Ef) in Hin. rewrite Hu, Hf, !Z.eqb_refl in Hin. discriminate.
Qed.

(** C9: a review is written only when the user has an order item of that
    furniture in a COMPLETED order and has no review of it yet; a request
    that fails writes nothing; the pairs (user, furniture) of the stored
    reviews stay distinct; once a review of a pair is stored, every further
    creation request for the pair fails.  With every statement executing, on
    an existing user and furniture item, the refusals are 403 (not
    purchased) and 400 (already reviewed), and a valid first request of a
    purchaser creates the review. *)
Theorem C9_review_gate body now w r w' :
  createReview body now w = (r, w') ->
  let u := ReviewInput.userId body in
  let f := ReviewInput.furnitureId body in
  (review_key (db w) -> review_key (db w'))
  /\ (forall e, r = Err e -> db w' = db w)
  /\ (findPurchase u f (db w) = None -> exists e, r = Err e)
  /\ (findReview u f (db w) <> None -> exists e, r = Err e)
  /\ (forall rev, r = Ok rev ->
        findPurchase u f (db w) <> None
        /\ findReview u f (db w) = None
        /\ reviews (db w') = reviews (db w) ++ [rev]
        /\ Review.userId rev = u /\ Review.furnitureId rev = f
        /\ forall body2 now2 w0 r2 w2,
             ReviewInput.userId body2 = u ->
             ReviewInput.furnitureId body2 = f ->
             db w0 = db w' ->
             createReview body2 now2 w0 = (r2, w2) ->
             (exists e, r2 = Err e) /\ db w2 = db w0)
  /\ (faults w = [] ->
      createReviewSchema body = Ok body ->
      findUser (db w) u <> None ->
      findFurniture (db w) f <> None ->
      (findPurchase u f (db w) = None ->
       r = Err (ApiError 403 "You can only review furniture items you have purchased"))
      /\ (findPurchase u f (db w) <> None -> findReview u f (db w) <> None ->
          r = Err (ApiError 400 "You have already reviewed this furniture item"))
      /\ (findPurchase u f (db w) <> None -> findReview u f (db w) = None ->
          exists rev, r = Ok rev)).
Proof.
  intros H u f. pose proof (createReview_inv _ _ _ H) as Hinv. fold u f in Hinv.
  split.
  { intros Hk. destruct Hinv as [(e & _ & ->)|(rev & _ & _ & _ & Hnone & Hc)]; [assumption|].
    apply review_create_spec in Hc as (E & Hu & Hf & _).
    unfold review_key. rewrite E, map_app. simpl.
    apply NoDup_app; [assumption | repeat constructor; simpl; tauto |].
    intros a Ha [<-|[]]. rewrite Hu, Hf in Ha.
    now apply (findReview_None_notin _ _ _ Hnone). }
  split.
  { intros e ->. destruct Hinv as [(e' & _ & Hd)|(rev & E & _)]; [assumption | discriminate]. }
  split.
  { intros Hp. destruct Hinv as [(e & -> & _)|(rev & _ & _ & Hp' & _)]; [eauto | congruence]. }
  split.
  { intros Hr. destruct Hinv as [(e & -> & _)|(rev & _ & _ & _ & Hr' & _)]; [eauto | congruence]. }
  split.
  { intros rev ->. destruct Hinv as [(e & E & _)|(rev' & E & _ & Hp & Hr & Hc)]; [discriminate|].
    injection E as <-. apply review_create_spec in Hc as (E & Hu & Hf & _).
    do 5 (split; [auto; fail|]).
    intros body2 now2 w0 r2 w2 Hu2 Hf2 Hd H2.
    apply createReview_inv in H2 as [(e & -> & Hd2)|(rev2 & _ & _ & _ & Hr2 & _)];
      [split; eauto|].
    exfalso. rewrite Hu2, Hf2, Hd in Hr2. revert Hr2.
    eapply findReview_app; eassumption. }
  intros Hfaults Hv Hu Hf.
  destruct w as [d fl]. simpl in *. subst fl.
  unfold createReview in H. rewrite Hv in H. unfold bind, lift in H.
  cbn beta iota in H. fold u f in H. rewrite query_healthy in H.
  destruct (findUser d u) eqn:Eu; [|congruence]. cbn [is_none] in H.
  rewrite query_healthy in H.
  destruct (findFurniture d f) eqn:Ef; [|congruence]. cbn [is_none] in H.
  rewrite query_healthy in H.
  destruct (findPurchase u f d) eqn:Ep; cbn [is_none] in H.
  - rewrite query_healthy in H.
    destruct (findReview u f d) eqn:Er; cbn [is_none negb] in H.
    + injection H as <- <-. repeat split; congruence.
    + rewrite exec_healthy in H.
      assert (Hc : exists rev d', review_create body now d = Ok (rev, d')).
      { unfold review_create. fold u f. rewrite Er, Eu, Ef. simpl. eauto. }
      destruct Hc as (rev & d' & Hc). rewrite Hc in H. injection H as <- <-.
      repeat split; try congruence. eauto.
  - injection H as <- <-. repeat split; congruence.
Qed.

Lemma shop_review_key : review_key shop.
Proof.
  unfold review_key. simpl. repeat constructor; simpl; intuition congruence.
Qed.

Lemma C9_review_gate_witness :
  exists rev w',
    createReview (ReviewInput.mk 3 1 5 None) 7 (mkWorld shop []) = (Ok rev, w')
    /\ review_key (db w')
    /\ reviews (db w') = reviews shop ++ [rev]
    /\ forall r2 w2,
         createReview (ReviewInput.mk 3 1 2 (Some "again")) 8 w' = (r2, w2) ->
         (exists e, r2 = Err e) /\ db w2 = db w'.
Proof.
  destruct (createReview (ReviewInput.mk 3 1 5 None) 7 (mkWorld shop [])) as [r w'] eqn:E.
  pose proof (@C9_review_gate (ReviewInput.mk 3 1 5 None) 7 (mkWorld shop []) r w' E)
    as (Hkey & _ & _ & _ & Hok & Hrun).
  destruct Hrun as (_ & _ & Hcreate); try reflexivity; try discriminate.
  destruct Hcreate as [rev ->]; [discriminate | reflexivity |].
  exists rev, w'. split; [reflexivity|]. split; [exact (Hkey shop_review_key)|].
  destruct (Hok rev eq_refl) as (_ & _ & Hrev & _ & _ & Hsecond).
  split; [exact Hrev|].
  intros r2 w2 H2. eapply Hsecond; [| | | exact H2]; reflexivity.
Defined.

Example review_requires_purchase :
  fst (createReview (ReviewInput.mk 2 1 5 None) 7 (mkWorld shop []))
  = Err (ApiError 403 "You can only review furniture items you have purchased")
  /\ fst (createReview (ReviewInput.mk 1 1 5 None) 7 (mkWorld shop []))
     = Err (ApiError 400 "You have already reviewed this furniture item").
Proof. split; reflexivity. Qed.

(** ** Order creation *)

Lemma createOrderSchema_Ok bodyItems guest items email :
  createOrderSchema bodyItems guest = Ok (items, email) ->
  items = bodyItems
  /\ Forall (fun item => 0 < ItemInput.furnitureId item /\ 0 < ItemInput.quantity item) items
  /\ items <> [].
Proof.
  unfold createOrderSchema.
  destruct (forallb _ bodyItems) eqn:Ef; simpl; [|discriminate].
  destruct bodyItems as [|i l]; [discriminate|]. simpl.
  intros H. assert (items = i :: l) as -> by (destruct guest; congruence).
  split; [reflexivity|]. split; [|discriminate].
  apply Forall_forall. intros x Hx. rewrite forallb_forall in Ef.
  specialize (Ef x Hx). apply andb_true_iff in Ef as [A B]. split; lia.
Qed.

Lemma order_create_spec userId total status data d out d' :
  order_create userId total status data d = Ok (out, d') ->
  orders d' = orders d ++ [order out]
  /\ orderItems d' = orderItems d ++ items out
  /\ Order.userId (order out) = userId
  /\ Order.status (order out) = status
  /\ Order.totalAmount (order out) = total
  /\ (exists base, items out = orderItemRows (Order.id (order out)) base data)
  /\ cartItems d' = cartItems d /\ carts d' = carts d
  /\ users d' = users d /\ furnitures d' = furnitures d /\ reviews d' = reviews d.
Proof.
  unfold order_create. destruct (order_create_refusal userId total data d); [discriminate|].
  intros H. injection H as <- <-. simpl. repeat split. eauto.
Qed.

(** An order that was created was not refused: its quantities and its
    total fit their columns, its foreign keys have targets and no two of its
    items name the same furniture. *)
Lemma order_create_accepted userId total status data d out d' :
  order_create userId total status data d = Ok (out, d') ->
  forallb (fun x => int4 (OrderItemData.quantity x)) data = true
  /\ match userId with Some u => findUser d u <> None | None => True end
  /\ Forall (fun x => findFurniture d (OrderItemData.furnitureId x) <> None) data
  /\ distinct (map OrderItemData.furnitureId data) = true
  /\ decimal_10_2_fits total = true.
Proof.
  unfold order_create, order_create_refusal.
  destruct (forallb (fun x => int4 (OrderItemData.quantity x)) data); [|discriminate].
  destruct (decimal_10_2_fits total); [|discriminate].
  cbn [negb andb].
  match goal with |- context [negb (?u && ?i)] =>
    destruct u eqn:Eu; [destruct i eqn:Ei|]; cbn [andb negb]; try discriminate
  end.
  destruct (distinct (map OrderItemData.furnitureId data)); [|discriminate].
  intros _. repeat split.
  - destruct userId as [u|]; [|exact I]. destruct (findUser d u); [discriminate|].
    discriminate.
  - apply Forall_forall. intros x Hx. rewrite forallb_forall in Ei.
    specialize (Ei x Hx). destruct (findFurniture d (OrderItemData.furnitureId x));
      [discriminate | discriminate].
Qed.

Lemma in_cart_of_ext d d' uid ci :
  carts d' = carts d -> in_cart_of d' uid ci = in_cart_of d uid ci.
Proof. unfold in_cart_of. now intros ->. Qed.

Lemma filter_negb_empty {A} (p : A -> bool) l : filter p (filter (fun x => negb (p x)) l) = [].
Proof.
  induction l as [|a l IH]; simpl; [reflexivity|].
  destruct (p a) eqn:E; simpl; [assumption|]. now rewrite E.
Qed.

Lemma filter_negb_changes {A} (p : A -> bool) l :
  filter p l <> [] -> filter (fun x => negb (p x)) l <> l.
Proof.
  intros Hne E. apply Hne. rewrite <- E. apply filter_negb_empty.
Qed.

Lemma createOrder_inv user bodyItems guest w r w' :
  createOrder user bodyItems guest w = (r, w') ->
  (exists e, r = Err e /\ db w' = db w)
  \/ (exists out email total data d1,
         r = Ok out
         /\ createOrderSchema bodyItems guest = Ok (bodyItems, email)
         /\ List.length (findFurnitureIn (map ItemInput.furnitureId bodyItems) (db w))
            = List.length bodyItems
         /\ priceOrderItems (findFurnitureIn (map ItemInput.furnitureId bodyItems) (db w))
              bodyItems = Ok (total, data)
         /\ order_create (authenticated user) total PENDING data (db w) = Ok (out, d1)
         /\ db w' = match authenticated user with
                    | Some uid =>
                        set_cartItems d1
                          (filter (fun ci => negb (in_cart_of d1 uid ci)) (cartItems d1))
                    | None => d1
                    end).
Proof.
  unfold createOrder. intros H.
  apply bind_inv in H as [(e & -> & H)|([items email] & w0 & H0 & H)].
  { apply lift_inv in H as [_ ->]. left; eauto. }
  apply lift_inv in H0 as [Hv ->]. symmetry in Hv.
  destruct (createOrderSchema_Ok _ _ Hv) as (-> & _ & _).
  destruct (is_none (authenticated user) && is_none email).
  { apply throw_inv in H as [-> ->]. left; eauto. }
  apply bind_inv in H as [(e & -> & H)|([] & w1 & H1 & H)].
  { left. exists e. split; [reflexivity|].
    destruct (authenticated user) as [uid|].
    - apply bind_inv in H as [(e' & _ & H)|(u & w1 & H1 & H)].
      + now apply query_inv in H as [Hd _].
      + apply query_inv in H1 as [Hd _].
        destruct (is_none u); [apply throw_inv in H | apply ret_inv in H];
          destruct H as [_ ->]; assumption.
    - now apply ret_inv in H as [_ ->]. }
  assert (Hd1 : db w1 = db w).
  { destruct (authenticated user) as [uid|].
    - apply bind_inv in H1 as [(e' & E & _)|(u & w2 & H2 & H1)]; [discriminate|].
      apply query_inv in H2 as [Hd _].
      destruct (is_none u); [apply throw_inv in H1 | apply ret_inv in H1];
        destruct H1 as [_ ->]; assumption.
    - now apply ret_inv in H1 as [_ ->]. }
  clear H1.
  apply bind_inv in H as [(e & -> & H)|(fl & w2 & H2 & H)].
  { apply query_in_inv in H as [Hd _]. left. exists e. split; congruence. }
  apply query_in_inv in H2 as [Hd2 [[E _]|(e & E)]]; [|discriminate]. injection E as ->.
  rewrite Hd1 in *. rewrite length_map in H.
  destruct (Nat.eqb_spec (List.length (findFurnitureIn (map ItemInput.furnitureId bodyItems) (db w)))
                         (List.length bodyItems)) as [Hlen|Hlen]; simpl in H.
  2: { apply throw_inv in H as [-> ->]. left; eauto. }
  apply bind_inv in H as [(e & -> & H)|([total data] & w3 & H3 & H)].
  { apply lift_inv in H as [_ ->]. left; eauto. }
  apply lift_inv in H3 as [Hp ->]. symmetry in Hp.
  apply transaction_inv in H as [(out & w4 & -> & H & Hd4)|(e & -> & Hd4)].
  2: { left. exists e. split; congruence. }
  apply bind_inv in H as [(e & E & _)|(newOrder & w5 & H5 & H)]; [discriminate|].
  apply exec_inv in H5 as [(o & E & H5)|(e & E & _)]; [|discriminate].
  injection E as ->. rewrite Hd2 in H5.
  apply bind_inv in H as [(e & E & _)|([] & w6 & H6 & H)]; [discriminate|].
  apply ret_inv in H as [E ->]. injection E as ->.
  right. exists o, email, total, data, (db w5).
  repeat split; try assumption. rewrite Hd4.
  destruct (authenticated user) as [uid|].
  - apply exec_inv in H6 as [(u & _ & H6)|(e & E & _)]; [|discriminate].
    unfold cartItem_deleteMany_user in H6. now injection H6 as <-.
  - now apply ret_inv in H6 as [_ ->].
Qed.

(** C10: an order created through POST /orders by an authenticated user from
    an explicit items array empties that user's cart: a request that fails
    leaves the store as it was (order and cart alike), and a request that
    succeeds has written the PENDING order with the items of the body and
    deleted every cart item of the user, so a cart that held items has
    changed. *)
Theorem C10_explicit_order_clears_cart uid bodyItems guest w r w' :
  uid <> 0 ->
  createOrder (Some uid) bodyItems guest w = (r, w') ->
  (forall e, r = Err e -> db w' = db w)
  /\ (forall out, r = Ok out ->
        orders (db w') = orders (db w) ++ [order out]
        /\ orderItems (db w') = orderItems (db w) ++ items out
        /\ Order.userId (order out) = Some uid
        /\ Order.status (order out) = PENDING
        /\ cartItems (db w')
           = filter (fun ci => negb (in_cart_of (db w) uid ci)) (cartItems (db w))
        /\ cartItemsOf (db w') uid = []
        /\ (cartItemsOf (db w) uid <> [] -> cartItems (db w') <> cartItems (db w))).
Proof.
  intros Hu H. apply createOrder_inv in H.
  assert (Ha : authenticated (Some uid) = Some uid).
  { simpl. destruct (Z.eqb_spec uid 0); congruence. }
  rewrite Ha in H. split.
  - intros e ->. destruct H as [(e' & _ & Hd)|(out & ? & ? & ? & ? & E & _)];
      [assumption | discriminate].
  - intros out ->.
    destruct H as [(e' & E & _)|(out' & email & total & data & d1 & E & _ & _ & _ & Hc & Hd)];
      [discriminate|].
    injection E as <-.
    apply order_create_spec in Hc as (Ho & Hi & Hou & Hos & _ & _ & Hci & Hca & _).
    assert (Hext : forall ci, in_cart_of d1 uid ci = in_cart_of (db w) uid ci)
      by (intros ci; now apply in_cart_of_ext).
    assert (Hcart : cartItems (db w')
                    = filter (fun ci => negb (in_cart_of (db w) uid ci)) (cartItems (db w))).
    { rewrite Hd. simpl. rewrite Hci. apply filter_ext. intros ci. now rewrite Hext. }
    repeat split; try (rewrite Hd; simpl; assumption); try assumption.
    + unfold cartItemsOf. rewrite Hcart.
      rewrite (filter_ext (in_cart_of (db w') uid) (in_cart_of (db w) uid)).
      * apply filter_negb_empty.
      * intros ci. apply in_cart_of_ext. rewrite Hd. simpl. assumption.
    + intros Hne. rewrite Hcart. now apply filter_negb_changes.
Qed.

Lemma C10_explicit_order_clears_cart_witness :
  exists out w',
    createOrder (Some 1) [ItemInput.mk 1 2] GuestAbsent (mkWorld shop []) = (Ok out, w')
    /\ orders (db w') = orders shop ++ [order out]
    /\ cartItemsOf shop 1 <> []
    /\ cartItemsOf (db w') 1 = []
    /\ cartItems (db w') <> cartItems shop.
Proof.
  destruct (createOrder (Some 1) [ItemInput.mk 1 2] GuestAbsent (mkWorld shop []))
    as [r w'] eqn:E.
  assert (Hok : exists out, r = Ok out).
  { vm_compute in E. injection E as <- _. eauto. }
  destruct Hok as [out ->].
  destruct (@C10_explicit_order_clears_cart 1 [ItemInput.mk 1 2] GuestAbsent
              (mkWorld shop []) (Ok out) w' ltac:(discriminate) E) as [_ H].
  destruct (H out eq_refl) as (Ho & _ & _ & _ & _ & Hempty & Hchanged).
  exists out, w'. repeat split; try assumption.
  - discriminate.
  - apply Hchanged. discriminate.
Defined.

(** ** Pricing *)

Lemma findFurniture_In d id f :
  findFurniture d id = Some f -> In f (furnitures d) /\ Furniture.id f = id.
Proof.
  unfold findFurniture. intros H. apply find_some in H as [Hin H].
  split; [assumption | now apply Z.eqb_eq].
Qed.



Lemma furnitureMap_get_In ids d id f :
  furnitureMap_get (findFurnitureIn ids d) id = Some f ->
  In f (furnitures d) /\ Furniture.id f = id.
Proof.
  unfold furnitureMap_get, findFurnitureIn. intros H.
  apply find_some in H as [Hin H]. apply in_rev, filter_In in Hin as [Hin _].
  split; [assumption | now apply Z.eqb_eq].
Qed.

Lemma data_total_snoc start l x :
  data_total start (l ++ [x])
  = PrimFloat.add (data_total start l)
      (PrimFloat.mul (OrderItemData.unitPrice x) (num_of_Z (OrderItemData.quantity x))).
Proof. unfold data_total. now rewrite fold_left_app. Qed.

Lemma priced_start d : priced d (0%float, []).
Proof. split; [reflexivity | constructor]. Qed.

Lemma priced_step d acc furnitureId quantity f :
  priced d acc -> In f (furnitures d) -> Furniture.id f = furnitureId ->
  priced d (price_item acc furnitureId quantity (Furniture.price f)).
Proof.
  intros [Ht Hs] Hin Hid. unfold price_item, priced. simpl. split.
  - rewrite data_total_snoc. simpl. now rewrite Ht.
  - apply Forall_app. split; [assumption|]. constructor; [|constructor].
    exists f. simpl. auto.
Qed.

Lemma priceDirectItems_priced ids d directItems :
  priced d (priceDirectItems (findFurnitureIn ids d) directItems).
Proof.
  unfold priceDirectItems. generalize (priced_start d).
  generalize (0%float, @nil OrderItemData.t).
  induction directItems as [|item l IH]; simpl; intros acc Hacc; [assumption|].
  apply IH. destruct (furnitureMap_get _ _) as [f|] eqn:E; [|assumption].
  apply furnitureMap_get_In in E as [Hin Hid]. now apply priced_step.
Qed.

Lemma priceCartItems_priced d cartId :
  priced d (priceCartItems (cartItemsWithFurniture d cartId)).
Proof.
  unfold priceCartItems.
  assert (Hall : Forall (fun ci => In (snd ci) (furnitures d)
                                   /\ Furniture.id (snd ci) = CartItem.furnitureId (fst ci))
                        (cartItemsWithFurniture d cartId)).
  { unfold cartItemsWithFurniture. apply Forall_forall. intros [ci f] H.
    apply in_flat_map in H as (ci' & _ & H).
    destruct (findFurniture d (CartItem.furnitureId ci')) eqn:E; [|contradiction].
    destruct H as [H|[]]. injection H as <- <-. simpl.
    now apply findFurniture_In. }
  revert Hall. generalize (priced_start d). generalize (0%float, @nil OrderItemData.t).
  induction (cartItemsWithFurniture d cartId) as [|ci l IH]; simpl; intros acc Hacc Hall;
    [assumption|].
  inversion Hall as [|? ? [Hin Hid] Hrest]; subst.
  apply IH; [|assumption]. now apply priced_step.
Qed.





(** ** Missing furniture *)



(** ** Checkout *)

Lemma findCartWithItems_Some userId d c l :
  findCartWithItems userId d = Some (c, l) ->
  findCartOfUser d userId = Some c /\ l = cartItemsWithFurniture d (Cart.id c).
Proof.
  unfold findCartWithItems. destruct (findCartOfUser d userId); [|discriminate].
  intros H. injection H as <- <-. auto.
Qed.

Lemma cart_branch_inv userId w (r : result (float * list OrderItemData.t * bool)) w1 :
  (cart <- query (findCartWithItems userId) ;;
   match cart with
   | Some (_, (ci :: cis)) => ret (priceCartItems (ci :: cis), true)
   | _ => throw (ApiError 400 "Cart is empty and no items provided")
   end) w = (r, w1) ->
  db w1 = db w
  /\ forall acc scc, r = Ok (acc, scc) ->
       priced (db w) acc /\ scc = true
       /\ exists c, findCartOfUser (db w) userId = Some c.
Proof.
  intros H. apply bind_inv in H as [(e & -> & H)|(cart & w0 & H0 & H)].
  { apply query_inv in H as [Hd _]. split; [assumption | discriminate]. }
  apply query_inv in H0 as [Hd [E|E]]; [|discriminate]. injection E as ->.
  destruct (findCartWithItems userId (db w)) as [[c [|ci cis]]|] eqn:Ec.
  - apply throw_inv in H as [-> ->]. split; [assumption | discriminate].
  - apply ret_inv in H as [-> ->]. split; [assumption|].
    intros acc scc E. injection E as <- <-.
    apply findCartWithItems_Some in Ec as [Hc ->].
    split; [apply priceCartItems_priced|]. split; [reflexivity | eauto].
  - apply throw_inv in H as [-> ->]. split; [assumption | discriminate].
Qed.

Lemma gatherItems_inv userId directItems w r w1 :
  gatherItems userId directItems w = (r, w1) ->
  db w1 = db w
  /\ forall acc scc, r = Ok (acc, scc) ->
       priced (db w) acc
       /\ (scc = true ->
           (directItems = None \/ directItems = Some [])
           /\ exists c, findCartOfUser (db w) userId = Some c)
       /\ (scc = false -> exists item rest, directItems = Some (item :: rest)).
Proof.
  intros H. destruct directItems as [[|item rest]|]; unfold gatherItems in H.
  - apply cart_branch_inv in H as [Hd H]. split; [assumption|].
    intros acc scc E. destruct (H acc scc E) as (Hp & -> & Hc).
    split; [assumption|]. split; [auto | discriminate].
  - apply bind_inv in H as [(e & -> & H)|(fl & w0 & H0 & H)].
    { apply query_in_inv in H as [Hd _]. split; [assumption | discriminate]. }
    apply query_in_inv in H0 as [Hd [[E _]|(e & E)]]; [|discriminate]. injection E as ->.
    match type of H with (if ?c then _ else _) _ = _ => destruct c end.
    + apply throw_inv in H as [-> ->]. split; [assumption | discriminate].
    + apply ret_inv in H as [-> ->]. split; [assumption|].
      intros acc scc E. injection E as <- <-.
      split; [apply priceDirectItems_priced|]. split; [discriminate | eauto].
  - apply cart_branch_inv in H as [Hd H]. split; [assumption|].
    intros acc scc E. destruct (H acc scc E) as (Hp & -> & Hc).
    split; [assumption|]. split; [auto | discriminate].
Qed.


Lemma clearCartOf_inv userId w r w' :
  clearCartOf userId w = (r, w') ->
  (exists e, r = Err e /\ db w' = db w)
  \/ (r = Ok tt
      /\ db w' = match findCartOfUser (db w) userId with
                 | Some c =>
                     set_cartItems (db w)
                       (filter (fun ci => negb (CartItem.cartId ci =? Cart.id c))
                               (cartItems (db w)))
                 | None => db w
                 end).
Proof.
  unfold clearCartOf. intros H.
  apply bind_inv in H as [(e & -> & H)|(cart & w0 & H0 & H)].
  { apply query_inv in H as [Hd _]. left; eauto. }
  apply query_inv in H0 as [Hd [E|E]]; [|discriminate]. injection E as ->.
  destruct (findCartOfUser (db w) userId) as [c|].
  - apply exec_inv in H as [([] & -> & H)|(e & -> & H)].
    + right. split; [reflexivity|]. unfold cartItem_deleteMany_cart in H.
      rewrite Hd in H. now injection H as <-.
    + left. exists e. split; congruence.
  - apply ret_inv in H as [-> ->]. right. auto.
Qed.

(** The outcomes of [placeOrder]: nothing written; the order written and,
    for a cart-sourced order, the cart cleared; or the order written and the
    cart left as it was because a later statement failed. *)
Lemma placeOrder_inv user directItems w r w' :
  placeOrder user directItems w = (r, w') ->
  (exists e, r = Err e /\ db w' = db w)
  \/ (exists userId acc scc out d1,
         authenticated user = Some userId
         /\ priced (db w) acc
         /\ order_create (Some userId) (fst acc) COMPLETED (snd acc) (db w) = Ok (out, d1)
         /\ (scc = false -> exists item rest, directItems = Some (item :: rest))
         /\ ((r = Ok out /\ scc = false /\ db w' = d1)
             \/ (r = Ok out /\ scc = true
                 /\ exists c, findCartOfUser d1 userId = Some c
                    /\ db w' = set_cartItems d1
                                 (filter (fun ci => negb (CartItem.cartId ci =? Cart.id c))
                                         (cartItems d1)))
             \/ (exists e, r = Err e /\ scc = true /\ db w' = d1))).
Proof.
  unfold placeOrder. intros H.
  destruct (authenticated user) as [userId|] eqn:Ea.
  2: { apply throw_inv in H as [-> ->]. left; eauto. }
  apply bind_inv in H as [(e & -> & H)|([[total data] scc] & w1 & H1 & H)].
  { apply gatherItems_inv in H as [Hd _]. left; eauto. }
  apply gatherItems_inv in H1 as [Hd1 Hg].
  destruct (Hg (total, data) scc eq_refl) as (Hp & Hcart & Hdirect).
  destruct (List.length data =? 0)%nat.
  { apply throw_inv in H as [-> ->]. left; eauto. }
  apply bind_inv in H as [(e & -> & H)|(out & w2 & H2 & H)].
  { apply exec_inv in H as [(a & E & _)|(e' & _ & Hd)]; [discriminate|].
    left. exists e. split; congruence. }
  apply exec_inv in H2 as [(a & E & H2)|(e' & E & _)]; [|discriminate].
  injection E as <-. rewrite Hd1 in H2.
  right. exists userId, (total, data), scc, out, (db w2).
  split; [reflexivity|]. split; [assumption|]. split; [assumption|].
  split; [assumption|].
  apply bind_inv in H as [(e & -> & H)|([] & w3 & H3 & H)].
  - right. right. exists e. destruct scc; simpl in H.
    + apply clearCartOf_inv in H as [(e' & _ & Hd)|(E & _)]; [auto | discriminate].
    + apply ret_inv in H as [E _]. discriminate.
  - apply ret_inv in H as [-> ->]. destruct scc; simpl in H3.
    + right. left. split; [reflexivity|]. split; [reflexivity|].
      apply clearCartOf_inv in H3 as [(e' & E & _)|(_ & Hd)]; [discriminate|].
      destruct (Hcart eq_refl) as (_ & c & Hc).
      assert (Hc' : findCartOfUser (db w2) userId = Some c).
      { apply order_create_spec in H2 as (_ & _ & _ & _ & _ & _ & _ & Hcarts & _).
        unfold findCartOfUser in *. now rewrite Hcarts. }
      rewrite Hc' in Hd. eauto.
    + left. apply ret_inv in H3 as [_ ->]. auto.
Qed.





(** ** The cart after a checkout *)

(** Whenever a cart-sourced checkout answers with the order, the order is
    stored and the user's cart holds no item; and the cart is never touched
    unless the order has been written. *)
Lemma placeOrder_cart_sourced user directItems w r w' :
  directItems = None \/ directItems = Some [] ->
  placeOrder user directItems w = (r, w') ->
  (forall out, r = Ok out ->
      In (order out) (orders (db w'))
      /\ exists userId c,
           authenticated user = Some userId
           /\ findCartOfUser (db w') userId = Some c
           /\ filter (fun ci => CartItem.cartId ci =? Cart.id c) (cartItems (db w')) = [])
  /\ (cartItems (db w') <> cartItems (db w) ->
      exists out, r = Ok out /\ In (order out) (orders (db w'))).
Proof.
  intros Hcart H.
  apply placeOrder_inv in H
    as [(e & -> & Hd)|(userId & acc & scc & out & d1 & Ha & _ & Hc & Hdirect & Hout)].
  { split; [discriminate|]. intros Hne. congruence. }
  apply order_create_spec in Hc as (Ho & _ & _ & _ & _ & _ & Hci & Hcarts & _).
  assert (Hin : In (order out) (orders d1)).
  { rewrite Ho. apply in_or_app. right. now left. }
  destruct Hout as [(-> & -> & ->)|[(-> & -> & c & Hfc & ->)|(e & -> & -> & ->)]].
  - destruct (Hdirect eq_refl) as (i & rest & E). destruct Hcart; congruence.
  - split.
    + intros out' E. injection E as <-. split; [exact Hin|].
      exists userId, c. split; [assumption|]. split; [exact Hfc|].
      simpl. apply (filter_negb_empty (fun ci => CartItem.cartId ci =? Cart.id c)).
    + intros _. eauto.
  - split; [discriminate|]. intros Hne. congruence.
Qed.

(** C1 (what the code does): the checkout creates the order with one
    statement and clears the cart with later ones, outside any transaction.
    When the deletion fails (here the fourth statement of the request), the
    request answers with an error, yet the COMPLETED order stays stored and
    the cart keeps its items. *)
Theorem C1_checkout_not_atomic :
  exists e out w',
    placeOrder (Some 1) None (mkWorld shop [false; false; false; true]) = (Err e, w')
    /\ orders (db w') = orders shop ++ [order out]
    /\ Order.status (order out) = COMPLETED
    /\ orderItems (db w') = orderItems shop ++ items out
    /\ cartItems (db w') = cartItems shop
    /\ cartItemsOf shop 1 <> [].
Proof.
  exists PrismaUnavailable,
         (mkOrderOut (Order.mk 5 (Some 1) 861.5%float COMPLETED)
                     [OrderItem.mk 6 5 2 3 120.5%float; OrderItem.mk 7 5 3 1 500%float]).
  eexists. split; [vm_compute; reflexivity|].
  split; [reflexivity|]. split; [reflexivity|].
  split; [reflexivity|]. split; [reflexivity | discriminate].
Qed.

(* ================================================================== *)
(** * Further properties of the handlers *)

(** ** Sorted results *)

Lemma insert_by_sorted {A} (before : A -> A -> bool) :
  (forall a b, before a b = false -> before b a = true) ->
  (forall a b c, before a b = true -> before b c = true -> before a c = true) ->
  forall x l,
    StronglySorted (fun a b => before a b = true) l ->
    StronglySorted (fun a b => before a b = true) (insert_by before x l).
Proof.
  intros Htot Htrans x l. induction 1 as [|y t Ht IH Hy]; simpl.
  - repeat constructor.
  - destruct (before x y) eqn:E.
    + constructor; [constructor; assumption|].
      constructor; [assumption|].
      rewrite Forall_forall in *. intros z Hz. eapply Htrans; [exact E | auto].
    + constructor; [assumption|].
      rewrite Forall_forall in *. intros z Hz.
      eapply Permutation_in in Hz; [|apply insert_by_perm].
      destruct Hz as [<-|Hz]; [now apply Htot | auto].
Qed.

Lemma sort_by_sorted {A} (before : A -> A -> bool) :
  (forall a b, before a b = false -> before b a = true) ->
  (forall a b c, before a b = true -> before b c = true -> before a c = true) ->
  forall l, StronglySorted (fun a b => before a b = true) (sort_by before l).
Proof.
  intros Htot Htrans l. induction l as [|x t IH]; simpl.
  - constructor.
  - now apply insert_by_sorted.
Qed.

Lemma StronglySorted_infix {A} (R : A -> A -> Prop) pre mid post :
  StronglySorted R (pre ++ mid ++ post) -> StronglySorted R mid.
Proof.
  induction pre as [|a pre IH]; simpl.
  - induction mid as [|b mid IHm]; simpl; intros H; [constructor|].
    inversion H as [|? ? Hs Hall]; subst. constructor; [auto|].
    apply Forall_app in Hall. tauto.
  - intros H. inversion H; subst. auto.
Qed.

Lemma StronglySorted_map {A B} (R : A -> A -> Prop) (R' : B -> B -> Prop) (f : A -> B) l :
  (forall a b, R a b -> R' (f a) (f b)) ->
  StronglySorted R l -> StronglySorted R' (map f l).
Proof.
  intros HR. induction 1 as [|a l Hl IH Ha]; simpl; constructor; [assumption|].
  rewrite Forall_forall in *. intros y Hy. apply in_map_iff in Hy as (b & <- & Hb). auto.
Qed.

Lemma by_reviews_total a b :
  by_reviews_then_recent a b = false -> by_reviews_then_recent b a = true.
Proof.
  unfold by_reviews_then_recent. intros H.
  apply orb_false_iff in H as [H1 H2]. apply Z.ltb_ge in H1.
  apply andb_false_iff in H2. apply orb_true_iff.
  destruct (Z.eq_dec (Z.of_nat (List.length (row_reviews a)))
                     (Z.of_nat (List.length (row_reviews b)))) as [E|E].
  - right. rewrite E, Z.eqb_refl. simpl. destruct H2 as [H2|H2].
    + rewrite E, Z.eqb_refl in H2. discriminate.
    + apply Z.leb_gt in H2. apply Z.leb_le. lia.
  - left. apply Z.ltb_lt. lia.
Qed.

Lemma by_reviews_ranked a b :
  by_reviews_then_recent a b = true <->
  (Z.of_nat (List.length (row_reviews b)) < Z.of_nat (List.length (row_reviews a))
   \/ (Z.of_nat (List.length (row_reviews a)) = Z.of_nat (List.length (row_reviews b))
       /\ Furniture.createdAt (row b) <= Furniture.createdAt (row a))).
Proof.
  unfold by_reviews_then_recent.
  rewrite orb_true_iff, andb_true_iff, Z.ltb_lt, Z.eqb_eq, Z.leb_le. tauto.
Qed.

Lemma by_reviews_trans a b c :
  by_reviews_then_recent a b = true -> by_reviews_then_recent b c = true ->
  by_reviews_then_recent a c = true.
Proof. rewrite !by_reviews_ranked. lia. Qed.

Lemma by_orders_ranked a b :
  by_orders_then_reviews_then_recent a b = true <->
  (row_orderItems b < row_orderItems a
   \/ (row_orderItems a = row_orderItems b /\ by_reviews_then_recent a b = true)).
Proof.
  unfold by_orders_then_reviews_then_recent.
  rewrite orb_true_iff, andb_true_iff, Z.ltb_lt, Z.eqb_eq. tauto.
Qed.

Lemma by_orders_total a b :
  by_orders_then_reviews_then_recent a b = false ->
  by_orders_then_reviews_then_recent b a = true.
Proof.
  intros H. apply by_orders_ranked.
  destruct (by_orders_then_reviews_then_recent a b) eqn:E; [discriminate|]. clear H.
  unfold by_orders_then_reviews_then_recent in E.
  apply orb_false_iff in E as [H1 H2]. apply Z.ltb_ge in H1.
  destruct (Z.eq_dec (row_orderItems a) (row_orderItems b)) as [Eq|Ne]; [|lia].
  right. split; [lia|]. rewrite Eq, Z.eqb_refl in H2. simpl in H2.
  now apply by_reviews_total.
Qed.

Lemma by_orders_trans a b c :
  by_orders_then_reviews_then_recent a b = true ->
  by_orders_then_reviews_then_recent b c = true ->
  by_orders_then_reviews_then_recent a c = true.
Proof.
  rewrite !by_orders_ranked. intros [H1|[E1 H1]] [H2|[E2 H2]]; try lia.
  right. split; [lia|]. eapply by_reviews_trans; eassumption.
Qed.

(** What a furniture query with a total, transitive ordering returns: the
    matching rows, each once, in rank order, as many as [take] allows. *)
Lemma findMany_ranked d where_ orderBy z rows :
  (forall a b, orderBy a b = false -> orderBy b a = true) ->
  (forall a b c, orderBy a b = true -> orderBy b c = true -> orderBy a c = true) ->
  0 <= z ->
  findManyFurniture d where_ orderBy (Num z) = Ok rows ->
  StronglySorted (fun a b => orderBy a b = true) rows
  /\ Z.of_nat (List.length rows)
     = Z.min z (Z.of_nat (List.length (filter where_ (furnitures d)))).
Proof.
  intros Htot Htrans Hz H. split.
  - unfold findManyFurniture in H. apply prisma_take_split in H as (pre & post & E).
    apply StronglySorted_infix with (pre := pre) (post := post). rewrite <- E.
    now apply sort_by_sorted.
  - unfold findManyFurniture, prisma_take in H. injection H as <-.
    destruct (Z.leb_spec 0 z); [|lia].
    rewrite length_firstn, (Permutation_length (sort_by_perm _ _)), length_map. lia.
Qed.

Lemma filter_andb {A} (p q : A -> bool) l :
  filter (fun x => p x && q x) l = filter p (filter q l).
Proof.
  induction l as [|a l IH]; simpl; [reflexivity|].
  destruct (q a); simpl; destruct (p a); simpl; now rewrite ?IH.
Qed.

Lemma withRatings_ranked a b :
  by_reviews_then_recent a b = true -> ranked_by_reviews (withRatings a) (withRatings b).
Proof. rewrite by_reviews_ranked. unfold ranked_by_reviews. simpl. tauto. Qed.

Lemma withRatingsPopular_ranked a b :
  by_orders_then_reviews_then_recent a b = true ->
  ranked_by_popularity (withRatingsPopular a) (withRatingsPopular b).
Proof.
  rewrite by_orders_ranked, by_reviews_ranked. unfold ranked_by_popularity, ranked_by_reviews.
  simpl. intros H. exists (row_orderItems a), (row_orderItems b). tauto.
Qed.

Lemma map_out_id_rows (mapper : FurnitureRow -> FurnitureOut) rows :
  (forall r, out_item (mapper r) = row r) ->
  map out_id (map mapper rows) = map row_id rows.
Proof.
  intros H. rewrite map_map. apply map_ext. intros r. unfold out_id, row_id. now rewrite H.
Qed.

Lemma not_excluded_id f e excl :
  negb (mem (Furniture.id f) (with_exclude [] excl)) = true ->
  excl = Some (Num e) -> e <> 0 -> Furniture.id f <> e.
Proof.
  intros H -> He E. apply negb_true_iff, mem_false in H. apply H.
  apply with_exclude_In. right. subst. auto.
Qed.

(** ** The category endpoint *)

(** X1: For a valid limit, an existing category and an [excludeId] that is
    absent, falsy or within the INTEGER range, the category endpoint
    returns the furniture of that category other than a non-zero excluded
    id, each item once, ordered by descending review count and then by
    descending creation time, and exactly as many as the limit allows. *)
Theorem category_endpoint_ranked d categoryIdParam limitQ excludeQ categoryId limit excl :
  furniture_key d ->
  idSchema categoryIdParam = Ok categoryId ->
  recommendationQuerySchema limitQ excludeQ = Ok (Num limit, excl) ->
  1 <= limit <= 50 ->
  findCategory d categoryId <> None ->
  exclude_fits excl = true ->
  exists recs,
    getCategoryRecommendations d categoryIdParam limitQ excludeQ
    = Ok (mkRecs recs "category-based")
    /\ Forall (fun x => In (out_item x) (furnitures d)
                        /\ Furniture.categoryId (out_item x) = categoryId) recs
    /\ (forall e, excl = Some (Num e) -> e <> 0 -> ~ In e (map out_id recs))
    /\ NoDup (map out_id recs)
    /\ StronglySorted ranked_by_reviews recs
    /\ Z.of_nat (List.length recs)
       = Z.min limit
           (Z.of_nat (List.length
              (filter (fun f => Furniture.categoryId f =? categoryId) (notExcluded d excl)))).
Proof.
  intros Hk Hid Hq Hl Hc Hfit. unfold getCategoryRecommendations.
  rewrite Hid, Hq. cbn [rbind]. rewrite (validate_limit_ok Hl). cbn [rbind].
  destruct (findCategory d categoryId); [|congruence]. cbn [is_none throw_if rbind].
  rewrite carrying_fits by exact Hfit.
  match goal with |- context [findManyFurniture d ?w ?o (Num limit)] =>
    destruct (findMany_total d w o limit) as [rows Hrows]; rewrite Hrows;
    pose proof (@findMany_rows _ _ _ _ _ Hrows) as Hall;
    pose proof (@findMany_NoDup _ _ _ _ _ Hk Hrows) as Hnd;
    destruct (@findMany_ranked d w o limit rows by_reviews_total by_reviews_trans
                (Z.le_trans 0 1 limit Z.le_0_1 (proj1 Hl)) Hrows) as [Hsorted Hlen]
  end.
  cbn [rbind catch_zod]. eexists. split; [reflexivity|].
  rewrite Forall_forall in Hall.
  split; [|split; [|split; [|split]]].
  - apply Forall_forall. intros x Hx. apply in_map_iff in Hx as (r & <- & Hr).
    destruct (Hall r Hr) as (f & Hf & Hw & ->). simpl.
    apply andb_true_iff in Hw as [Hw _]. apply Z.eqb_eq in Hw. auto.
  - intros e He Hne Hin. apply in_map_iff in Hin as (x & Ex & Hx).
    apply in_map_iff in Hx as (r & <- & Hr).
    destruct (Hall r Hr) as (f & Hf & Hw & ->).
    apply andb_true_iff in Hw as [_ Hw].
    now apply (not_excluded_id _ Hw He Hne).
  - rewrite map_out_id_rows by reflexivity. exact Hnd.
  - eapply StronglySorted_map; [|exact Hsorted]. apply withRatings_ranked.
  - rewrite length_map, Hlen. unfold notExcluded. now rewrite filter_andb.
Qed.

Lemma category_endpoint_ranked_witness :
  exists recs,
    getCategoryRecommendations shop "1" (QStr "5") (QStr "2")
    = Ok (mkRecs recs "category-based")
    /\ Forall (fun x => In (out_item x) (furnitures shop)
                        /\ Furniture.categoryId (out_item x) = 1) recs
    /\ (forall e, Some (Num 2) = Some (Num e) -> e <> 0 -> ~ In e (map out_id recs))
    /\ NoDup (map out_id recs)
    /\ StronglySorted ranked_by_reviews recs
    /\ Z.of_nat (List.length recs)
       = Z.min 5
           (Z.of_nat (List.length
              (filter (fun f => Furniture.categoryId f =? 1)
                      (notExcluded shop (Some (Num 2)))))).
Proof.
  apply (@category_endpoint_ranked shop "1" (QStr "5") (QStr "2") 1 5 (Some (Num 2))).
  - exact shop_furniture_key.
  - reflexivity.
  - reflexivity.
  - lia.
  - discriminate.
  - reflexivity.
Defined.

(** ** The popularity endpoint *)

(** X2: For a valid limit and an [excludeId] that is absent, falsy or within
    the INTEGER range, the popularity endpoint returns furniture other than
    a non-zero excluded id, each item once, ordered by descending number of
    order items, then review count, then creation time, and exactly as
    many as the limit allows. *)
Theorem popular_endpoint_ranked d limitQ excludeQ limit excl :
  furniture_key d ->
  recommendationQuerySchema limitQ excludeQ = Ok (Num limit, excl) ->
  1 <= limit <= 50 ->
  exclude_fits excl = true ->
  exists recs,
    getPopularItems d limitQ excludeQ = Ok (mkRecs recs "popular")
    /\ Forall (fun x => In (out_item x) (furnitures d)
                        /\ orderCount x = Some (orderItemCount d (out_id x))) recs
    /\ (forall e, excl = Some (Num e) -> e <> 0 -> ~ In e (map out_id recs))
    /\ NoDup (map out_id recs)
    /\ StronglySorted ranked_by_popularity recs
    /\ Z.of_nat (List.length recs)
       = Z.min limit (Z.of_nat (List.length (notExcluded d excl))).
Proof.
  intros Hk Hq Hl Hfit. unfold getPopularItems, getPopularRecommendationsHelper.
  rewrite Hq. cbn [rbind]. rewrite (validate_limit_ok Hl). cbn [rbind].
  rewrite carrying_fits by exact Hfit.
  match goal with |- context [findManyFurniture d ?w ?o (Num limit)] =>
    destruct (findMany_total d w o limit) as [rows Hrows]; rewrite Hrows;
    pose proof (@findMany_rows _ _ _ _ _ Hrows) as Hall;
    pose proof (@findMany_NoDup _ _ _ _ _ Hk Hrows) as Hnd;
    destruct (@findMany_ranked d w o limit rows by_orders_total by_orders_trans
                (Z.le_trans 0 1 limit Z.le_0_1 (proj1 Hl)) Hrows) as [Hsorted Hlen]
  end.
  cbn [rbind catch_zod]. eexists. split; [reflexivity|].
  rewrite Forall_forall in Hall.
  split; [|split; [|split; [|split]]].
  - apply Forall_forall. intros x Hx. apply in_map_iff in Hx as (r & <- & Hr).
    destruct (Hall r Hr) as (f & Hf & Hw & ->). simpl. auto.
  - intros e He Hne Hin. apply in_map_iff in Hin as (x & Ex & Hx).
    apply in_map_iff in Hx as (r & <- & Hr).
    destruct (Hall r Hr) as (f & Hf & Hw & ->).
    now apply (not_excluded_id _ Hw He Hne).
  - rewrite map_out_id_rows by reflexivity. exact Hnd.
  - eapply StronglySorted_map; [|exact Hsorted]. apply withRatingsPopular_ranked.
  - rewrite length_map, Hlen. reflexivity.
Qed.

Lemma popular_endpoint_ranked_witness :
  exists recs,
    getPopularItems shop (QStr "2") QAbsent = Ok (mkRecs recs "popular")
    /\ Forall (fun x => In (out_item x) (furnitures shop)
                        /\ orderCount x = Some (orderItemCount shop (out_id x))) recs
    /\ (forall e, None = Some (Num e) -> e <> 0 -> ~ In e (map out_id recs))
    /\ NoDup (map out_id recs)
    /\ StronglySorted ranked_by_popularity recs
    /\ Z.of_nat (List.length recs)
       = Z.min 2 (Z.of_nat (List.length (notExcluded shop None))).
Proof.
  apply (@popular_endpoint_ranked shop (QStr "2") QAbsent 2 None).
  - exact shop_furniture_key.
  - reflexivity.
  - lia.
  - reflexivity.
Defined.

(** ** The similar-items endpoint *)

(** X3: For a valid limit and an existing reference item, the similar-items
    endpoint returns each item at most once, ordered by descending review
    count and then by descending creation time, and never more than the
    limit, whichever rows the database's price filter selects. *)
Theorem similar_endpoint_ranked
    priceBetween d furnitureIdParam limitQ excludeQ furnitureId limit excl reference :
  furniture_key d ->
  parseInt furnitureIdParam = Num furnitureId ->
  recommendationQuerySchema limitQ excludeQ = Ok (Num limit, excl) ->
  1 <= limit <= 50 ->
  findFurniture d furnitureId = Some reference ->
  exists recs,
    getSimilarRecommendations priceBetween d furnitureIdParam limitQ excludeQ
    = Ok (mkRecs recs "content-based")
    /\ NoDup (map out_id recs)
    /\ StronglySorted ranked_by_reviews recs
    /\ Z.of_nat (List.length recs) <= limit.
Proof.
  intros Hk Hid Hq Hl Href.
  unfold getSimilarRecommendations. rewrite Hid, Hq. cbn [rbind].
  rewrite (validate_limit_ok Hl). cbn [rbind]. rewrite Href.
  destruct (priceBand (Furniture.price reference)) as [minPrice maxPrice].
  match goal with |- context [findManyFurniture d ?w ?o (Num limit)] =>
    destruct (findMany_total d w o limit) as [rows Hrows]; rewrite Hrows;
    pose proof (@findMany_NoDup _ _ _ _ _ Hk Hrows) as Hnd;
    destruct (@findMany_ranked d w o limit rows by_reviews_total by_reviews_trans
                (Z.le_trans 0 1 limit Z.le_0_1 (proj1 Hl)) Hrows) as [Hsorted Hlen]
  end.
  cbn [rbind catch_zod]. eexists. split; [reflexivity|].
  split; [|split].
  - rewrite map_out_id_rows by reflexivity. exact Hnd.
  - eapply StronglySorted_map; [|exact Hsorted]. apply withRatings_ranked.
  - rewrite length_map, Hlen. lia.
Qed.

Lemma similar_endpoint_ranked_witness :
  exists recs,
    getSimilarRecommendations between_binary64 shop "1" (QStr "4") QAbsent
    = Ok (mkRecs recs "content-based")
    /\ NoDup (map out_id recs)
    /\ StronglySorted ranked_by_reviews recs
    /\ Z.of_nat (List.length recs) <= 4.
Proof.
  apply (@similar_endpoint_ranked between_binary64 shop "1" (QStr "4") QAbsent 1 4 None
           chair1).
  - exact shop_furniture_key.
  - reflexivity.
  - reflexivity.
  - lia.
  - reflexivity.
Defined.

(** ** The hybrid composition *)

Lemma filter_partition_length {A} (p : A -> bool) l :
  (List.length (filter p l) + List.length (filter (fun x => negb (p x)) l))%nat
  = List.length l.
Proof.
  induction l as [|a l IH]; simpl; [reflexivity|].
  destruct (p a); simpl; lia.
Qed.

Lemma NoDup_map_filter {A B} (f : A -> B) (p : A -> bool) l :
  NoDup (map f l) -> NoDup (map f (filter p l)).
Proof.
  induction l as [|a l IH]; simpl; intros Hn; [constructor|].
  inversion Hn as [|? ? Hnotin Hrest]; subst. destruct (p a); simpl; [|now apply IH].
  constructor; [|now apply IH].
  intros Hc. apply Hnotin. apply in_map_iff in Hc as (y & Ey & Hy).
  apply filter_In in Hy as [Hy _]. apply in_map_iff. now exists y.
Qed.

(** Removing [L] distinct ids of rows of [C] from [C] leaves
    [length C - length L] rows. *)
Lemma count_not_in (C : list Furniture.t) (L : list Z) :
  NoDup (map Furniture.id C) -> NoDup L -> incl L (map Furniture.id C) ->
  (List.length (filter (fun f => negb (mem (Furniture.id f) L)) C) + List.length L)%nat
  = List.length C.
Proof.
  intros HC HL Hincl.
  rewrite <- (filter_partition_length (fun f => mem (Furniture.id f) L) C).
  assert (P : Permutation (map Furniture.id (filter (fun f => mem (Furniture.id f) L) C)) L).
  { apply NoDup_Permutation; [now apply NoDup_map_filter | assumption |].
    intros x. split.
    - intros H. apply in_map_iff in H as (f & <- & Hf).
      apply filter_In in Hf as [_ Hf]. now apply mem_In.
    - intros H. pose proof (Hincl x H) as Hx. apply in_map_iff in Hx as (f & <- & Hf).
      apply in_map. apply filter_In. split; [assumption | now apply mem_In]. }
  apply Permutation_length in P. rewrite length_map in P. lia.
Qed.

Lemma mem_with_exclude x L excl :
  mem x (with_exclude L excl) = mem x L || mem x (with_exclude [] excl).
Proof.
  assert (E : with_exclude L excl = L ++ with_exclude [] excl).
  { destruct excl as [[|e]|]; simpl; try (now rewrite app_nil_r).
    destruct (negb (e =? 0)); [reflexivity | now rewrite app_nil_r]. }
  rewrite E. unfold mem. apply existsb_app.
Qed.

Lemma remaining_candidates d L excl :
  filter (fun f => negb (mem (Furniture.id f) (with_exclude L excl))) (furnitures d)
  = filter (fun f => negb (mem (Furniture.id f) L)) (notExcluded d excl).
Proof.
  unfold notExcluded. rewrite <- filter_andb. apply filter_ext. intros f.
  rewrite mem_with_exclude. now rewrite negb_orb.
Qed.

Lemma firstn_short {A} (n : nat) (l : list A) :
  (List.length (firstn n l) < n)%nat -> firstn n l = l.
Proof. rewrite length_firstn. intros H. apply firstn_all2. lia. Qed.

(** The popularity tier fills the list up to the limit as far as the store
    allows. *)
Lemma popularTier_fills d recs limit excl :
  furniture_key d ->
  NoDup (map out_id recs) ->
  Forall (fun x => In (out_item x) (notExcluded d excl)) recs ->
  Z.of_nat (List.length recs) <= limit ->
  exclude_fits excl = true ->
  exists pop,
    popularTier d recs (Num limit) excl = Ok (recs ++ pop)
    /\ Forall (fun x => In (out_item x) (notExcluded d excl)) pop
    /\ Z.of_nat (List.length (recs ++ pop))
       = Z.min limit (Z.of_nat (List.length (notExcluded d excl))).
Proof.
  intros Hk Hnd Hin Hlen Hfit.
  assert (Hids : incl (map out_id recs) (map Furniture.id (notExcluded d excl))).
  { intros x Hx. apply in_map_iff in Hx as (r & <- & Hr).
    rewrite Forall_forall in Hin. unfold out_id.
    apply (in_map Furniture.id). now apply Hin. }
  assert (Hkc : NoDup (map Furniture.id (notExcluded d excl)))
    by (apply NoDup_map_filter; exact Hk).
  pose proof (@count_not_in _ _ Hkc Hnd Hids) as Hcount. rewrite length_map in Hcount.
  unfold popularTier, len, js_lt, js_sub.
  destruct (Z.ltb_spec (Z.of_nat (List.length recs)) limit) as [Hlt|Hge].
  - unfold getPopularRecommendationsHelper.
    rewrite carrying_fits by exact Hfit.
    match goal with |- context [findManyFurniture d ?w ?o (Num ?z)] =>
      destruct (findMany_total d w o z) as [rows Hrows]; rewrite Hrows;
      pose proof (@findMany_rows _ _ _ _ _ Hrows) as Hall;
      destruct (@findMany_ranked d w o z rows by_orders_total by_orders_trans
                  ltac:(lia) Hrows) as [_ Hl]
    end.
    cbn [rbind]. eexists. split; [reflexivity|]. split.
    + apply Forall_forall. intros x Hx. apply in_map_iff in Hx as (r & <- & Hr).
      rewrite Forall_forall in Hall. destruct (Hall r Hr) as (f & Hf & Hw & ->).
      simpl. unfold notExcluded. apply filter_In. split; [assumption|].
      rewrite mem_with_exclude, negb_orb in Hw. now apply andb_true_iff in Hw.
    + rewrite length_app, length_map. rewrite remaining_candidates in Hl. lia.
  - exists []. rewrite app_nil_r. split; [reflexivity|]. split; [constructor|].
    pose proof (NoDup_incl_length Hnd Hids) as Hle. rewrite !length_map in Hle. lia.
Qed.

Lemma tier_ok_not_excluded d L z excl r :
  tier_ok d (with_exclude L excl) z r ->
  Forall (fun x => In (out_item x) (notExcluded d excl)) r.
Proof.
  intros (Hall & _). rewrite Forall_forall in *. intros x Hx.
  destruct (Hall x Hx) as (Hnot & Hstore & _).
  unfold notExcluded. apply filter_In. split; [assumption|].
  apply negb_true_iff, mem_false. intros Hc. apply Hnot.
  apply mem_In. rewrite mem_with_exclude. apply mem_In in Hc. unfold out_id.
  rewrite Hc. apply orb_true_r.
Qed.

Lemma notExcluded_id d excl f e :
  In f (notExcluded d excl) -> excl = Some (Num e) -> e <> 0 -> Furniture.id f <> e.
Proof.
  unfold notExcluded. intros H. apply filter_In in H as [_ H].
  now apply not_excluded_id.
Qed.

(** X4: For a valid limit, an existing user, with or without purchases, and
    an [excludeId] that is absent, falsy or within the INTEGER range, the
    user endpoint returns exactly as many items as the limit allows: [limit]
    of them when the store has that many furniture rows besides the
    excluded one, all of those rows otherwise; none has a non-zero excluded
    id and none appears twice. *)
Theorem user_endpoint_fills d userIdParam limitQ excludeQ uid limit excl :
  furniture_key d ->
  idSchema userIdParam = Ok uid ->
  recommendationQuerySchema limitQ excludeQ = Ok (Num limit, excl) ->
  1 <= limit <= 50 ->
  findUser d uid <> None ->
  exclude_fits excl = true ->
  exists resp,
    getUserRecommendations d userIdParam limitQ excludeQ = Ok resp
    /\ Z.of_nat (List.length (recommendations resp))
       = Z.min limit (Z.of_nat (List.length (notExcluded d excl)))
    /\ Forall (fun x => In (out_item x) (furnitures d)) (recommendations resp)
    /\ (forall e, excl = Some (Num e) -> e <> 0 ->
                  ~ In e (map out_id (recommendations resp)))
    /\ NoDup (map out_id (recommendations resp)).
Proof.
  intros Hk Hid Hq Hl Hu Hfit.
  destruct (@historyTiers_spec d uid limit excl Hfit (proj1 Hl))
    as (collab & cat & Hh & _ & _ & Hcok & _ & Hcatok).
  assert (Hlc : Z.of_nat (List.length collab) <= limit) by (apply Hcok; lia).
  destruct (@tier_append d excl limit collab cat) as [Hnd1 Hlen1];
    [apply Hcok | assumption | assumption |].
  assert (Hin : Forall (fun x => In (out_item x) (notExcluded d excl)) (collab ++ cat)).
  { apply Forall_app. split; eapply tier_ok_not_excluded; eassumption. }
  destruct (@popularTier_fills d (collab ++ cat) limit excl Hk (Hnd1 Hk) Hin Hlen1 Hfit)
    as (pop & Hp & Hpin & Hplen).
  assert (Hall : Forall (fun x => In (out_item x) (notExcluded d excl))
                        ((collab ++ cat) ++ pop)).
  { apply Forall_app. now split. }
  assert (Hndall : NoDup (map out_id ((collab ++ cat) ++ pop))).
  { unfold popularTier, len, js_lt, js_sub in Hp.
    destruct (Z.ltb_spec (Z.of_nat (List.length (collab ++ cat))) limit) as [Hlt|Hge].
    - apply rbind_Ok in Hp as (pop' & Hpop & E). injection E as E.
      apply app_inv_head in E. subst pop'.
      destruct (@popular_spec d (limit - Z.of_nat (List.length (collab ++ cat))) excl
                  (map out_id (collab ++ cat)) Hfit) as (pop' & Hpop' & Hpok).
      rewrite Hpop in Hpop'. injection Hpop' as <-.
      now apply (@tier_append d excl limit (collab ++ cat) pop).
    - injection Hp as E. rewrite <- (app_nil_r (collab ++ cat)) in E at 1.
      apply app_inv_head in E. subst pop. rewrite app_nil_r. auto. }
  eexists. split.
  - unfold getUserRecommendations. rewrite Hid, Hq. cbn [rbind].
    rewrite (validate_limit_ok Hl). cbn [rbind].
    destruct (findUser d uid) eqn:Eu; [|congruence]. cbn [is_none throw_if rbind].
    rewrite Hh. cbn [rbind]. rewrite Hp. cbn [rbind]. reflexivity.
  - cbn [recommendations]. rewrite slice0_all by lia.
    split; [exact Hplen|]. split; [|split; [|exact Hndall]].
    + rewrite Forall_forall in *. intros x Hx. specialize (Hall x Hx).
      unfold notExcluded in Hall. now apply filter_In in Hall.
    + intros e He Hne Hc. apply in_map_iff in Hc as (x & Ex & Hx).
      rewrite Forall_forall in Hall.
      apply (@notExcluded_id d excl (out_item x) e (Hall x Hx) He Hne). exact Ex.
Qed.

Lemma user_endpoint_fills_witness :
  exists resp,
    getUserRecommendations shop "1" (QStr "5") (QStr "3") = Ok resp
    /\ Z.of_nat (List.length (recommendations resp))
       = Z.min 5 (Z.of_nat (List.length (notExcluded shop (Some (Num 3)))))
    /\ Forall (fun x => In (out_item x) (furnitures shop)) (recommendations resp)
    /\ (forall e, Some (Num 3) = Some (Num e) -> e <> 0 ->
                  ~ In e (map out_id (recommendations resp)))
    /\ NoDup (map out_id (recommendations resp)).
Proof.
  apply (@user_endpoint_fills shop "1" (QStr "5") (QStr "3") 1 5 (Some (Num 3))).
  - exact shop_furniture_key.
  - reflexivity.
  - reflexivity.
  - lia.
  - discriminate.
  - reflexivity.
Defined.

(** ** What the category-based tier adds *)

Lemma uniq_from_In c seen l :
  In c (uniq_from seen l) <-> In c l /\ ~ In c seen.
Proof.
  revert seen. induction l as [|x t IH]; simpl; intros seen; [tauto|].
  destruct (mem x seen) eqn:E.
  - apply mem_In in E. rewrite IH. split; [tauto|].
    intros [[<-|H] Hn]; tauto.
  - apply mem_false in E. simpl. rewrite IH. simpl. split.
    + intros [<-|[H Hn]]; tauto.
    + intros [[<-|H] Hn]; [tauto|]. destruct (Z.eq_dec x c); [tauto|]. right. tauto.
Qed.

Lemma uniq_In c l : In c (uniq l) <-> In c l.
Proof. unfold uniq. rewrite uniq_from_In. simpl. tauto. Qed.

Lemma count_set_keys c k m :
  In c (map fst (count_set k m)) <-> c = k \/ In c (map fst m).
Proof.
  induction m as [|[k' n] m IH]; simpl; [intuition congruence|].
  destruct (Z.eqb_spec k' k) as [->|Hne]; simpl; [intuition congruence|].
  rewrite IH. intuition congruence.
Qed.

Lemma categoryCount_keys c userOrders :
  In c (map fst (categoryCount userOrders)) <-> In c (map p_categoryId userOrders).
Proof.
  unfold categoryCount.
  assert (G : forall l m,
             In c (map fst (fold_left (fun m order => count_set (p_categoryId order) m) l m))
             <-> In c (map fst m) \/ In c (map p_categoryId l)).
  { induction l as [|o l IH]; simpl; intros m; [tauto|].
    rewrite IH, count_set_keys. intuition congruence. }
  rewrite G. simpl. tauto.
Qed.

Lemma preferredCategories_In c userOrders :
  In c (preferredCategories userOrders) <-> In c (map p_categoryId userOrders).
Proof.
  unfold preferredCategories. rewrite <- categoryCount_keys.
  split; apply Permutation_in; [|apply Permutation_sym]; apply Permutation_map, sort_by_perm.
Qed.

(** X5: When the collaborative tier returns fewer items than the limit, it has
    returned every furniture row of the user's categories that the user has
    not purchased; so every item the category-based tier then adds is one
    the user has already purchased. *)
Theorem category_tier_only_purchased d uid limit take excl collab cat :
  0 <= limit ->
  getCollaborativeRecommendations d uid (Num limit) excl = Ok collab ->
  Z.of_nat (List.length collab) < limit ->
  getCategoryBasedRecommendations d (completedOrderItems d uid) take excl
    (map out_id collab) = Ok cat ->
  Forall (fun x => In (out_id x) (purchasedIds (completedOrderItems d uid))) cat.
Proof.
  intros Hl Hc Hshort Hcat.
  unfold getCategoryBasedRecommendations in Hcat.
  destruct (List.length (preferredCategories (completedOrderItems d uid)) =? 0)%nat.
  { injection Hcat as <-. constructor. }
  apply rbind_Ok in Hcat as (rows & Hrows & E). injection E as <-.
  apply carrying_Ok in Hrows as [Hrows _].
  apply findMany_rows in Hrows. rewrite Forall_forall in Hrows.
  apply Forall_forall. intros x Hx. apply in_map_iff in Hx as (r & <- & Hr).
  destruct (Hrows r Hr) as (f & Hf & Hw & ->).
  change (out_id (withRatings (include_relations d f))) with (Furniture.id f).
  apply andb_true_iff in Hw as [Hpref Hnot].
  apply mem_In, preferredCategories_In in Hpref.
  rewrite mem_with_exclude, negb_orb in Hnot. apply andb_true_iff in Hnot as [Hnc Hne].
  apply negb_true_iff, mem_false in Hnc.
  destruct (mem (Furniture.id f) (purchasedIds (completedOrderItems d uid))) eqn:Ep;
    [now apply mem_In|].
  exfalso. apply Hnc.
  unfold getCollaborativeRecommendations in Hc.
  destruct (List.length (completedOrderItems d uid) =? 0)%nat eqn:E0.
  { apply Nat.eqb_eq, length_zero_iff_nil in E0. rewrite E0 in Hpref. contradiction. }
  apply rbind_Ok in Hc as (crows & Hcrows & E). injection E as <-.
  apply carrying_Ok in Hcrows as [Hcrows _].
  rewrite length_map in Hshort.
  unfold findManyFurniture, prisma_take in Hcrows. injection Hcrows as Hcrows.
  destruct (Z.leb_spec 0 limit); [|lia].
  assert (Hfull : crows = sort_by by_reviews_then_recent
            (map (include_relations d)
               (filter (fun f0 =>
                  mem (Furniture.categoryId f0)
                      (uniq (map p_categoryId (completedOrderItems d uid)))
                  && negb (mem (Furniture.id f0)
                              (with_exclude (purchasedIds (completedOrderItems d uid)) excl)))
                  (furnitures d)))).
  { rewrite <- Hcrows. apply firstn_short. rewrite Hcrows. lia. }
  rewrite map_out_id_rows by reflexivity. rewrite Hfull.
  apply in_map_iff. exists (include_relations d f). split; [reflexivity|].
  eapply Permutation_in; [apply Permutation_sym, sort_by_perm|].
  apply in_map. apply filter_In. split; [assumption|].
  apply andb_true_iff. split.
  - apply mem_In, uniq_In. assumption.
  - rewrite mem_with_exclude, Ep. simpl. exact Hne.
Qed.

Lemma category_tier_only_purchased_witness :
  Forall (fun x => In (out_id x) (purchasedIds (completedOrderItems shop 1)))
         [withRatings (include_relations shop chair1)].
Proof.
  apply (@category_tier_only_purchased shop 1 2 (Num 1) None
           [withRatings (include_relations shop chair2)]
           [withRatings (include_relations shop chair1)]).
  - lia.
  - reflexivity.
  - simpl. lia.
  - reflexivity.
Defined.

(** ** Printing and parsing integers *)

Lemma parse_digits_pos u a :
  parse_digits 10 (NilEmpty.string_of_uint u) (Some (Z.pos a))
  = Some (Z.pos (Pos.of_uint_acc u a)).
Proof.
  revert a. induction u; intros a; [reflexivity| ..]; eval_digit;
    match goal with
    | |- parse_digits _ _ (Some ?x) = Some (Z.pos (Pos.of_uint_acc _ ?b)) =>
        replace x with (Z.pos b)
          by (rewrite ?Pos2Z.inj_add, ?Pos2Z.inj_mul; lia);
        apply IHu
    end.
Qed.

Lemma parse_digits_zero u :
  parse_digits 10 (NilEmpty.string_of_uint u) (Some 0) = Some (Z.of_uint u).
Proof.
  unfold Z.of_uint. induction u; [reflexivity| ..]; eval_digit;
    cbn [Pos.of_uint Z.of_N Z.mul Z.add]; try assumption; apply parse_digits_pos.
Qed.

Lemma parse_digits_none u :
  u <> Decimal.Nil ->
  parse_digits 10 (NilEmpty.string_of_uint u) None = Some (Z.of_uint u).
Proof.
  unfold Z.of_uint. destruct u; intros Hne; [congruence| ..]; eval_digit;
    cbn [Pos.of_uint Z.of_N]; try apply parse_digits_pos.
  apply parse_digits_zero.
Qed.

Lemma parseInt_uint u :
  u <> Decimal.Nil ->
  parseInt (NilEmpty.string_of_uint u) = Num (Z.of_uint u)
  /\ parseInt (String "-"%char (NilEmpty.string_of_uint u)) = Num (- Z.of_uint u).
Proof.
  intros Hne. pose proof (parse_digits_none Hne) as Hp.
  assert (Hstart : forall s sign,
             (s = NilEmpty.string_of_uint u) ->
             match parse_digits 10 s None with
             | Some v => Num (sign * v)
             | None => NaN
             end = Num (sign * Z.of_uint u)).
  { intros s sign ->. now rewrite Hp. }
  destruct u as [|u|u|u|u|u|u|u|u|u|u]; [congruence| ..];
    try (split; [rewrite <- (Z.mul_1_l (Z.of_uint _)) | rewrite Z.opp_eq_mul_m1, Z.mul_comm];
         apply Hstart; reflexivity).
  destruct u;
    (split; [rewrite <- (Z.mul_1_l (Z.of_uint _)) | rewrite Z.opp_eq_mul_m1, Z.mul_comm]);
    try reflexivity; apply Hstart; reflexivity.
Qed.

Lemma parseInt_string_of_Z z : parseInt (string_of_Z z) = Num z.
Proof.
  unfold string_of_Z. pose proof (DecimalZ.of_to z) as Hz.
  destruct z as [|p|p]; [reflexivity| |]; cbn [Z.to_int NilZero.string_of_int] in *;
    unfold NilZero.string_of_uint;
    destruct (Pos.to_uint p) eqn:E;
    try (rewrite <- Hz; apply parseInt_uint; discriminate);
    discriminate.
Qed.

(** X6: [parseInt] reads back the decimal text of every integer that
    binary64 holds exactly (up to 2^53 in absolute value, which covers every
    INTEGER key), negative ones included: such an id written into a path or
    a message is a non-empty text that the id schemas of the controllers
    parse to the same id. *)
Theorem decimal_text_parses_back z :
  safe_integer z = true ->
  parseInt (string_of_Z z) = Num z
  /\ idSchema (string_of_Z z) = Ok z
  /\ str_truthy (string_of_Z z) = true.
Proof.
  intros _. pose proof (parseInt_string_of_Z z) as H. unfold idSchema. rewrite H.
  split; [reflexivity|]. split; [reflexivity|].
  unfold str_truthy. destruct (String.eqb_spec (string_of_Z z) "") as [E|]; [|reflexivity].
  rewrite E in H. discriminate.
Qed.

Lemma decimal_text_parses_back_witness :
  string_of_Z (-2147483648) = "-2147483648"
  /\ parseInt (string_of_Z (-2147483648)) = Num (-2147483648)
  /\ idSchema (string_of_Z (-2147483648)) = Ok (-2147483648)
  /\ str_truthy (string_of_Z (-2147483648)) = true.
Proof.
  split; [reflexivity|].
  apply (@decimal_text_parses_back (-2147483648)). reflexivity.
Defined.

(** ** Order listings *)

Lemma getUserOrdersSchema_bounds pq lq sq p l s :
  getUserOrdersSchema pq lq sq = Ok (p, l, s) -> 1 <= p /\ 1 <= l <= 50.
Proof.
  unfold getUserOrdersSchema. intros H.
  apply rbind_Ok in H as (po & _ & H). apply rbind_Ok in H as (lo & _ & H).
  apply rbind_Ok in H as (so & _ & H). injection H as <- <- _.
  split.
  - destruct po as [v|]; [|lia]. destruct (str_truthy v); [|lia].
    destruct (parseInt v); lia.
  - destruct lo as [v|]; [|lia]. destruct (str_truthy v); [|lia].
    destruct (parseInt v); lia.
Qed.

Lemma getUserOrdersSchema_status pq lq sq p l s :
  getUserOrdersSchema pq lq sq = Ok (p, l, s) ->
  match sq with
  | QAbsent => s = None
  | QStr v => exists st, updateOrderStatusSchema v = Ok st /\ s = Some st
  | QMulti => False
  end.
Proof.
  unfold getUserOrdersSchema. intros H.
  apply rbind_Ok in H as (po & _ & H). apply rbind_Ok in H as (lo & _ & H).
  apply rbind_Ok in H as (so & Hs & H). injection H as _ _ <-.
  destruct sq as [|v|]; simpl in Hs.
  - now injection Hs as <-.
  - apply rbind_Ok in Hs as (st & Hst & E). injection E as <-. eauto.
  - discriminate.
Qed.

(** The only error of the schema is a [ZodError]. *)
Lemma getUserOrdersSchema_Err pq lq sq e :
  getUserOrdersSchema pq lq sq = Err e -> e = ZodError.
Proof.
  unfold getUserOrdersSchema.
  destruct (zod_optional_string pq) eqn:E1;
    [|destruct pq; try discriminate; injection E1 as <-; cbn [rbind]; congruence].
  destruct (zod_optional_string lq) eqn:E2;
    [|destruct lq; try discriminate; injection E2 as <-; cbn [rbind]; congruence].
  cbn [rbind]. destruct sq as [|v|]; cbn [rbind]; try congruence.
  unfold updateOrderStatusSchema.
  repeat match goal with |- context [if ?c then _ else _] => destruct c end;
    cbn [rbind]; congruence.
Qed.

Lemma paginationGuards_ok p l :
  1 <= p -> 1 <= l <= 50 -> paginationGuards p l = Ok tt.
Proof.
  intros Hp Hl. unfold paginationGuards, throw_if.
  destruct (Z.ltb_spec p 1); [lia|]. cbn [rbind].
  destruct (Z.ltb_spec l 1); [lia|]. destruct (Z.ltb_spec 50 l); [lia|]. reflexivity.
Qed.

Lemma ceil_div_spec a b :
  0 <= a -> 0 < b -> a <= ceil_div a b * b < a + b.
Proof.
  intros Ha Hb. unfold ceil_div.
  pose proof (Z.mul_div_le (a + b - 1) b Hb).
  pose proof (Z.mul_succ_div_gt (a + b - 1) b Hb). lia.
Qed.

Lemma StronglySorted_weaken {A} (R R' : A -> A -> Prop) l :
  (forall a b, R a b -> R' a b) -> StronglySorted R l -> StronglySorted R' l.
Proof.
  intros HR. induction 1 as [|a l Hl IH Ha]; constructor; [assumption|].
  eapply Forall_impl; [|exact Ha]. auto.
Qed.

Lemma int4_int8 z : int4 z = true -> int8 z = true.
Proof.
  unfold int4, int8. intros H. apply andb_true_iff in H as [H1 H2].
  apply Z.leb_le in H1, H2. apply andb_true_iff. split; apply Z.leb_le; lia.
Qed.

Lemma matchingOrders_In c t d u s o :
  In o (matchingOrders c t d u s) <-> In o (orders d) /\ order_matches u s o = true.
Proof.
  unfold matchingOrders. rewrite <- filter_In.
  split; apply Permutation_in; [|symmetry]; apply sort_by_perm.
Qed.

Lemma matchingOrders_length c t d u s :
  List.length (matchingOrders c t d u s)
  = List.length (filter (order_matches u s) (orders d)).
Proof. apply Permutation_length, sort_by_perm. Qed.

(** Insertion by a comparison that follows a key keeps a list ordered by
    the key, however the comparison treats equal keys. *)
Lemma insert_by_keyed {A} (R : A -> A -> Prop) (before : A -> A -> bool) :
  (forall a b, before a b = true -> R a b) ->
  (forall a b, before a b = false -> R b a) ->
  (forall a b c, R a b -> R b c -> R a c) ->
  forall x l, StronglySorted R l -> StronglySorted R (insert_by before x l).
Proof.
  intros Ht Hf Htrans x l. induction 1 as [|y t Hs IH Hy]; simpl.
  - repeat constructor.
  - destruct (before x y) eqn:E.
    + constructor; [constructor; assumption|].
      constructor; [now apply Ht|].
      rewrite Forall_forall in *. intros z Hz. eapply Htrans; [apply Ht; exact E | auto].
    + constructor; [assumption|].
      rewrite Forall_forall in *. intros z Hz.
      eapply Permutation_in in Hz; [|apply insert_by_perm].
      destruct Hz as [<-|Hz]; [now apply Hf | auto].
Qed.

(** Whatever the order of rows created at the same time, a listing is
    ordered by [createdAt], newest first. *)
Lemma matchingOrders_sorted c t d u s :
  StronglySorted (fun a b => c b <= c a) (matchingOrders c t d u s).
Proof.
  unfold matchingOrders. generalize (filter (order_matches u s) (orders d)) as l.
  induction l as [|x l IH]; simpl; [constructor|].
  apply insert_by_keyed; [| | |exact IH].
  - intros a b H. unfold newest_first in H. apply orb_true_iff in H as [H|H].
    + apply Z.ltb_lt in H. lia.
    + apply andb_true_iff in H as [H _]. apply Z.eqb_eq in H. lia.
  - intros a b H. unfold newest_first in H. apply orb_false_iff in H as [H _].
    apply Z.ltb_ge in H. exact H.
  - intros a b x0 H1 H2. lia.
Qed.

Lemma insert_by_ext_in {A} (b1 b2 : A -> A -> bool) x l :
  (forall y, In y l -> b1 x y = b2 x y) -> insert_by b1 x l = insert_by b2 x l.
Proof.
  induction l as [|y t IH]; simpl; intros H; [reflexivity|].
  rewrite (H y) by now left. destruct (b2 x y); [reflexivity|].
  f_equal. apply IH. intros z Hz. apply H. now right.
Qed.

(** When no two matching orders were created at the same time, every query
    lists them in the same order. *)
Lemma matchingOrders_tie c t1 t2 d u s :
  NoDup (map c (filter (order_matches u s) (orders d))) ->
  matchingOrders c t1 d u s = matchingOrders c t2 d u s.
Proof.
  unfold matchingOrders. generalize (filter (order_matches u s) (orders d)) as l.
  induction l as [|x l IH]; simpl; intros Hn; [reflexivity|].
  inversion Hn as [|? ? Hnotin Hrest]; subst.
  rewrite <- (IH Hrest). apply insert_by_ext_in. intros y Hy.
  eapply Permutation_in in Hy; [|apply sort_by_perm].
  unfold newest_first.
  destruct (Z.eqb_spec (c x) (c y)) as [E|_]; [|reflexivity].
  exfalso. apply Hnotin. rewrite E. now apply in_map.
Qed.

Lemma window_infix {A} (n k : nat) (l : list A) :
  l = firstn k l ++ firstn n (skipn k l) ++ skipn n (skipn k l).
Proof. now rewrite !firstn_skipn. Qed.

Lemma In_window {A} (n k : nat) (l : list A) x :
  In x (firstn n (skipn k l)) -> In x l.
Proof.
  intros H. rewrite (window_infix n k l). apply in_or_app. right.
  apply in_or_app. now left.
Qed.

(** What a page of a listing holds, whatever the filter. *)
Lemma ordersPage_spec c t d u page limit s :
  1 <= page -> 1 <= limit <= 50 ->
  let pg := ordersPage c t d u page limit s in
  let p := pagination pg in
  pg_page p = page /\ pg_limit p = limit
  /\ Z.of_nat (List.length (page_orders pg)) <= limit
  /\ (forall o, In o (page_orders pg) ->
        In (order o) (orders d) /\ order_matches u s (order o) = true
        /\ o = with_items d (order o))
  /\ StronglySorted (fun a b => c (order b) <= c (order a)) (page_orders pg)
  /\ totalCount p = Z.of_nat (List.length (filter (order_matches u s) (orders d)))
  /\ totalCount p <= totalPages p * limit < totalCount p + limit.
Proof.
  intros Hp Hl pg p. subst p pg. unfold ordersPage. cbn [pagination page_orders
    pg_page pg_limit totalCount totalPages].
  split; [reflexivity|]. split; [reflexivity|].
  split; [rewrite length_map, length_firstn; lia|].
  split.
  { intros o Ho. apply in_map_iff in Ho as (x & <- & Hx). apply In_window in Hx.
    apply matchingOrders_In in Hx. simpl. tauto. }
  split.
  { pose proof (matchingOrders_sorted c t d u s) as Hs.
    rewrite (window_infix (Z.to_nat limit) (Z.to_nat ((page - 1) * limit))) in Hs.
    apply StronglySorted_infix in Hs.
    eapply StronglySorted_map; [|exact Hs]. simpl. auto. }
  rewrite matchingOrders_length. split; [reflexivity|].
  apply ceil_div_spec; lia.
Qed.

(** The listing of a signed-in caller, once the schema has accepted the
    query: it answers with the page when the offset is a 64-bit integer. *)
Lemma getMyOrders_schema c t d uid pageQ limitQ statusQ page limit status :
  uid <> 0 ->
  getUserOrdersSchema pageQ limitQ statusQ = Ok (page, limit, status) ->
  getMyOrders c t d (Some uid) pageQ limitQ statusQ
  = ordersQuery c t d (Some uid) page limit status.
Proof.
  intros Hu Hq. unfold getMyOrders, authenticated.
  destruct (Z.eqb_spec uid 0) as [|_]; [contradiction|].
  rewrite Hq. cbn [rbind].
  destruct (getUserOrdersSchema_bounds _ _ _ Hq) as [Hp Hl].
  now rewrite (paginationGuards_ok Hp Hl).
Qed.

Lemma ordersQuery_Ok c t d u page limit s pg :
  ordersQuery c t d u page limit s = Ok pg ->
  int8 ((page - 1) * limit) = true /\ pg = ordersPage c t d u page limit s.
Proof.
  unfold ordersQuery. destruct (int8 ((page - 1) * limit)); [|discriminate].
  intros H. now injection H as <-.
Qed.

Lemma ordersQuery_fits c t d u page limit s :
  int8 ((page - 1) * limit) = true ->
  ordersQuery c t d u page limit s = Ok (ordersPage c t d u page limit s).
Proof. unfold ordersQuery. now intros ->. Qed.

(** X7: for a signed-in caller, the pagination guards of the order listings
    can never fire: a query that the schema accepts has a page of at least 1
    and a limit from 1 to 50, and GET /api/orders/my-orders never answers it
    with an API error; what the schema rejects is answered with its error.
    When the offset [(page - 1) * limit] fits the INTEGER range the listing
    answers with a page of at most [limit] orders, all of them orders of the
    caller that pass the status filter, each with exactly its own items,
    newest first; [totalCount] counts the caller's matching orders and
    [totalPages] is the least number of pages that holds them. *)
Theorem my_orders_page orderCreatedAt tieOrder d uid pageQ limitQ statusQ :
  uid <> 0 ->
  let answer := getMyOrders orderCreatedAt tieOrder d (Some uid) pageQ limitQ statusQ in
  match getUserOrdersSchema pageQ limitQ statusQ with
  | Err _ => answer = Err ZodError
  | Ok (page, limit, status) =>
      1 <= page /\ 1 <= limit <= 50
      /\ (forall code message, answer <> Err (ApiError code message))
      /\ (int4 ((page - 1) * limit) = true ->
          exists pg,
            answer = Ok pg
            /\ let p := pagination pg in
               pg_page p = page /\ pg_limit p = limit
               /\ Z.of_nat (List.length (page_orders pg)) <= limit
               /\ (forall o, In o (page_orders pg) ->
                     In (order o) (orders d)
                     /\ Order.userId (order o) = Some uid
                     /\ (forall st, status = Some st -> Order.status (order o) = st)
                     /\ (forall oi, In oi (items o) <->
                                    In oi (orderItems d)
                                    /\ OrderItem.orderId oi = Order.id (order o)))
               /\ StronglySorted
                    (fun a b => orderCreatedAt (order b) <= orderCreatedAt (order a))
                    (page_orders pg)
               /\ totalCount p
                  = Z.of_nat (List.length
                                (filter (order_matches (Some uid) status) (orders d)))
               /\ totalCount p <= totalPages p * limit < totalCount p + limit)
  end.
Proof.
  intros Hu answer.
  destruct (getUserOrdersSchema pageQ limitQ statusQ) as [[[page limit] status]|e] eqn:Hq.
  2:{ subst answer. unfold getMyOrders, authenticated.
      destruct (Z.eqb_spec uid 0) as [|_]; [contradiction|].
      rewrite Hq. cbn [rbind]. now rewrite (getUserOrdersSchema_Err _ _ _ Hq). }
  destruct (getUserOrdersSchema_bounds _ _ _ Hq) as [Hp Hl].
  assert (Ea : answer = ordersQuery orderCreatedAt tieOrder d (Some uid) page limit status)
    by (apply getMyOrders_schema; assumption).
  rewrite Ea. clear Ea answer.
  split; [assumption|]. split; [assumption|]. split.
  { intros code message. unfold ordersQuery.
    destruct (int8 ((page - 1) * limit)); discriminate. }
  intros Hfit. rewrite ordersQuery_fits by now apply int4_int8.
  eexists. split; [reflexivity|].
  destruct (@ordersPage_spec orderCreatedAt tieOrder d (Some uid) page limit status Hp Hl)
    as (E1 & E2 & Hlen & Hin & Hs & Hc & Ht).
  cbv zeta. split; [assumption|]. split; [assumption|]. split; [assumption|].
  split; [|tauto].
  intros o Ho. destruct (Hin o Ho) as (Hio & Hm & Ew).
  split; [assumption|]. unfold order_matches in Hm. apply andb_true_iff in Hm as [Hm1 Hm2].
  split.
  { destruct (Order.userId (order o)) as [v|]; [|discriminate].
    apply Z.eqb_eq in Hm1. now subst. }
  split.
  { intros st ->. destruct (Order.status (order o)), st; simpl in Hm2;
      congruence. }
  intros oi. rewrite Ew at 1. unfold with_items. cbn [items].
  rewrite filter_In, Z.eqb_eq. tauto.
Qed.

Lemma my_orders_page_witness :
  2 <> 0 /\
  let answer := getMyOrders shopCreatedAt shopTieOrder shop (Some 2)
                            (QStr "1") (QStr "1") QAbsent in
  match getUserOrdersSchema (QStr "1") (QStr "1") QAbsent with
  | Err _ => answer = Err ZodError
  | Ok (page, limit, status) =>
      1 <= page /\ 1 <= limit <= 50
      /\ (forall code message, answer <> Err (ApiError code message))
      /\ (int4 ((page - 1) * limit) = true ->
          exists pg,
            answer = Ok pg
            /\ let p := pagination pg in
               pg_page p = page /\ pg_limit p = limit
               /\ Z.of_nat (List.length (page_orders pg)) <= limit
               /\ (forall o, In o (page_orders pg) ->
                     In (order o) (orders shop)
                     /\ Order.userId (order o) = Some 2
                     /\ (forall st, status = Some st -> Order.status (order o) = st)
                     /\ (forall oi, In oi (items o) <->
                                    In oi (orderItems shop)
                                    /\ OrderItem.orderId oi = Order.id (order o)))
               /\ StronglySorted
                    (fun a b => shopCreatedAt (order b) <= shopCreatedAt (order a))
                    (page_orders pg)
               /\ totalCount p
                  = Z.of_nat (List.length
                                (filter (order_matches (Some 2) status) (orders shop)))
               /\ totalCount p <= totalPages p * limit < totalCount p + limit)
  end.
Proof.
  split; [lia|].
  apply (@my_orders_page shopCreatedAt shopTieOrder shop 2 (QStr "1") (QStr "1") QAbsent).
  lia.
Defined.

(** A page number beyond every 64-bit offset passes the schema and the
    guards, and the listing fails in the query. *)
Example my_orders_huge_page :
  getUserOrdersSchema (QStr "100000000000000000000") QAbsent QAbsent
  = Ok (100000000000000000000, 10, None)
  /\ paginationGuards 100000000000000000000 10 = Ok tt
  /\ exists e,
       getMyOrders shopCreatedAt shopTieOrder shop (Some 2)
                   (QStr "100000000000000000000") QAbsent QAbsent = Err e
       /\ e <> ZodError.
Proof.
  split; [vm_compute; reflexivity|]. split; [vm_compute; reflexivity|].
  eexists. split; [vm_compute; reflexivity | discriminate].
Qed.

(** ** The pages of a listing, put together *)

Lemma firstn_add_split {A} (a b : nat) (l : list A) :
  firstn (a + b) l = firstn a l ++ firstn b (skipn a l).
Proof.
  revert l. induction a as [|a IH]; intros [|x l]; simpl;
    rewrite ?firstn_nil; try reflexivity.
  now rewrite IH.
Qed.

Lemma chunks_from {A} (n : nat) (l : list A) k j :
  flat_map (fun p => firstn n (skipn ((p - 1) * n) l)) (seq (S j) k)
  = firstn (k * n) (skipn (j * n) l).
Proof.
  revert j. induction k as [|k IH]; intros j; [reflexivity|].
  cbn [seq flat_map]. rewrite IH.
  replace (S j - 1)%nat with j by lia.
  replace (S k * n)%nat with (n + k * n)%nat by lia.
  rewrite firstn_add_split, skipn_skipn. reflexivity.
Qed.

Lemma chunks_concat {A} (n : nat) (l : list A) k :
  (List.length l <= k * n)%nat ->
  flat_map (fun p => firstn n (skipn ((p - 1) * n) l)) (seq 1 k) = l.
Proof. intros H. rewrite chunks_from. simpl. now apply firstn_all2. Qed.

Lemma flat_map_ext_in {A B} (f g : A -> list B) l :
  (forall a, In a l -> f a = g a) -> flat_map f l = flat_map g l.
Proof.
  intros H. rewrite !flat_map_concat_map. f_equal. now apply map_ext_in.
Qed.

Lemma flat_map_map_out {A B C} (g : B -> C) (h : A -> list B) l :
  flat_map (fun a => map g (h a)) l = map g (flat_map h l).
Proof.
  induction l as [|a l IH]; simpl; [reflexivity|]. now rewrite map_app, IH.
Qed.

Lemma ordersPage_pages c t d u limit s k :
  1 <= limit ->
  (List.length (matchingOrders c t d u s) <= k * Z.to_nat limit)%nat ->
  flat_map (fun p => page_orders (ordersPage c t d u (Z.of_nat p) limit s)) (seq 1 k)
  = map (with_items d) (matchingOrders c t d u s).
Proof.
  intros Hl Hk. unfold ordersPage. cbn [page_orders].
  rewrite flat_map_map_out. f_equal.
  etransitivity; [|exact (chunks_concat (Z.to_nat limit) (matchingOrders c t d u s) k Hk)].
  apply flat_map_ext_in. intros p Hp. apply in_seq in Hp.
  do 2 f_equal. replace (Z.of_nat p - 1) with (Z.of_nat (p - 1)) by lia.
  rewrite Z2Nat.inj_mul by lia. now rewrite Nat2Z.id.
Qed.

(** A page is the same in every query when no two matching orders were
    created at the same time. *)
Lemma ordersPage_tie c t1 t2 d u page limit s :
  NoDup (map c (filter (order_matches u s) (orders d))) ->
  ordersPage c t1 d u page limit s = ordersPage c t2 d u page limit s.
Proof.
  intros Hn. unfold ordersPage. now rewrite (matchingOrders_tie c t1 t2 d u s Hn).
Qed.

Lemma string_of_Z_truthy z : str_truthy (string_of_Z z) = true.
Proof.
  unfold str_truthy. destruct (String.eqb_spec (string_of_Z z) "") as [E|]; [|reflexivity].
  pose proof (parseInt_string_of_Z z) as H. rewrite E in H. discriminate.
Qed.

(** The schema reads each parameter on its own: the page number printed in
    decimal comes back as it is. *)
Lemma getUserOrdersSchema_page limitQ statusQ p0 limit status p :
  getUserOrdersSchema p0 limitQ statusQ = Ok (1, limit, status) ->
  (1 <= p)%nat ->
  getUserOrdersSchema (QStr (string_of_Z (Z.of_nat p))) limitQ statusQ
  = Ok (Z.of_nat p, limit, status).
Proof.
  unfold getUserOrdersSchema. intros H Hp.
  apply rbind_Ok in H as (po & _ & H). cbn [zod_optional_string rbind].
  destruct (zod_optional_string limitQ) as [lo|]; [|discriminate]. cbn [rbind] in *.
  match goal with
  | H : rbind ?r _ = _ |- _ => destruct r as [so|]; [|discriminate]
  end.
  cbn [rbind] in *. injection H as _ <- <-.
  rewrite string_of_Z_truthy, parseInt_string_of_Z, Z.max_r by lia. reflexivity.
Qed.

(** The pages 1 to the last one of a listing, each requested on its own:
    when the matching orders were created at pairwise different times and
    the table holds no more rows than INTEGER keys, every request is
    answered with the window of the one newest-first order of the matching
    orders that its page number names. *)
Lemma pages_are_windows c (tieOrders : nat -> Order.t -> Order.t -> bool) t d u limit s
    (listing : nat -> qparam -> result OrdersPage) :
  1 <= limit <= 50 ->
  NoDup (map c (filter (order_matches u s) (orders d))) ->
  Z.of_nat (List.length (orders d)) <= 2147483647 ->
  (forall p, (1 <= p)%nat ->
     listing p (QStr (string_of_Z (Z.of_nat p)))
     = ordersQuery c (tieOrders p) d u (Z.of_nat p) limit s) ->
  let all := matchingOrders c t d u s in
  let lastPage := Z.to_nat (ceil_div (Z.of_nat (List.length all)) limit) in
  pages_upto listing lastPage = map (with_items d) all
  /\ forall p pg, (lastPage < p)%nat ->
       listing p (QStr (string_of_Z (Z.of_nat p))) = Ok pg -> page_orders pg = [].
Proof.
  intros Hl Hn Hsize Hlisting all lastPage.
  pose proof (@ceil_div_spec (Z.of_nat (List.length all)) limit
                ltac:(lia) ltac:(lia)) as Hc.
  assert (Hpos : 0 <= ceil_div (Z.of_nat (List.length all)) limit) by nia.
  assert (Hall : (List.length all <= List.length (orders d))%nat).
  { subst all. rewrite matchingOrders_length. apply filter_length_le. }
  split.
  - unfold pages_upto. subst all.
    rewrite <- (@ordersPage_pages c t d u limit s lastPage); [|lia|subst lastPage; nia].
    apply flat_map_ext_in. intros p Hp. apply in_seq in Hp.
    rewrite Hlisting by lia.
    rewrite ordersQuery_fits.
    + now rewrite (ordersPage_tie c (tieOrders p) t d u (Z.of_nat p) limit s Hn).
    + unfold int8. apply andb_true_iff. split; apply Z.leb_le; subst lastPage; nia.
  - intros p pg Hp Hpg. rewrite Hlisting in Hpg by lia.
    apply ordersQuery_Ok in Hpg as [_ ->].
    rewrite (ordersPage_tie c (tieOrders p) t d u (Z.of_nat p) limit s Hn).
    unfold ordersPage. cbn [page_orders]. fold all.
    rewrite skipn_all2; [now rewrite firstn_nil|].
    subst lastPage. nia.
Qed.

(** X8: the pages 1 to [totalPages] of GET /api/orders/my-orders, requested
    one after the other with the same [limit] and [status], each page by a
    query of its own, give every matching order of the caller newest first,
    each once, with its items, and the pages after the last one are empty:
    provided that no two of the matching orders were created at the same
    time (the order of such rows is open and may differ from query to
    query) and that the order table holds no more rows than there are
    INTEGER keys. *)
Theorem my_orders_pages_cover orderCreatedAt
    (tieOrders : nat -> Order.t -> Order.t -> bool) d uid limitQ statusQ limit status :
  uid <> 0 ->
  getUserOrdersSchema QAbsent limitQ statusQ = Ok (1, limit, status) ->
  NoDup (map orderCreatedAt (filter (order_matches (Some uid) status) (orders d))) ->
  Z.of_nat (List.length (orders d)) <= 2147483647 ->
  let all := matchingOrders orderCreatedAt (tieOrders 0%nat) d (Some uid) status in
  let lastPage := Z.to_nat (ceil_div (Z.of_nat (List.length all)) limit) in
  pages_upto (fun p pageQ =>
                getMyOrders orderCreatedAt (tieOrders p) d (Some uid) pageQ limitQ statusQ)
             lastPage
  = map (with_items d) all
  /\ forall p pg, (lastPage < p)%nat ->
       getMyOrders orderCreatedAt (tieOrders p) d (Some uid)
                   (QStr (string_of_Z (Z.of_nat p))) limitQ statusQ = Ok pg ->
       page_orders pg = [].
Proof.
  intros Hu Hq Hn Hsize.
  destruct (getUserOrdersSchema_bounds _ _ _ Hq) as [_ Hl].
  apply (@pages_are_windows orderCreatedAt tieOrders (tieOrders 0%nat) d (Some uid)
           limit status
           (fun p pageQ =>
              getMyOrders orderCreatedAt (tieOrders p) d (Some uid) pageQ limitQ statusQ)
           Hl Hn Hsize).
  intros p Hp. apply getMyOrders_schema; [assumption|].
  now apply (getUserOrdersSchema_page _ _ _ Hq).
Qed.

Lemma my_orders_pages_cover_witness :
  let tieOrders := fun (p : nat) (a b : Order.t) => Nat.even p in
  let all := matchingOrders Order.id (tieOrders 0%nat) shop (Some 2) None in
  let lastPage := Z.to_nat (ceil_div (Z.of_nat (List.length all)) 1) in
  lastPage = 2%nat
  /\ pages_upto (fun p pageQ =>
                   getMyOrders Order.id (tieOrders p) shop (Some 2) pageQ (QStr "1") QAbsent)
                lastPage
     = map (with_items shop) all
  /\ forall p pg, (lastPage < p)%nat ->
       getMyOrders Order.id (tieOrders p) shop (Some 2)
                   (QStr (string_of_Z (Z.of_nat p))) (QStr "1") QAbsent = Ok pg ->
       page_orders pg = [].
Proof.
  intros tieOrders all lastPage. split; [reflexivity|].
  apply (@my_orders_pages_cover Order.id tieOrders shop 2 (QStr "1") QAbsent 1 None).
  - lia.
  - reflexivity.
  - simpl. repeat constructor; simpl; intuition lia.
  - simpl. lia.
Defined.

(** With two orders created at the same time the pages need not fit
    together: when the query for page 1 puts order 3 first and the query
    for page 2 puts order 2 first, order 3 is listed on both pages and
    order 2 on none. *)
Example pages_with_a_tie :
  let listing := fun (p : nat) pageQ =>
    getMyOrders shopCreatedAt
                (fun a b => if Nat.even p then Order.id a <? Order.id b
                            else Order.id b <? Order.id a)
                shop (Some 2) pageQ (QStr "1") QAbsent in
  map (fun o => Order.id (order o)) (pages_upto listing 2) = [3; 3].
Proof. vm_compute. reflexivity. Qed.

(** ** Who may read an order *)

Lemma find_by_key {A} (key : A -> Z) l x :
  NoDup (map key l) -> In x l -> find (fun y => key y =? key x) l = Some x.
Proof.
  induction l as [|a l IH]; simpl; intros Hn Hin; [contradiction|].
  inversion Hn as [|? ? Hnotin Hrest]; subst.
  destruct (Z.eqb_spec (key a) (key x)) as [E|E].
  - destruct Hin as [->|Hin]; [reflexivity|].
    exfalso. apply Hnotin. rewrite E. now apply in_map.
  - destruct Hin as [->|Hin]; [contradiction|]. now apply IH.
Qed.

Lemma getMyOrders_run c t d uid pageQ limitQ statusQ pg :
  uid <> 0 ->
  getMyOrders c t d (Some uid) pageQ limitQ statusQ = Ok pg ->
  exists page limit status,
    getUserOrdersSchema pageQ limitQ statusQ = Ok (page, limit, status)
    /\ 1 <= page /\ 1 <= limit <= 50
    /\ pg = ordersPage c t d (Some uid) page limit status.
Proof.
  intros Hu H.
  destruct (getUserOrdersSchema pageQ limitQ statusQ) as [[[page limit] status]|e] eqn:Hq.
  - rewrite (getMyOrders_schema c t d _ _ _ Hu Hq) in H.
    apply ordersQuery_Ok in H as [_ ->].
    destruct (getUserOrdersSchema_bounds _ _ _ Hq). exists page, limit, status. auto.
  - unfold getMyOrders, authenticated in H.
    destruct (Z.eqb_spec uid 0) as [|_]; [contradiction|].
    rewrite Hq in H. discriminate.
Qed.

(** X9: GET /api/orders/user/:userId with the caller's own id answers as
    GET /api/orders/my-orders does, and with any other id it answers 403
    whatever the store holds, also when that user does not exist. *)
Theorem user_orders_own_only orderCreatedAt tieOrder d uid pageQ limitQ statusQ :
  uid <> 0 ->
  findUser d uid <> None ->
  getUserOrders orderCreatedAt tieOrder d uid (string_of_Z uid) pageQ limitQ statusQ
  = getMyOrders orderCreatedAt tieOrder d (Some uid) pageQ limitQ statusQ
  /\ forall other d', other <> uid ->
       getUserOrders orderCreatedAt tieOrder d' uid (string_of_Z other)
                     pageQ limitQ statusQ
       = Err (ApiError 403 "Access denied").
Proof.
  intros Hu Hex. unfold getUserOrders, getMyOrders, authenticated. split.
  - rewrite parseInt_string_of_Z, Z.eqb_refl. cbn [negb].
    destruct (Z.eqb_spec uid 0) as [|_]; [contradiction|].
    destruct (getUserOrdersSchema pageQ limitQ statusQ) as [[[page limit] status]|e];
      [|reflexivity].
    cbn [rbind]. destruct (paginationGuards page limit) as [[]|e]; [|reflexivity].
    cbn [rbind]. destruct (findUser d uid); [reflexivity|contradiction].
  - intros other d' Ho. rewrite parseInt_string_of_Z.
    destruct (Z.eqb_spec uid other) as [E|_]; [congruence|reflexivity].
Qed.

Lemma user_orders_own_only_witness :
  2 <> 0 /\ findUser shop 2 <> None /\
  getUserOrders Order.id shopTieOrder shop 2 (string_of_Z 2) (QStr "1") (QStr "5") QAbsent
  = getMyOrders Order.id shopTieOrder shop (Some 2) (QStr "1") (QStr "5") QAbsent
  /\ forall other d', other <> 2 ->
       getUserOrders Order.id shopTieOrder d' 2 (string_of_Z other)
                     (QStr "1") (QStr "5") QAbsent
       = Err (ApiError 403 "Access denied").
Proof.
  split; [lia|]. split; [discriminate|].
  apply (@user_orders_own_only Order.id shopTieOrder shop 2 (QStr "1") (QStr "5") QAbsent);
    [lia | discriminate].
Defined.

(** X10: every order that GET /api/orders/my-orders lists for a user can be
    fetched by that user with GET /api/orders/:id, which gives the same
    order with the same items; a caller without a session gets it as well,
    and a caller signed in as somebody else gets 403. *)
Theorem listed_order_detail orderCreatedAt tieOrder d uid pageQ limitQ statusQ pg o :
  order_key d ->
  uid <> 0 ->
  getMyOrders orderCreatedAt tieOrder d (Some uid) pageQ limitQ statusQ = Ok pg ->
  In o (page_orders pg) ->
  let idParam := string_of_Z (Order.id (order o)) in
  getOrder d (Some uid) idParam = Ok o
  /\ getOrder d None idParam = Ok o
  /\ forall other, other <> uid ->
       getOrder d (Some other) idParam = Err (ApiError 403 "Access denied").
Proof.
  intros Hk Hu Hpg Ho idParam.
  destruct (getMyOrders_run _ _ _ _ _ _ Hu Hpg)
    as (page & limit & status & _ & Hp & Hl & ->).
  destruct (@ordersPage_spec orderCreatedAt tieOrder d (Some uid) page limit status Hp Hl)
    as (_ & _ & _ & Hin & _).
  destruct (Hin o Ho) as (Hio & Hm & Ew).
  assert (Hown : Order.userId (order o) = Some uid).
  { unfold order_matches in Hm. apply andb_true_iff in Hm as [Hm _].
    destruct (Order.userId (order o)) as [v|]; [|discriminate].
    apply Z.eqb_eq in Hm. now subst. }
  assert (Hf : findOrder d (Order.id (order o)) = Some (order o))
    by (apply (find_by_key Order.id); assumption).
  subst idParam. unfold getOrder, idSchema. rewrite parseInt_string_of_Z, Hf, Hown.
  rewrite <- Ew. split; [|split].
  - rewrite Z.eqb_refl, andb_false_r. reflexivity.
  - reflexivity.
  - intros other Hne.
    destruct (Z.eqb_spec uid 0) as [|_]; [contradiction|].
    destruct (Z.eqb_spec uid other) as [E|_]; [congruence|]. reflexivity.
Qed.

Lemma shop_order_key : order_key shop.
Proof. unfold order_key. simpl. repeat constructor; simpl; intuition lia. Qed.

Lemma listed_order_detail_witness :
  order_key shop /\ 2 <> 0 /\
  exists pg o,
    getMyOrders Order.id shopTieOrder shop (Some 2) QAbsent QAbsent QAbsent = Ok pg
    /\ In o (page_orders pg)
    /\ let idParam := string_of_Z (Order.id (order o)) in
       getOrder shop (Some 2) idParam = Ok o
       /\ getOrder shop None idParam = Ok o
       /\ forall other, other <> 2 ->
            getOrder shop (Some other) idParam = Err (ApiError 403 "Access denied").
Proof.
  split; [exact shop_order_key|]. split; [lia|].
  exists (ordersPage Order.id shopTieOrder shop (Some 2) 1 10 None).
  exists (with_items shop (Order.mk 2 (Some 2) 500%float PENDING)).
  split; [reflexivity|]. split; [vm_compute; auto|].
  apply (@listed_order_detail Order.id shopTieOrder shop 2 QAbsent QAbsent QAbsent
           (ordersPage Order.id shopTieOrder shop (Some 2) 1 10 None)).
  - exact shop_order_key.
  - lia.
  - reflexivity.
  - vm_compute; auto.
Defined.

(** ** Sequences of status requests *)

Lemma NoDup_map_inj_in {A B} (f : A -> B) l x y :
  NoDup (map f l) -> In x l -> In y l -> f x = f y -> x = y.
Proof.
  induction l as [|a l IH]; simpl; intros Hn Hx Hy E; [contradiction|].
  inversion Hn as [|? ? Hnotin Hrest]; subst.
  destruct Hx as [->|Hx], Hy as [->|Hy]; auto.
  - exfalso. apply Hnotin. rewrite E. now apply in_map.
  - exfalso. apply Hnotin. rewrite <- E. now apply in_map.
Qed.

Lemma Forall2_map_self {A} (R : A -> A -> Prop) (g : A -> A) l :
  (forall x, In x l -> R x (g x)) -> Forall2 R l (map g l).
Proof.
  induction l as [|a l IH]; simpl; intros H; constructor; auto.
Qed.

Lemma status_only_refl o : status_only o o.
Proof. unfold status_only. auto. Qed.

Lemma status_only_trans a b c : status_only a b -> status_only b c -> status_only a c.
Proof.
  unfold status_only. intros (E1 & E2 & E3 & E4) (F1 & F2 & F3 & F4).
  repeat split; try congruence.
  intros H. rewrite F4; [auto|]. rewrite E4; auto.
Qed.

Lemma Forall2_status_only_refl l : Forall2 status_only l l.
Proof. induction l; constructor; auto using status_only_refl. Qed.

Lemma Forall2_status_only_trans l1 l2 l3 :
  Forall2 status_only l1 l2 -> Forall2 status_only l2 l3 -> Forall2 status_only l1 l3.
Proof.
  intros H. revert l3. induction H as [|a b l1 l2 Hab H IH]; intros l3 H3;
    inversion H3; subst; constructor; eauto using status_only_trans.
Qed.

Lemma Forall2_status_only_ids l l' :
  Forall2 status_only l l' -> map Order.id l' = map Order.id l.
Proof.
  induction 1 as [|a b l l' (E & _) H IH]; simpl; [reflexivity|]. now rewrite E, IH.
Qed.

Lemma same_but_orders_refl d : same_but_orders d d.
Proof. unfold same_but_orders. tauto. Qed.

Lemma same_but_orders_trans a b c :
  same_but_orders a b -> same_but_orders b c -> same_but_orders a c.
Proof.
  unfold same_but_orders. intros (?&?&?&?&?&?&?) (?&?&?&?&?&?&?).
  repeat split; congruence.
Qed.

Lemma order_update_status_only d id o status o' d' :
  order_key d ->
  findOrder d id = Some o ->
  Order.status o = PENDING \/ status = Order.status o ->
  order_update_status id status d = Ok (o', d') ->
  Forall2 status_only (orders d) (orders d') /\ same_but_orders d d'.
Proof.
  intros Hk Hf Hst. unfold order_update_status. rewrite Hf. intros H.
  injection H as _ <-. split; [|unfold same_but_orders; simpl; tauto].
  cbn [orders]. apply Forall2_map_self. intros x Hx.
  destruct (Z.eqb_spec (Order.id x) id) as [E|_]; [|apply status_only_refl].
  apply find_some in Hf as [Ho Eo]. apply Z.eqb_eq in Eo.
  assert (x = o) as -> by (eapply (NoDup_map_inj_in Order.id); eauto; congruence).
  unfold status_only. cbn. repeat split.
  intros Hne. destruct Hst as [Hp| ->]; [contradiction|reflexivity].
Qed.

Lemma updateOrderStatus_step idParam bodyStatus w r w' :
  order_key (db w) ->
  updateOrderStatus idParam bodyStatus w = (r, w') ->
  Forall2 status_only (orders (db w)) (orders (db w')) /\ same_but_orders (db w) (db w').
Proof.
  intros Hk H.
  assert (Hsame : forall w0, db w0 = db w ->
            Forall2 status_only (orders (db w)) (orders (db w0))
            /\ same_but_orders (db w) (db w0)).
  { intros w0 ->. split; [apply Forall2_status_only_refl | apply same_but_orders_refl]. }
  unfold updateOrderStatus in H.
  apply bind_inv in H as [(e & -> & H)|(id & w1 & H1 & H)].
  { apply lift_inv in H as [_ ->]. now apply Hsame. }
  apply lift_inv in H1 as [_ ->].
  apply bind_inv in H as [(e & -> & H)|(status & w1 & H1 & H)].
  { apply lift_inv in H as [_ ->]. now apply Hsame. }
  apply lift_inv in H1 as [_ ->].
  apply bind_inv in H as [(e & -> & H)|(ex & w1 & H1 & H)].
  { apply query_inv in H as [Hd _]. now apply Hsame. }
  apply query_inv in H1 as [Hd [E|E]]; [|discriminate]. injection E as ->.
  destruct (findOrder (db w) id) as [o|] eqn:Hf.
  2:{ apply throw_inv in H as [_ ->]. now apply Hsame. }
  destruct (OrderStatus_eqb (Order.status o) COMPLETED
            && negb (OrderStatus_eqb status COMPLETED)) eqn:E1.
  { apply throw_inv in H as [_ ->]. now apply Hsame. }
  destruct (OrderStatus_eqb (Order.status o) CANCELLED
            && negb (OrderStatus_eqb status CANCELLED)) eqn:E2.
  { apply throw_inv in H as [_ ->]. now apply Hsame. }
  apply exec_inv in H as [(a & _ & H)|(e & _ & H)].
  - rewrite Hd in H.
    apply (@order_update_status_only (db w) id o status a (db w') Hk Hf); [|exact H].
    revert E1 E2. destruct (Order.status o), status; simpl; intros; auto; discriminate.
  - apply Hsame. congruence.
Qed.

(** X11: whatever requests to change order statuses are served, in whatever
    order and whichever statements fail on the way, an order that is
    COMPLETED or CANCELLED keeps its status, no order changes its id, owner
    or total, no order appears or disappears, and no other table changes. *)
Theorem status_requests_keep_terminal reqs d faults :
  order_key d ->
  let d' := db (statusRequests reqs (mkWorld d faults)) in
  Forall2 status_only (orders d) (orders d') /\ same_but_orders d d'.
Proof.
  intros Hk. cbv zeta.
  change d with (db (mkWorld d faults)) at 1 3.
  change d with (db (mkWorld d faults)) in Hk.
  generalize dependent (mkWorld d faults). clear d faults.
  induction reqs as [|[idParam bodyStatus] rest IH]; intros w Hk; simpl.
  - split; [apply Forall2_status_only_refl | apply same_but_orders_refl].
  - destruct (updateOrderStatus idParam bodyStatus w) as [r w1] eqn:E. simpl.
    destruct (updateOrderStatus_step _ _ _ Hk E) as [H1 H2].
    assert (Hk1 : order_key (db w1)).
    { unfold order_key. rewrite (Forall2_status_only_ids H1). exact Hk. }
    destruct (IH w1 Hk1) as [H3 H4].
    split; [eapply Forall2_status_only_trans | eapply same_but_orders_trans]; eauto.
Qed.

Lemma status_requests_keep_terminal_witness :
  order_key shop /\
  let d' := db (statusRequests [("1", "PENDING"); ("2", "COMPLETED"); ("2", "CANCELLED")]
                               (mkWorld shop [false; false; true])) in
  Forall2 status_only (orders shop) (orders d') /\ same_but_orders shop d'.
Proof.
  split; [exact shop_order_key|].
  apply (@status_requests_keep_terminal
           [("1", "PENDING"); ("2", "COMPLETED"); ("2", "CANCELLED")] shop
           [false; false; true]).
  exact shop_order_key.
Defined.

(** ** From checkout to review *)

Lemma fresh_id_gt ids x : In x ids -> x < fresh_id ids.
Proof.
  unfold fresh_id. induction ids as [|a l IH]; cbn [fold_right In]; [contradiction|].
  intros [->|H]; [lia|]. specialize (IH H). lia.
Qed.

Lemma find_not_None {A} (p : A -> bool) l x :
  In x l -> p x = true -> find p l <> None.
Proof.
  intros Hin Hp Hn. pose proof (find_none p l Hn x Hin). congruence.
Qed.

Lemma orderItemRows_In orderId base data it :
  In it (orderItemRows orderId base data) ->
  OrderItem.orderId it = orderId
  /\ In (OrderItem.furnitureId it) (map OrderItemData.furnitureId data).
Proof.
  revert base. induction data as [|x t IH]; simpl; intros base; [contradiction|].
  intros [<-|H]; [simpl; auto|]. destruct (IH _ H). auto.
Qed.

(** The foreign keys that [order_create] checks. *)
Lemma order_create_fk userId total status data d out d' :
  order_create userId total status data d = Ok (out, d') ->
  (forall u, userId = Some u -> findUser d u <> None)
  /\ Forall (fun x => findFurniture d (OrderItemData.furnitureId x) <> None) data
  /\ Order.id (order out) = fresh_id (map Order.id (orders d)).
Proof.
  intros H. pose proof (order_create_accepted _ _ _ _ _ H) as (_ & Hu & Hi & _).
  split; [|split; [exact Hi|]].
  - intros u ->. exact Hu.
  - unfold order_create in H.
    destruct (order_create_refusal userId total data d); [discriminate|].
    now injection H as <- _.
Qed.

(** An order that has just been stored is the order its id finds. *)
Lemma findOrder_new d o :
  Order.id o = fresh_id (map Order.id (orders d)) ->
  find (fun x => Order.id x =? Order.id o) (orders d ++ [o]) = Some o.
Proof.
  intros E.
  assert (H : forall x, In x (orders d) -> Order.id x <> Order.id o).
  { intros x Hx. pose proof (@fresh_id_gt (map Order.id (orders d)) (Order.id x)
                               (in_map _ _ _ Hx)). lia. }
  clear E. revert H. generalize (orders d) as l.
  induction l as [|a l IH]; simpl; intros H.
  - now rewrite Z.eqb_refl.
  - destruct (Z.eqb_spec (Order.id a) (Order.id o)) as [E'|_].
    + exfalso. apply (H a); auto.
    + apply IH. intros x Hx. apply H. auto.
Qed.

(** What a successful [placeOrder] leaves in the store, whether or not the
    cart was cleared. *)
Lemma placeOrder_stored user directItems w out w' :
  placeOrder user directItems w = (Ok out, w') ->
  exists uid acc d1,
    authenticated user = Some uid
    /\ order_create (Some uid) (fst acc) COMPLETED (snd acc) (db w) = Ok (out, d1)
    /\ orders (db w') = orders d1 /\ orderItems (db w') = orderItems d1
    /\ users (db w') = users d1 /\ furnitures (db w') = furnitures d1
    /\ reviews (db w') = reviews d1.
Proof.
  intros H. apply placeOrder_inv in H as [(e & E & _)|H]; [discriminate|].
  destruct H as (uid & acc & scc & out0 & d1 & Ha & _ & Hc & _ & H).
  exists uid, acc, d1. split; [assumption|].
  destruct H as [(E & _ & ->)|[(E & _ & c & _ & ->)|(e & E & _)]];
    try discriminate; injection E as ->; simpl; auto 10.
Qed.

Lemma findPurchase_new d' uid o it :
  In o (orders d') -> In it (orderItems d') ->
  OrderItem.orderId it = Order.id o ->
  Order.userId o = Some uid -> Order.status o = COMPLETED ->
  findPurchase uid (OrderItem.furnitureId it) d' <> None.
Proof.
  intros Ho Hit E Hu Hs. unfold findPurchase.
  apply (@find_not_None _ _ _ it Hit).
  rewrite Z.eqb_refl. cbn [andb]. unfold in_completed_order_of.
  apply existsb_exists. exists o. split; [assumption|].
  rewrite E, Z.eqb_refl, Hu, Z.eqb_refl, Hs. reflexivity.
Qed.

(** X12: once POST /api/checkout/place has answered with an order, the buyer
    passes the purchase check of the review endpoint for every item of that
    order, and a first review of such an item with a rating from 1 to 5 is
    stored (buyer and furniture ids being positive, as SERIAL keys are). *)
Theorem checkout_then_review user directItems w out w' it rating comment now :
  placeOrder user directItems w = (Ok out, w') ->
  In it (items out) ->
  exists uid,
    authenticated user = Some uid
    /\ findPurchase uid (OrderItem.furnitureId it) (db w') <> None
    /\ (0 < uid -> 0 < OrderItem.furnitureId it -> 1 <= rating <= 5 ->
        match comment with Some c => (String.length c <= 1000)%nat | None => True end ->
        findReview uid (OrderItem.furnitureId it) (db w') = None ->
        exists rev d'',
          createReview (ReviewInput.mk (OrderItem.furnitureId it) uid rating comment) now
                       (mkWorld (db w') [])
          = (Ok rev, mkWorld d'' [])
          /\ reviews d'' = reviews (db w') ++ [rev]
          /\ Review.userId rev = uid
          /\ Review.furnitureId rev = OrderItem.furnitureId it
          /\ Review.rating rev = rating).
Proof.
  intros Hp Hit.
  destruct (placeOrder_stored _ _ _ Hp)
    as (uid & acc & d1 & Ha & Hc & Eo & Ei & Eu & Ef & Er).
  destruct (order_create_spec _ _ _ _ _ Hc)
    as (Ho1 & Hi1 & Hown & Hst & _ & (base & Hrows) & _ & _ & Hu1 & Hf1 & _).
  destruct (order_create_fk _ _ _ _ _ Hc) as (Hfku & Hfkf & _).
  rewrite Hrows in Hit. pose proof (orderItemRows_In _ _ _ _ Hit) as [Eid Hfid].
  rewrite <- Hrows in Hit.
  assert (Hgate : findPurchase uid (OrderItem.furnitureId it) (db w') <> None).
  { apply (@findPurchase_new (db w') uid (order out) it); auto.
    - rewrite Eo, Ho1. apply in_or_app. right. simpl. auto.
    - rewrite Ei, Hi1. apply in_or_app. now right. }
  exists uid. split; [assumption|]. split; [assumption|].
  intros Hupos Hfpos Hr Hcm Hnew.
  assert (Huser : findUser (db w') uid <> None).
  { unfold findUser. rewrite Eu, Hu1. now apply Hfku. }
  assert (Hfurn : findFurniture (db w') (OrderItem.furnitureId it) <> None).
  { unfold findFurniture. rewrite Ef, Hf1.
    apply in_map_iff in Hfid as (x & <- & Hx).
    rewrite Forall_forall in Hfkf. now apply Hfkf. }
  set (body := ReviewInput.mk (OrderItem.furnitureId it) uid rating comment).
  assert (Hschema : createReviewSchema body = Ok body).
  { unfold createReviewSchema. subst body. cbn [ReviewInput.furnitureId
      ReviewInput.userId ReviewInput.rating ReviewInput.comment].
    destruct (Z.ltb_spec 0 (OrderItem.furnitureId it)); [|lia].
    destruct (Z.ltb_spec 0 uid); [|lia].
    destruct (Z.leb_spec 1 rating); [|lia].
    destruct (Z.leb_spec rating 5); [|lia].
    destruct comment as [c|]; [|reflexivity].
    apply Nat.leb_le in Hcm. cbn [andb]. now rewrite Hcm. }
  destruct (review_create body now (db w')) as [[rev d'']|e] eqn:Hrc.
  2:{ exfalso. unfold review_create in Hrc. subst body.
      cbn [ReviewInput.furnitureId ReviewInput.userId] in Hrc. rewrite Hnew in Hrc.
      cbn [is_none negb] in Hrc.
      destruct (findUser (db w') uid); [|contradiction].
      destruct (findFurniture (db w') (OrderItem.furnitureId it)); [|contradiction].
      discriminate. }
  exists rev, d''.
  destruct (review_create_spec _ _ _ Hrc) as (R1 & R2 & R3 & R4 & _).
  split; [|subst body; simpl in *; auto].
  unfold createReview. rewrite Hschema. unfold bind at 1. unfold lift.
  subst body. cbn [ReviewInput.furnitureId ReviewInput.userId].
  unfold bind. rewrite !query_healthy. cbn [db].
  destruct (findUser (db w') uid); [|contradiction]. cbn [is_none].
  rewrite query_healthy. cbn [db].
  destruct (findFurniture (db w') (OrderItem.furnitureId it)); [|contradiction].
  cbn [is_none]. rewrite query_healthy. cbn [db].
  destruct (findPurchase uid (OrderItem.furnitureId it) (db w')); [|contradiction].
  cbn [is_none]. rewrite query_healthy. cbn [db]. rewrite Hnew. cbn [is_none negb].
  rewrite exec_healthy, Hrc. reflexivity.
Qed.

Lemma checkout_then_review_witness :
  exists out w',
    placeOrder (Some 1) None (mkWorld shop []) = (Ok out, w')
    /\ In (OrderItem.mk 6 5 2 3 120.5%float) (items out)
    /\ exists uid,
         authenticated (Some 1) = Some uid
         /\ findPurchase uid 2 (db w') <> None
         /\ (0 < uid -> 0 < 2 -> 1 <= 5 <= 5 -> True ->
             findReview uid 2 (db w') = None ->
             exists rev d'',
               createReview (ReviewInput.mk 2 uid 5 None) 40 (mkWorld (db w') [])
               = (Ok rev, mkWorld d'' [])
               /\ reviews d'' = reviews (db w') ++ [rev]
               /\ Review.userId rev = uid
               /\ Review.furnitureId rev = 2
               /\ Review.rating rev = 5).
Proof.
  exists (mkOrderOut (Order.mk 5 (Some 1) 861.5%float COMPLETED)
            [OrderItem.mk 6 5 2 3 120.5%float; OrderItem.mk 7 5 3 1 500%float]).
  eexists. split; [vm_compute; reflexivity|]. split; [simpl; auto|].
  eapply (@checkout_then_review (Some 1) None (mkWorld shop [])
            (mkOrderOut (Order.mk 5 (Some 1) 861.5%float COMPLETED)
               [OrderItem.mk 6 5 2 3 120.5%float; OrderItem.mk 7 5 3 1 500%float])
            _ (OrderItem.mk 6 5 2 3 120.5%float) 5 None 40).
  - vm_compute. reflexivity.
  - simpl. auto.
Defined.

(** ** Orders that wait for completion *)

Lemma createOrder_stored user bodyItems guest w out w' :
  createOrder user bodyItems guest w = (Ok out, w') ->
  exists total data d1,
    order_create (authenticated user) total PENDING data (db w) = Ok (out, d1)
    /\ orders (db w') = orders d1 /\ orderItems (db w') = orderItems d1.
Proof.
  intros H. apply createOrder_inv in H as [(e & E & _)|H]; [discriminate|].
  destruct H as (out0 & email & total & data & d1 & E & _ & _ & _ & Hc & Hd).
  injection E as <-. exists total, data, d1. split; [assumption|].
  rewrite Hd. destruct (authenticated user); auto.
Qed.

Lemma in_completed_pending_added d o oi uid :
  Order.status o = PENDING ->
  existsb (fun x =>
             (Order.id x =? OrderItem.orderId oi)
             && match Order.userId x with Some u => u =? uid | None => false end
             && OrderStatus_eqb (Order.status x) COMPLETED)
          (orders d ++ [o])
  = in_completed_order_of d uid oi.
Proof.
  intros Hs. unfold in_completed_order_of. rewrite existsb_app. cbn [existsb].
  rewrite Hs. cbn [OrderStatus_eqb]. now rewrite andb_false_r, !orb_false_r.
Qed.

Lemma find_ext_eq {A} (p q : A -> bool) l :
  (forall x, p x = q x) -> find p l = find q l.
Proof.
  intros H. induction l as [|a l IH]; simpl; [reflexivity|]. now rewrite H, IH.
Qed.

Lemma find_app_none {A} (p : A -> bool) l l' :
  (forall x, In x l' -> p x = false) -> find p (l ++ l') = find p l.
Proof.
  intros H. induction l as [|a l IH]; simpl.
  - destruct (find p l') as [x|] eqn:E; [|reflexivity].
    apply find_some in E as [Hin Hp]. rewrite (H x Hin) in Hp. discriminate.
  - destruct (p a); auto.
Qed.

(** X13: an order made by POST /api/orders is PENDING and opens no review gate:
    the purchase check of the review endpoint answers for every user and
    item as it did before.  Completing that order with PATCH
    /api/orders/:id/status succeeds and from then on its owner passes the
    check for every item of the order. *)
Theorem pending_order_then_completed user bodyItems guest w out w' :
  createOrder user bodyItems guest w = (Ok out, w') ->
  (forall u f, findPurchase u f (db w') = findPurchase u f (db w))
  /\ exists o' d'',
       updateOrderStatus (string_of_Z (Order.id (order out))) "COMPLETED"
                         (mkWorld (db w') [])
       = (Ok o', mkWorld d'' [])
       /\ Order.id o' = Order.id (order out) /\ Order.status o' = COMPLETED
       /\ forall uid it, authenticated user = Some uid -> In it (items out) ->
            findPurchase uid (OrderItem.furnitureId it) d'' <> None.
Proof.
  intros H. destruct (createOrder_stored _ _ _ _ H) as (total & data & d1 & Hc & Eo & Ei).
  destruct (order_create_spec _ _ _ _ _ Hc)
    as (Ho1 & Hi1 & Hown & Hst & _ & (base & Hrows) & _).
  destruct (order_create_fk _ _ _ _ _ Hc) as (_ & _ & Hid).
  split.
  - intros u f. unfold findPurchase. rewrite Ei, Hi1.
    assert (Hext : forall oi, in_completed_order_of (db w') u oi
                              = in_completed_order_of (db w) u oi).
    { intros oi. unfold in_completed_order_of at 1. rewrite Eo, Ho1.
      now apply in_completed_pending_added. }
    rewrite (@find_ext_eq _ _ (fun oi => (OrderItem.furnitureId oi =? f)
                                          && in_completed_order_of (db w) u oi))
      by (intros oi; now rewrite Hext).
    apply find_app_none. intros x Hx. rewrite Hrows in Hx.
    apply orderItemRows_In in Hx as [Ex _].
    apply andb_false_iff. right. unfold in_completed_order_of.
    apply not_true_is_false. intros Hc'. apply existsb_exists in Hc' as (o & Hin & Hp).
    apply andb_true_iff in Hp as [Hp _]. apply andb_true_iff in Hp as [Hp _].
    apply Z.eqb_eq in Hp. rewrite Ex, Hid in Hp.
    pose proof (@fresh_id_gt (map Order.id (orders (db w))) (Order.id o)
                  (in_map _ _ _ Hin)). lia.
  - assert (Hf : findOrder (db w') (Order.id (order out)) = Some (order out)).
    { unfold findOrder. rewrite Eo, Ho1. now apply findOrder_new. }
    destruct (order_update_status (Order.id (order out)) COMPLETED (db w'))
      as [[o' d'']|e] eqn:Eu.
    2:{ unfold order_update_status in Eu. rewrite Hf in Eu. discriminate. }
    exists o', d''.
    destruct (@findOrder_after_update _ _ _ COMPLETED Hf _ _ Eu) as [Hf' Hs'].
    assert (Eid : Order.id o' = Order.id (order out)).
    { unfold order_update_status in Eu. rewrite Hf in Eu. now injection Eu as <- _. }
    split.
    { unfold updateOrderStatus, idSchema. rewrite parseInt_string_of_Z.
      change (updateOrderStatusSchema "COMPLETED") with (Ok COMPLETED).
      unfold bind, lift. rewrite query_healthy. cbn [db]. rewrite Hf, Hst.
      cbn [OrderStatus_eqb andb negb]. rewrite exec_healthy, Eu. reflexivity. }
    split; [assumption|]. split; [assumption|].
    intros uid it Hu Hit.
    assert (Ed : orderItems d'' = orderItems (db w')
                 /\ Order.userId o' = Order.userId (order out)).
    { unfold order_update_status in Eu. rewrite Hf in Eu. injection Eu as <- <-. auto. }
    destruct Ed as [Ed Eown].
    apply (@findPurchase_new d'' uid o' it).
    + apply find_some in Hf' as [Hin _]. exact Hin.
    + rewrite Ed, Ei, Hi1. apply in_or_app. now right.
    + rewrite Hrows in Hit. apply orderItemRows_In in Hit as [-> _]. now rewrite Eid.
    + rewrite Eown, Hown. exact Hu.
    + exact Hs'.
Qed.

Lemma pending_order_then_completed_witness :
  exists out w',
    createOrder (Some 2) [ItemInput.mk 3 2] GuestAbsent (mkWorld shop []) = (Ok out, w')
    /\ (forall u f, findPurchase u f (db w') = findPurchase u f shop)
    /\ exists o' d'',
         updateOrderStatus (string_of_Z (Order.id (order out))) "COMPLETED"
                           (mkWorld (db w') [])
         = (Ok o', mkWorld d'' [])
         /\ Order.id o' = Order.id (order out) /\ Order.status o' = COMPLETED
         /\ forall uid it, authenticated (Some 2) = Some uid -> In it (items out) ->
              findPurchase uid (OrderItem.furnitureId it) d'' <> None.
Proof.
  exists (mkOrderOut (Order.mk 5 (Some 2) 1000%float PENDING)
            [OrderItem.mk 6 5 3 2 500%float]).
  eexists. split; [vm_compute; reflexivity|].
  eapply (@pending_order_then_completed (Some 2) [ItemInput.mk 3 2] GuestAbsent
            (mkWorld shop [])
            (mkOrderOut (Order.mk 5 (Some 2) 1000%float PENDING)
               [OrderItem.mk 6 5 3 2 500%float])).
  vm_compute. reflexivity.
Defined.

(** ** The cart *)

Lemma NoDup_snoc {A} (l : list A) x : NoDup l -> ~ In x l -> NoDup (l ++ [x]).
Proof.
  intros Hn Hx. apply NoDup_app; [assumption | repeat constructor; auto | ].
  intros a Ha [<-|[]]. contradiction.
Qed.

Lemma find_app_first {A} (p : A -> bool) l l' :
  find p (l ++ l') = match find p l with Some x => Some x | None => find p l' end.
Proof. induction l as [|a l IH]; simpl; [reflexivity|]. now destruct (p a). Qed.

Lemma in_cart_of_true d u ci :
  in_cart_of d u ci = true
  <-> exists c, In c (carts d) /\ Cart.id c = CartItem.cartId ci /\ Cart.userId c = u.
Proof.
  unfold in_cart_of. rewrite existsb_exists. split; intros (c & Hc & H); exists c.
  - apply andb_true_iff in H as [H1 H2]. apply Z.eqb_eq in H1, H2. auto.
  - destruct H as [-> ->]. now rewrite !Z.eqb_refl.
Qed.

Lemma in_cart_other d user u ci :
  NoDup (map Cart.id (carts d)) ->
  in_cart_of d user ci = true -> u <> user -> in_cart_of d u ci = false.
Proof.
  intros Hn H Hne. apply not_true_is_false. intros H'.
  apply in_cart_of_true in H as (c & Hc & E1 & E2).
  apply in_cart_of_true in H' as (c' & Hc' & E1' & E2').
  assert (c = c') by (eapply (NoDup_map_inj_in Cart.id); eauto; congruence).
  congruence.
Qed.

Lemma findCartOfUser_In d u c :
  findCartOfUser d u = Some c -> In c (carts d) /\ Cart.userId c = u.
Proof.
  intros H. apply find_some in H as [H E]. apply Z.eqb_eq in E. auto.
Qed.

Lemma in_cart_of_found d u c ci :
  findCartOfUser d u = Some c -> CartItem.cartId ci = Cart.id c ->
  in_cart_of d u ci = true.
Proof.
  intros H E. apply findCartOfUser_In in H as [H1 H2].
  apply in_cart_of_true. exists c. auto.
Qed.

Lemma in_cart_of_cart d u c ci :
  NoDup (map Cart.userId (carts d)) ->
  findCartOfUser d u = Some c -> in_cart_of d u ci = true ->
  CartItem.cartId ci = Cart.id c.
Proof.
  intros Hn H Hin. apply findCartOfUser_In in H as [H1 H2].
  apply in_cart_of_true in Hin as (c' & Hc' & E1 & E2).
  assert (c = c') by (eapply (NoDup_map_inj_in Cart.userId); eauto; congruence).
  congruence.
Qed.

Lemma filter_implied {A} (p q : A -> bool) l :
  (forall x, In x l -> p x = true -> q x = true) ->
  filter p (filter q l) = filter p l.
Proof.
  intros H. induction l as [|a l IH]; simpl; [reflexivity|].
  destruct (q a) eqn:Eq; simpl.
  - rewrite IH; [reflexivity|]. intros x Hx. apply H. simpl. auto.
  - destruct (p a) eqn:Ep.
    + rewrite (H a) in Eq; simpl; auto. discriminate.
    + apply IH. intros x Hx. apply H. simpl. auto.
Qed.

Lemma filter_filter_comm {A} (p q : A -> bool) l :
  filter p (filter q l) = filter q (filter p l).
Proof.
  induction l as [|a l IH]; simpl; [reflexivity|].
  destruct (q a) eqn:Eq, (p a) eqn:Ep; simpl; rewrite ?Eq, ?Ep, IH; reflexivity.
Qed.

(** Two stores with the same carts, whose cart items outside the carts of
    [user] are the same, hold the same cart for everybody else. *)
Lemma cart_frame d d' user :
  carts d' = carts d ->
  NoDup (map Cart.id (carts d)) ->
  filter (fun ci => negb (in_cart_of d user ci)) (cartItems d')
  = filter (fun ci => negb (in_cart_of d user ci)) (cartItems d) ->
  forall u, u <> user -> cartItemsOf d' u = cartItemsOf d u.
Proof.
  intros Hc Hn Hf u Hu. unfold cartItemsOf.
  rewrite (filter_ext _ (in_cart_of d u)) by (intros ci; now apply in_cart_of_ext).
  assert (Himp : forall l, filter (in_cart_of d u)
                             (filter (fun ci => negb (in_cart_of d user ci)) l)
                           = filter (in_cart_of d u) l).
  { intros l. apply filter_implied. intros x _ Hx.
    destruct (in_cart_of d user x) eqn:E; [|reflexivity].
    rewrite (@in_cart_other d user u x Hn E Hu) in Hx. discriminate. }
  rewrite <- (Himp (cartItems d')), Hf. apply Himp.
Qed.

(** *** The writing statements *)

Lemma cart_create_spec user d c d1 :
  cart_keys d ->
  cart_create user d = Ok (c, d1) ->
  cart_keys d1
  /\ carts d1 = carts d ++ [c] /\ Cart.userId c = user
  /\ cartItems d1 = cartItems d
  /\ findCartOfUser d user = None
  /\ findCartOfUser d1 user = Some c
  /\ (forall ci, In ci (cartItems d) -> CartItem.cartId ci <> Cart.id c)
  /\ (forall u ci, In ci (cartItems d) -> in_cart_of d1 u ci = in_cart_of d u ci)
  /\ furnitures d1 = furnitures d /\ users d1 = users d.
Proof.
  intros (Kid & Ku & Kci & Kfk). unfold cart_create.
  destruct (findCartOfUser d user) as [c0|] eqn:Hf; [discriminate|]. cbn [is_none negb].
  destruct (findUser d user); [|discriminate]. cbn [is_none]. intros H.
  injection H as <- <-. unfold set_carts. cbn [carts cartItems furnitures users].
  set (c := Cart.mk (fresh_id (map Cart.id (carts d))) user).
  assert (Hfresh : ~ In (Cart.id c) (map Cart.id (carts d))).
  { intros Hin. apply fresh_id_gt in Hin. simpl in Hin. lia. }
  assert (Hnew : forall ci, In ci (cartItems d) -> CartItem.cartId ci <> Cart.id c).
  { intros ci Hci E. rewrite Forall_forall in Kfk. apply Hfresh. rewrite <- E. auto. }
  split.
  { unfold cart_keys. cbn [carts cartItems]. rewrite !map_app. cbn [map].
    split; [apply NoDup_snoc; assumption|].
    split.
    { apply NoDup_snoc; [assumption|]. intros Hin.
      apply in_map_iff in Hin as (c0 & E & Hc0).
      pose proof (find_none _ _ Hf c0 Hc0) as Hn. cbn in Hn, E.
      rewrite E, Z.eqb_refl in Hn. discriminate. }
    split; [assumption|].
    eapply Forall_impl; [|exact Kfk]. intros ci Hci. apply in_or_app. now left. }
  split; [reflexivity|]. split; [reflexivity|]. split; [reflexivity|].
  split; [reflexivity|].
  split.
  { unfold findCartOfUser. cbn [carts]. rewrite find_app_first.
    unfold findCartOfUser in Hf. rewrite Hf. cbn. now rewrite Z.eqb_refl. }
  split; [assumption|]. split; [|auto].
  intros u ci Hci. unfold in_cart_of. cbn [carts]. rewrite existsb_app. cbn [existsb].
  destruct (Z.eqb_spec (Cart.id c) (CartItem.cartId ci)) as [E|_].
  - exfalso. now apply (Hnew ci Hci).
  - cbn. now rewrite !orb_false_r.
Qed.

Lemma in_cart_of_cartId d u x y :
  CartItem.cartId x = CartItem.cartId y -> in_cart_of d u x = in_cart_of d u y.
Proof. unfold in_cart_of. now intros ->. Qed.

Lemma in_cart_of_eqb d user cart ci :
  NoDup (map Cart.userId (carts d)) ->
  findCartOfUser d user = Some cart ->
  in_cart_of d user ci = (CartItem.cartId ci =? Cart.id cart).
Proof.
  intros Hn Hf. destruct (Z.eqb_spec (CartItem.cartId ci) (Cart.id cart)) as [E|E].
  - exact (@in_cart_of_found d user cart ci Hf E).
  - apply not_true_is_false. intros H. apply E. eapply in_cart_of_cart; eauto.
Qed.

Lemma filter_map_fixed {A} (Q : A -> bool) (upd : A -> A) l :
  (forall x, In x l -> Q (upd x) = Q x) ->
  (forall x, In x l -> Q x = true -> upd x = x) ->
  filter Q (map upd l) = filter Q l.
Proof.
  induction l as [|a l IH]; simpl; intros H1 H2; [reflexivity|].
  rewrite H1 by auto. destruct (Q a) eqn:E.
  - rewrite H2 by auto. f_equal. apply IH; auto.
  - apply IH; auto.
Qed.

Lemma Forall_filter_keep {A} (P : A -> Prop) (p : A -> bool) l :
  Forall P l -> Forall P (filter p l).
Proof.
  rewrite !Forall_forall. intros H x Hx. apply filter_In in Hx as [Hx _]. auto.
Qed.

Lemma cartItem_update_spec user d ex nq ln d' :
  cart_keys d ->
  In ex (cartItems d) -> in_cart_of d user ex = true ->
  cartItem_update_quantity (CartItem.id ex) nq d = Ok (ln, d') ->
  cart_keys d' /\ carts d' = carts d
  /\ line ln = with_quantity ex nq
  /\ cartItems d'
     = map (fun x => if CartItem.id x =? CartItem.id ex then with_quantity x nq else x)
           (cartItems d)
  /\ (one_line_per_furniture d -> one_line_per_furniture d')
  /\ filter (fun ci => negb (in_cart_of d user ci)) (cartItems d')
     = filter (fun ci => negb (in_cart_of d user ci)) (cartItems d)
  /\ furnitures d' = furnitures d /\ users d' = users d.
Proof.
  intros (Kid & Ku & Kci & Kfk) Hex Hown. unfold cartItem_update_quantity.
  rewrite (find_by_key CartItem.id _ _ Kci Hex). intros H. injection H as <- <-.
  unfold set_cartItems. cbn [carts cartItems furnitures users line with_furniture].
  set (upd := fun x => if CartItem.id x =? CartItem.id ex then with_quantity x nq else x).
  assert (Eid : map CartItem.id (map upd (cartItems d)) = map CartItem.id (cartItems d)).
  { rewrite map_map. apply map_ext. intros x. unfold upd.
    now destruct (CartItem.id x =? CartItem.id ex). }
  assert (Epair : map (fun ci => (CartItem.cartId ci, CartItem.furnitureId ci))
                      (map upd (cartItems d))
                  = map (fun ci => (CartItem.cartId ci, CartItem.furnitureId ci))
                        (cartItems d)).
  { rewrite map_map. apply map_ext. intros x. unfold upd.
    now destruct (CartItem.id x =? CartItem.id ex). }
  split.
  { unfold cart_keys. cbn [carts cartItems]. rewrite Eid.
    split; [assumption|]. split; [assumption|]. split; [assumption|].
    rewrite Forall_forall in *. intros y Hy. apply in_map_iff in Hy as (x & <- & Hx).
    unfold upd. destruct (CartItem.id x =? CartItem.id ex); simpl; auto. }
  split; [reflexivity|]. split; [reflexivity|]. split; [reflexivity|].
  split; [unfold one_line_per_furniture; cbn [cartItems]; now rewrite Epair|].
  split; [|auto].
  apply filter_map_fixed.
  - intros x _. f_equal. apply in_cart_of_cartId. unfold upd.
    now destruct (CartItem.id x =? CartItem.id ex).
  - intros x Hx HQ. unfold upd.
    destruct (Z.eqb_spec (CartItem.id x) (CartItem.id ex)) as [E|_]; [|reflexivity].
    assert (x = ex) by (eapply (NoDup_map_inj_in CartItem.id); eauto).
    subst x. rewrite Hown in HQ. discriminate.
Qed.

Lemma cartItem_create_spec user d cart fid q ln d' :
  cart_keys d ->
  findCartOfUser d user = Some cart ->
  findCartLine (Cart.id cart) fid d = None ->
  cartItem_create (Cart.id cart) fid q d = Ok (ln, d') ->
  cart_keys d' /\ carts d' = carts d
  /\ cartItems d' = cartItems d ++ [line ln]
  /\ CartItem.cartId (line ln) = Cart.id cart
  /\ CartItem.furnitureId (line ln) = fid
  /\ CartItem.quantity (line ln) = q
  /\ (one_line_per_furniture d -> one_line_per_furniture d')
  /\ filter (fun ci => negb (in_cart_of d user ci)) (cartItems d')
     = filter (fun ci => negb (in_cart_of d user ci)) (cartItems d)
  /\ furnitures d' = furnitures d /\ users d' = users d.
Proof.
  intros (Kid & Ku & Kci & Kfk) Hcart Hnone. unfold cartItem_create.
  rewrite Hnone. cbn [is_none negb].
  match goal with |- context [if ?c then _ else _] => destruct c end; [discriminate|].
  intros H. injection H as <- <-.
  unfold set_cartItems. cbn [carts cartItems furnitures users line with_furniture].
  set (ci := CartItem.mk (fresh_id (map CartItem.id (cartItems d))) (Cart.id cart) fid q).
  pose proof (findCartOfUser_In _ _ Hcart) as [Hc Hcu].
  split.
  { unfold cart_keys. cbn [carts cartItems]. rewrite map_app. cbn [map].
    split; [assumption|]. split; [assumption|].
    split.
    { apply NoDup_snoc; [assumption|]. intros Hin. apply fresh_id_gt in Hin.
      simpl in Hin. lia. }
    apply Forall_app. split; [assumption|]. constructor; [|constructor].
    simpl. now apply in_map. }
  split; [reflexivity|]. split; [reflexivity|]. split; [reflexivity|].
  split; [reflexivity|]. split; [reflexivity|].
  split.
  { unfold one_line_per_furniture. cbn [cartItems]. rewrite map_app. cbn [map].
    intros Hone. apply NoDup_snoc; [assumption|]. intros Hin.
    apply in_map_iff in Hin as (x & E & Hx). injection E as E1 E2.
    pose proof (find_none _ _ Hnone x Hx) as Hn. cbn in Hn.
    rewrite E1, E2, !Z.eqb_refl in Hn. discriminate. }
  split; [|auto].
  rewrite filter_app. cbn [filter].
  rewrite (@in_cart_of_found d user cart ci Hcart eq_refl).
  cbn [negb]. apply app_nil_r.
Qed.

Lemma findOwnedCartItem_Some id user d ex :
  findOwnedCartItem id user d = Some ex ->
  In ex (cartItems d) /\ CartItem.id ex = id /\ in_cart_of d user ex = true.
Proof.
  intros H. apply find_some in H as [H E]. apply andb_true_iff in E as [E1 E2].
  apply Z.eqb_eq in E1. auto.
Qed.

Lemma cartItem_delete_spec user d ex r d' :
  cart_keys d ->
  In ex (cartItems d) -> in_cart_of d user ex = true ->
  cartItem_delete (CartItem.id ex) d = Ok (r, d') ->
  r = ex /\ cart_keys d' /\ carts d' = carts d
  /\ cartItems d' = filter (fun x => negb (CartItem.id x =? CartItem.id ex)) (cartItems d)
  /\ (one_line_per_furniture d -> one_line_per_furniture d')
  /\ filter (fun ci => negb (in_cart_of d user ci)) (cartItems d')
     = filter (fun ci => negb (in_cart_of d user ci)) (cartItems d).
Proof.
  intros (Kid & Ku & Kci & Kfk) Hex Hown. unfold cartItem_delete.
  rewrite (find_by_key CartItem.id _ _ Kci Hex). intros H. injection H as <- <-.
  unfold set_cartItems. cbn [carts cartItems].
  split; [reflexivity|]. split.
  { unfold cart_keys. cbn [carts cartItems].
    split; [assumption|]. split; [assumption|].
    split; [now apply NoDup_map_filter | now apply Forall_filter_keep]. }
  split; [reflexivity|]. split; [reflexivity|].
  split; [unfold one_line_per_furniture; cbn [cartItems]; apply NoDup_map_filter|].
  apply filter_implied. intros x Hx HQ.
  destruct (Z.eqb_spec (CartItem.id x) (CartItem.id ex)) as [E|_]; [|reflexivity].
  assert (x = ex) by (eapply (NoDup_map_inj_in CartItem.id); eauto).
  subst x. rewrite Hown in HQ. discriminate.
Qed.

Lemma cartItem_deleteMany_spec user d cart n d' :
  cart_keys d ->
  findCartOfUser d user = Some cart ->
  cartItem_deleteMany_count (Cart.id cart) d = Ok (n, d') ->
  n = Z.of_nat (List.length (cartItemsOf d user))
  /\ cartItemsOf d' user = []
  /\ cart_keys d' /\ carts d' = carts d
  /\ (one_line_per_furniture d -> one_line_per_furniture d')
  /\ filter (fun ci => negb (in_cart_of d user ci)) (cartItems d')
     = filter (fun ci => negb (in_cart_of d user ci)) (cartItems d).
Proof.
  intros (Kid & Ku & Kci & Kfk) Hcart. unfold cartItem_deleteMany_count,
    cartItem_deleteMany_cart. cbn [rbind snd]. intros H. injection H as <- <-.
  unfold set_cartItems, cartItemsOf. cbn [carts cartItems].
  assert (Eq : forall ci, in_cart_of d user ci = (CartItem.cartId ci =? Cart.id cart))
    by (intros ci; now apply in_cart_of_eqb).
  split.
  { do 2 f_equal. apply filter_ext. intros ci. now rewrite Eq. }
  split.
  { rewrite (filter_ext _ (fun ci => CartItem.cartId ci =? Cart.id cart)).
    - apply filter_negb_empty.
    - intros ci. unfold in_cart_of. cbn [carts]. apply Eq. }
  split.
  { unfold cart_keys. cbn [carts cartItems].
    split; [assumption|]. split; [assumption|].
    split; [now apply NoDup_map_filter | now apply Forall_filter_keep]. }
  split; [reflexivity|].
  split; [unfold one_line_per_furniture; cbn [cartItems]; apply NoDup_map_filter|].
  apply filter_implied. intros x Hx HQ. now rewrite <- Eq.
Qed.

(** *** The handlers, statement by statement *)

Lemma query_by_inv {A} z (q : DB -> A) w r w' :
  query_by z q w = (r, w') ->
  db w' = db w /\ (r = Ok (q (db w)) \/ exists e, r = Err e).
Proof.
  unfold query_by. destruct (int4 z).
  - intros H. apply query_inv in H as [Hd [->| ->]]; eauto.
  - intros H. apply throw_inv in H as [-> ->]. eauto.
Qed.

Lemma exec_by_inv {A} zs (stmt : DB -> result (A * DB)) w r w' :
  exec_by zs stmt w = (r, w') ->
  (exists a, r = Ok a /\ forallb int4 zs = true /\ stmt (db w) = Ok (a, db w'))
  \/ (exists e, r = Err e /\ db w' = db w).
Proof.
  unfold exec_by. destruct (forallb int4 zs).
  - intros H. apply exec_inv in H as [(a & -> & H)|(e & -> & H)]; eauto.
  - intros H. apply throw_inv in H as [-> ->]. eauto.
Qed.

Lemma same_but_carts_refl d : same_but_carts d d.
Proof. unfold same_but_carts. tauto. Qed.

Lemma same_but_carts_trans a b c :
  same_but_carts a b -> same_but_carts b c -> same_but_carts a c.
Proof.
  unfold same_but_carts. intros (?&?&?&?&?&?) (?&?&?&?&?&?). repeat split; congruence.
Qed.

Lemma cart_step_refl user d : cart_keys d -> cart_step user d d.
Proof. unfold cart_step. auto using same_but_carts_refl. Qed.

Lemma cart_step_trans user a b c :
  cart_step user a b -> cart_step user b c -> cart_step user a c.
Proof.
  intros (K1 & O1 & F1 & S1) (K2 & O2 & F2 & S2). unfold cart_step.
  split; [assumption|]. split; [auto|]. split; [|eapply same_but_carts_trans; eauto].
  intros u Hu. rewrite F2, F1; auto.
Qed.

Lemma cart_step_same user d d' : cart_keys d -> d' = d -> cart_step user d d'.
Proof. intros K ->. now apply cart_step_refl. Qed.

Lemma cart_step_of_create user d c d1 :
  cart_keys d -> cart_create user d = Ok (c, d1) -> cart_step user d d1.
Proof.
  intros K H.
  destruct (@cart_create_spec user d c d1 K H) as (K1 & _ & _ & Eci & _ & _ & _ & Hin & _).
  assert (S : same_but_carts d d1).
  { unfold cart_create in H.
    destruct (negb (is_none (findCartOfUser d user))); [discriminate|].
    destruct (is_none (findUser d user)); [discriminate|].
    injection H as _ <-. unfold same_but_carts. simpl. tauto. }
  unfold cart_step. split; [assumption|].
  split; [unfold one_line_per_furniture; now rewrite Eci|].
  split; [|assumption].
  intros u _. unfold cartItemsOf. rewrite Eci. apply filter_ext_in.
  intros ci Hci. now apply Hin.
Qed.

Lemma cart_step_of_frame user d d' :
  cart_keys d -> cart_keys d' -> carts d' = carts d ->
  (one_line_per_furniture d -> one_line_per_furniture d') ->
  filter (fun ci => negb (in_cart_of d user ci)) (cartItems d')
  = filter (fun ci => negb (in_cart_of d user ci)) (cartItems d) ->
  same_but_carts d d' ->
  cart_step user d d'.
Proof.
  intros K K' Ec Ho Hf S. unfold cart_step.
  split; [assumption|]. split; [assumption|]. split; [|assumption].
  apply cart_frame; [assumption | apply K | assumption].
Qed.

Lemma update_same_but_carts id q d ln d' :
  cartItem_update_quantity id q d = Ok (ln, d') -> same_but_carts d d'.
Proof.
  unfold cartItem_update_quantity. destruct (find _ _); [|discriminate].
  intros H. injection H as _ <-. unfold same_but_carts. simpl. tauto.
Qed.

Lemma create_same_but_carts cid fid q d ln d' :
  cartItem_create cid fid q d = Ok (ln, d') -> same_but_carts d d'.
Proof.
  unfold cartItem_create.
  destruct (negb (is_none (findCartLine cid fid d))); [discriminate|].
  match goal with |- context [if ?c then _ else _] => destruct c end; [discriminate|].
  intros H. injection H as _ <-. unfold same_but_carts. simpl. tauto.
Qed.

Lemma delete_same_but_carts id d r d' :
  cartItem_delete id d = Ok (r, d') -> same_but_carts d d'.
Proof.
  unfold cartItem_delete. destruct (find _ _); [|discriminate].
  intros H. injection H as _ <-. unfold same_but_carts. simpl. tauto.
Qed.

Lemma deleteMany_same_but_carts cid d n d' :
  cartItem_deleteMany_count cid d = Ok (n, d') -> same_but_carts d d'.
Proof.
  unfold cartItem_deleteMany_count, cartItem_deleteMany_cart. cbn [rbind snd].
  intros H. injection H as _ <-. unfold same_but_carts. simpl. tauto.
Qed.

Lemma getCart_step user w r w' :
  cart_keys (db w) -> getCart user w = (r, w') -> cart_step user (db w) (db w').
Proof.
  intros K. unfold getCart. destruct (user =? 0).
  { intros H. apply throw_inv in H as [_ ->]. now apply cart_step_refl. }
  intros H. apply bind_inv in H as [(e & -> & H)|(cart & w1 & H1 & H)].
  { apply query_inv in H as [Hd _]. now apply cart_step_same. }
  apply query_inv in H1 as [Hd _]. destruct cart as [cart|].
  { apply ret_inv in H as [_ ->]. now apply cart_step_same. }
  apply exec_inv in H as [(a & _ & H)|(e & _ & H)].
  - rewrite Hd in H. unfold cart_create_included in H.
    apply rbind_Ok in H as ([c d1] & Hc & E). injection E as _ <-.
    eapply cart_step_of_create; eauto.
  - apply cart_step_same; [assumption | congruence].
Qed.

Lemma clearCart_step user w r w' :
  cart_keys (db w) -> clearCart user w = (r, w') -> cart_step user (db w) (db w').
Proof.
  intros K. unfold clearCart. destruct (user =? 0).
  { intros H. apply throw_inv in H as [_ ->]. now apply cart_step_refl. }
  intros H. apply bind_inv in H as [(e & -> & H)|(cart & w1 & H1 & H)].
  { apply query_inv in H as [Hd _]. now apply cart_step_same. }
  apply query_inv in H1 as [Hd [E|E]]; [|discriminate]. injection E as ->.
  destruct (findCartOfUser (db w) user) as [cart|] eqn:Hc.
  2:{ apply throw_inv in H as [_ ->]. now apply cart_step_same. }
  apply exec_inv in H as [(a & _ & H)|(e & _ & H)].
  - rewrite Hd in H.
    destruct (@cartItem_deleteMany_spec user (db w) cart a (db w') K Hc H) as (_ & _ & K' & Ec & Ho & Hf).
    apply cart_step_of_frame; eauto using deleteMany_same_but_carts.
  - apply cart_step_same; [assumption | congruence].
Qed.

Lemma removeCartItem_step user cartItemId w r w' :
  cart_keys (db w) -> removeCartItem user cartItemId w = (r, w') ->
  cart_step user (db w) (db w').
Proof.
  intros K. unfold removeCartItem. destruct (user =? 0).
  { intros H. apply throw_inv in H as [_ ->]. now apply cart_step_refl. }
  destruct cartItemId as [|id].
  { intros H. apply throw_inv in H as [_ ->]. now apply cart_step_refl. }
  intros H. apply bind_inv in H as [(e & -> & H)|(ci & w1 & H1 & H)].
  { apply query_by_inv in H as [Hd _]. now apply cart_step_same. }
  apply query_by_inv in H1 as [Hd [E|(e & E)]]; [|discriminate]. injection E as ->.
  destruct (findOwnedCartItem id user (db w)) as [ex|] eqn:Hex.
  2:{ apply throw_inv in H as [_ ->]. now apply cart_step_same. }
  cbn [is_none] in H. apply findOwnedCartItem_Some in Hex as (Hin & <- & Hown).
  apply exec_inv in H as [(a & _ & H)|(e & _ & H)].
  - rewrite Hd in H.
    destruct (@cartItem_delete_spec user (db w) ex a (db w') K Hin Hown H) as (_ & K' & Ec & _ & Ho & Hf).
    apply cart_step_of_frame; eauto using delete_same_but_carts.
  - apply cart_step_same; [assumption | congruence].
Qed.

Lemma updateCartItem_step user cartItemId quantity w r w' :
  cart_keys (db w) -> updateCartItem user cartItemId quantity w = (r, w') ->
  cart_step user (db w) (db w').
Proof.
  intros K. unfold updateCartItem. destruct (user =? 0).
  { intros H. apply throw_inv in H as [_ ->]. now apply cart_step_refl. }
  destruct cartItemId as [id|], quantity as [q|];
    try (intros H; apply throw_inv in H as [_ ->]; now apply cart_step_refl).
  destruct (id =? 0).
  { intros H. apply throw_inv in H as [_ ->]. now apply cart_step_refl. }
  destruct (q <? 1).
  { intros H. apply throw_inv in H as [_ ->]. now apply cart_step_refl. }
  intros H. apply bind_inv in H as [(e & -> & H)|(ci & w1 & H1 & H)].
  { apply query_by_inv in H as [Hd _]. now apply cart_step_same. }
  apply query_by_inv in H1 as [Hd [E|(e & E)]]; [|discriminate]. injection E as ->.
  destruct (findOwnedCartItem id user (db w)) as [ex|] eqn:Hex.
  2:{ apply throw_inv in H as [_ ->]. now apply cart_step_same. }
  cbn [is_none] in H. apply findOwnedCartItem_Some in Hex as (Hin & <- & Hown).
  apply exec_by_inv in H as [(a & _ & _ & H)|(e & _ & H)].
  - rewrite Hd in H.
    destruct (@cartItem_update_spec user (db w) ex q a (db w') K Hin Hown H) as (K' & Ec & _ & _ & Ho & Hf & _).
    apply cart_step_of_frame; eauto using update_same_but_carts.
  - apply cart_step_same; [assumption | congruence].
Qed.

(** The runs of [addToCart]: an error leaves the store as it was, or with
    one new cart; an answer comes from the update of the line the cart had
    or from the creation of a new one. *)
Lemma addToCart_inv user bodyFurnitureId bodyQuantity w r w' :
  addToCart user bodyFurnitureId bodyQuantity w = (r, w') ->
  let quantity := match bodyQuantity with Some q => q | None => 1 end in
  (exists e, r = Err e
             /\ (db w' = db w \/ exists c, cart_create user (db w) = Ok (c, db w')))
  \/ (exists furnitureId cart d1,
         bodyFurnitureId = Some furnitureId /\ user <> 0 /\ furnitureId <> 0
         /\ 1 <= quantity
         /\ findFurniture (db w) furnitureId <> None
         /\ ((findCartOfUser (db w) user = Some cart /\ d1 = db w)
             \/ cart_create user (db w) = Ok (cart, d1))
         /\ ((exists existing ln,
                 findCartLine (Cart.id cart) furnitureId d1 = Some existing
                 /\ cartItem_update_quantity (CartItem.id existing)
                      (CartItem.quantity existing + quantity) d1 = Ok (ln, db w')
                 /\ r = Ok (ln, 200))
             \/ (exists ln,
                    findCartLine (Cart.id cart) furnitureId d1 = None
                    /\ cartItem_create (Cart.id cart) furnitureId quantity d1
                       = Ok (ln, db w')
                    /\ r = Ok (ln, 201)))).
Proof.
  intros H quantity. unfold addToCart in H. cbv zeta in H. fold quantity in H.
  destruct (Z.eqb_spec user 0) as [|Hu].
  { apply throw_inv in H as [-> ->]. left. eauto. }
  destruct bodyFurnitureId as [furnitureId|].
  2:{ apply throw_inv in H as [-> ->]. left. eauto. }
  destruct (Z.eqb_spec furnitureId 0) as [|Hf0].
  { apply throw_inv in H as [-> ->]. left. eauto. }
  destruct (Z.ltb_spec quantity 1) as [|Hq].
  { apply throw_inv in H as [-> ->]. left. eauto. }
  apply bind_inv in H as [(e & -> & H)|(furniture & w1 & H1 & H)].
  { apply query_by_inv in H as [Hd _]. left. eauto. }
  apply query_by_inv in H1 as [Hd1 [E|(e & E)]]; [|discriminate]. injection E as ->.
  destruct (findFurniture (db w) furnitureId) as [furniture|] eqn:Hfurn.
  2:{ apply throw_inv in H as [-> ->]. left. eauto. }
  cbn [is_none] in H.
  apply bind_inv in H as [(e & -> & H)|(cart0 & w2 & H2 & H)].
  { apply query_inv in H as [Hd _]. left. exists e. split; [reflexivity|]. left.
    congruence. }
  apply query_inv in H2 as [Hd2 [E|E]]; [|discriminate]. injection E as ->.
  rewrite Hd1 in Hd2.
  apply bind_inv in H as [(e & -> & H)|(cart & w3 & H3 & H)].
  { left. exists e. split; [reflexivity|].
    destruct (findCartOfUser (db w1) user).
    - apply ret_inv in H as [E _]. discriminate.
    - apply exec_inv in H as [(a & E & _)|(e' & _ & H)]; [discriminate|].
      left. congruence. }
  assert (Hcart : (findCartOfUser (db w) user = Some cart /\ db w3 = db w)
                  \/ cart_create user (db w) = Ok (cart, db w3)).
  { rewrite Hd1 in H3. destruct (findCartOfUser (db w) user) as [c0|] eqn:Hc.
    - apply ret_inv in H3 as [E ->]. injection E as ->. left. auto.
    - apply exec_inv in H3 as [(a & E & H3)|(e' & E & _)]; [|discriminate].
      injection E as ->. right. now rewrite Hd2 in H3. }
  assert (Herr : forall e, r = Err e -> db w' = db w3 ->
            exists e, r = Err e
              /\ (db w' = db w \/ exists c, cart_create user (db w) = Ok (c, db w'))).
  { intros e -> Hd. exists e. split; [reflexivity|]. rewrite Hd.
    destruct Hcart as [[_ E]|Hc]; [left; exact E | right; eauto]. }
  apply bind_inv in H as [(e & -> & H)|(existing & w4 & H4 & H)].
  { apply query_inv in H as [Hd _]. left. eapply Herr; eauto. }
  apply query_inv in H4 as [Hd4 [E|E]]; [|discriminate]. injection E as ->.
  destruct (findCartLine (Cart.id cart) furnitureId (db w3)) as [existing|] eqn:Hex.
  - apply bind_inv in H as [(e & -> & H)|(updated & w5 & H5 & H)].
    { apply exec_by_inv in H as [(a & E & _)|(e' & _ & H)]; [discriminate|].
      left. eapply Herr; [reflexivity | congruence]. }
    apply ret_inv in H as [-> ->].
    apply exec_by_inv in H5 as [(a & E & _ & H5)|(e' & E & _)]; [|discriminate].
    injection E as ->. rewrite Hd4 in H5.
    right. exists furnitureId, cart, (db w3).
    repeat (split; [first [assumption | reflexivity | congruence | lia]|]).
    left. exists existing, a. auto.
  - apply bind_inv in H as [(e & -> & H)|(created & w5 & H5 & H)].
    { apply exec_by_inv in H as [(a & E & _)|(e' & _ & H)]; [discriminate|].
      left. eapply Herr; [reflexivity | congruence]. }
    apply ret_inv in H as [-> ->].
    apply exec_by_inv in H5 as [(a & E & _ & H5)|(e' & E & _)]; [|discriminate].
    injection E as ->. rewrite Hd4 in H5.
    right. exists furnitureId, cart, (db w3).
    repeat (split; [first [assumption | reflexivity | congruence | lia]|]).
    right. exists a. auto.
Qed.

Lemma findCartLine_Some cid fid d ex :
  findCartLine cid fid d = Some ex ->
  In ex (cartItems d) /\ CartItem.cartId ex = cid /\ CartItem.furnitureId ex = fid.
Proof.
  intros H. apply find_some in H as [H E]. apply andb_true_iff in E as [E1 E2].
  apply Z.eqb_eq in E1, E2. auto.
Qed.

(** The store in which [addToCart] looks for the line: the user has a cart
    there, and nothing else has changed. *)
Lemma cart_ready user d cart d1 :
  cart_keys d ->
  (findCartOfUser d user = Some cart /\ d1 = d) \/ cart_create user d = Ok (cart, d1) ->
  cart_keys d1 /\ findCartOfUser d1 user = Some cart
  /\ cart_step user d d1
  /\ (forall u f, linesInCart d1 u f = linesInCart d u f)
  /\ furnitures d1 = furnitures d.
Proof.
  intros K [[Hc ->]|Hc].
  - split; [assumption|]. split; [assumption|]. split; [now apply cart_step_refl|]. auto.
  - destruct (@cart_create_spec user d cart d1 K Hc)
      as (K1 & _ & _ & Eci & _ & Hf & _ & Hin & Ef & _).
    split; [assumption|]. split; [assumption|].
    split; [eapply cart_step_of_create; eauto|]. split; [|assumption].
    intros u f. unfold linesInCart. rewrite Eci. apply filter_ext_in.
    intros ci Hci. now rewrite Hin.
Qed.

Lemma addToCart_step user bodyFurnitureId bodyQuantity w r w' :
  cart_keys (db w) ->
  addToCart user bodyFurnitureId bodyQuantity w = (r, w') ->
  cart_step user (db w) (db w').
Proof.
  intros K H. apply addToCart_inv in H.
  destruct H as [(e & _ & [E|(c & Hc)])|H].
  - now apply cart_step_same.
  - eapply cart_step_of_create; eauto.
  - destruct H as (fid & cart & d1 & _ & _ & _ & _ & _ & Hcart & Hrun).
    destruct (@cart_ready user (db w) cart d1 K Hcart) as (K1 & Hc1 & S1 & _).
    apply (cart_step_trans S1).
    destruct Hrun as [(ex & ln & Hex & Hup & _)|(ln & Hnone & Hcr & _)].
    + apply findCartLine_Some in Hex as (Hin & Ecid & _).
      pose proof (@in_cart_of_found d1 user cart ex Hc1 Ecid) as Hown.
      destruct (@cartItem_update_spec user d1 ex _ ln (db w') K1 Hin Hown Hup)
        as (K' & Ec & _ & _ & Ho & Hf & _).
      apply cart_step_of_frame; eauto using update_same_but_carts.
    + destruct (@cartItem_create_spec user d1 cart fid _ ln (db w') K1 Hc1 Hnone Hcr)
        as (K' & Ec & _ & _ & _ & _ & Ho & Hf & _).
      apply cart_step_of_frame; eauto using create_same_but_carts.
Qed.

Lemma serveCart_step user req w :
  cart_keys (db w) -> cart_step user (db w) (db (serveCart user req w)).
Proof.
  intros K. destruct req as [|f q|i q|i|]; simpl.
  - destruct (getCart user w) as [r w'] eqn:E. eapply getCart_step; eauto.
  - destruct (addToCart user f q w) as [r w'] eqn:E. eapply addToCart_step; eauto.
  - destruct (updateCartItem user i q w) as [r w'] eqn:E.
    eapply updateCartItem_step; eauto.
  - destruct (removeCartItem user i w) as [r w'] eqn:E.
    eapply removeCartItem_step; eauto.
  - destruct (clearCart user w) as [r w'] eqn:E. eapply clearCart_step; eauto.
Qed.

Lemma cartRequests_steps reqs w :
  cart_keys (db w) ->
  let d' := db (cartRequests reqs w) in
  cart_keys d'
  /\ (one_line_per_furniture (db w) -> one_line_per_furniture d')
  /\ same_but_carts (db w) d'
  /\ forall u, (forall req, ~ In (u, req) reqs) -> cartItemsOf d' u = cartItemsOf (db w) u.
Proof.
  cbv zeta. revert w. induction reqs as [|[user req] rest IH]; intros w K; simpl.
  - split; [assumption|]. split; [auto|]. split; [apply same_but_carts_refl | auto].
  - destruct (@serveCart_step user req w K) as (K1 & O1 & F1 & S1).
    destruct (IH _ K1) as (K2 & O2 & S2 & F2).
    split; [assumption|]. split; [auto|].
    split; [eapply same_but_carts_trans; eauto|].
    intros u Hu. rewrite F2.
    + apply F1. intros ->. apply (Hu req). now left.
    + intros req' Hin. apply (Hu req'). now right.
Qed.

(** X14: whatever cart requests are served, for whichever users, in whatever
    order and whichever statements fail on the way, the carts of a user who
    sent none of them hold the lines they held; the keys of the cart tables
    and the rule of one line per cart and furniture item are kept, and no
    table but the two cart tables changes. *)
Theorem cart_requests_isolated reqs d faults :
  cart_keys d ->
  let d' := db (cartRequests reqs (mkWorld d faults)) in
  cart_keys d'
  /\ (one_line_per_furniture d -> one_line_per_furniture d')
  /\ same_but_carts d d'
  /\ forall u, (forall req, ~ In (u, req) reqs) -> cartItemsOf d' u = cartItemsOf d u.
Proof.
  intros K. exact (@cartRequests_steps reqs (mkWorld d faults) K).
Qed.

Lemma shop_cart_keys : cart_keys shop.
Proof.
  unfold cart_keys. simpl.
  split; [repeat constructor; simpl; intuition lia|].
  split; [repeat constructor; simpl; intuition lia|].
  split; [repeat constructor; simpl; intuition lia|].
  repeat constructor; simpl; auto.
Qed.

Lemma cart_requests_isolated_witness :
  cart_keys shop /\
  let d' := db (cartRequests [(2, AddToCart (Some 1) None); (3, GetCart);
                              (2, RemoveCartItem (Num 1)); (2, ClearCart)]
                             (mkWorld shop [false; false; true])) in
  cart_keys d'
  /\ (one_line_per_furniture shop -> one_line_per_furniture d')
  /\ same_but_carts shop d'
  /\ forall u, (forall req, ~ In (u, req)
                  [(2, AddToCart (Some 1) None); (3, GetCart);
                   (2, RemoveCartItem (Num 1)); (2, ClearCart)]) ->
       cartItemsOf d' u = cartItemsOf shop u.
Proof.
  split; [exact shop_cart_keys|].
  apply (@cart_requests_isolated
           [(2, AddToCart (Some 1) None); (3, GetCart);
            (2, RemoveCartItem (Num 1)); (2, ClearCart)] shop [false; false; true]).
  exact shop_cart_keys.
Defined.

(** *** What adding to the cart does to the line *)

Lemma filter_unique {A} (p : A -> bool) l :
  NoDup l ->
  (forall x y, In x l -> In y l -> p x = true -> p y = true -> x = y) ->
  filter p l = match find p l with Some x => [x] | None => [] end.
Proof.
  induction l as [|a l IH]; simpl; intros Hn Hu; [reflexivity|].
  inversion Hn as [|? ? Hnotin Hrest]; subst.
  destruct (p a) eqn:Ea.
  - f_equal.
    assert (Hall : Forall (fun x => p x = false) l).
    { apply Forall_forall. intros x Hx. apply not_true_is_false. intros Hp.
      assert (a = x) by (apply Hu; auto). subst. contradiction. }
    replace (find p l) with (@None A).
    + clear -Hall. induction Hall as [|x l Hx _ IH]; simpl; [reflexivity|].
      now rewrite Hx.
    + clear -Hall. induction Hall as [|x l Hx _ IH]; simpl; [reflexivity|].
      now rewrite Hx.
  - apply IH; [assumption|]. intros x y Hx Hy. apply Hu; auto.
Qed.

Lemma filter_map_commute {A} (P : A -> bool) (upd : A -> A) l :
  (forall x, P (upd x) = P x) -> filter P (map upd l) = map upd (filter P l).
Proof.
  intros H. induction l as [|a l IH]; simpl; [reflexivity|].
  rewrite H. destruct (P a); simpl; now rewrite IH.
Qed.

(** With the keys in place, the lines of a user for an item are the line
    that [findCartLine] finds in the user's cart, if any. *)
Lemma linesInCart_found d user cart f :
  cart_keys d -> one_line_per_furniture d ->
  findCartOfUser d user = Some cart ->
  linesInCart d user f
  = match findCartLine (Cart.id cart) f d with Some ex => [ex] | None => [] end.
Proof.
  intros (Kid & Ku & Kci & Kfk) Hone Hc. unfold linesInCart, findCartLine.
  rewrite (filter_ext _ (fun ci => (CartItem.cartId ci =? Cart.id cart)
                                   && (CartItem.furnitureId ci =? f)))
    by (intros ci; now rewrite (@in_cart_of_eqb d user cart ci Ku Hc)).
  apply filter_unique.
  - eapply NoDup_map_inv. exact Kci.
  - intros x y Hx Hy Px Py.
    apply andb_true_iff in Px as [Px1 Px2]. apply andb_true_iff in Py as [Py1 Py2].
    apply Z.eqb_eq in Px1, Px2, Py1, Py2.
    eapply (NoDup_map_inj_in
              (fun ci => (CartItem.cartId ci, CartItem.furnitureId ci))); eauto.
    simpl. congruence.
Qed.

(** X15: when POST /api/cart/add answers, the cart of the user holds exactly
    one line for the item, the one of the answer, and its quantity is what
    the cart held of the item before plus the quantity asked for (1 when the
    body names none); the answer is 201 exactly when the cart held no line
    for the item, 200 otherwise; the lines for the other items are as they
    were. *)
Theorem add_to_cart_merges user furnitureId bodyQuantity w ln code w' :
  cart_keys (db w) -> one_line_per_furniture (db w) ->
  addToCart user (Some furnitureId) bodyQuantity w = (Ok (ln, code), w') ->
  let quantity := match bodyQuantity with Some q => q | None => 1 end in
  linesInCart (db w') user furnitureId = [line ln]
  /\ CartItem.quantity (line ln) = quantityInCart (db w) user furnitureId + quantity
  /\ 1 <= quantity
  /\ ((code = 201 /\ linesInCart (db w) user furnitureId = [])
      \/ (code = 200 /\ exists ex, linesInCart (db w) user furnitureId = [ex]))
  /\ forall f, f <> furnitureId ->
       linesInCart (db w') user f = linesInCart (db w) user f.
Proof.
  intros K Hone H quantity. apply addToCart_inv in H. fold quantity in H.
  destruct H as [(e & E & _)|H]; [discriminate|].
  destruct H as (fid & cart & d1 & Ef & _ & _ & Hq & _ & Hcart & Hrun).
  injection Ef as <-.
  destruct (@cart_ready user (db w) cart d1 K Hcart) as (K1 & Hc1 & S1 & Hl1 & _).
  assert (Hone1 : one_line_per_furniture d1) by (apply S1; assumption).
  assert (Hlines1 : forall f, linesInCart (db w) user f
            = match findCartLine (Cart.id cart) f d1 with
              | Some ex => [ex] | None => [] end).
  { intros f. rewrite <- Hl1. now apply linesInCart_found. }
  destruct Hrun as [(ex & l & Hex & Hup & E)|(l & Hnone & Hcr & E)];
    injection E as <- ->.
  - pose proof (findCartLine_Some _ _ _ Hex) as (Hin & Ecid & Efid).
    pose proof (@in_cart_of_found d1 user cart ex Hc1 Ecid) as Hown.
    destruct (@cartItem_update_spec user d1 ex _ ln (db w') K1 Hin Hown Hup)
      as (K' & Ec & El & Eci & Ho & _).
    assert (Hc' : findCartOfUser (db w') user = Some cart)
      by (unfold findCartOfUser; now rewrite Ec).
    assert (Hlines' : forall f, linesInCart (db w') user f
              = map (fun x => if CartItem.id x =? CartItem.id ex
                              then with_quantity x (CartItem.quantity ex + quantity)
                              else x)
                    (linesInCart d1 user f)).
    { intros f. unfold linesInCart. rewrite Eci.
      rewrite (filter_ext _ (fun ci => in_cart_of d1 user ci
                                       && (CartItem.furnitureId ci =? f)))
        by (intros ci; now rewrite (@in_cart_of_ext d1 (db w') user ci Ec)).
      apply filter_map_commute. intros x.
      destruct (CartItem.id x =? CartItem.id ex); [|reflexivity].
      reflexivity. }
    split.
    { rewrite Hlines', Hl1, Hlines1, Hex. cbn [map]. rewrite Z.eqb_refl. now rewrite El. }
    split.
    { rewrite El. unfold quantityInCart. rewrite Hlines1, Hex. simpl. lia. }
    split; [assumption|].
    split; [right; split; [reflexivity|]; exists ex; now rewrite Hlines1, Hex|].
    intros f Hf. rewrite Hlines', Hl1, Hlines1.
    destruct (findCartLine (Cart.id cart) f d1) as [x|] eqn:Hx; [|reflexivity].
    cbn [map]. apply findCartLine_Some in Hx as (Hxin & _ & Exf).
    destruct (Z.eqb_spec (CartItem.id x) (CartItem.id ex)) as [Eid|_]; [|reflexivity].
    assert (x = ex) by (eapply (NoDup_map_inj_in CartItem.id); eauto; apply K1).
    subst x. congruence.
  - destruct (@cartItem_create_spec user d1 cart furnitureId _ ln (db w') K1 Hc1 Hnone Hcr)
      as (K' & Ec & Eci & Ecid & Efid & Eq & Ho & _).
    assert (Hlines' : forall f, linesInCart (db w') user f
              = linesInCart d1 user f
                ++ (if CartItem.furnitureId (line ln) =? f then [line ln] else [])).
    { intros f. unfold linesInCart. rewrite Eci, filter_app. f_equal.
      - apply filter_ext. intros ci. now rewrite (@in_cart_of_ext d1 (db w') user ci Ec).
      - cbn [filter]. rewrite (@in_cart_of_ext d1 (db w') user (line ln) Ec).
        now rewrite (@in_cart_of_found d1 user cart (line ln) Hc1 Ecid). }
    split.
    { rewrite Hlines', Hl1, Hlines1, Hnone, Efid, Z.eqb_refl. reflexivity. }
    split.
    { unfold quantityInCart. rewrite Hlines1, Hnone. simpl. lia. }
    split; [assumption|].
    split; [left; split; [reflexivity|]; now rewrite Hlines1, Hnone|].
    intros f Hf. rewrite Hlines', Hl1, Efid.
    destruct (Z.eqb_spec furnitureId f) as [E|_]; [congruence|]. apply app_nil_r.
Qed.

Lemma shop_one_line : one_line_per_furniture shop.
Proof.
  unfold one_line_per_furniture. simpl.
  repeat constructor; simpl; intuition congruence.
Qed.

Lemma add_to_cart_merges_witness :
  exists ln code w',
    addToCart 1 (Some 2) (Some 4) (mkWorld shop []) = (Ok (ln, code), w')
    /\ linesInCart (db w') 1 2 = [line ln]
    /\ CartItem.quantity (line ln) = quantityInCart shop 1 2 + 4
    /\ 1 <= 4
    /\ ((code = 201 /\ linesInCart shop 1 2 = [])
        \/ (code = 200 /\ exists ex, linesInCart shop 1 2 = [ex]))
    /\ forall f, f <> 2 -> linesInCart (db w') 1 f = linesInCart shop 1 f.
Proof.
  exists (mkCartLine (CartItem.mk 1 1 2 7) (Some chair2)), 200.
  eexists. split; [vm_compute; reflexivity|].
  eapply (@add_to_cart_merges 1 2 (Some 4) (mkWorld shop [])
            (mkCartLine (CartItem.mk 1 1 2 7) (Some chair2)) 200).
  - exact shop_cart_keys.
  - exact shop_one_line.
  - vm_compute. reflexivity.
Defined.

(** *** Clearing and reading the cart *)

Lemma set_cartItems_same d l : l = cartItems d -> set_cartItems d l = d.
Proof. intros ->. now destruct d. Qed.

Lemma filter_all_true {A} (p : A -> bool) l :
  (forall x, In x l -> p x = true) -> filter p l = l.
Proof.
  induction l as [|a l IH]; simpl; intros H; [reflexivity|].
  rewrite H by auto. f_equal. apply IH. auto.
Qed.

Lemma filter_all_false {A} (p : A -> bool) l :
  (forall x, In x l -> p x = false) -> filter p l = [].
Proof.
  induction l as [|a l IH]; simpl; intros H; [reflexivity|].
  rewrite H by auto. apply IH. auto.
Qed.

(** X16: when POST /api/cart/clear answers, [deletedCount] is the number of
    lines the cart of the user held, the cart is empty afterwards, and
    clearing it once more answers 0 and changes nothing. *)
Theorem clear_cart_counts user w n w' :
  cart_keys (db w) ->
  clearCart user w = (Ok n, w') ->
  n = Z.of_nat (List.length (cartItemsOf (db w) user))
  /\ cartItemsOf (db w') user = []
  /\ clearCart user (mkWorld (db w') []) = (Ok 0, mkWorld (db w') []).
Proof.
  intros K H. unfold clearCart in H. cbv zeta in H.
  destruct (Z.eqb_spec user 0) as [|Hu]; [apply throw_inv in H as [E _]; discriminate|].
  apply bind_inv in H as [(e & E & _)|(cart & w1 & H1 & H)]; [discriminate|].
  apply query_inv in H1 as [Hd [E|E]]; [|discriminate]. injection E as ->.
  destruct (findCartOfUser (db w) user) as [cart|] eqn:Hc;
    [|apply throw_inv in H as [E _]; discriminate].
  apply exec_inv in H as [(a & E & H)|(e & E & _)]; [|discriminate].
  injection E as <-. rewrite Hd in H.
  destruct (@cartItem_deleteMany_spec user (db w) cart n (db w') K Hc H)
    as (En & Hempty & K' & Ec & _).
  split; [assumption|]. split; [assumption|].
  assert (Hc' : findCartOfUser (db w') user = Some cart)
    by (unfold findCartOfUser; now rewrite Ec).
  unfold clearCart. cbv zeta. destruct (Z.eqb_spec user 0) as [|_]; [contradiction|].
  unfold bind. rewrite query_healthy. cbn [db]. rewrite Hc'. rewrite exec_healthy.
  unfold cartItem_deleteMany_count, cartItem_deleteMany_cart. cbn [rbind snd].
  assert (Hnone : filter (fun ci => CartItem.cartId ci =? Cart.id cart) (cartItems (db w'))
                  = []).
  { rewrite <- Hempty. unfold cartItemsOf. apply filter_ext. intros ci. symmetry.
    apply in_cart_of_eqb; [apply K' | assumption]. }
  rewrite Hnone. cbn [List.length Z.of_nat]. do 2 f_equal.
  apply set_cartItems_same. apply filter_all_true. intros x Hx.
  destruct (CartItem.cartId x =? Cart.id cart) eqn:E; [|reflexivity].
  assert (Hin : In x (filter (fun ci => CartItem.cartId ci =? Cart.id cart)
                             (cartItems (db w'))))
    by (apply filter_In; auto).
  rewrite Hnone in Hin. contradiction.
Qed.

Lemma clear_cart_counts_witness :
  cart_keys shop /\
  exists w',
    clearCart 1 (mkWorld shop []) = (Ok 2, w')
    /\ 2 = Z.of_nat (List.length (cartItemsOf shop 1))
    /\ cartItemsOf (db w') 1 = []
    /\ clearCart 1 (mkWorld (db w') []) = (Ok 0, mkWorld (db w') []).
Proof.
  split; [exact shop_cart_keys|].
  eexists. split; [vm_compute; reflexivity|].
  eapply (@clear_cart_counts 1 (mkWorld shop []) 2).
  - exact shop_cart_keys.
  - vm_compute. reflexivity.
Defined.

(** X17: GET /api/cart of a signed-in user who exists answers with that
    user's cart; when the user had none it stores one new empty cart and
    nothing else, and asking again gives the same answer and leaves the
    store alone, so no user gets a second cart. *)
Theorem get_cart_creates_once user d :
  cart_keys d -> user <> 0 -> findUser d user <> None ->
  exists c lines d1,
    getCart user (mkWorld d []) = (Ok (c, lines), mkWorld d1 [])
    /\ Cart.userId c = user
    /\ lines = cartItemsWithFurniture d1 (Cart.id c)
    /\ ((findCartOfUser d user = Some c /\ d1 = d)
        \/ (findCartOfUser d user = None /\ lines = []
            /\ carts d1 = carts d ++ [c] /\ cartItems d1 = cartItems d))
    /\ cart_keys d1
    /\ getCart user (mkWorld d1 []) = (Ok (c, lines), mkWorld d1 []).
Proof.
  intros K Hu Hex. unfold getCart. cbv zeta.
  destruct (Z.eqb_spec user 0) as [|_]; [contradiction|].
  unfold bind. rewrite query_healthy. cbn [db]. unfold findCartWithItems.
  destruct (findCartOfUser d user) as [c|] eqn:Hc.
  - exists c, (cartItemsWithFurniture d (Cart.id c)), d.
    split; [reflexivity|]. split; [now apply findCartOfUser_In in Hc|].
    split; [reflexivity|]. split; [left; auto|]. split; [assumption|].
    rewrite query_healthy. cbn [db]. now rewrite Hc.
  - rewrite exec_healthy.
    destruct (cart_create user d) as [[c d1]|e] eqn:Hcc.
    2:{ exfalso. unfold cart_create in Hcc. rewrite Hc in Hcc. cbn [is_none negb] in Hcc.
        destruct (findUser d user); [discriminate|contradiction]. }
    destruct (@cart_create_spec user d c d1 K Hcc)
      as (K1 & Ecarts & Eu & Eci & _ & Hc1 & Hnew & _).
    assert (Hlines : cartItemsWithFurniture d1 (Cart.id c) = []).
    { unfold cartItemsWithFurniture. rewrite Eci.
      rewrite filter_all_false; [reflexivity|]. intros x Hx.
      apply Z.eqb_neq. now apply Hnew. }
    unfold cart_create_included. rewrite Hcc. cbn [rbind].
    exists c, (cartItemsWithFurniture d1 (Cart.id c)), d1.
    split; [reflexivity|]. split; [assumption|]. split; [reflexivity|].
    split; [right; auto|]. split; [assumption|].
    rewrite query_healthy. cbn [db]. now rewrite Hc1.
Qed.

Lemma get_cart_creates_once_witness :
  cart_keys shop /\ 2 <> 0 /\ findUser shop 2 <> None /\
  exists c lines d1,
    getCart 2 (mkWorld shop []) = (Ok (c, lines), mkWorld d1 [])
    /\ Cart.userId c = 2
    /\ lines = cartItemsWithFurniture d1 (Cart.id c)
    /\ ((findCartOfUser shop 2 = Some c /\ d1 = shop)
        \/ (findCartOfUser shop 2 = None /\ lines = []
            /\ carts d1 = carts shop ++ [c] /\ cartItems d1 = cartItems shop))
    /\ cart_keys d1
    /\ getCart 2 (mkWorld d1 []) = (Ok (c, lines), mkWorld d1 []).
Proof.
  split; [exact shop_cart_keys|]. split; [lia|]. split; [discriminate|].
  apply (@get_cart_creates_once 2 shop); [exact shop_cart_keys | lia | discriminate].
Defined.

(** *** Adding a line and removing it again *)

Lemma find_snoc_new {A} (p : A -> bool) l x :
  (forall y, In y l -> p y = false) -> p x = true -> find p (l ++ [x]) = Some x.
Proof.
  intros Hl Hx. rewrite find_app_first.
  destruct (find p l) as [y|] eqn:E.
  - apply find_some in E as [Hin Hp]. rewrite (Hl y Hin) in Hp. discriminate.
  - simpl. now rewrite Hx.
Qed.

(** X18: when POST /api/cart/add has answered 201, the line is a new one, and
    DELETE /api/cart/remove/:cartItemId with the id of that line answers
    with the line and leaves every cart line as it was before the two
    requests (the id fitting the INTEGER column). *)
Theorem add_then_remove user furnitureId bodyQuantity d ln w1 :
  cart_keys d ->
  addToCart user (Some furnitureId) bodyQuantity (mkWorld d []) = (Ok (ln, 201), w1) ->
  int4 (CartItem.id (line ln)) = true ->
  exists d2,
    removeCartItem user (Num (CartItem.id (line ln))) (mkWorld (db w1) [])
    = (Ok (line ln), mkWorld d2 [])
    /\ cartItems d2 = cartItems d
    /\ ~ In (line ln) (cartItems d).
Proof.
  intros K H Hint. apply addToCart_inv in H. cbv zeta in H.
  destruct H as [(e & E & _)|H]; [discriminate|].
  destruct H as (fid & cart & d1 & Ef & Hu & _ & _ & _ & Hcart & Hrun).
  destruct Hrun as [(ex & l & _ & _ & E)|(l & Hnone & Hcr & E)]; [discriminate|].
  injection E as <-. cbn [db] in *.
  assert (Eci1 : cartItems d1 = cartItems d).
  { destruct Hcart as [[_ ->]|Hc]; [reflexivity|].
    now destruct (@cart_create_spec user d cart d1 K Hc) as (_ & _ & _ & E & _). }
  destruct (@cart_ready user d cart d1 K Hcart) as (K1 & Hc1 & _).
  destruct (@cartItem_create_spec user d1 cart fid _ ln (db w1) K1 Hc1 Hnone Hcr)
    as (K' & Ec & Eci & Ecid & _).
  assert (Hfresh : forall y, In y (cartItems d1) -> CartItem.id y <> CartItem.id (line ln)).
  { intros y Hy E. destruct K' as (_ & _ & Kid & _). rewrite Eci, map_app in Kid.
    apply NoDup_remove_2 in Kid. simpl in Kid. rewrite app_nil_r in Kid.
    apply Kid. rewrite <- E. now apply in_map. }
  assert (Hown : in_cart_of (db w1) user (line ln) = true).
  { rewrite (@in_cart_of_ext d1 (db w1) user (line ln) Ec).
    exact (@in_cart_of_found d1 user cart (line ln) Hc1 Ecid). }
  exists (set_cartItems (db w1)
            (filter (fun x => negb (CartItem.id x =? CartItem.id (line ln)))
                    (cartItems (db w1)))).
  assert (Hfilter : filter (fun x => negb (CartItem.id x =? CartItem.id (line ln)))
                           (cartItems (db w1)) = cartItems d1).
  { rewrite Eci, filter_app. cbn [filter]. rewrite Z.eqb_refl. cbn [negb].
    rewrite app_nil_r. apply filter_all_true. intros x Hx.
    apply negb_true_iff, Z.eqb_neq. now apply Hfresh. }
  split.
  - assert (Hfind1 : findOwnedCartItem (CartItem.id (line ln)) user (db w1)
                     = Some (line ln)).
    { unfold findOwnedCartItem. rewrite Eci. apply find_snoc_new.
      - intros y Hy. apply andb_false_iff. left. apply Z.eqb_neq. now apply Hfresh.
      - rewrite Z.eqb_refl. exact Hown. }
    assert (Hfind2 : find (fun ci => CartItem.id ci =? CartItem.id (line ln))
                          (cartItems (db w1)) = Some (line ln)).
    { rewrite Eci. apply find_snoc_new; [|apply Z.eqb_refl].
      intros y Hy. apply Z.eqb_neq. now apply Hfresh. }
    unfold removeCartItem. cbv zeta.
    destruct (Z.eqb_spec user 0) as [|_]; [contradiction|].
    unfold bind, query_by. rewrite Hint, query_healthy. cbn [db].
    rewrite Hfind1. cbn [is_none]. rewrite exec_healthy. unfold cartItem_delete.
    rewrite Hfind2. reflexivity.
  - unfold set_cartItems. cbn [cartItems]. rewrite Hfilter. split; [assumption|].
    rewrite <- Eci1. intros Hin. now apply (Hfresh _ Hin).
Qed.

Lemma add_then_remove_witness :
  cart_keys shop /\
  exists ln w1,
    addToCart 2 (Some 3) None (mkWorld shop []) = (Ok (ln, 201), w1)
    /\ int4 (CartItem.id (line ln)) = true
    /\ exists d2,
         removeCartItem 2 (Num (CartItem.id (line ln))) (mkWorld (db w1) [])
         = (Ok (line ln), mkWorld d2 [])
         /\ cartItems d2 = cartItems shop
         /\ ~ In (line ln) (cartItems shop).
Proof.
  split; [exact shop_cart_keys|].
  exists (mkCartLine (CartItem.mk 3 2 3 1) (Some table3)).
  eexists. split; [vm_compute; reflexivity|]. split; [reflexivity|].
  eapply (@add_then_remove 2 3 None shop (mkCartLine (CartItem.mk 3 2 3 1) (Some table3))).
  - exact shop_cart_keys.
  - vm_compute. reflexivity.
  - reflexivity.
Defined.

(** ** What an order holds *)

Lemma orderItemRows_mirror orderId base data :
  map (fun it => (OrderItem.furnitureId it, OrderItem.quantity it, OrderItem.unitPrice it))
      (orderItemRows orderId base data)
  = map (fun x => (OrderItemData.furnitureId x, OrderItemData.quantity x,
                   OrderItemData.unitPrice x)) data.
Proof.
  revert base. induction data as [|x t IH]; simpl; intros base; [reflexivity|].
  now rewrite IH.
Qed.

Lemma priceCartItems_data l :
  snd (priceCartItems l)
  = map (fun cf => OrderItemData.mk (CartItem.furnitureId (fst cf))
                     (CartItem.quantity (fst cf)) (Furniture.price (snd cf))) l.
Proof.
  unfold priceCartItems.
  assert (H : forall acc,
             snd (fold_left
                    (fun acc ci =>
                       price_item acc (CartItem.furnitureId (fst ci))
                                  (CartItem.quantity (fst ci)) (Furniture.price (snd ci)))
                    l acc)
             = snd acc ++ map (fun cf => OrderItemData.mk (CartItem.furnitureId (fst cf))
                                 (CartItem.quantity (fst cf)) (Furniture.price (snd cf))) l).
  { induction l as [|x t IH]; intros acc; simpl; [now rewrite app_nil_r|].
    rewrite IH. simpl. now rewrite <- app_assoc. }
  now rewrite H.
Qed.

Lemma priceOrderItems_data fl items total data :
  priceOrderItems fl items = Ok (total, data) ->
  map (fun x => (OrderItemData.furnitureId x, OrderItemData.quantity x)) data
  = map (fun i => (ItemInput.furnitureId i, ItemInput.quantity i)) items.
Proof.
  unfold priceOrderItems.
  set (step := fun (acc : result (float * list OrderItemData.t)) (item : ItemInput.t) =>
                 let? acc := acc in
                 match furnitureMap_get fl (ItemInput.furnitureId item) with
                 | None => Err (PlainError "TypeError")
                 | Some furniture =>
                     Ok (price_item acc (ItemInput.furnitureId item)
                                    (ItemInput.quantity item) (Furniture.price furniture))
                 end).
  assert (Herr : forall l e, fold_left step l (Err e) = Err e)
    by (induction l as [|x t IH]; intros e; simpl; auto).
  assert (H : forall l acc r,
             fold_left step l (Ok acc) = Ok r ->
             map (fun x => (OrderItemData.furnitureId x, OrderItemData.quantity x)) (snd r)
             = map (fun x => (OrderItemData.furnitureId x, OrderItemData.quantity x))
                   (snd acc)
               ++ map (fun i => (ItemInput.furnitureId i, ItemInput.quantity i)) l).
  { induction l as [|x t IH]; intros acc r; simpl.
    - intros E. injection E as <-. now rewrite app_nil_r.
    - destruct (furnitureMap_get fl (ItemInput.furnitureId x)) as [f|].
      + intros E. rewrite (IH _ _ E). simpl. rewrite map_app. simpl.
        now rewrite <- app_assoc.
      + rewrite Herr. discriminate. }
  intros E. exact (H items _ _ E).
Qed.

Lemma priceDirectItems_data fl items :
  (forall i, In i items -> furnitureMap_get fl (ItemInput.furnitureId i) <> None) ->
  map (fun x => (OrderItemData.furnitureId x, OrderItemData.quantity x))
      (snd (priceDirectItems fl items))
  = map (fun i => (ItemInput.furnitureId i, ItemInput.quantity i)) items.
Proof.
  unfold priceDirectItems.
  assert (H : forall l acc,
             (forall i, In i l -> furnitureMap_get fl (ItemInput.furnitureId i) <> None) ->
             map (fun x => (OrderItemData.furnitureId x, OrderItemData.quantity x))
                 (snd (fold_left
                         (fun acc item =>
                            match furnitureMap_get fl (ItemInput.furnitureId item) with
                            | None => acc
                            | Some furniture =>
                                price_item acc (ItemInput.furnitureId item)
                                           (ItemInput.quantity item)
                                           (Furniture.price furniture)
                            end) l acc))
             = map (fun x => (OrderItemData.furnitureId x, OrderItemData.quantity x))
                   (snd acc)
               ++ map (fun i => (ItemInput.furnitureId i, ItemInput.quantity i)) l).
  { induction l as [|x t IH]; intros acc Hall; simpl; [now rewrite app_nil_r|].
    destruct (furnitureMap_get fl (ItemInput.furnitureId x)) as [f|] eqn:E.
    - rewrite IH by (intros i Hi; apply Hall; simpl; auto).
      simpl. rewrite map_app. simpl. now rewrite <- app_assoc.
    - exfalso. apply (Hall x); simpl; auto. }
  intros Hall. now rewrite H.
Qed.

(** When the query found as many rows as the request names ids, the ids are
    pairwise distinct and each has its row. *)
Lemma all_found d ids :
  furniture_key d ->
  List.length (findFurnitureIn ids d) = List.length ids ->
  NoDup ids
  /\ forall id, In id ids -> furnitureMap_get (findFurnitureIn ids d) id <> None.
Proof.
  intros Hk Hlen.
  set (found := map Furniture.id (findFurnitureIn ids d)).
  assert (Hnd : NoDup found) by (apply NoDup_map_filter; exact Hk).
  assert (Hincl : incl found ids).
  { intros id Hid. apply in_map_iff in Hid as (f & <- & Hf).
    apply filter_In in Hf as [_ Hm]. now apply mem_In. }
  assert (Hl : (List.length ids <= List.length found)%nat)
    by (unfold found; rewrite length_map; lia).
  split; [exact (NoDup_incl_NoDup Hnd Hl Hincl)|].
  intros id Hid. apply (NoDup_length_incl Hnd Hl Hincl) in Hid.
  apply in_map_iff in Hid as (f & Ef & Hf). unfold furnitureMap_get.
  apply (@find_not_None _ _ _ f); [now apply in_rev in Hf | now apply Z.eqb_eq].
Qed.

(** The runs of [placeOrder] that answer with an order. *)
Lemma placeOrder_gathered user directItems w out w' :
  placeOrder user directItems w = (Ok out, w') ->
  exists uid acc scc w1 d1,
    authenticated user = Some uid
    /\ gatherItems uid directItems w = (Ok (acc, scc), w1)
    /\ order_create (Some uid) (fst acc) COMPLETED (snd acc) (db w) = Ok (out, d1).
Proof.
  unfold placeOrder. intros H.
  destruct (authenticated user) as [uid|] eqn:Ea;
    [|apply throw_inv in H as [E _]; discriminate].
  apply bind_inv in H as [(e & E & _)|([[total data] scc] & w1 & H1 & H)]; [discriminate|].
  pose proof (gatherItems_inv _ _ _ H1) as [Hd1 _].
  destruct (List.length data =? 0)%nat; [apply throw_inv in H as [E _]; discriminate|].
  apply bind_inv in H as [(e & E & _)|(o & w2 & H2 & H)]; [discriminate|].
  apply exec_inv in H2 as [(a & E & H2)|(e' & E & _)]; [|discriminate].
  injection E as <-. rewrite Hd1 in H2.
  apply bind_inv in H as [(e & E & _)|([] & w3 & H3 & H)]; [discriminate|].
  apply ret_inv in H as [E _]. injection E as <-.
  exists uid, (total, data), scc, w1, (db w2). auto.
Qed.

Lemma gatherItems_direct uid item rest w acc scc w1 :
  gatherItems uid (Some (item :: rest)) w = (Ok (acc, scc), w1) ->
  let ids := map ItemInput.furnitureId (item :: rest) in
  List.length (findFurnitureIn ids (db w)) = List.length ids
  /\ acc = priceDirectItems (findFurnitureIn ids (db w)) (item :: rest).
Proof.
  intros H ids. unfold gatherItems in H. fold ids in H.
  apply bind_inv in H as [(e & E & _)|(fl & w0 & H0 & H)]; [discriminate|].
  apply query_in_inv in H0 as [Hd [[E _]|(e & E)]]; [|discriminate]. injection E as ->.
  destruct (Nat.eqb_spec (List.length (findFurnitureIn ids (db w))) (List.length ids))
    as [Hlen|Hlen]; cbn [negb] in H.
  - apply ret_inv in H as [E _]. injection E as <- _. auto.
  - apply throw_inv in H as [E _]. discriminate.
Qed.

Lemma gatherItems_cart uid directItems w acc scc w1 :
  directItems = None \/ directItems = Some [] ->
  gatherItems uid directItems w = (Ok (acc, scc), w1) ->
  exists c,
    findCartOfUser (db w) uid = Some c
    /\ acc = priceCartItems (cartItemsWithFurniture (db w) (Cart.id c)).
Proof.
  intros Hd H.
  assert (H' : (cart <- query (findCartWithItems uid) ;;
                match cart with
                | Some (_, (ci :: cis)) => ret (priceCartItems (ci :: cis), true)
                | _ => throw (ApiError 400 "Cart is empty and no items provided")
                end) w = (Ok (acc, scc), w1))
    by (destruct Hd as [-> | ->]; exact H).
  clear H. apply bind_inv in H' as [(e & E & _)|(cart & w0 & H0 & H)]; [discriminate|].
  apply query_inv in H0 as [_ [E|E]]; [|discriminate]. injection E as ->.
  destruct (findCartWithItems uid (db w)) as [[c l]|] eqn:Hc;
    [|apply throw_inv in H as [E _]; discriminate].
  apply findCartWithItems_Some in Hc as [Hc ->].
  exists c. split; [assumption|].
  destruct (cartItemsWithFurniture (db w) (Cart.id c)) as [|ci cis];
    [apply throw_inv in H as [E _]; discriminate|].
  apply ret_inv in H as [E _]. now injection E as E _.
Qed.

Lemma order_rows_of_data userId total status data d out d' :
  order_create userId total status data d = Ok (out, d') ->
  map (fun it => (OrderItem.furnitureId it, OrderItem.quantity it, OrderItem.unitPrice it))
      (items out)
  = map (fun x => (OrderItemData.furnitureId x, OrderItemData.quantity x,
                   OrderItemData.unitPrice x)) data.
Proof.
  intros H. apply order_create_spec in H as (_ & _ & _ & _ & _ & (base & ->) & _).
  apply orderItemRows_mirror.
Qed.

Lemma order_rows_pairs userId total status data d out d' :
  order_create userId total status data d = Ok (out, d') ->
  map (fun it => (OrderItem.furnitureId it, OrderItem.quantity it)) (items out)
  = map (fun x => (OrderItemData.furnitureId x, OrderItemData.quantity x)) data.
Proof.
  intros H. apply order_create_spec in H as (_ & _ & _ & _ & _ & (base & ->) & _).
  generalize (Order.id (order out)). intros oid. revert base.
  induction data as [|x t IH]; simpl; intros base; [reflexivity|]. now rewrite IH.
Qed.

(** X19: an order that POST /api/orders has stored holds one item per item of
    the body, in the order of the body, with its furniture id and quantity;
    when furniture ids are a key, a body that got an order names no
    furniture item twice. *)
Theorem created_order_mirrors_body user bodyItems guest w out w' :
  createOrder user bodyItems guest w = (Ok out, w') ->
  map (fun it => (OrderItem.furnitureId it, OrderItem.quantity it)) (items out)
  = map (fun i => (ItemInput.furnitureId i, ItemInput.quantity i)) bodyItems
  /\ (furniture_key (db w) -> NoDup (map ItemInput.furnitureId bodyItems)).
Proof.
  intros H. apply createOrder_inv in H as [(e & E & _)|H]; [discriminate|].
  destruct H as (out0 & email & total & data & d1 & E & _ & Hlen & Hp & Hc & _).
  injection E as <-. split.
  - rewrite (order_rows_pairs _ _ _ _ _ Hc). exact (priceOrderItems_data _ _ Hp).
  - intros Hk. apply (@all_found (db w) (map ItemInput.furnitureId bodyItems) Hk).
    now rewrite length_map.
Qed.

Lemma created_order_mirrors_body_witness :
  exists out w',
    createOrder (Some 2) [ItemInput.mk 3 2; ItemInput.mk 1 1] GuestAbsent (mkWorld shop [])
    = (Ok out, w')
    /\ map (fun it => (OrderItem.furnitureId it, OrderItem.quantity it)) (items out)
       = map (fun i => (ItemInput.furnitureId i, ItemInput.quantity i))
             [ItemInput.mk 3 2; ItemInput.mk 1 1]
    /\ (furniture_key shop ->
        NoDup (map ItemInput.furnitureId [ItemInput.mk 3 2; ItemInput.mk 1 1])).
Proof.
  exists (mkOrderOut (Order.mk 5 (Some 2) 1100%float PENDING)
            [OrderItem.mk 6 5 3 2 500%float; OrderItem.mk 7 5 1 1 100%float]).
  eexists. split; [vm_compute; reflexivity|].
  eapply (@created_order_mirrors_body (Some 2) [ItemInput.mk 3 2; ItemInput.mk 1 1]
            GuestAbsent (mkWorld shop [])).
  vm_compute. reflexivity.
Defined.

(** X20: an order that POST /api/checkout/place has stored for a body with
    items holds one item per item of the body, in the order of the body,
    with its furniture id and quantity, and the body names no furniture item
    twice (furniture ids being a key). *)
Theorem placed_order_mirrors_body user item rest w out w' :
  furniture_key (db w) ->
  placeOrder user (Some (item :: rest)) w = (Ok out, w') ->
  map (fun it => (OrderItem.furnitureId it, OrderItem.quantity it)) (items out)
  = map (fun i => (ItemInput.furnitureId i, ItemInput.quantity i)) (item :: rest)
  /\ NoDup (map ItemInput.furnitureId (item :: rest)).
Proof.
  intros Hk H. apply placeOrder_gathered in H
    as (uid & acc & scc & w1 & d1 & _ & Hg & Hc).
  apply gatherItems_direct in Hg as [Hlen ->].
  destruct (@all_found (db w) (map ItemInput.furnitureId (item :: rest)) Hk Hlen)
    as [Hnd Hall].
  split; [|assumption].
  rewrite (order_rows_pairs _ _ _ _ _ Hc).
  apply priceDirectItems_data. intros i Hi. apply Hall. now apply in_map.
Qed.

Lemma placed_order_mirrors_body_witness :
  furniture_key shop /\
  exists out w',
    placeOrder (Some 2) (Some [ItemInput.mk 3 2; ItemInput.mk 1 1]) (mkWorld shop [])
    = (Ok out, w')
    /\ map (fun it => (OrderItem.furnitureId it, OrderItem.quantity it)) (items out)
       = map (fun i => (ItemInput.furnitureId i, ItemInput.quantity i))
             [ItemInput.mk 3 2; ItemInput.mk 1 1]
    /\ NoDup (map ItemInput.furnitureId [ItemInput.mk 3 2; ItemInput.mk 1 1]).
Proof.
  split; [exact shop_furniture_key|].
  exists (mkOrderOut (Order.mk 5 (Some 2) 1100%float COMPLETED)
            [OrderItem.mk 6 5 3 2 500%float; OrderItem.mk 7 5 1 1 100%float]).
  eexists. split; [vm_compute; reflexivity|].
  eapply (@placed_order_mirrors_body (Some 2) (ItemInput.mk 3 2) [ItemInput.mk 1 1]
            (mkWorld shop [])).
  - exact shop_furniture_key.
  - vm_compute. reflexivity.
Defined.

(** X21: an order that POST /api/checkout/place has stored for a body without
    items holds one item per line of the buyer's cart, in the order of the
    lines, with the furniture id and the quantity of the line and the price
    of the furniture row. *)
Theorem checkout_mirrors_cart user directItems w out w' :
  directItems = None \/ directItems = Some [] ->
  placeOrder user directItems w = (Ok out, w') ->
  exists uid c,
    authenticated user = Some uid
    /\ findCartOfUser (db w) uid = Some c
    /\ map (fun it => (OrderItem.furnitureId it, OrderItem.quantity it,
                       OrderItem.unitPrice it)) (items out)
       = map (fun cf => (CartItem.furnitureId (fst cf), CartItem.quantity (fst cf),
                         Furniture.price (snd cf)))
             (cartItemsWithFurniture (db w) (Cart.id c)).
Proof.
  intros Hd H. apply placeOrder_gathered in H
    as (uid & acc & scc & w1 & d1 & Ha & Hg & Hc).
  apply (@gatherItems_cart uid directItems w acc scc w1 Hd) in Hg as (c & Hcart & ->).
  exists uid, c. split; [assumption|]. split; [assumption|].
  rewrite (order_rows_of_data _ _ _ _ _ Hc), priceCartItems_data, map_map. reflexivity.
Qed.

Lemma checkout_mirrors_cart_witness :
  (@None (list ItemInput.t) = None \/ @None (list ItemInput.t) = Some []) /\
  exists out w',
    placeOrder (Some 1) None (mkWorld shop []) = (Ok out, w')
    /\ exists uid c,
         authenticated (Some 1) = Some uid
         /\ findCartOfUser shop uid = Some c
         /\ map (fun it => (OrderItem.furnitureId it, OrderItem.quantity it,
                            OrderItem.unitPrice it)) (items out)
            = map (fun cf => (CartItem.furnitureId (fst cf), CartItem.quantity (fst cf),
                              Furniture.price (snd cf)))
                  (cartItemsWithFurniture shop (Cart.id c)).
Proof.
  split; [left; reflexivity|].
  exists (mkOrderOut (Order.mk 5 (Some 1) 861.5%float COMPLETED)
            [OrderItem.mk 6 5 2 3 120.5%float; OrderItem.mk 7 5 3 1 500%float]).
  eexists. split; [vm_compute; reflexivity|].
  eapply (@checkout_mirrors_cart (Some 1) None (mkWorld shop [])).
  - left. reflexivity.
  - vm_compute. reflexivity.
Defined.

(** ** Reviews: eligibility, update and deletion *)

Lemma same_but_reviews_refl d : same_but_reviews d d.
Proof. unfold same_but_reviews. tauto. Qed.

Lemma same_but_reviews_trans a b c :
  same_but_reviews a b -> same_but_reviews b c -> same_but_reviews a c.
Proof.
  unfold same_but_reviews. intros (?&?&?&?&?&?&?) (?&?&?&?&?&?&?).
  repeat split; congruence.
Qed.

(** What a review request may do to the store. *)
Lemma review_create_step body now d rev d' :
  createReviewSchema body = Ok body ->
  findReview (ReviewInput.userId body) (ReviewInput.furnitureId body) d = None ->
  review_create body now d = Ok (rev, d') ->
  (review_key d -> review_key d')
  /\ (ratings_in_range d -> ratings_in_range d')
  /\ same_but_reviews d d'.
Proof.
  intros Hs Hnone H.
  destruct (review_create_spec _ _ _ H) as (Er & Eu & Ef & Erat & _).
  split; [|split].
  - unfold review_key. rewrite Er, map_app. cbn [map]. intros Hk.
    apply NoDup_snoc; [assumption|]. rewrite Eu, Ef.
    now apply findReview_None_notin.
  - unfold ratings_in_range. rewrite Er. intros Hr. apply Forall_app. split; [assumption|].
    constructor; [|constructor]. rewrite Erat.
    unfold createReviewSchema in Hs.
    destruct (0 <? ReviewInput.furnitureId body); [|discriminate].
    destruct (0 <? ReviewInput.userId body); [|discriminate].
    destruct (Z.leb_spec 1 (ReviewInput.rating body)); [|discriminate].
    destruct (Z.leb_spec (ReviewInput.rating body) 5); [|discriminate]. lia.
  - unfold review_create in H.
    repeat match type of H with
           | (if ?c then _ else _) = _ => destruct c; [discriminate|]
           end.
    injection H as _ <-. unfold same_but_reviews. simpl. tauto.
Qed.

Lemma review_update_step id patch d r d' :
  updateReviewSchema patch = Ok patch ->
  review_update id patch d = Ok (r, d') ->
  (review_key d -> review_key d')
  /\ (ratings_in_range d -> ratings_in_range d')
  /\ same_but_reviews d d'
  /\ map (fun x => (Review.id x, Review.userId x, Review.furnitureId x)) (reviews d')
     = map (fun x => (Review.id x, Review.userId x, Review.furnitureId x)) (reviews d).
Proof.
  intros Hs. unfold review_update. destruct (findReviewById id d); [|discriminate].
  intros H. injection H as _ <-. unfold set_reviews. cbn [reviews].
  assert (Hr : forall x, 1 <= Review.rating x <= 5 ->
                         1 <= Review.rating (patched patch x) <= 5).
  { intros x Hx. unfold patched. cbn [Review.rating].
    unfold updateReviewSchema in Hs.
    destruct (ReviewPatch.rating patch) as [v|]; [|assumption].
    destruct (Z.leb_spec 1 v); [|discriminate].
    destruct (Z.leb_spec v 5); [|discriminate]. lia. }
  split; [|split; [|split]].
  - unfold review_key. cbn [reviews]. intros Hk. rewrite map_map.
    rewrite (map_ext _ (fun r => (Review.userId r, Review.furnitureId r)));
      [assumption|].
    intros x. now destruct (Review.id x =? id).
  - unfold ratings_in_range. cbn [reviews]. rewrite !Forall_forall.
    intros Hall y Hy. apply in_map_iff in Hy as (x & <- & Hx).
    destruct (Review.id x =? id); auto.
  - unfold same_but_reviews. simpl. tauto.
  - rewrite map_map. apply map_ext. intros x. now destruct (Review.id x =? id).
Qed.

Lemma review_delete_step id d r d' :
  review_delete id d = Ok (r, d') ->
  (review_key d -> review_key d')
  /\ (ratings_in_range d -> ratings_in_range d')
  /\ same_but_reviews d d'
  /\ reviews d' = filter (fun x => negb (Review.id x =? id)) (reviews d).
Proof.
  unfold review_delete. destruct (findReviewById id d); [|discriminate].
  intros H. injection H as _ <-. unfold set_reviews. cbn [reviews].
  split; [|split; [|split]].
  - unfold review_key. cbn [reviews]. apply NoDup_map_filter.
  - unfold ratings_in_range. cbn [reviews]. apply Forall_filter_keep.
  - unfold same_but_reviews. simpl. tauto.
  - reflexivity.
Qed.

Lemma updateReviewSchema_Ok body v : updateReviewSchema body = Ok v -> v = body.
Proof.
  unfold updateReviewSchema.
  match goal with |- context [if ?c then _ else _] => destruct c end;
    [now intros H; injection H as <- | discriminate].
Qed.

Lemma updateReview_inv idParam body w r w' :
  updateReview idParam body w = (r, w') ->
  (exists e, r = Err e /\ db w' = db w)
  \/ (exists id rev,
         r = Ok rev /\ idSchema idParam = Ok id /\ updateReviewSchema body = Ok body
         /\ findReviewById id (db w) <> None
         /\ review_update id body (db w) = Ok (rev, db w')).
Proof.
  unfold updateReview. intros H.
  apply bind_inv in H as [(e & -> & H)|(id & w0 & H0 & H)].
  { apply lift_inv in H as [_ ->]. left; eauto. }
  apply lift_inv in H0 as [Hid ->]. symmetry in Hid.
  apply bind_inv in H as [(e & -> & H)|(v & w0 & H0 & H)].
  { apply lift_inv in H as [_ ->]. left; eauto. }
  apply lift_inv in H0 as [Hv ->]. symmetry in Hv.
  pose proof (updateReviewSchema_Ok _ Hv) as ->.
  apply bind_inv in H as [(e & -> & H)|(ex & w1 & H1 & H)].
  { apply query_inv in H as [Hd _]. left; eauto. }
  apply query_inv in H1 as [Hd [E|E]]; [|discriminate]. injection E as ->.
  destruct (findReviewById id (db w)) as [ex|] eqn:Hex.
  2:{ apply throw_inv in H as [-> ->]. left; eauto. }
  cbn [is_none] in H. apply exec_inv in H as [(a & -> & H)|(e & -> & H)].
  - right. exists id, a. rewrite Hd in H. rewrite Hex.
    repeat split; auto. discriminate.
  - left. exists e. split; congruence.
Qed.

Lemma deleteReview_inv idParam w r w' :
  deleteReview idParam w = (r, w') ->
  (exists e, r = Err e /\ db w' = db w)
  \/ (exists id rev,
         r = Ok tt /\ idSchema idParam = Ok id
         /\ findReviewById id (db w) = Some rev
         /\ review_delete id (db w) = Ok (rev, db w')).
Proof.
  unfold deleteReview. intros H.
  destruct (idSchema idParam) as [id|e] eqn:Hid.
  2:{ left. destruct e; apply throw_inv in H as [-> ->]; eauto. }
  apply bind_inv in H as [(e & -> & H)|(ex & w1 & H1 & H)].
  { apply query_inv in H as [Hd _]. left; eauto. }
  apply query_inv in H1 as [Hd [E|E]]; [|discriminate]. injection E as ->.
  destruct (findReviewById id (db w)) as [ex|] eqn:Hex.
  2:{ apply throw_inv in H as [-> ->]. left; eauto. }
  cbn [is_none] in H.
  apply bind_inv in H as [(e & -> & H)|(a & w2 & H2 & H)].
  - apply exec_inv in H as [(a & E & _)|(e' & _ & H)]; [discriminate|].
    left. exists e. split; congruence.
  - apply ret_inv in H as [-> ->].
    apply exec_inv in H2 as [(b & E & H2)|(e' & E & _)]; [|discriminate].
    injection E as <-. rewrite Hd in H2. right. exists id, a.
    repeat split; auto. f_equal.
    unfold review_delete in H2. rewrite Hex in H2. now injection H2 as ->.
Qed.

Lemma serveReview_step req w :
  let d' := db (serveReview req w) in
  (review_key (db w) -> review_key d')
  /\ (ratings_in_range (db w) -> ratings_in_range d')
  /\ same_but_reviews (db w) d'.
Proof.
  assert (Hsame : forall w', db w' = db w ->
            (review_key (db w) -> review_key (db w'))
            /\ (ratings_in_range (db w) -> ratings_in_range (db w'))
            /\ same_but_reviews (db w) (db w')).
  { intros w' ->. auto using same_but_reviews_refl. }
  destruct req as [body now|idParam body|idParam]; cbn [serveReview].
  - destruct (createReview body now w) as [r w'] eqn:E. cbn [snd].
    apply createReview_inv in E. cbv zeta in E.
    destruct E as [(e & _ & Hd)|(rev & _ & Hs & _ & Hn & Hc)]; [now apply Hsame|].
    eapply review_create_step; eauto.
  - destruct (updateReview idParam body w) as [r w'] eqn:E. cbn [snd].
    apply updateReview_inv in E.
    destruct E as [(e & _ & Hd)|(id & rev & _ & _ & Hs & _ & Hu)]; [now apply Hsame|].
    destruct (review_update_step _ _ Hs Hu) as (H1 & H2 & H3 & _). auto.
  - destruct (deleteReview idParam w) as [r w'] eqn:E. cbn [snd].
    apply deleteReview_inv in E.
    destruct E as [(e & _ & Hd)|(id & rev & _ & _ & _ & Hdel)]; [now apply Hsame|].
    destruct (review_delete_step _ _ Hdel) as (H1 & H2 & H3 & _). auto.
Qed.

Lemma reviewRequests_steps reqs w :
  let d' := db (reviewRequests reqs w) in
  (review_key (db w) -> review_key d')
  /\ (ratings_in_range (db w) -> ratings_in_range d')
  /\ same_but_reviews (db w) d'.
Proof.
  cbv zeta. revert w. induction reqs as [|req rest IH]; intros w; simpl.
  - auto using same_but_reviews_refl.
  - destruct (serveReview_step req w) as (K1 & R1 & S1).
    destruct (IH (serveReview req w)) as (K2 & R2 & S2).
    split; [auto|]. split; [auto|]. eapply same_but_reviews_trans; eauto.
Qed.

(** X22: whatever requests to create, update and delete reviews are served,
    in whatever order and whichever statements fail on the way, no user
    ever has two reviews of one furniture item, every stored rating is one
    of 1 to 5, and no table but the reviews changes. *)
Theorem review_requests_keep_invariants reqs d faults :
  review_key d -> ratings_in_range d ->
  let d' := db (reviewRequests reqs (mkWorld d faults)) in
  review_key d' /\ ratings_in_range d' /\ same_but_reviews d d'.
Proof.
  intros Hk Hr. destruct (reviewRequests_steps reqs (mkWorld d faults)) as (K & R & S).
  cbv zeta. auto.
Qed.

Lemma shop_ratings_in_range : ratings_in_range shop.
Proof. unfold ratings_in_range. simpl. repeat constructor; simpl; lia. Qed.

Lemma review_requests_keep_invariants_witness :
  review_key shop /\ ratings_in_range shop /\
  let d' := db (reviewRequests
                  [CreateReview (ReviewInput.mk 3 1 5 None) 40;
                   UpdateReview "1" (ReviewPatch.mk (Some 2) None);
                   CreateReview (ReviewInput.mk 3 1 1 None) 41;
                   DeleteReview "2"]
                  (mkWorld shop [false; false; false; false; false; true])) in
  review_key d' /\ ratings_in_range d' /\ same_but_reviews shop d'.
Proof.
  split; [exact shop_review_key|]. split; [exact shop_ratings_in_range|].
  apply (@review_requests_keep_invariants
           [CreateReview (ReviewInput.mk 3 1 5 None) 40;
            UpdateReview "1" (ReviewPatch.mk (Some 2) None);
            CreateReview (ReviewInput.mk 3 1 1 None) 41;
            DeleteReview "2"]
           shop [false; false; false; false; false; true]).
  - exact shop_review_key.
  - exact shop_ratings_in_range.
Defined.

(** A run of [createReview] in which every statement executes, for a body
    that the schema accepts and an existing user and furniture item. *)
Lemma createReview_run body now d :
  createReviewSchema body = Ok body ->
  findUser d (ReviewInput.userId body) <> None ->
  findFurniture d (ReviewInput.furnitureId body) <> None ->
  createReview body now (mkWorld d [])
  = match findPurchase (ReviewInput.userId body) (ReviewInput.furnitureId body) d with
    | None =>
        (Err (ApiError 403 "You can only review furniture items you have purchased"),
         mkWorld d [])
    | Some _ =>
        match findReview (ReviewInput.userId body) (ReviewInput.furnitureId body) d with
        | Some _ =>
            (Err (ApiError 400 "You have already reviewed this furniture item"),
             mkWorld d [])
        | None =>
            let rev := Review.mk (fresh_id (map Review.id (reviews d)))
                         (ReviewInput.rating body) (ReviewInput.comment body)
                         (ReviewInput.userId body) (ReviewInput.furnitureId body) now in
            (Ok rev, mkWorld (set_reviews d (reviews d ++ [rev])) [])
        end
    end.
Proof.
  intros Hs Hu Hf. unfold createReview. rewrite Hs. unfold bind at 1. unfold lift.
  unfold bind. rewrite query_healthy. cbn [db].
  destruct (findUser d (ReviewInput.userId body)) eqn:Eu; [|contradiction].
  cbn [is_none]. rewrite query_healthy. cbn [db].
  destruct (findFurniture d (ReviewInput.furnitureId body)) eqn:Ef; [|contradiction].
  cbn [is_none]. rewrite query_healthy. cbn [db].
  destruct (findPurchase _ _ d); [|reflexivity].
  cbn [is_none]. rewrite query_healthy. cbn [db].
  destruct (findReview _ _ d) eqn:Er; [reflexivity|].
  cbn [is_none negb]. rewrite exec_healthy. unfold review_create.
  rewrite Er, Eu, Ef. reflexivity.
Qed.

(** X23: GET /api/reviews/can-review answers [canReview: true] exactly when a
    valid review request of that user for that item would be stored; it
    answers [canReview: null] (not [false]) when the user has not bought the
    item, in which case the request is refused with 403, and
    [canReview: false] when a review of the pair exists, in which case it is
    refused with 400. *)
Theorem can_review_agrees d uid fid rating comment now :
  0 < uid -> 0 < fid -> 1 <= rating <= 5 ->
  match comment with Some c => (String.length c <= 1000)%nat | None => True end ->
  findUser d uid <> None -> findFurniture d fid <> None ->
  let request := createReview (ReviewInput.mk fid uid rating comment) now (mkWorld d []) in
  exists a,
    canUserReview d (string_of_Z uid) (string_of_Z fid) = Ok a
    /\ (canReview a = Some true <-> exists rev w', request = (Ok rev, w'))
    /\ (canReview a = None <-> hasPurchased a = false)
    /\ (canReview a = None ->
        request = (Err (ApiError 403
                          "You can only review furniture items you have purchased"),
                   mkWorld d []))
    /\ (canReview a = Some false ->
        hasReviewed a = true
        /\ request = (Err (ApiError 400 "You have already reviewed this furniture item"),
                      mkWorld d [])).
Proof.
  intros Hu Hf Hr Hc Heu Hef request.
  set (body := ReviewInput.mk fid uid rating comment) in *.
  assert (Hs : createReviewSchema body = Ok body).
  { unfold createReviewSchema. subst body. cbn [ReviewInput.furnitureId
      ReviewInput.userId ReviewInput.rating ReviewInput.comment].
    destruct (Z.ltb_spec 0 fid); [|lia]. destruct (Z.ltb_spec 0 uid); [|lia].
    destruct (Z.leb_spec 1 rating); [|lia]. destruct (Z.leb_spec rating 5); [|lia].
    destruct comment as [c|]; [|reflexivity].
    apply Nat.leb_le in Hc. cbn [andb]. now rewrite Hc. }
  pose proof (@createReview_run body now d Hs Heu Hef) as Hrun.
  fold request in Hrun. subst body.
  cbn [ReviewInput.furnitureId ReviewInput.userId] in Hrun.
  unfold canUserReview. rewrite !parseInt_string_of_Z. eexists. split; [reflexivity|].
  cbn [canReview hasPurchased hasReviewed].
  destruct (findPurchase uid fid d) as [p|]; cbn [is_none negb].
  - destruct (findReview uid fid d) as [r|]; cbn [is_none negb].
    + rewrite Hrun. split; [|split; [|split]].
      * split; [discriminate|]. intros (rev & w' & E). discriminate.
      * split; discriminate.
      * discriminate.
      * auto.
    + rewrite Hrun. split; [|split; [|split]].
      * split; [eauto|reflexivity].
      * split; discriminate.
      * discriminate.
      * discriminate.
  - rewrite Hrun. split; [|split; [|split]].
    + split; [discriminate|]. intros (rev & w' & E). discriminate.
    + split; reflexivity.
    + reflexivity.
    + discriminate.
Qed.

Lemma can_review_agrees_witness :
  0 < 1 /\ 0 < 3 /\ 1 <= 5 <= 5 /\ True /\ findUser shop 1 <> None
  /\ findFurniture shop 3 <> None /\
  let request := createReview (ReviewInput.mk 3 1 5 None) 40 (mkWorld shop []) in
  exists a,
    canUserReview shop (string_of_Z 1) (string_of_Z 3) = Ok a
    /\ (canReview a = Some true <-> exists rev w', request = (Ok rev, w'))
    /\ (canReview a = None <-> hasPurchased a = false)
    /\ (canReview a = None ->
        request = (Err (ApiError 403
                          "You can only review furniture items you have purchased"),
                   mkWorld shop []))
    /\ (canReview a = Some false ->
        hasReviewed a = true
        /\ request = (Err (ApiError 400 "You have already reviewed this furniture item"),
                      mkWorld shop [])).
Proof.
  split; [lia|]. split; [lia|]. split; [lia|]. split; [exact I|].
  split; [discriminate|]. split; [discriminate|].
  apply (@can_review_agrees shop 1 3 5 None 40); first [lia | discriminate | exact I].
Defined.

Lemma set_reviews_same d l : l = reviews d -> set_reviews d l = d.
Proof. intros ->. now destruct d. Qed.

(** X24: deleting a review that POST /api/reviews has just stored, by the id
    of the answer, succeeds and leaves the store exactly as it was before the
    review was written. *)
Theorem review_create_then_delete body now d rev w1 :
  createReview body now (mkWorld d []) = (Ok rev, w1) ->
  deleteReview (string_of_Z (Review.id rev)) (mkWorld (db w1) []) = (Ok tt, mkWorld d []).
Proof.
  intros H. apply createReview_inv in H. cbv zeta in H.
  destruct H as [(e & E & _)|(rev0 & E & _ & _ & _ & Hc)]; [discriminate|].
  injection E as <-. unfold review_create in Hc.
  repeat match type of Hc with
         | (if ?c then _ else _) = _ => destruct c; [discriminate|]
         end.
  injection Hc as Erev Ed. rewrite <- Ed.
  assert (Hfresh : forall x, In x (reviews d) -> Review.id x <> Review.id rev).
  { intros x Hx E. rewrite <- Erev in E. cbn [Review.id] in E.
    pose proof (@fresh_id_gt (map Review.id (reviews d)) (Review.id x)
                  (in_map _ _ _ Hx)). lia. }
  assert (Hfind : findReviewById (Review.id rev)
                    (mkDB (users d) (categories d) (furnitures d) (reviews d ++ [rev])
                          (carts d) (cartItems d) (orders d) (orderItems d))
                  = Some rev).
  { unfold findReviewById. cbn [reviews]. apply find_snoc_new; [|apply Z.eqb_refl].
    intros y Hy. apply Z.eqb_neq. now apply Hfresh. }
  unfold deleteReview, idSchema. rewrite parseInt_string_of_Z.
  unfold bind. rewrite query_healthy. cbn [db]. rewrite Erev, Hfind. cbn [is_none].
  rewrite exec_healthy. unfold review_delete. rewrite Hfind.
  unfold ret. do 2 f_equal. unfold set_reviews. cbn.
  rewrite filter_app. cbn [filter]. rewrite Z.eqb_refl. cbn [negb].
  rewrite app_nil_r, filter_all_true; [now destruct d|].
  intros x Hx. apply negb_true_iff, Z.eqb_neq. now apply Hfresh.
Qed.

Lemma review_create_then_delete_witness :
  exists rev w1,
    createReview (ReviewInput.mk 3 1 5 None) 40 (mkWorld shop []) = (Ok rev, w1)
    /\ deleteReview (string_of_Z (Review.id rev)) (mkWorld (db w1) [])
       = (Ok tt, mkWorld shop []).
Proof.
  exists (Review.mk 3 5 None 1 3 40). eexists. split; [vm_compute; reflexivity|].
  eapply (@review_create_then_delete (ReviewInput.mk 3 1 5 None) 40 shop).
  vm_compute. reflexivity.
Defined.

(** ** Deleting furniture *)

Lemma furniture_delete_spec id d f d' :
  furniture_delete id d = Ok (f, d') ->
  findFurniture d id = Some f
  /\ (forall oi, In oi (orderItems d) -> OrderItem.furnitureId oi <> id)
  /\ furnitures d' = filter (fun x => negb (Furniture.id x =? id)) (furnitures d)
  /\ reviews d' = filter (fun r => negb (Review.furnitureId r =? id)) (reviews d)
  /\ cartItems d' = filter (fun ci => negb (CartItem.furnitureId ci =? id)) (cartItems d)
  /\ users d' = users d /\ categories d' = categories d /\ carts d' = carts d
  /\ orders d' = orders d /\ orderItems d' = orderItems d.
Proof.
  unfold furniture_delete. destruct (findFurniture d id) as [f0|]; [|discriminate].
  destruct (existsb _ (orderItems d)) eqn:E; [discriminate|].
  intros H. injection H as <- <-. cbn. split; [reflexivity|].
  split; [|repeat split; reflexivity].
  intros oi Hoi Eid. apply not_true_iff_false in E. apply E.
  apply existsb_exists. exists oi. split; [assumption | now apply Z.eqb_eq].
Qed.

Lemma find_filter_other {A} (key : A -> Z) (id k : Z) l :
  k <> id ->
  find (fun x => key x =? k) (filter (fun x => negb (key x =? id)) l)
  = find (fun x => key x =? k) l.
Proof.
  intros Hne. induction l as [|a l IH]; simpl; [reflexivity|].
  destruct (Z.eqb_spec (key a) id) as [E|E]; simpl.
  - destruct (Z.eqb_spec (key a) k) as [E'|_]; [congruence | exact IH].
  - destruct (key a =? k); [reflexivity | exact IH].
Qed.

Lemma deleteFurniture_inv idParam w r w' :
  deleteFurniture idParam w = (r, w') ->
  (exists e, r = Err e /\ db w' = db w)
  \/ (exists id f, r = Ok tt /\ furnitureIdSchema idParam = Ok id
                   /\ furniture_delete id (db w) = Ok (f, db w')).
Proof.
  unfold deleteFurniture. intros H.
  destruct (furnitureIdSchema idParam) as [id|e] eqn:Hid.
  2:{ left. destruct e; apply throw_inv in H as [-> ->]; eauto. }
  apply bind_inv in H as [(e & -> & H)|(ex & w1 & H1 & H)].
  { apply query_inv in H as [Hd _]. left; eauto. }
  apply query_inv in H1 as [Hd [E|E]]; [|discriminate]. injection E as ->.
  destruct (findFurnitureWithOrderItems id (db w)) as [[f0 ois]|].
  2:{ apply throw_inv in H as [-> ->]. left; eauto. }
  destruct (0 <? List.length ois)%nat.
  { apply throw_inv in H as [-> ->]. left; eauto. }
  apply bind_inv in H as [(e & -> & H)|(a & w2 & H2 & H)].
  - apply exec_inv in H as [(a & E & _)|(e' & _ & H)]; [discriminate|].
    left. exists e. split; congruence.
  - apply ret_inv in H as [-> ->].
    apply exec_inv in H2 as [(b & E & H2)|(e' & E & _)]; [|discriminate].
    injection E as <-. rewrite Hd in H2. right. exists id, a. auto.
Qed.

(** X25: the handler of DELETE /api/furnitures/:id never removes a furniture
    item that an order item refers to, whichever statements fail: the
    orders, their items and the furniture rows they refer to are left as
    they are.  When it answers, the furniture row is gone together with its
    reviews and the cart lines that held it, and every other row of the
    store is kept.  It answers only when it finds the id as text: once the
    middleware of the route has put a number in its place, the handler's own
    schema refuses it and the answer is 400 with the store untouched. *)
Theorem delete_furniture_spares_orders idParam w r w' :
  deleteFurniture idParam w = (r, w') ->
  orders (db w') = orders (db w) /\ orderItems (db w') = orderItems (db w)
  /\ users (db w') = users (db w) /\ carts (db w') = carts (db w)
  /\ (forall oi, In oi (orderItems (db w)) ->
        findFurniture (db w') (OrderItem.furnitureId oi)
        = findFurniture (db w) (OrderItem.furnitureId oi))
  /\ (orderItems_fk (db w) -> orderItems_fk (db w'))
  /\ (r = Ok tt ->
      exists id,
        furnitureIdSchema idParam = Ok id
        /\ findFurniture (db w) id <> None
        /\ findFurniture (db w') id = None
        /\ furnitures (db w')
           = filter (fun x => negb (Furniture.id x =? id)) (furnitures (db w))
        /\ reviews (db w')
           = filter (fun x => negb (Review.furnitureId x =? id)) (reviews (db w))
        /\ cartItems (db w')
           = filter (fun x => negb (CartItem.furnitureId x =? id)) (cartItems (db w)))
  /\ (forall n, idParam = IdNumber n ->
        r = Err (ApiError 400 "Invalid furniture ID") /\ w' = w).
Proof.
  intros H.
  assert (Hnum : forall n, idParam = IdNumber n ->
            r = Err (ApiError 400 "Invalid furniture ID") /\ w' = w).
  { intros n ->. unfold deleteFurniture in H. cbn [furnitureIdSchema] in H.
    now apply throw_inv in H. }
  apply deleteFurniture_inv in H.
  destruct H as [(e & -> & ->)|(id & f & -> & Hid & Hdel)].
  { repeat (split; [auto; fail|]). split; [discriminate | assumption]. }
  destruct (furniture_delete_spec _ _ Hdel)
    as (Hf & Hno & Efu & Er & Eci & Eu & _ & Ec & Eo & Eoi).
  assert (Hkeep : forall oi, In oi (orderItems (db w)) ->
            findFurniture (db w') (OrderItem.furnitureId oi)
            = findFurniture (db w) (OrderItem.furnitureId oi)).
  { intros oi Hoi. unfold findFurniture. rewrite Efu.
    apply (find_filter_other Furniture.id). now apply Hno. }
  split; [assumption|]. split; [assumption|]. split; [assumption|].
  split; [assumption|]. split; [assumption|].
  split.
  { unfold orderItems_fk. rewrite Eoi, !Forall_forall. intros Hfk oi Hoi.
    rewrite Hkeep by assumption. now apply Hfk. }
  split; [|assumption].
  intros _. exists id. split; [assumption|]. split; [congruence|].
  split; [|auto].
  unfold findFurniture. rewrite Efu.
  destruct (find _ (filter _ _)) as [x|] eqn:E; [|reflexivity].
  apply find_some in E as [Hin Hx]. apply filter_In in Hin as [_ Hn].
  rewrite Hx in Hn. discriminate.
Qed.

Lemma delete_furniture_spares_orders_witness :
  exists r w',
    deleteFurniture (IdText "2") (mkWorld shop []) = (r, w')
    /\ orders (db w') = orders shop /\ orderItems (db w') = orderItems shop
    /\ users (db w') = users shop /\ carts (db w') = carts shop
    /\ (forall oi, In oi (orderItems shop) ->
          findFurniture (db w') (OrderItem.furnitureId oi)
          = findFurniture shop (OrderItem.furnitureId oi))
    /\ (orderItems_fk shop -> orderItems_fk (db w'))
    /\ (r = Ok tt ->
        exists id,
          furnitureIdSchema (IdText "2") = Ok id
          /\ findFurniture shop id <> None
          /\ findFurniture (db w') id = None
          /\ furnitures (db w')
             = filter (fun x => negb (Furniture.id x =? id)) (furnitures shop)
          /\ reviews (db w')
             = filter (fun x => negb (Review.furnitureId x =? id)) (reviews shop)
          /\ cartItems (db w')
             = filter (fun x => negb (CartItem.furnitureId x =? id)) (cartItems shop))
    /\ (forall n, IdText "2" = IdNumber n ->
          r = Err (ApiError 400 "Invalid furniture ID") /\ w' = mkWorld shop []).
Proof.
  eexists. eexists. split; [vm_compute; reflexivity|].
  eapply (@delete_furniture_spares_orders (IdText "2") (mkWorld shop [])).
  vm_compute. reflexivity.
Defined.

(** ** The recommendations of the furniture controller *)

(** X26: the handler of GET /api/furnitures/recommendations/:id, given the id
    of an existing furniture item as the text of the path, answers with four
    other items of the item's category, or with all of them when the
    category has fewer; no item appears twice, the item itself is never
    among them, and the per-review collection is stripped. *)
Theorem furniture_recommendations_same_category d idParam id current :
  furniture_key d ->
  idSchema idParam = Ok id ->
  findFurniture d id = Some current ->
  exists recs,
    getRecommendations d idParam = Ok recs
    /\ Forall (fun x => In (out_item x) (furnitures d)
                        /\ Furniture.categoryId (out_item x) = Furniture.categoryId current
                        /\ out_id x <> id
                        /\ out_reviews x = None) recs
    /\ NoDup (map out_id recs)
    /\ Z.of_nat (List.length recs)
       = Z.min 4 (Z.of_nat (List.length
                    (filter (fun f => (Furniture.categoryId f
                                       =? Furniture.categoryId current)
                                      && negb (Furniture.id f =? id))
                            (furnitures d)))).
Proof.
  intros Hk Hid Hf. unfold getRecommendations. rewrite Hid, Hf.
  match goal with |- context [findManyFurniture d ?w ?o (Num 4)] =>
    destruct (findMany_total d w o 4) as [rows Hrows]; rewrite Hrows;
    pose proof (@findMany_rows _ _ _ _ _ Hrows) as Hall;
    pose proof (@findMany_NoDup _ _ _ _ _ Hk Hrows) as Hnd;
    destruct (@findMany_ranked d w o 4 rows (fun a b _ => eq_refl)
                (fun a b c _ _ => eq_refl) (Z.lt_le_incl 0 4 eq_refl) Hrows)
      as [_ Hlen]
  end.
  cbn [rbind]. eexists. split; [reflexivity|].
  rewrite Forall_forall in Hall. split; [|split].
  - apply Forall_forall. intros x Hx. apply in_map_iff in Hx as (r & <- & Hr).
    destruct (Hall r Hr) as (f & Hin & Hw & ->). cbn.
    apply andb_true_iff in Hw as [Hw1 Hw2]. apply Z.eqb_eq in Hw1.
    apply negb_true_iff, Z.eqb_neq in Hw2. auto.
  - rewrite map_out_id_rows by reflexivity. exact Hnd.
  - now rewrite length_map.
Qed.

Lemma furniture_recommendations_same_category_witness :
  exists recs,
    getRecommendations shop "1" = Ok recs
    /\ Forall (fun x => In (out_item x) (furnitures shop)
                        /\ Furniture.categoryId (out_item x) = Furniture.categoryId chair1
                        /\ out_id x <> 1
                        /\ out_reviews x = None) recs
    /\ NoDup (map out_id recs)
    /\ Z.of_nat (List.length recs)
       = Z.min 4 (Z.of_nat (List.length
                    (filter (fun f => (Furniture.categoryId f
                                       =? Furniture.categoryId chair1)
                                      && negb (Furniture.id f =? 1))
                            (furnitures shop)))).
Proof.
  apply (@furniture_recommendations_same_category shop "1" 1 chair1).
  - exact shop_furniture_key.
  - reflexivity.
  - reflexivity.
Defined.

(** ** Orders without an owner *)

(** X27: an order that POST /api/orders stores for a caller without a session
    has no owner and clears no cart; GET /api/orders/:id serves it to every
    caller, signed in or not, and no listing of a user's orders shows it. *)
Theorem guest_order_has_no_owner user bodyItems guest w out w' :
  authenticated user = None ->
  createOrder user bodyItems guest w = (Ok out, w') ->
  Order.userId (order out) = None
  /\ Order.status (order out) = PENDING
  /\ cartItems (db w') = cartItems (db w)
  /\ (forall caller, exists x,
        getOrder (db w') caller (string_of_Z (Order.id (order out))) = Ok x
        /\ order x = order out /\ incl (items out) (items x))
  /\ (forall orderCreatedAt tieOrder uid pageQ limitQ statusQ pg,
        uid <> 0 ->
        getMyOrders orderCreatedAt tieOrder (db w') (Some uid) pageQ limitQ statusQ
        = Ok pg ->
        ~ In (order out) (map order (page_orders pg))).
Proof.
  intros Ha H. apply createOrder_inv in H as [(e & E & _)|H]; [discriminate|].
  destruct H as (out0 & email & total & data & d1 & E & _ & _ & _ & Hc & Hd).
  injection E as <-. rewrite Ha in Hc, Hd. subst d1.
  destruct (order_create_spec _ _ _ _ _ Hc)
    as (Ho & Hi & Hown & Hst & _ & _ & Hci & _).
  destruct (order_create_fk _ _ _ _ _ Hc) as (_ & _ & Hid).
  split; [assumption|]. split; [assumption|]. split; [assumption|].
  split.
  - intros caller. exists (with_items (db w') (order out)).
    assert (Hf : findOrder (db w') (Order.id (order out)) = Some (order out)).
    { unfold findOrder. rewrite Ho. now apply findOrder_new. }
    split; [|split; [reflexivity|]].
    + unfold getOrder, idSchema. rewrite parseInt_string_of_Z, Hf, Hown.
      now destruct caller.
    + intros it Hit. unfold with_items. cbn [items]. apply filter_In.
      split; [rewrite Hi; apply in_or_app; now right|].
      apply order_create_spec in Hc as (_ & _ & _ & _ & _ & (base & Hrows) & _).
      rewrite Hrows in Hit. apply orderItemRows_In in Hit as [-> _]. apply Z.eqb_refl.
  - intros c t uid pageQ limitQ statusQ pg Hu Hpg Hin.
    destruct (getMyOrders_run _ _ _ _ _ _ Hu Hpg)
      as (page & limit & status & _ & Hp & Hl & ->).
    destruct (@ordersPage_spec c t (db w') (Some uid) page limit status Hp Hl)
      as (_ & _ & _ & Hall & _).
    apply in_map_iff in Hin as (x & Ex & Hx).
    destruct (Hall x Hx) as (_ & Hm & _). rewrite Ex in Hm.
    unfold order_matches in Hm. rewrite Hown in Hm. discriminate.
Qed.

Lemma guest_order_has_no_owner_witness :
  authenticated None = None /\
  exists out w',
    createOrder None [ItemInput.mk 3 2] (GuestInfo "guest@example.com" None)
                (mkWorld shop []) = (Ok out, w')
    /\ Order.userId (order out) = None
    /\ Order.status (order out) = PENDING
    /\ cartItems (db w') = cartItems shop
    /\ (forall caller, exists x,
          getOrder (db w') caller (string_of_Z (Order.id (order out))) = Ok x
          /\ order x = order out /\ incl (items out) (items x))
    /\ (forall orderCreatedAt tieOrder uid pageQ limitQ statusQ pg,
          uid <> 0 ->
          getMyOrders orderCreatedAt tieOrder (db w') (Some uid) pageQ limitQ statusQ
          = Ok pg ->
          ~ In (order out) (map order (page_orders pg))).
Proof.
  split; [reflexivity|].
  exists (mkOrderOut (Order.mk 5 None 1000%float PENDING) [OrderItem.mk 6 5 3 2 500%float]).
  eexists. split; [vm_compute; reflexivity|].
  eapply (@guest_order_has_no_owner None [ItemInput.mk 3 2]
            (GuestInfo "guest@example.com" None) (mkWorld shop [])).
  - reflexivity.
  - vm_compute. reflexivity.
Defined.

(** ** The listing of all orders *)

(** X28: the pages 1 to [totalPages] of GET /api/orders, requested one after
    the other with the same [limit] and [status], each page by a query of
    its own, hold together exactly the orders of the store that have the
    status asked for (all of them when none is asked for), each once:
    provided that no two of these orders were created at the same time (the
    order of such rows is open and may differ from query to query) and that
    the order table holds no more rows than there are INTEGER keys. *)
Theorem all_orders_pages_cover orderCreatedAt
    (tieOrders : nat -> Order.t -> Order.t -> bool) d limitQ statusQ limit status :
  getUserOrdersSchema QAbsent limitQ statusQ = Ok (1, limit, status) ->
  NoDup (map orderCreatedAt (filter (order_matches None status) (orders d))) ->
  Z.of_nat (List.length (orders d)) <= 2147483647 ->
  let matching := filter (order_matches None status) (orders d) in
  let lastPage := Z.to_nat (ceil_div (Z.of_nat (List.length matching)) limit) in
  Permutation
    (map order
         (pages_upto (fun p pageQ =>
                        getAllOrders orderCreatedAt (tieOrders p) d pageQ limitQ statusQ)
                     lastPage))
    matching.
Proof.
  intros Hq Hn Hsize matching lastPage.
  destruct (getUserOrdersSchema_bounds _ _ _ Hq) as [_ Hl].
  destruct (@pages_are_windows orderCreatedAt tieOrders (tieOrders 0%nat) d None
              limit status
              (fun p pageQ =>
                 getAllOrders orderCreatedAt (tieOrders p) d pageQ limitQ statusQ)
              Hl Hn Hsize) as [Hpages _].
  { intros p Hp. unfold getAllOrders.
    rewrite (getUserOrdersSchema_page _ _ _ Hq Hp). cbn [rbind].
    now rewrite paginationGuards_ok by lia. }
  rewrite matchingOrders_length in Hpages. fold matching lastPage in Hpages.
  rewrite Hpages, map_map. cbn [with_items order]. rewrite map_id.
  apply sort_by_perm.
Qed.

Lemma all_orders_pages_cover_witness :
  let tieOrders := fun (p : nat) (a b : Order.t) => Nat.even p in
  let matching := filter (order_matches None (Some COMPLETED)) (orders shop) in
  let lastPage := Z.to_nat (ceil_div (Z.of_nat (List.length matching)) 1) in
  lastPage = 2%nat
  /\ Permutation
       (map order
            (pages_upto (fun p pageQ =>
                           getAllOrders Order.id (tieOrders p) shop pageQ (QStr "1")
                                        (QStr "COMPLETED"))
                        lastPage))
       matching.
Proof.
  intros tieOrders matching lastPage. split; [reflexivity|].
  apply (@all_orders_pages_cover Order.id tieOrders shop (QStr "1") (QStr "COMPLETED") 1
           (Some COMPLETED)).
  - reflexivity.
  - simpl. repeat constructor; simpl; intuition lia.
  - simpl. lia.
Defined.

(** ** Quantities in the cart *)

Lemma cart_create_items user d c d1 :
  cart_create user d = Ok (c, d1) -> cartItems d1 = cartItems d.
Proof.
  unfold cart_create.
  destruct (negb (is_none (findCartOfUser d user))); [discriminate|].
  destruct (is_none (findUser d user)); [discriminate|].
  intros H. now injection H as _ <-.
Qed.

Lemma update_quantity_positive id q d ln d' :
  1 <= q -> cartItem_update_quantity id q d = Ok (ln, d') ->
  cart_quantities_positive d -> cart_quantities_positive d'.
Proof.
  intros Hq. unfold cartItem_update_quantity. destruct (find _ _); [|discriminate].
  intros H. injection H as _ <-. unfold cart_quantities_positive, set_cartItems.
  cbn [cartItems]. rewrite !Forall_forall. intros Hall y Hy.
  apply in_map_iff in Hy as (x & <- & Hx).
  destruct (CartItem.id x =? id); [exact Hq | auto].
Qed.

Lemma create_quantity_positive cid fid q d ln d' :
  1 <= q -> cartItem_create cid fid q d = Ok (ln, d') ->
  cart_quantities_positive d -> cart_quantities_positive d'.
Proof.
  intros Hq. unfold cartItem_create.
  destruct (negb (is_none (findCartLine cid fid d))); [discriminate|].
  match goal with |- context [if ?c then _ else _] => destruct c end; [discriminate|].
  intros H. injection H as _ <-. unfold cart_quantities_positive, set_cartItems.
  cbn [cartItems]. intros Hall. apply Forall_app. split; [assumption|].
  constructor; [exact Hq | constructor].
Qed.

Lemma delete_quantity_positive id d r d' :
  cartItem_delete id d = Ok (r, d') ->
  cart_quantities_positive d -> cart_quantities_positive d'.
Proof.
  unfold cartItem_delete. destruct (find _ _); [|discriminate].
  intros H. injection H as _ <-. unfold cart_quantities_positive, set_cartItems.
  cbn [cartItems]. apply Forall_filter_keep.
Qed.

Lemma deleteMany_quantity_positive cid d n d' :
  cartItem_deleteMany_count cid d = Ok (n, d') ->
  cart_quantities_positive d -> cart_quantities_positive d'.
Proof.
  unfold cartItem_deleteMany_count, cartItem_deleteMany_cart. cbn [rbind snd].
  intros H. injection H as _ <-. unfold cart_quantities_positive, set_cartItems.
  cbn [cartItems]. apply Forall_filter_keep.
Qed.

Lemma serveCart_quantities user req w :
  cart_quantities_positive (db w) -> cart_quantities_positive (db (serveCart user req w)).
Proof.
  intros Hpos.
  assert (Hsame : forall w', db w' = db w -> cart_quantities_positive (db w'))
    by (intros w' ->; exact Hpos).
  destruct req as [|f q|i q|i|]; cbn [serveCart].
  - destruct (getCart user w) as [r w'] eqn:E. cbn [snd]. unfold getCart in E.
    destruct (user =? 0); [apply throw_inv in E as [_ ->]; exact Hpos|].
    apply bind_inv in E as [(e & _ & E)|(cart & w1 & E1 & E)].
    { apply query_inv in E as [Hd _]. now apply Hsame. }
    apply query_inv in E1 as [Hd _]. destruct cart as [cart|].
    { apply ret_inv in E as [_ ->]. now apply Hsame. }
    apply exec_inv in E as [(a & _ & E)|(e & _ & E)]; [|apply Hsame; congruence].
    rewrite Hd in E. unfold cart_create_included in E.
    apply rbind_Ok in E as ([c d1] & Hc & E). injection E as _ <-.
    unfold cart_quantities_positive. now rewrite (cart_create_items _ _ Hc).
  - destruct (addToCart user f q w) as [r w'] eqn:E. cbn [snd].
    apply addToCart_inv in E. cbv zeta in E.
    destruct E as [(e & _ & [E|(c & Hc)])|E].
    + now apply Hsame.
    + unfold cart_quantities_positive. now rewrite (cart_create_items _ _ Hc).
    + destruct E as (fid & cart & d1 & _ & _ & _ & Hq & _ & Hcart & Hrun).
      assert (Hpos1 : cart_quantities_positive d1).
      { destruct Hcart as [[_ ->]|Hc]; [exact Hpos|].
        unfold cart_quantities_positive. now rewrite (cart_create_items _ _ Hc). }
      destruct Hrun as [(ex & ln & Hex & Hup & _)|(ln & _ & Hcr & _)].
      * apply findCartLine_Some in Hex as (Hin & _).
        pose proof (proj1 (Forall_forall _ _) Hpos1 ex Hin) as Hex1. cbv beta in Hex1.
        eapply update_quantity_positive; [|exact Hup|exact Hpos1].
        lia.
      * eapply create_quantity_positive; eauto.
  - destruct (updateCartItem user i q w) as [r w'] eqn:E. cbn [snd].
    unfold updateCartItem in E. cbv zeta in E.
    destruct (user =? 0); [apply throw_inv in E as [_ ->]; exact Hpos|].
    destruct i as [id|], q as [qty|];
      try (apply throw_inv in E as [_ ->]; exact Hpos).
    destruct (id =? 0); [apply throw_inv in E as [_ ->]; exact Hpos|].
    destruct (Z.ltb_spec qty 1) as [|Hq]; [apply throw_inv in E as [_ ->]; exact Hpos|].
    apply bind_inv in E as [(e & _ & E)|(ci & w1 & E1 & E)].
    { apply query_by_inv in E as [Hd _]. now apply Hsame. }
    apply query_by_inv in E1 as [Hd _].
    destruct (is_none ci); [apply throw_inv in E as [_ ->]; now apply Hsame|].
    apply exec_by_inv in E as [(a & _ & _ & E)|(e & _ & E)]; [|apply Hsame; congruence].
    rewrite Hd in E. eapply update_quantity_positive; eauto.
  - destruct (removeCartItem user i w) as [r w'] eqn:E. cbn [snd].
    unfold removeCartItem in E. cbv zeta in E.
    destruct (user =? 0); [apply throw_inv in E as [_ ->]; exact Hpos|].
    destruct i as [|id]; [apply throw_inv in E as [_ ->]; exact Hpos|].
    apply bind_inv in E as [(e & _ & E)|(ci & w1 & E1 & E)].
    { apply query_by_inv in E as [Hd _]. now apply Hsame. }
    apply query_by_inv in E1 as [Hd _].
    destruct (is_none ci); [apply throw_inv in E as [_ ->]; now apply Hsame|].
    apply exec_inv in E as [(a & _ & E)|(e & _ & E)]; [|apply Hsame; congruence].
    rewrite Hd in E. eapply delete_quantity_positive; eauto.
  - destruct (clearCart user w) as [r w'] eqn:E. cbn [snd].
    unfold clearCart in E. cbv zeta in E.
    destruct (user =? 0); [apply throw_inv in E as [_ ->]; exact Hpos|].
    apply bind_inv in E as [(e & _ & E)|(cart & w1 & E1 & E)].
    { apply query_inv in E as [Hd _]. now apply Hsame. }
    apply query_inv in E1 as [Hd _].
    destruct cart as [cart|]; [|apply throw_inv in E as [_ ->]; now apply Hsame].
    apply exec_inv in E as [(a & _ & E)|(e & _ & E)]; [|apply Hsame; congruence].
    rewrite Hd in E. eapply deleteMany_quantity_positive; eauto.
Qed.

Lemma cartRequests_quantities reqs w :
  cart_quantities_positive (db w) -> cart_quantities_positive (db (cartRequests reqs w)).
Proof.
  revert w. induction reqs as [|[user req] rest IH]; intros w H; simpl; [exact H|].
  apply IH. now apply serveCart_quantities.
Qed.

(** X29: whatever cart requests are served, for whichever users and
    whichever statements fail on the way, no cart line ever holds a quantity
    below 1; and when a checkout without body items then answers with an
    order, every item of that order has a quantity of at least 1. *)
Theorem cart_quantities_stay_positive reqs d faults user directItems faults' out w' :
  cart_quantities_positive d ->
  let d1 := db (cartRequests reqs (mkWorld d faults)) in
  cart_quantities_positive d1
  /\ (directItems = None \/ directItems = Some [] ->
      placeOrder user directItems (mkWorld d1 faults') = (Ok out, w') ->
      Forall (fun it => 1 <= OrderItem.quantity it) (items out)).
Proof.
  intros Hpos d1.
  assert (H1 : cart_quantities_positive d1)
    by (apply (cartRequests_quantities reqs (mkWorld d faults)); exact Hpos).
  split; [exact H1|].
  intros Hd H. apply placeOrder_gathered in H
    as (uid & acc & scc & w1 & d2 & _ & Hg & Hc).
  apply (@gatherItems_cart uid directItems (mkWorld d1 faults') acc scc w1 Hd) in Hg
    as (c & _ & ->).
  cbn [db] in Hc.
  pose proof (order_rows_of_data _ _ _ _ _ Hc) as Hrows.
  rewrite priceCartItems_data, map_map in Hrows. cbn in Hrows.
  assert (Hq : map OrderItem.quantity (items out)
               = map (fun cf => CartItem.quantity (fst cf))
                     (cartItemsWithFurniture d1 (Cart.id c))).
  { apply (f_equal (map (fun t => snd (fst t)))) in Hrows.
    now rewrite !map_map in Hrows. }
  assert (Hlines : Forall (fun cf => 1 <= CartItem.quantity (fst cf))
                          (cartItemsWithFurniture d1 (Cart.id c))).
  { apply Forall_forall. intros cf Hcf. unfold cartItemsWithFurniture in Hcf.
    apply in_flat_map in Hcf as (ci & Hci & Hcf).
    apply filter_In in Hci as [Hci _].
    destruct (findFurniture d1 (CartItem.furnitureId ci)); [|contradiction].
    destruct Hcf as [<-|[]]. cbn.
    unfold cart_quantities_positive in H1. rewrite Forall_forall in H1. auto. }
  apply Forall_forall. intros it Hit.
  assert (Hin : In (OrderItem.quantity it) (map OrderItem.quantity (items out)))
    by now apply in_map.
  rewrite Hq in Hin. apply in_map_iff in Hin as (cf & <- & Hcf).
  rewrite Forall_forall in Hlines. auto.
Qed.

Lemma shop_cart_quantities_positive : cart_quantities_positive shop.
Proof. unfold cart_quantities_positive. simpl. repeat constructor; simpl; lia. Qed.

Lemma cart_quantities_stay_positive_witness :
  cart_quantities_positive shop /\
  let d1 := db (cartRequests [(1, AddToCart (Some 1) (Some 2));
                              (1, UpdateCartItem (Some 2) (Some 5))]
                             (mkWorld shop [])) in
  exists out w',
    placeOrder (Some 1) None (mkWorld d1 []) = (Ok out, w')
    /\ cart_quantities_positive d1
    /\ Forall (fun it => 1 <= OrderItem.quantity it) (items out).
Proof.
  split; [exact shop_cart_quantities_positive|]. cbv zeta.
  exists (mkOrderOut (Order.mk 5 (Some 1) 3061.5%float COMPLETED)
            [OrderItem.mk 6 5 2 3 120.5%float; OrderItem.mk 7 5 3 5 500%float;
             OrderItem.mk 8 5 1 2 100%float]).
  eexists. split; [vm_compute; reflexivity|].
  destruct (@cart_quantities_stay_positive
              [(1, AddToCart (Some 1) (Some 2)); (1, UpdateCartItem (Some 2) (Some 5))]
              shop [] (Some 1) None []
              (mkOrderOut (Order.mk 5 (Some 1) 3061.5%float COMPLETED)
                 [OrderItem.mk 6 5 2 3 120.5%float; OrderItem.mk 7 5 3 5 500%float;
                  OrderItem.mk 8 5 1 2 100%float])
              (snd (placeOrder (Some 1) None
                      (mkWorld (db (cartRequests
                                      [(1, AddToCart (Some 1) (Some 2));
                                       (1, UpdateCartItem (Some 2) (Some 5))]
                                      (mkWorld shop []))) [])))
              shop_cart_quantities_positive) as [H1 H2].
  split; [exact H1|]. apply H2; [left; reflexivity | vm_compute; reflexivity].
Defined.

(** ** Updating a review *)

Lemma map_id_on {A} (f : A -> A) l : (forall x, In x l -> f x = x) -> map f l = l.
Proof.
  induction l as [|a l IH]; simpl; intros H; [reflexivity|].
  rewrite H by auto. f_equal. apply IH. auto.
Qed.

(** X30: when PUT /api/reviews/:id answers, the review of the answer is the
    stored review of that id with the rating and the comment of the body put
    in where the body names them; its author, its furniture item and its
    date are never changed, every other review is left as it is, and a body
    that names neither field leaves the store as it was. *)
Theorem update_review_keeps_identity idParam body w rev w' :
  updateReview idParam body w = (Ok rev, w') ->
  exists id old,
    idSchema idParam = Ok id
    /\ findReviewById id (db w) = Some old
    /\ rev = patched body old
    /\ Review.id rev = id
    /\ Review.userId rev = Review.userId old
    /\ Review.furnitureId rev = Review.furnitureId old
    /\ Review.createdAt rev = Review.createdAt old
    /\ findReviewById id (db w') = Some rev
    /\ (forall x, In x (reviews (db w)) -> Review.id x <> id -> In x (reviews (db w')))
    /\ List.length (reviews (db w')) = List.length (reviews (db w))
    /\ (ReviewPatch.rating body = None -> ReviewPatch.comment body = None ->
        rev = old /\ db w' = db w).
Proof.
  intros H. apply updateReview_inv in H as [(e & E & _)|H]; [discriminate|].
  destruct H as (id & rev0 & E & Hid & Hs & Hex & Hup). injection E as <-.
  unfold review_update in Hup.
  destruct (findReviewById id (db w)) as [old|] eqn:Hold; [|contradiction].
  injection Hup as Erev Ed.
  pose proof Hold as Hold'. apply find_some in Hold' as [Hin Heq].
  apply Z.eqb_eq in Heq.
  exists id, old. split; [assumption|]. split; [exact Hold|].
  split; [now symmetry|]. subst rev. cbn [patched Review.id Review.userId
    Review.furnitureId Review.createdAt].
  split; [assumption|]. split; [reflexivity|]. split; [reflexivity|].
  split; [reflexivity|].
  assert (Er : reviews (db w')
               = map (fun x => if Review.id x =? id then patched body x else x)
                     (reviews (db w))) by (rewrite <- Ed; reflexivity).
  split.
  { unfold findReviewById. rewrite Er. clear -Hold.
    unfold findReviewById in Hold.
    induction (reviews (db w)) as [|a l IH]; simpl in *; [discriminate|].
    destruct (Z.eqb_spec (Review.id a) id) as [E|E].
    - injection Hold as ->. cbn [patched Review.id]. rewrite E, Z.eqb_refl. reflexivity.
    - destruct (Z.eqb_spec (Review.id a) id); [contradiction|]. now apply IH. }
  split.
  { intros x Hx Hne. rewrite Er. apply in_map_iff. exists x.
    split; [|assumption]. destruct (Z.eqb_spec (Review.id x) id); [contradiction|reflexivity]. }
  split; [now rewrite Er, length_map|].
  intros Hr Hc.
  assert (Hp : forall x, patched body x = x).
  { intros x. unfold patched. rewrite Hr, Hc. now destruct x. }
  split; [apply Hp|].
  rewrite <- Ed. unfold set_reviews.
  rewrite map_id_on; [now destruct (db w)|].
  intros x _. destruct (Review.id x =? id); [apply Hp | reflexivity].
Qed.

Lemma update_review_keeps_identity_witness :
  exists rev w',
    updateReview "1" (ReviewPatch.mk (Some 2) None) (mkWorld shop []) = (Ok rev, w')
    /\ exists id old,
         idSchema "1" = Ok id
         /\ findReviewById id shop = Some old
         /\ rev = patched (ReviewPatch.mk (Some 2) None) old
         /\ Review.id rev = id
         /\ Review.userId rev = Review.userId old
         /\ Review.furnitureId rev = Review.furnitureId old
         /\ Review.createdAt rev = Review.createdAt old
         /\ findReviewById id (db w') = Some rev
         /\ (forall x, In x (reviews shop) -> Review.id x <> id -> In x (reviews (db w')))
         /\ List.length (reviews (db w')) = List.length (reviews shop)
         /\ (ReviewPatch.rating (ReviewPatch.mk (Some 2) None) = None ->
             ReviewPatch.comment (ReviewPatch.mk (Some 2) None) = None ->
             rev = old /\ db w' = shop).
Proof.
  exists (Review.mk 1 2 None 1 1 5). eexists. split; [vm_compute; reflexivity|].
  eapply (@update_review_keeps_identity "1" (ReviewPatch.mk (Some 2) None)
            (mkWorld shop []) (Review.mk 1 2 None 1 1 5)).
  vm_compute. reflexivity.
Defined.
